(** * USSD dialog engines: GatePlus, NCSTCS and PCRS

    A shallow embedding of the three [app.post('/ussd')] handlers of the
    repository, of the validators they call, of the session cache
    (memory-cache with a 15 minute expiry) and of the Mongoose models they
    read and write, followed by the properties of the session state machine.

    Conventions:
    - strings are sequences of 8-bit code units; the inputs of a USSD gateway
      are ASCII, and [trim], [toUpperCase], [length] and the character
      classes of the regular expressions are written out for that range: on
      a string of ASCII characters ([Js.is_ascii]) they are JavaScript's, and
      the properties that depend on what they do to an input are stated for
      ASCII input;
    - a JavaScript array is a list in index order (index 0 first, top of the
      session stack last);
    - an [await]ed repository call either returns or throws; which calls
      throw is read from a fault plan carried by the world. *)

From Stdlib Require Import ZArith String Ascii List Bool Lia PrimFloat.
From stdpp Require Import gmap strings list.

Open Scope Z_scope.

(** ** JavaScript strings *)

Module Js.

(** The strings of ASCII characters: every code unit is below 128.  On
    these a code unit is a character, the length of the string is
    JavaScript's [length], and the white space, the digits and the letters
    below are all there is of each kind. *)
Definition is_ascii (s : string) : bool :=
  forallb (fun c => (N_of_ascii c <? 128)%N) (list_ascii_of_string s).

(** [String.prototype.trim] strips white space and line terminators; the
    ASCII ones are the code units 9 to 13 and 32.  (Outside ASCII
    JavaScript also strips U+00A0, U+FEFF, U+2028, U+2029 and the space
    separators, which [is_space] does not know.) *)
Definition is_space (c : ascii) : bool := Ascii.is_space c.

Fixpoint trim_start (s : string) : string :=
  match s with
  | String c s' => if is_space c then trim_start s' else s
  | EmptyString => EmptyString
  end.

Definition trim_end (s : string) : string :=
  String.rev (trim_start (String.rev s)).

Definition trim (s : string) : string := trim_end (trim_start s).

Definition is_digit (c : ascii) : bool :=
  let n := N_of_ascii c in (48 <=? n)%N && (n <=? 57)%N.

Definition is_lower (c : ascii) : bool :=
  let n := N_of_ascii c in (97 <=? n)%N && (n <=? 122)%N.

Definition is_upper (c : ascii) : bool :=
  let n := N_of_ascii c in (65 <=? n)%N && (n <=? 90)%N.

Definition is_letter (c : ascii) : bool := is_lower c || is_upper c.

Definition upper_char (c : ascii) : ascii :=
  if is_lower c then ascii_of_N (N_of_ascii c - 32) else c.

Fixpoint map_chars (f : ascii → ascii) (s : string) : string :=
  match s with
  | String c s' => String (f c) (map_chars f s')
  | EmptyString => EmptyString
  end.

(** [String.prototype.toUpperCase], on ASCII strings: the letters a to z
    are mapped to A to Z and nothing else changes.  (Outside ASCII
    JavaScript maps further letters, some to more than one character.) *)
Definition toUpperCase (s : string) : string := map_chars upper_char s.

(** [s.slice(1)]. *)
Definition slice1 (s : string) : string :=
  match s with String _ s' => s' | EmptyString => EmptyString end.

(** Truthiness of a possibly undefined string: [undefined] and the empty
    string are falsy. *)
Definition truthy (o : option string) : bool :=
  match o with
  | Some s => negb (String.eqb s "")
  | None => false
  end.

(** [a || b] on possibly undefined strings, with a defined right operand. *)
Definition or_else (o : option string) (d : string) : string :=
  match o with
  | Some s => if String.eqb s "" then d else s
  | None => d
  end.

(** [`${x}`] of a possibly undefined string. *)
Definition interp (o : option string) : string :=
  match o with Some s => s | None => "undefined" end.

End Js.

(** ** Regular expressions

    The regular expression literals of the source are embedded as terms of
    [re] and run by a derivative matcher; [RegExp.prototype.test] on an
    anchored literal [/^r$/] is [test_full r], on an unanchored one
    [test_search r]. *)

Module Regex.

Inductive re : Type :=
| Void : re
| Eps : re
| Cls (p : ascii → bool) : re
| Cat (r1 r2 : re) : re
| Alt (r1 r2 : re) : re
| Star (r : re) : re.

Fixpoint nullable (r : re) : bool :=
  match r with
  | Void => false
  | Eps => true
  | Cls _ => false
  | Cat r1 r2 => nullable r1 && nullable r2
  | Alt r1 r2 => nullable r1 || nullable r2
  | Star _ => true
  end.

Fixpoint deriv (c : ascii) (r : re) : re :=
  match r with
  | Void => Void
  | Eps => Void
  | Cls p => if p c then Eps else Void
  | Cat r1 r2 =>
      if nullable r1
      then Alt (Cat (deriv c r1) r2) (deriv c r2)
      else Cat (deriv c r1) r2
  | Alt r1 r2 => Alt (deriv c r1) (deriv c r2)
  | Star r1 => Cat (deriv c r1) (Star r1)
  end.

Fixpoint matches (r : re) (s : list ascii) : bool :=
  match s with
  | [] => nullable r
  | c :: s' => matches (deriv c r) s'
  end.

(** [r{n}], [r{0,n}], [r{lo,hi}], [r{lo,}], [r+], [r?]. *)
Fixpoint rep (n : nat) (r : re) : re :=
  match n with
  | O => Eps
  | S n' => Cat r (rep n' r)
  end.

Fixpoint rep_upto (n : nat) (r : re) : re :=
  match n with
  | O => Eps
  | S n' => Alt Eps (Cat r (rep_upto n' r))
  end.

Definition rep_range (lo hi : nat) (r : re) : re :=
  Cat (rep lo r) (rep_upto (hi - lo) r).

Definition rep_min (lo : nat) (r : re) : re := Cat (rep lo r) (Star r).

Definition plus (r : re) : re := Cat r (Star r).

Definition opt (r : re) : re := Alt Eps r.

(** A literal character, and the same under the [i] flag. *)
Definition chr (c : ascii) : re := Cls (Ascii.eqb c).

Definition chr_i (c : ascii) : re :=
  Cls (fun x => Ascii.eqb (Js.upper_char x) (Js.upper_char c)).

(** [\d] *)
Definition digit : re := Cls Js.is_digit.

Definition any : re := Cls (fun _ => true).

Definition test_full (r : re) (s : string) : bool :=
  matches r (list_ascii_of_string s).

Definition test_search (r : re) (s : string) : bool :=
  matches (Cat (Star any) (Cat r (Star any))) (list_ascii_of_string s).

(** The language of a regular expression, to state what a literal accepts. *)
Inductive lang : re → list ascii → Prop :=
| lang_eps : lang Eps []
| lang_cls p c : p c = true → lang (Cls p) [c]
| lang_cat r1 r2 s1 s2 :
    lang r1 s1 → lang r2 s2 → lang (Cat r1 r2) (s1 ++ s2)
| lang_alt_l r1 r2 s : lang r1 s → lang (Alt r1 r2) s
| lang_alt_r r1 r2 s : lang r2 s → lang (Alt r1 r2) s
| lang_star_nil r : lang (Star r) []
| lang_star_app r s1 s2 :
    lang r s1 → lang (Star r) s2 → lang (Star r) (s1 ++ s2).

End Regex.

(** ** Validator library *)

Module Validators.
Import Regex.

(** [/^GHA-\d{9}-\d{2}$/i] *)
Definition ghana_card_re : re :=
  Cat (chr_i "G") (Cat (chr_i "H") (Cat (chr_i "A") (Cat (chr "-")
    (Cat (rep 9 digit) (Cat (chr "-") (rep 2 digit)))))).

(** [const isValidGhanaCard = (card) => /^GHA-\d{9}-\d{2}$/i.test(card.trim());] *)
Definition isValidGhanaCard (card : string) : bool :=
  test_full ghana_card_re (Js.trim card).

(** [/^[^\s@]+@[^\s@]+\.[^\s@]+$/]; the class [\s] is written for ASCII
    (see [Js.is_space]). *)
Definition not_space_at : re :=
  Cls (fun c => negb (Js.is_space c || Ascii.eqb c "@")).

Definition email_re : re :=
  Cat (plus not_space_at) (Cat (chr "@")
    (Cat (plus not_space_at) (Cat (chr ".") (plus not_space_at)))).

Definition isValidEmail (email : string) : bool :=
  test_full email_re (Js.trim email).

(** [/^[A-Za-z0-9\-]{5,}$/] *)
Definition dvla_re : re :=
  rep_min 5 (Cls (fun c => Js.is_letter c || Js.is_digit c || Ascii.eqb c "-")).

Definition isValidDVLA (dvla : string) : bool :=
  test_full dvla_re (Js.trim dvla).

(** [/^(?:0|\+?233)\d{9}$/] *)
Definition lit233 : re := Cat (chr "2") (Cat (chr "3") (chr "3")).

Definition phone_re : re :=
  Cat (Alt (chr "0") (Cat (opt (chr "+")) lit233)) (rep 9 digit).

Definition isValidPhone (phone : string) : bool :=
  test_full phone_re (Js.trim phone).

(** [normalizePhone]: the three accepted forms are rewritten to
    [+233XXXXXXXXX], anything else is returned trimmed. *)
Definition normalizePhone (phone : string) : string :=
  let p := Js.trim phone in
  if test_full (Cat (chr "0") (rep 9 digit)) p then "+233" +:+ Js.slice1 p
  else if test_full (Cat lit233 (rep 9 digit)) p then "+" +:+ p
  else if test_full (Cat (chr "+") (Cat lit233 (rep 9 digit))) p then p
  else p.

(** [/^[a-zA-Z0-9_\.\-]{3,20}$/] *)
Definition username_re : re :=
  rep_range 3 20
    (Cls (fun c => Js.is_letter c || Js.is_digit c || Ascii.eqb c "_"
                   || Ascii.eqb c "." || Ascii.eqb c "-")).

(** [/\d/.test(name)] *)
Definition has_digit (s : string) : bool := test_search digit s.

End Validators.

(** ** Dialog states

    A dialog state is a JavaScript object; the fields the three engines ever
    store in one are listed, each possibly absent.  Only the object written
    under the index -1 of an emptied stack (see [JsArray]) lacks a level. *)

Definition ObjectId := nat.

Module State.

Record t : Type := mk {
  level : option Z;
  message : string;
  sessionID : option string;
  msisdn : option string;
  fullName : option string;
  name : option string;
  username : option string;
  phone : option string;
  email : option string;
  password : option string;
  dvlaNumber : option string;
  loggedIn : option bool;
  userRef : option ObjectId
}.

(** [{ level, message }] *)
Definition obj (l : option Z) (m : string) : t :=
  mk l m None None None None None None None None None None None.

(** [{ ...s, message }] *)
Definition set_message (m : string) (s : t) : t :=
  mk (level s) m (sessionID s) (msisdn s) (fullName s) (name s) (username s)
     (phone s) (email s) (password s) (dvlaNumber s) (loggedIn s) (userRef s).

Definition set_level (l : Z) (s : t) : t :=
  mk (Some l) (message s) (sessionID s) (msisdn s) (fullName s) (name s)
     (username s) (phone s) (email s) (password s) (dvlaNumber s)
     (loggedIn s) (userRef s).

Definition set_sessionID (v : string) (s : t) : t :=
  mk (level s) (message s) (Some v) (msisdn s) (fullName s) (name s)
     (username s) (phone s) (email s) (password s) (dvlaNumber s)
     (loggedIn s) (userRef s).

Definition set_msisdn (v : string) (s : t) : t :=
  mk (level s) (message s) (sessionID s) (Some v) (fullName s) (name s)
     (username s) (phone s) (email s) (password s) (dvlaNumber s)
     (loggedIn s) (userRef s).

Definition set_fullName (v : string) (s : t) : t :=
  mk (level s) (message s) (sessionID s) (msisdn s) (Some v) (name s)
     (username s) (phone s) (email s) (password s) (dvlaNumber s)
     (loggedIn s) (userRef s).

(** [name: current.name] copies a possibly absent field. *)
Definition set_name (v : option string) (s : t) : t :=
  mk (level s) (message s) (sessionID s) (msisdn s) (fullName s) v
     (username s) (phone s) (email s) (password s) (dvlaNumber s)
     (loggedIn s) (userRef s).

Definition set_username (v : option string) (s : t) : t :=
  mk (level s) (message s) (sessionID s) (msisdn s) (fullName s) (name s)
     v (phone s) (email s) (password s) (dvlaNumber s)
     (loggedIn s) (userRef s).

Definition set_phone (v : option string) (s : t) : t :=
  mk (level s) (message s) (sessionID s) (msisdn s) (fullName s) (name s)
     (username s) v (email s) (password s) (dvlaNumber s)
     (loggedIn s) (userRef s).

Definition set_email (v : option string) (s : t) : t :=
  mk (level s) (message s) (sessionID s) (msisdn s) (fullName s) (name s)
     (username s) (phone s) v (password s) (dvlaNumber s)
     (loggedIn s) (userRef s).

Definition set_password (v : string) (s : t) : t :=
  mk (level s) (message s) (sessionID s) (msisdn s) (fullName s) (name s)
     (username s) (phone s) (email s) (Some v) (dvlaNumber s)
     (loggedIn s) (userRef s).

Definition set_dvlaNumber (v : string) (s : t) : t :=
  mk (level s) (message s) (sessionID s) (msisdn s) (fullName s) (name s)
     (username s) (phone s) (email s) (password s) (Some v)
     (loggedIn s) (userRef s).

Definition set_loggedIn (v : bool) (s : t) : t :=
  mk (level s) (message s) (sessionID s) (msisdn s) (fullName s) (name s)
     (username s) (phone s) (email s) (password s) (dvlaNumber s)
     (Some v) (userRef s).

(** [userRef: userSession[0]?.userRef] copies a possibly absent field. *)
Definition set_userRef (v : option ObjectId) (s : t) : t :=
  mk (level s) (message s) (sessionID s) (msisdn s) (fullName s) (name s)
     (username s) (phone s) (email s) (password s) (dvlaNumber s)
     (loggedIn s) v.

(** [{ ...o }] of a possibly undefined object: spreading [undefined]
    gives the empty object, whose message the caller then sets. *)
Definition spread (o : option t) : t :=
  match o with
  | Some s => s
  | None => obj None ""
  end.

End State.

(** ** The session stack: a JavaScript array of dialog states

    [items] are the elements in index order.  The engines index the top as
    [a[a.length - 1]]; on an empty array that is the property ["-1"], which
    an assignment creates and which neither [length], [push], [pop] nor
    [find] sees.  [minus1] is that property. *)

Module JsArray.

Record t : Type := mk {
  items : list State.t;
  minus1 : option State.t
}.

(** An array literal [[s1, ..., sn]]. *)
Definition lit (l : list State.t) : t := mk l None.

(** [a.length] *)
Definition length (a : t) : nat := List.length (items a).

(** [a[a.length - 1]] *)
Definition top (a : t) : option State.t :=
  match items a with
  | [] => minus1 a
  | _ :: _ => last (items a)
  end.

(** [a[a.length - 1] = s] *)
Definition set_top (s : State.t) (a : t) : t :=
  match items a with
  | [] => mk [] (Some s)
  | _ :: _ => mk (removelast (items a) ++ [s]) (minus1 a)
  end.

(** [a.push(s)] *)
Definition push (s : State.t) (a : t) : t := mk (items a ++ [s]) (minus1 a).

(** [a.pop()] *)
Definition pop (a : t) : t := mk (removelast (items a)) (minus1 a).

(** [a[0]] *)
Definition first (a : t) : option State.t := head (items a).

(** [a.find(p)] *)
Definition find (p : State.t → bool) (a : t) : option State.t :=
  List.find p (items a).

End JsArray.

(** ** Requests, responses, exceptions *)

Record Request : Type := mkRequest {
  sessionID : string;
  userID : string;
  newSession : bool;
  msisdn : string;
  userData : string
}.

Record Response : Type := mkResponse {
  r_sessionID : string;
  r_userID : string;
  r_message : string;
  r_continueSession : bool;
  r_msisdn : string
}.

Inductive Exn : Type :=
| TypeError        (* a property read on [undefined] *)
| MongoError       (* the repository call failed or timed out *)
| ValidationError  (* the document breaks its schema *)
| DuplicateKey     (* the document breaks a unique index *)
| BcryptError.     (* [bcrypt.hash] of a missing password *)

Inductive Res (A : Type) : Type :=
| Ok (a : A)
| Throw (e : Exn).

Arguments Ok {A} a.
Arguments Throw {A} e.

(** ** The world a handler runs in

    [cache] is the memory-cache store: a value and the time at which it
    expires.  [faults] is the fault plan: the n-th repository round trip of
    the run throws when the n-th flag is set (a plan that has run out plans
    no fault).  [calls] records the repository operations the engine
    issued, oldest first. *)

Record CacheEntry : Type := mkEntry {
  value : JsArray.t;
  expire : Z
}.

Record World (DB Call : Type) : Type := mkWorld {
  clock : Z;
  cache : gmap string CacheEntry;
  faults : list bool;
  calls : list Call;
  db : DB
}.

Arguments mkWorld {DB Call}.
Arguments clock {DB Call}.
Arguments cache {DB Call}.
Arguments faults {DB Call}.
Arguments calls {DB Call}.
Arguments db {DB Call}.

(** A handler is a state transformer that returns or throws; the state
    reached when it throws is kept, as an exception undoes nothing. *)
Definition M (W A : Type) : Type := W → Res A * W.

Definition ret {W A : Type} (a : A) : M W A := fun w => (Ok a, w).

Definition throw {W A : Type} (e : Exn) : M W A := fun w => (Throw e, w).

Definition bind {W A B : Type} (c : M W A) (k : A → M W B) : M W B :=
  fun w =>
    match c w with
    | (Ok a, w') => k a w'
    | (Throw e, w') => (Throw e, w')
    end.

(** [try { c } catch (e) { h e }] *)
Definition try_catch {W A : Type} (c : M W A) (h : Exn → M W A) : M W A :=
  fun w =>
    match c w with
    | (Ok a, w') => (Ok a, w')
    | (Throw e, w') => h e w'
    end.

Declare Scope js_scope.
Delimit Scope js_scope with js.
Notation "'let*' x ':=' c 'in' k" := (bind c (fun x => k))
  (at level 10, x name, c at level 100, k at level 200) : js_scope.
Notation "c ;; k" := (bind c (fun _ => k))
  (at level 100, k at level 200, right associativity) : js_scope.
Open Scope js_scope.

Section Store.
Context {DB Call : Type}.

Local Abbreviation W := (World DB Call).

(** [cache.get(key)]: an entry past its expiry reads as absent. *)
Definition cache_get (key : string) (w : W) : option JsArray.t :=
  match cache w !! key with
  | Some e => if clock w <=? expire e then Some (value e) else None
  | None => None
  end.

(** [const getSession = (sessionID) => cache.get(sessionID);] *)
Definition getSession (sid : string) : M W (option JsArray.t) :=
  fun w => (Ok (cache_get sid w), w).

(** [const saveSession = (sessionID, data) =>
       cache.put(sessionID, data, 1000 * 60 * 15);] *)
Definition saveSession (sid : string) (data : JsArray.t) : M W unit :=
  fun w =>
    (Ok tt,
     mkWorld (clock w)
       (<[sid := mkEntry data (clock w + 1000 * 60 * 15)]> (cache w))
       (faults w) (calls w) (db w)).

(** [cache.del(sessionID)] *)
Definition cache_del (sid : string) : M W unit :=
  fun w =>
    (Ok tt,
     mkWorld (clock w) (delete sid (cache w)) (faults w) (calls w) (db w)).

(** The engine issues a repository operation. *)
Definition issue (c : Call) : M W unit :=
  fun w =>
    (Ok tt, mkWorld (clock w) (cache w) (faults w) (calls w ++ [c]) (db w)).

(** The round trip to the repository, which the fault plan may fail. *)
Definition round_trip : M W unit :=
  fun w =>
    match faults w with
    | true :: fs =>
        (Throw MongoError, mkWorld (clock w) (cache w) fs (calls w) (db w))
    | false :: fs => (Ok tt, mkWorld (clock w) (cache w) fs (calls w) (db w))
    | [] => (Ok tt, w)
    end.

Definition read_db : M W DB := fun w => (Ok (db w), w).

Definition write_db (d : DB) : M W unit :=
  fun w => (Ok tt, mkWorld (clock w) (cache w) (faults w) (calls w) d).

Definition now : M W Z := fun w => (Ok (clock w), w).

(** [respond(res, { sessionID, userID, message, continueSession, msisdn })] *)
Definition respond (req : Request) (message : string) (continueSession : bool)
  : M W Response :=
  ret (mkResponse (sessionID req) (userID req) message continueSession
         (msisdn req)).

(** The [reply] helper of NCSTCS and PCRS:
    [saveSession(sessionID, userSession); return respond(...)]. *)
Definition reply (req : Request) (userSession : JsArray.t)
    (message : string) (continueSession : bool) : M W Response :=
  saveSession (sessionID req) userSession ;;
  respond req message continueSession.

End Store.

(** ** NCSTCS: courier sign-up and lookup (second [app.js]) *)

Module NCSTCS.

(** The fields of [userSchema]; [timestamps] are not read by the engine. *)
Record Fields : Type := mkFields {
  username : option string;
  password : option string;
  role : string;
  name : option string;
  email : option string;
  dvlaNumber : option string;
  ghanaCardNumber : option string
}.

Record User : Type := mkUser {
  _id : ObjectId;
  doc : Fields
}.

(** The paths the engine queries by; each has [unique: true]. *)
Inductive Field : Type := Username | Email | DvlaNumber | GhanaCardNumber.

Definition field (f : Field) (d : Fields) : option string :=
  match f with
  | Username => username d
  | Email => email d
  | DvlaNumber => dvlaNumber d
  | GhanaCardNumber => ghanaCardNumber d
  end.

Inductive Call : Type :=
| FindOne (f : Field) (v : string)
| Create (d : Fields).

Abbreviation W := (World (list User) Call).

Definition has (f : Field) (v : string) (u : User) : bool :=
  match field f (doc u) with
  | Some x => String.eqb x v
  | None => false
  end.

(** [await User.findOne({ f: v })] *)
Definition findOne (f : Field) (v : string) : M W (option User) :=
  issue (FindOne f v) ;;
  round_trip ;;
  let* users := read_db in
  ret (List.find (has f v) users).

(** A unique (sparse) index rejects a document whose value at [f] is
    already stored. *)
Definition clashes (d : Fields) (users : list User) (f : Field) : bool :=
  match field f d with
  | Some v => existsb (has f v) users
  | None => false
  end.

(** [await User.create(d)]: [username] and [password] are required (and a
    required string is not empty); the four unique indexes are enforced
    by the repository. *)
Definition create (d : Fields) : M W User :=
  issue (Create d) ;;
  if negb (Js.truthy (username d) && Js.truthy (password d))
  then throw ValidationError
  else
    round_trip ;;
    let* users := read_db in
    if clashes d users Username || clashes d users Email
       || clashes d users DvlaNumber || clashes d users GhanaCardNumber
    then throw DuplicateKey
    else
      let u := mkUser (List.length users) d in
      write_db (users ++ [u]) ;;
      ret u.

Definition home_menu : string :=
  "NCSTCS Couriers
1. Sign Up
2. Lookup Courier
3. Cancel".

Definition generic_failure : string :=
  "Service temporarily unavailable. Try later.".

(** The cases of [switch (current.level)]. *)
Inductive Case : Type := L0 | L10 | L11 | L12 | L13 | L14 | L15 | L16 | L30.

Definition case_of (l : option Z) : option Case :=
  match l with
  | Some 0 => Some L0
  | Some 10 => Some L10
  | Some 11 => Some L11
  | Some 12 => Some L12
  | Some 13 => Some L13
  | Some 14 => Some L14
  | Some 15 => Some L15
  | Some 16 => Some L16
  | Some 30 => Some L30
  | _ => None
  end.

(** [userSession[userSession.length - 1] = { ...current, message };
     return reply(message);] *)
Definition retry (req : Request) (userSession : JsArray.t)
    (current : State.t) (message : string) : M W Response :=
  reply req (JsArray.set_top (State.set_message message current) userSession)
    message true.

(** [userSession.push(s); return reply(message);] *)
Definition advance (req : Request) (userSession : JsArray.t)
    (s : State.t) : M W Response :=
  reply req (JsArray.push s userSession) (State.message s) true.

(** [cache.del(sessionID);
     return respond(res, { ..., message, continueSession: false, ... });] *)
Definition finish (req : Request) (message : string) : M W Response :=
  cache_del (sessionID req) ;;
  respond req message false.

Definition summary (u : User) : string :=
  "Name: " +:+ Js.or_else (name (doc u)) "-" +:+ "
Username: " +:+ Js.interp (username (doc u)) +:+ "
Email: " +:+ Js.or_else (email (doc u)) "-" +:+ "
DVLA: " +:+ Js.or_else (dvlaNumber (doc u)) "-" +:+ "
GhanaCard: " +:+ Js.or_else (ghanaCardNumber (doc u)) "-".

Section Engine.

(** [bcrypt.hash(password, 10)] on a string; its salt is not modelled. *)
Variable bcrypt_hash : string → string.

Definition hash (p : option string) : M W string :=
  match p with
  | Some s => ret (bcrypt_hash s)
  | None => throw BcryptError
  end.

Definition case_0 (req : Request) (userSession : JsArray.t) : M W Response :=
  if String.eqb (userData req) "1" then
    advance req userSession (State.obj (Some 10) "Enter Full Name:")
  else if String.eqb (userData req) "2" then
    advance req userSession
      (State.obj (Some 30) "Enter DVLA or Ghana Card Number:")
  else finish req "Session ended.".

(** [case 10: // Full Name]; [name.length] is the number of code units,
    which on ASCII input is the length of the string. *)
Definition case_10 (req : Request) (userSession : JsArray.t)
    (current : State.t) : M W Response :=
  let name := Js.trim (userData req) in
  if String.eqb name "" || (String.length name <? 3)%nat
     || Validators.has_digit name
  then retry req userSession current "Invalid name. Enter Full Name:"
  else
    advance req userSession
      (State.set_name (Some name) (State.obj (Some 11) "Choose a Username:")).

(** [case 11: // Username] *)
Definition case_11 (req : Request) (userSession : JsArray.t)
    (current : State.t) : M W Response :=
  let username := Js.trim (userData req) in
  if negb (Regex.test_full Validators.username_re username)
  then retry req userSession current "Invalid username. Try again:"
  else
    let* exists_ := findOne Username username in
    match exists_ with
    | Some _ =>
        retry req userSession current
          "Username taken. Enter a different Username:"
    | None =>
        advance req userSession
          (State.set_username (Some username)
             (State.set_name (State.name current)
                (State.obj (Some 12) "Enter Email:")))
    end.

(** [case 12: // Email] *)
Definition case_12 (req : Request) (userSession : JsArray.t)
    (current : State.t) : M W Response :=
  let email := Js.trim (userData req) in
  if negb (Validators.isValidEmail email)
  then retry req userSession current "Invalid email. Enter Email:"
  else
    let* exists_ := findOne Email email in
    match exists_ with
    | Some _ =>
        retry req userSession current
          "Email already in use. Enter a different Email:"
    | None =>
        advance req userSession
          (State.set_email (Some email)
             (State.set_username (State.username current)
                (State.set_name (State.name current)
                   (State.obj (Some 13) "Create Password:"))))
    end.

(** [case 13: // Password]; [password.length] is the number of code
    units, which on ASCII input is the length of the string. *)
Definition case_13 (req : Request) (userSession : JsArray.t)
    (current : State.t) : M W Response :=
  let password := Js.trim (userData req) in
  if (String.length password <? 6)%nat
  then
    retry req userSession current
      "Password too short (min 6). Create Password:"
  else
    advance req userSession
      (State.set_message "Confirm Password:"
         (State.set_password password (State.set_level 14 current))).

(** [case 14: // Confirm Password] *)
Definition case_14 (req : Request) (userSession : JsArray.t)
    (current : State.t) : M W Response :=
  let confirm := Js.trim (userData req) in
  if negb (bool_decide (Some confirm = State.password current))
  then
    let message := "Passwords do not match. Create Password:" in
    (* Go back to password step *)
    let popped := JsArray.pop userSession in
    reply req
      (JsArray.set_top
         (State.set_message message (State.spread (JsArray.top popped)))
         popped)
      message true
  else
    advance req userSession
      (State.set_message "Enter DVLA License Number:"
         (State.set_level 15 current)).

(** [case 15: // DVLA Number] *)
Definition case_15 (req : Request) (userSession : JsArray.t)
    (current : State.t) : M W Response :=
  let dvlaNumber := Js.toUpperCase (Js.trim (userData req)) in
  if negb (Validators.isValidDVLA dvlaNumber)
  then
    retry req userSession current
      "Invalid DVLA number. Enter DVLA License Number:"
  else
    let* exists_ := findOne DvlaNumber dvlaNumber in
    match exists_ with
    | Some _ =>
        retry req userSession current
          "DVLA already registered. Enter a different DVLA License Number:"
    | None =>
        advance req userSession
          (State.set_message "Enter Ghana Card (e.g., GHA-123456789-01):"
             (State.set_dvlaNumber dvlaNumber (State.set_level 16 current)))
    end.

(** [case 16: // Ghana Card Number], the final step of the sign-up. *)
Definition case_16 (req : Request) (userSession : JsArray.t)
    (current : State.t) : M W Response :=
  let ghanaCardNumber := Js.toUpperCase (Js.trim (userData req)) in
  if negb (Validators.isValidGhanaCard ghanaCardNumber)
  then retry req userSession current "Invalid format. Use GHA-XXXXXXXXX-XX:"
  else
    let* exists_ := findOne GhanaCardNumber ghanaCardNumber in
    match exists_ with
    | Some _ =>
        retry req userSession current
          "Ghana Card already registered. Enter a different Ghana Card:"
    | None =>
        (* Create user *)
        let* hashed := hash (State.password current) in
        let* failed :=
          try_catch
            (create
               (mkFields (State.username current) (Some hashed) "courier"
                  (State.name current) (State.email current)
                  (State.dvlaNumber current) (Some ghanaCardNumber)) ;;
             ret false)
            (fun _ => ret true) in
        if failed
        then finish req "Registration failed. Try again later."
        else finish req "Registration successful!"
    end.

(** [case 30:], the lookup flow. *)
Definition case_30 (req : Request) (userSession : JsArray.t)
    (current : State.t) : M W Response :=
  let query := Js.toUpperCase (Js.trim (userData req)) in
  let* user :=
    if Validators.isValidGhanaCard query
    then findOne GhanaCardNumber query
    else findOne DvlaNumber query (* treat as DVLA if not ghana card *) in
  match user with
  | None => retry req userSession current "Courier not found. 9.Back 0.Home"
  | Some u => finish req (summary u)
  end.

(** The body of the [try] block: [switch (current.level) { ... }]. *)
Definition level_step (req : Request) (userSession : JsArray.t)
    (current : option State.t) : M W Response :=
  match current with
  | None => throw TypeError
  | Some current =>
      match case_of (State.level current) with
      | Some L0 => case_0 req userSession
      | Some L10 => case_10 req userSession current
      | Some L11 => case_11 req userSession current
      | Some L12 => case_12 req userSession current
      | Some L13 => case_13 req userSession current
      | Some L14 => case_14 req userSession current
      | Some L15 => case_15 req userSession current
      | Some L16 => case_16 req userSession current
      | Some L30 => case_30 req userSession current
      | None =>
          reply req (JsArray.lit [State.obj (Some 0) home_menu])
            home_menu true
      end
  end.

(** [app.post('/ussd', async (req, res) => { ... })] *)
Definition ussd (req : Request) : M W Response :=
  let* userSession := getSession (sessionID req) in
  match newSession req, userSession with
  | false, Some userSession =>
      (* Navigation: 0 = Home, 9 = Back *)
      if String.eqb (userData req) "0" then
        reply req (JsArray.lit [State.obj (Some 0) home_menu]) home_menu true
      else if String.eqb (userData req) "9" then
        let userSession :=
          if (1 <? JsArray.length userSession)%nat
          then JsArray.pop userSession
          else userSession in
        match JsArray.top userSession with
        | Some prev => reply req userSession (State.message prev) true
        | None => throw TypeError
        end
      else
        try_catch
          (level_step req userSession (JsArray.top userSession))
          (fun _ => finish req generic_failure)
  | _, _ =>
      (* Start or restart session *)
      saveSession (sessionID req) (JsArray.lit [State.obj (Some 0) home_menu]) ;;
      respond req home_menu true
  end.

End Engine.

(** The JSON [/courier/lookup] answers with: an error, or the fields of the
    courier found ([createdAt] comes from the schema's timestamps, which
    are not part of [Fields]). *)
Inductive Body : Type :=
| Error (error : string)
| Courier (username name email dvlaNumber ghanaCardNumber : option string)
    (role : string).

Record Reply : Type := mkReply {
  status : Z;
  body : Body
}.

(** [app.get('/courier/lookup', async (req, res) => { ... })]; [id] is
    [req.query.id], a string or [undefined]. *)
Definition courier_lookup (id : option string) : M W Reply :=
  let id := Js.toUpperCase (Js.trim (Js.or_else id "")) in
  if String.eqb id "" then ret (mkReply 400 (Error "Missing id"))
  else
    let* user :=
      if Validators.isValidGhanaCard id then findOne GhanaCardNumber id
      else ret None in
    let* user :=
      match user with
      | Some _ => ret user
      | None => findOne DvlaNumber id
      end in
    match user with
    | None => ret (mkReply 404 (Error "Not found"))
    | Some u =>
        ret (mkReply 200
               (Courier (username (doc u)) (name (doc u)) (email (doc u))
                  (dvlaNumber (doc u)) (ghanaCardNumber (doc u))
                  (role (doc u))))
    end.

End NCSTCS.

(** ** PCRS: courier sign-up with phone, and lookup (third [app.js]) *)

Module PCRS.

Record Fields : Type := mkFields {
  username : option string;
  password : option string;
  role : string;
  name : option string;
  phone : option string;
  email : option string;
  dvlaNumber : option string;
  ghanaCardNumber : option string
}.

Record User : Type := mkUser {
  _id : ObjectId;
  doc : Fields
}.

Inductive Field : Type :=
  Username | Phone | Email | DvlaNumber | GhanaCardNumber.

Definition field (f : Field) (d : Fields) : option string :=
  match f with
  | Username => username d
  | Phone => phone d
  | Email => email d
  | DvlaNumber => dvlaNumber d
  | GhanaCardNumber => ghanaCardNumber d
  end.

Inductive Call : Type :=
| FindOne (f : Field) (v : string)
| FindById (id : option ObjectId)
| Create (d : Fields).

Abbreviation W := (World (list User) Call).

Definition has (f : Field) (v : string) (u : User) : bool :=
  match field f (doc u) with
  | Some x => String.eqb x v
  | None => false
  end.

(** [await User.findOne({ f: v })] *)
Definition findOne (f : Field) (v : string) : M W (option User) :=
  issue (FindOne f v) ;;
  round_trip ;;
  let* users := read_db in
  ret (List.find (has f v) users).

(** [await User.findById(id)]; Mongoose queries [_id: null] for an
    undefined id, which no document has. *)
Definition findById (id : option ObjectId) : M W (option User) :=
  issue (FindById id) ;;
  round_trip ;;
  let* users := read_db in
  ret (match id with
       | Some i => List.find (fun u => Nat.eqb (_id u) i) users
       | None => None
       end).

Definition clashes (d : Fields) (users : list User) (f : Field) : bool :=
  match field f d with
  | Some v => existsb (has f v) users
  | None => false
  end.

(** [await User.create(d)] *)
Definition create (d : Fields) : M W User :=
  issue (Create d) ;;
  if negb (Js.truthy (username d) && Js.truthy (password d))
  then throw ValidationError
  else
    round_trip ;;
    let* users := read_db in
    if clashes d users Username || clashes d users Phone
       || clashes d users Email || clashes d users DvlaNumber
       || clashes d users GhanaCardNumber
    then throw DuplicateKey
    else
      let u := mkUser (List.length users) d in
      write_db (users ++ [u]) ;;
      ret u.

Definition guest_menu : string :=
  "PCRS Couriers
1. Sign Up
2. Lookup Courier
3. Cancel".

(** [`Hi ${displayName}\n1. View My Details\n2. Lookup Courier\n3. Cancel`] *)
Definition member_menu (displayName : string) : string :=
  "Hi " +:+ displayName +:+ "
1. View My Details
2. Lookup Courier
3. Cancel".

(** [u?.name || u?.username || u?.phone || "Courier"] *)
Definition displayName (u : option User) : string :=
  match u with
  | Some u =>
      Js.or_else (name (doc u))
        (Js.or_else (username (doc u)) (Js.or_else (phone (doc u)) "Courier"))
  | None => "Courier"
  end.

Definition generic_failure : string :=
  "Service temporarily unavailable. Try later.".

Definition signup_info : string :=
  "📄 To register, you'll need:

• DVLA License Number
• Ghana Card (e.g., GHA-123456789-01)

We'll also collect:
• Full Name
• Username
• Phone
• Email
• Password

Press 1 to continue".

Definition signup_done : string :=
  "Registration successful!

An SMS will be sent to your phone shortly. Please follow the link in the SMS to upload your:
• DVLA License
• Ghana Card".

Inductive Case : Type :=
  L0 | L5 | L10 | L11 | L12 | L13 | L14 | L15 | L16 | L17 | L30.

Definition case_of (l : option Z) : option Case :=
  match l with
  | Some 0 => Some L0
  | Some 5 => Some L5
  | Some 10 => Some L10
  | Some 11 => Some L11
  | Some 12 => Some L12
  | Some 13 => Some L13
  | Some 14 => Some L14
  | Some 15 => Some L15
  | Some 16 => Some L16
  | Some 17 => Some L17
  | Some 30 => Some L30
  | _ => None
  end.

(** [userSession[userSession.length - 1] = { ...current, message };
     return reply(message);] *)
Definition retry (req : Request) (userSession : JsArray.t)
    (current : State.t) (message : string) : M W Response :=
  reply req (JsArray.set_top (State.set_message message current) userSession)
    message true.

(** [userSession.push(s); return reply(message);] *)
Definition advance (req : Request) (userSession : JsArray.t)
    (s : State.t) : M W Response :=
  reply req (JsArray.push s userSession) (State.message s) true.

(** [cache.del(sessionID);
     return respond(res, { ..., message, continueSession: false, ... });] *)
Definition finish (req : Request) (message : string) : M W Response :=
  cache_del (sessionID req) ;;
  respond req message false.

Definition summary (u : User) : string :=
  "Name: " +:+ Js.or_else (name (doc u)) "-" +:+ "
Username: " +:+ Js.interp (username (doc u)) +:+ "
Phone: " +:+ Js.or_else (phone (doc u)) "-" +:+ "
Email: " +:+ Js.or_else (email (doc u)) "-" +:+ "
DVLA: " +:+ Js.or_else (dvlaNumber (doc u)) "-" +:+ "
GhanaCard: " +:+ Js.or_else (ghanaCardNumber (doc u)) "-".

(** [userSession[0]?.loggedIn], as a condition. *)
Definition first_loggedIn (userSession : JsArray.t) : bool :=
  match JsArray.first userSession with
  | Some s => match State.loggedIn s with Some b => b | None => false end
  | None => false
  end.

(** [userSession[0]?.userRef] *)
Definition first_userRef (userSession : JsArray.t) : option ObjectId :=
  match JsArray.first userSession with
  | Some s => State.userRef s
  | None => None
  end.

Section Engine.

Variable bcrypt_hash : string → string.

Definition hash (p : option string) : M W string :=
  match p with
  | Some s => ret (bcrypt_hash s)
  | None => throw BcryptError
  end.

(** Start or restart session: identify the subscriber by [msisdn]. *)
Definition start (req : Request) : M W Response :=
  let guest :=
    (guest_menu,
     JsArray.lit [State.set_loggedIn false (State.obj (Some 0) guest_menu)]) in
  let* started :=
    try_catch
      (let phone := Validators.normalizePhone (msisdn req) in
       let* existing :=
         if String.eqb phone "" then ret None else findOne Phone phone in
       match existing with
       | Some u =>
           let message := member_menu (displayName (Some u)) in
           ret (message,
                JsArray.lit
                  [State.set_userRef (Some (_id u))
                     (State.set_loggedIn true (State.obj (Some 0) message))])
       | None => ret guest
       end)
      (fun _ => ret guest) in
  saveSession (sessionID req) (snd started) ;;
  respond req (fst started) true.

(** [if (userData === "0")]: rebuild the home menu by login status. *)
Definition go_home (req : Request) (userSession : JsArray.t)
  : M W Response :=
  if first_loggedIn userSession then
    let* message :=
      try_catch
        (let* me := findById (first_userRef userSession) in
         ret (member_menu (displayName me)))
        (fun _ => ret (member_menu "Courier")) in
    reply req
      (JsArray.lit
         [State.set_userRef (first_userRef userSession)
            (State.set_loggedIn true (State.obj (Some 0) message))])
      message true
  else
    reply req
      (JsArray.lit [State.set_loggedIn false (State.obj (Some 0) guest_menu)])
      guest_menu true.

Definition case_0 (req : Request) (userSession : JsArray.t)
    (current : State.t) : M W Response :=
  if match State.loggedIn current with Some b => b | None => false end then
    if String.eqb (userData req) "1" then
      (* View My Details *)
      let* message :=
        try_catch
          (let* me := findById (first_userRef userSession) in
           match me with
           | None => ret "Account not found."
           | Some u => ret (summary u)
           end)
          (fun _ => ret "Unable to fetch details at the moment.") in
      finish req message
    else if String.eqb (userData req) "2" then
      advance req userSession
        (State.obj (Some 30) "Enter DVLA or Ghana Card Number:")
    else finish req "Session ended."
  else
    if String.eqb (userData req) "1" then
      (* Show info screen before sign-up *)
      advance req userSession (State.obj (Some 5) signup_info)
    else if String.eqb (userData req) "2" then
      advance req userSession
        (State.obj (Some 30) "Enter DVLA or Ghana Card Number:")
    else finish req "Session ended.".

(** [case 5:] proceed to name entry regardless of input. *)
Definition case_5 (req : Request) (userSession : JsArray.t)
  : M W Response :=
  advance req userSession (State.obj (Some 10) "Enter Full Name:").

(** [case 10: // Full Name]; [name.length] is the number of code units,
    which on ASCII input is the length of the string. *)
Definition case_10 (req : Request) (userSession : JsArray.t)
    (current : State.t) : M W Response :=
  let name := Js.trim (userData req) in
  if String.eqb name "" || (String.length name <? 3)%nat
     || Validators.has_digit name
  then retry req userSession current "Invalid name. Enter Full Name:"
  else
    advance req userSession
      (State.set_name (Some name) (State.obj (Some 11) "Choose a Username:")).

(** [case 11: // Username] *)
Definition case_11 (req : Request) (userSession : JsArray.t)
    (current : State.t) : M W Response :=
  let username := Js.trim (userData req) in
  if negb (Regex.test_full Validators.username_re username)
  then retry req userSession current "Invalid username. Try again:"
  else
    let* exists_ := findOne Username username in
    match exists_ with
    | Some _ =>
        retry req userSession current
          "Username taken. Enter a different Username:"
    | None =>
        advance req userSession
          (State.set_username (Some username)
             (State.set_name (State.name current)
                (State.obj (Some 12)
                   "Enter Phone Number (e.g., 024XXXXXXX):")))
    end.

(** [case 12: // Phone] *)
Definition case_12 (req : Request) (userSession : JsArray.t)
    (current : State.t) : M W Response :=
  let rawPhone := Js.trim (userData req) in
  if negb (Validators.isValidPhone rawPhone)
  then
    retry req userSession current
      "Invalid phone. Enter Phone Number (e.g., 024XXXXXXX):"
  else
    let phone := Validators.normalizePhone rawPhone in
    let* exists_ := findOne Phone phone in
    match exists_ with
    | Some _ =>
        retry req userSession current
          "Phone already registered. Enter a different Phone Number:"
    | None =>
        advance req userSession
          (State.set_phone (Some phone)
             (State.set_username (State.username current)
                (State.set_name (State.name current)
                   (State.obj (Some 13) "Enter Email:"))))
    end.

(** [case 13: // Email] *)
Definition case_13 (req : Request) (userSession : JsArray.t)
    (current : State.t) : M W Response :=
  let email := Js.trim (userData req) in
  if negb (Validators.isValidEmail email)
  then retry req userSession current "Invalid email. Enter Email:"
  else
    let* exists_ := findOne Email email in
    match exists_ with
    | Some _ =>
        retry req userSession current
          "Email already in use. Enter a different Email:"
    | None =>
        advance req userSession
          (State.set_email (Some email)
             (State.set_phone (State.phone current)
                (State.set_username (State.username current)
                   (State.set_name (State.name current)
                      (State.obj (Some 14) "Create Password:")))))
    end.

(** [case 14: // Password]; [password.length] is the number of code
    units, which on ASCII input is the length of the string. *)
Definition case_14 (req : Request) (userSession : JsArray.t)
    (current : State.t) : M W Response :=
  let password := Js.trim (userData req) in
  if (String.length password <? 6)%nat
  then
    retry req userSession current
      "Password too short (min 6). Create Password:"
  else
    advance req userSession
      (State.set_message "Confirm Password:"
         (State.set_password password (State.set_level 15 current))).

(** [case 15: // Confirm Password] *)
Definition case_15 (req : Request) (userSession : JsArray.t)
    (current : State.t) : M W Response :=
  let confirm := Js.trim (userData req) in
  if negb (bool_decide (Some confirm = State.password current))
  then
    let message := "Passwords do not match. Create Password:" in
    (* Go back to password step *)
    let popped := JsArray.pop userSession in
    reply req
      (JsArray.set_top
         (State.set_message message (State.spread (JsArray.top popped)))
         popped)
      message true
  else
    advance req userSession
      (State.set_message "Enter DVLA License Number:"
         (State.set_level 16 current)).

(** [case 16: // DVLA Number] *)
Definition case_16 (req : Request) (userSession : JsArray.t)
    (current : State.t) : M W Response :=
  let dvlaNumber := Js.toUpperCase (Js.trim (userData req)) in
  if negb (Validators.isValidDVLA dvlaNumber)
  then
    retry req userSession current
      "Invalid DVLA number. Enter DVLA License Number:"
  else
    let* exists_ := findOne DvlaNumber dvlaNumber in
    match exists_ with
    | Some _ =>
        retry req userSession current
          "DVLA already registered. Enter a different DVLA License Number:"
    | None =>
        advance req userSession
          (State.set_message "Enter Ghana Card (e.g., GHA-123456789-01):"
             (State.set_dvlaNumber dvlaNumber (State.set_level 17 current)))
    end.

(** [case 17: // Ghana Card Number], the final step of the sign-up. *)
Definition case_17 (req : Request) (userSession : JsArray.t)
    (current : State.t) : M W Response :=
  let ghanaCardNumber := Js.toUpperCase (Js.trim (userData req)) in
  if negb (Validators.isValidGhanaCard ghanaCardNumber)
  then retry req userSession current "Invalid format. Use GHA-XXXXXXXXX-XX:"
  else
    let* exists_ := findOne GhanaCardNumber ghanaCardNumber in
    match exists_ with
    | Some _ =>
        retry req userSession current
          "Ghana Card already registered. Enter a different Ghana Card:"
    | None =>
        (* Create user *)
        let* hashed := hash (State.password current) in
        let* failed :=
          try_catch
            (create
               (mkFields (State.username current) (Some hashed) "courier"
                  (State.name current) (State.phone current)
                  (State.email current) (State.dvlaNumber current)
                  (Some ghanaCardNumber)) ;;
             ret false)
            (fun _ => ret true) in
        if failed
        then finish req "Registration failed. Try again later."
        else finish req signup_done
    end.

(** [case 30:], the lookup flow. *)
Definition case_30 (req : Request) (userSession : JsArray.t)
    (current : State.t) : M W Response :=
  let query := Js.toUpperCase (Js.trim (userData req)) in
  let* user :=
    if Validators.isValidGhanaCard query
    then findOne GhanaCardNumber query
    else findOne DvlaNumber query (* treat as DVLA if not ghana card *) in
  match user with
  | None => retry req userSession current "Courier not found. 9.Back 0.Home"
  | Some u => finish req (summary u)
  end.

(** The body of the [try] block: [switch (current.level) { ... }]. *)
Definition level_step (req : Request) (userSession : JsArray.t)
    (current : option State.t) : M W Response :=
  match current with
  | None => throw TypeError
  | Some current =>
      match case_of (State.level current) with
      | Some L0 => case_0 req userSession current
      | Some L5 => case_5 req userSession
      | Some L10 => case_10 req userSession current
      | Some L11 => case_11 req userSession current
      | Some L12 => case_12 req userSession current
      | Some L13 => case_13 req userSession current
      | Some L14 => case_14 req userSession current
      | Some L15 => case_15 req userSession current
      | Some L16 => case_16 req userSession current
      | Some L17 => case_17 req userSession current
      | Some L30 => case_30 req userSession current
      | None =>
          reply req (JsArray.lit [State.obj (Some 0) guest_menu])
            guest_menu true
      end
  end.

(** [app.post('/ussd', async (req, res) => { ... })] *)
Definition ussd (req : Request) : M W Response :=
  let* userSession := getSession (sessionID req) in
  match newSession req, userSession with
  | false, Some userSession =>
      (* Navigation: 0 = Home, 9 = Back *)
      if String.eqb (userData req) "0" then go_home req userSession
      else if String.eqb (userData req) "9" then
        let userSession :=
          if (1 <? JsArray.length userSession)%nat
          then JsArray.pop userSession
          else userSession in
        match JsArray.top userSession with
        | Some prev => reply req userSession (State.message prev) true
        | None => throw TypeError
        end
      else
        try_catch
          (level_step req userSession (JsArray.top userSession))
          (fun _ => finish req generic_failure)
  | _, _ => start req
  end.

End Engine.

(** The JSON [/courier/lookup] answers with: an error, or the fields of the
    courier found ([createdAt] comes from the schema's timestamps, which
    are not part of [Fields]). *)
Inductive Body : Type :=
| Error (error : string)
| Courier (username name phone email dvlaNumber ghanaCardNumber : option string)
    (role : string).

Record Reply : Type := mkReply {
  status : Z;
  body : Body
}.

(** [app.get('/courier/lookup', async (req, res) => { ... })]; [id] is
    [req.query.id], a string or [undefined]. *)
Definition courier_lookup (id : option string) : M W Reply :=
  let id := Js.toUpperCase (Js.trim (Js.or_else id "")) in
  if String.eqb id "" then ret (mkReply 400 (Error "Missing id"))
  else
    let* user :=
      if Validators.isValidGhanaCard id then findOne GhanaCardNumber id
      else ret None in
    let* user :=
      match user with
      | Some _ => ret user
      | None => findOne DvlaNumber id
      end in
    match user with
    | None => ret (mkReply 404 (Error "Not found"))
    | Some u =>
        ret (mkReply 200
               (Courier (username (doc u)) (name (doc u)) (phone (doc u))
                  (email (doc u)) (dvlaNumber (doc u))
                  (ghanaCardNumber (doc u)) (role (doc u))))
    end.

End PCRS.

(** ** GatePlus: registration and loan requests (first [app.js]) *)

Module GatePlus.

Module User.
Record t : Type := mk {
  _id : ObjectId;
  fullName : string;
  ghanaCard : string;
  msisdn : string;
  status : string;
  verifiedAt : option Z;
  createdAt : Z
}.
End User.

Module Loan.
Record t : Type := mk {
  _id : ObjectId;
  userId : ObjectId;
  msisdn : string;
  amount : float;
  status : string;
  requestedAt : Z
}.
End Loan.

(** The [details] the engine logs, one shape per action. *)
Inductive Details : Type :=
| SessionStart (isNew : bool)
| Register (fullName ghanaCard : string)
| Menu (level : option Z) (input : string)
| LoanRequest (amount : float) (loanId : ObjectId)
| AdminAction (action : string).

Module ActivityLog.
Record t : Type := mk {
  msisdn : string;
  action : string;
  details : Details;
  timestamp : Z
}.
End ActivityLog.

Record Db : Type := mkDb {
  users : list User.t;
  loans : list Loan.t;
  logs : list ActivityLog.t
}.

Inductive Call : Type :=
| UserFindOne (msisdn : string)
| UserSave (fullName ghanaCard msisdn : string)
| UserUpdate (user : User.t)
| LoanFindLatest (msisdn : string)
| LoanSave (userId : ObjectId) (msisdn : string) (amount : float)
| LogCreate (msisdn action : string) (details : Details).

Abbreviation W := (World Db Call).

(** [await User.findOne({ msisdn })] *)
Definition findUser (m : string) : M W (option User.t) :=
  issue (UserFindOne m) ;;
  round_trip ;;
  let* d := read_db in
  ret (List.find (fun u => String.eqb (User.msisdn u) m) (users d)).

(** [await newUser.save()]: the three strings are required, [ghanaCard]
    has to match the schema's pattern, [msisdn] is unique. *)
Definition saveUser (fullName ghanaCard m : string) : M W User.t :=
  issue (UserSave fullName ghanaCard m) ;;
  if String.eqb fullName "" || String.eqb m ""
     || negb (Regex.test_full Validators.ghana_card_re ghanaCard)
  then throw ValidationError
  else
    round_trip ;;
    let* d := read_db in
    if existsb (fun u => String.eqb (User.msisdn u) m) (users d)
    then throw DuplicateKey
    else
      let* t := now in
      let u := User.mk (List.length (users d)) fullName ghanaCard m
                 "pending_verification" None t in
      write_db (mkDb (users d ++ [u]) (loans d) (logs d)) ;;
      ret u.

(** The later of two loans by [requestedAt]. *)
Definition later (best : option Loan.t) (l : Loan.t) : option Loan.t :=
  match best with
  | Some b => if Loan.requestedAt b <? Loan.requestedAt l then Some l else best
  | None => Some l
  end.

(** [await Loan.findOne({ msisdn }).sort({ requestedAt: -1 })] *)
Definition findLatestLoan (m : string) : M W (option Loan.t) :=
  issue (LoanFindLatest m) ;;
  round_trip ;;
  let* d := read_db in
  ret (fold_left later
         (List.filter (fun l => String.eqb (Loan.msisdn l) m) (loans d)) None).

(** [isNaN(amount) || amount < 10 || amount > 1000] *)
Definition out_of_range (amount : float) : bool :=
  PrimFloat.is_nan amount || PrimFloat.ltb amount 10 || PrimFloat.ltb 1000 amount.

(** [await loan.save()]: [amount] has [min: 10, max: 1000]. *)
Definition saveLoan (userId : ObjectId) (m : string) (amount : float)
  : M W Loan.t :=
  issue (LoanSave userId m amount) ;;
  if String.eqb m "" || out_of_range amount
  then throw ValidationError
  else
    round_trip ;;
    let* d := read_db in
    let* t := now in
    let l := Loan.mk (List.length (loans d)) userId m amount "loan_pending" t in
    write_db (mkDb (users d) (loans d ++ [l]) (logs d)) ;;
    ret l.

(** [const logActivity = async (msisdn, action, details = {}) => {
       await ActivityLog.create({msisdn, action, details}); };] *)
Definition logActivity (m action : string) (details : Details) : M W unit :=
  issue (LogCreate m action details) ;;
  if String.eqb m "" || String.eqb action ""
  then throw ValidationError
  else
    round_trip ;;
    let* d := read_db in
    let* t := now in
    write_db
      (mkDb (users d) (loans d) (logs d ++ [ActivityLog.mk m action details t])).

(** [await user.save()] on a record read from the repository: the stored
    record of the same [_id] is replaced. *)
Definition updateUser (u : User.t) : M W unit :=
  issue (UserUpdate u) ;;
  round_trip ;;
  let* d := read_db in
  write_db
    (mkDb
       (map (fun v => if Nat.eqb (User._id v) (User._id u) then u else v)
          (users d))
       (loans d) (logs d)).

(** [app.get('/admin/approve/:msisdn', ...)]: the administrative action
    that verifies a subscriber; it answers with a status and a message. *)
Definition approve (m : string) : M W (string * string) :=
  let* user := findUser m in
  match user with
  | None => ret ("error", "User not found")
  | Some u =>
      let* t := now in
      updateUser
        (User.mk (User._id u) (User.fullName u) (User.ghanaCard u)
           (User.msisdn u) "verified" (Some t) (User.createdAt u)) ;;
      logActivity m "admin_action" (AdminAction "approved") ;;
      ret ("success", "User " +:+ m +:+ " verified!")
  end.

Definition welcome : string :=
  "Welcome to GatePlus!
Register for verification to access loans.
Enter your Full Name:".

Definition main_menu : string :=
  "Hi there!
1. Apply for Loan
2. Check Status
3. Support".

Definition expired : string := "Session expired. Please restart.".

Definition generic_failure : string :=
  "Service temporarily unavailable. Try later.".

Definition range_error : string := "Enter amount between GHS 10 and 1000:".

(** [currentState.level >= 10 && currentState.level < 20] *)
Definition in_registration (l : option Z) : bool :=
  match l with
  | Some n => (10 <=? n) && (n <? 20)
  | None => false
  end.

Section Engine.

(** The built-ins on numbers and dates the engine calls. *)
Variable parseFloat : string → float.
Variable number_to_string : float → string.
Variable toLocaleDateString : Z → string.

(** [// === REGISTRATION FLOW (new users) ===]; [fullName.length] is the
    number of code units, which on ASCII input is the length of the
    string. *)
Definition registration (req : Request) (userSession : JsArray.t)
    (currentState : State.t) : M W Response :=
  if bool_decide (State.level currentState = Some 10) then
    let fullName := Js.trim (userData req) in
    if (String.length fullName <? 2)%nat || Validators.has_digit fullName
    then respond req "Please enter a valid name (no numbers)." true
    else
      let message := "Enter Ghana Card (e.g., GHA-123456789-01):" in
      saveSession (sessionID req)
        (JsArray.push
           (State.set_fullName fullName (State.obj (Some 11) message))
           userSession) ;;
      respond req message true
  else if bool_decide (State.level currentState = Some 11) then
    let ghanaCard := Js.toUpperCase (Js.trim (userData req)) in
    if negb (Validators.isValidGhanaCard ghanaCard) then
      let message := "Invalid format. Use GHA-XXXXXXXXX-XX:" in
      saveSession (sessionID req)
        (JsArray.set_top (State.set_message message currentState)
           userSession) ;;
      respond req message true
    else
      let previousState :=
        JsArray.find (fun s => bool_decide (State.level s = Some 10))
          userSession in
      let fullName :=
        Js.or_else
          (match previousState with
           | Some s => State.fullName s
           | None => None
           end) "Unknown" in
      let* existingUser := findUser (msisdn req) in
      match existingUser with
      | Some _ =>
          cache_del (sessionID req) ;;
          respond req "You are already registered." false
      | None =>
          let* newUser := saveUser fullName ghanaCard (msisdn req) in
          logActivity (msisdn req) "register" (Register fullName ghanaCard) ;;
          cache_del (sessionID req) ;;
          respond req
            ("Thank you, " +:+ User.fullName newUser +:+ "!
Verification pending. You'll be notified.") false
      end
  else respond req "" true.

(** [case 1:] of the existing-user menu. *)
Definition case_1 (req : Request) (userSession : JsArray.t)
    (userRecord : User.t) : M W Response :=
  if String.eqb (userData req) "1" then
    if negb (String.eqb (User.status userRecord) "verified")
    then respond req "Account under review. Please wait for approval." false
    else
      let message := "Enter loan amount (GHS 10 - 1000):" in
      saveSession (sessionID req)
        (JsArray.push (State.obj (Some 2) message) userSession) ;;
      respond req message true
  else if String.eqb (userData req) "2" then
    let* latestLoan := findLatestLoan (msisdn req) in
    match latestLoan with
    | None => respond req "No loan history." false
    | Some l =>
        respond req
          ("Status: " +:+ Js.toUpperCase (Loan.status l) +:+ "
Amount: GHS " +:+ number_to_string (Loan.amount l) +:+ "
Applied: " +:+ toLocaleDateString (Loan.requestedAt l)) false
    end
  else if String.eqb (userData req) "3" then
    respond req "Support: Call 0800-GATEPLUS or WhatsApp +233 123 456 789"
      false
  else respond req "Invalid option. Choose 1, 2, or 3." false.

(** [case 2:] the loan amount. *)
Definition case_2 (req : Request) (userSession : JsArray.t)
    (currentState : State.t) (userRecord : User.t) : M W Response :=
  let amount := parseFloat (userData req) in
  if out_of_range amount then
    saveSession (sessionID req)
      (JsArray.set_top (State.set_message range_error currentState)
         userSession) ;;
    respond req range_error true
  else
    let* loan := saveLoan (User._id userRecord) (msisdn req) amount in
    logActivity (msisdn req) "loan_request"
      (LoanRequest amount (Loan._id loan)) ;;
    cache_del (sessionID req) ;;
    respond req
      ("Loan request for GHS " +:+ number_to_string amount +:+ " received!
Processing... Funds will be sent shortly.") false.

(** [// === EXISTING USER FLOW ===] *)
Definition existing_user (req : Request) (userSession : JsArray.t)
    (currentState : State.t) : M W Response :=
  let* userRecord := findUser (msisdn req) in
  match userRecord with
  | None => respond req "User not found. Please restart." false
  | Some userRecord =>
      logActivity (msisdn req) "menu"
        (Menu (State.level currentState) (userData req)) ;;
      if bool_decide (State.level currentState = Some 1) then
        case_1 req userSession userRecord
      else if bool_decide (State.level currentState = Some 2) then
        case_2 req userSession currentState userRecord
      else respond req "An error occurred." false
  end.

(** The body of the [try] block. *)
Definition level_step (req : Request) (userSession : JsArray.t)
    (currentState : option State.t) : M W Response :=
  match currentState with
  | None => throw TypeError
  | Some currentState =>
      if in_registration (State.level currentState)
      then registration req userSession currentState
      else existing_user req userSession currentState
  end.

(** The first contact of a session. *)
Definition start (req : Request) : M W Response :=
  let* userRecord := findUser (msisdn req) in
  let message :=
    match userRecord with None => welcome | Some _ => main_menu end in
  let newState :=
    State.set_msisdn (msisdn req)
      (State.set_sessionID (sessionID req)
         (State.obj
            (Some (match userRecord with Some _ => 1 | None => 10 end))
            message)) in
  saveSession (sessionID req) (JsArray.lit [newState]) ;;
  logActivity (msisdn req) "session_start"
    (SessionStart (match userRecord with Some _ => false | None => true end)) ;;
  respond req message true.

(** [app.post('/ussd', async (req, res) => { ... })] *)
Definition ussd (req : Request) : M W Response :=
  let* userSession := getSession (sessionID req) in
  if newSession req then start req
  else
    match userSession with
    | None => respond req expired false
    | Some userSession =>
        if (JsArray.length userSession =? 0)%nat
        then respond req expired false
        else
          try_catch
            (level_step req userSession (JsArray.top userSession))
            (fun _ =>
               cache_del (sessionID req) ;;
               respond req generic_failure false)
    end.

End Engine.

(** An instance of [parseFloat] on unsigned decimal integers, to run the
    engine on concrete inputs; any other string reads as [NaN]. *)
Definition digit_value (c : ascii) : float :=
  match c with
  | "1" => 1 | "2" => 2 | "3" => 3 | "4" => 4 | "5" => 5
  | "6" => 6 | "7" => 7 | "8" => 8 | "9" => 9 | _ => 0
  end%char%float.

Fixpoint parse_digits (acc : float) (s : string) : float :=
  match s with
  | String c s' =>
      if Js.is_digit c
      then parse_digits (acc * 10 + digit_value c)%float s'
      else PrimFloat.nan
  | EmptyString => acc
  end.

Definition parseFloat_digits (s : string) : float :=
  match Js.trim_start s with
  | EmptyString => PrimFloat.nan
  | t => parse_digits 0 t
  end.

End GatePlus.

(** * Vocabulary of the properties

    What the statements below speak of: outcomes of a transition, the
    shapes of inputs and stacks, and the concrete requests and worlds the
    engines are run on. *)

(** What the validator accepts, spelled out: the letters G, H, A in either
    case, a dash, nine digits, a dash, two digits. *)
Definition ghana_card_shape (s : list ascii) : Prop :=
  ∃ g h a ds1 ds2,
    s = g :: h :: a :: "-"%char :: ds1 ++ "-"%char :: ds2
    ∧ (g = "G" ∨ g = "g")%char
    ∧ (h = "H" ∨ h = "h")%char
    ∧ (a = "A" ∨ a = "a")%char
    ∧ length ds1 = 9%nat ∧ Forall (fun c => Js.is_digit c = true) ds1
    ∧ length ds2 = 2%nat ∧ Forall (fun c => Js.is_digit c = true) ds2.

(** The pattern as the specification words it: any three letters, a dash,
    nine digits, a dash, two digits, on the trimmed input. *)
Definition spec_card_re : Regex.re :=
  Regex.Cat (Regex.rep 3 (Regex.Cls Js.is_letter))
    (Regex.Cat (Regex.chr "-")
       (Regex.Cat (Regex.rep 9 Regex.digit)
          (Regex.Cat (Regex.chr "-") (Regex.rep 2 Regex.digit)))).

Definition spec_isValidCard (card : string) : bool :=
  Regex.test_full spec_card_re (Js.trim card).

(** The next round trip is planned to fail. *)
Definition next_fault (fs : list bool) : bool :=
  match fs with
  | true :: _ => true
  | _ => false
  end.

(** The plan holds no fault at all. *)
Definition no_fault (fs : list bool) : Prop := Forall (fun b => b = false) fs.

(** The response the engines build from the request. *)
Definition answer (req : Request) (message : string) (continueSession : bool)
  : Response :=
  mkResponse (sessionID req) (userID req) message continueSession (msisdn req).

(** Retry-in-place on the stack [rest ++ [cur]]: the session continues, the
    stored stack differs from the old one in the message of its top entry
    only, and the repository holds what it held. *)
Definition retried_in_place {DB Call : Type} (req : Request)
    (rest : list State.t) (cur : State.t) (m1 : option State.t)
    (w : World DB Call) (out : Res Response * World DB Call) : Prop :=
  ∃ message,
    out.1 = Ok (answer req message true)
    ∧ cache_get (sessionID req) out.2
      = Some (JsArray.mk (rest ++ [State.set_message message cur]) m1)
    ∧ db out.2 = db w.

(** The world after [saveSession(sessionID, data)]. *)
Definition saved {DB Call : Type} (sid : string) (data : JsArray.t)
    (w : World DB Call) : World DB Call :=
  mkWorld (clock w)
    (<[sid := mkEntry data (clock w + 1000 * 60 * 15)]> (cache w))
    (faults w) (calls w) (db w).

(** The world after [cache.del(sessionID)]. *)
Definition dropped {DB Call : Type} (sid : string) (w : World DB Call)
  : World DB Call :=
  mkWorld (clock w) (delete sid (cache w)) (faults w) (calls w) (db w).

(** The validator each capture step of the sign-up applies to its input. *)
Definition ncstcs_valid (c : NCSTCS.Case) (input : string) : bool :=
  match c with
  | NCSTCS.L10 =>
      let name := Js.trim input in
      negb (String.eqb name "" || (String.length name <? 3)%nat
            || Validators.has_digit name)
  | NCSTCS.L11 => Regex.test_full Validators.username_re (Js.trim input)
  | NCSTCS.L12 => Validators.isValidEmail (Js.trim input)
  | NCSTCS.L13 => negb (String.length (Js.trim input) <? 6)%nat
  | NCSTCS.L15 => Validators.isValidDVLA (Js.toUpperCase (Js.trim input))
  | NCSTCS.L16 => Validators.isValidGhanaCard (Js.toUpperCase (Js.trim input))
  | _ => true
  end.

(** The unique field a capture step looks up, and the value it looks up. *)
Definition ncstcs_unique (c : NCSTCS.Case) (input : string)
  : option (NCSTCS.Field * string) :=
  match c with
  | NCSTCS.L11 => Some (NCSTCS.Username, Js.trim input)
  | NCSTCS.L12 => Some (NCSTCS.Email, Js.trim input)
  | NCSTCS.L15 => Some (NCSTCS.DvlaNumber, Js.toUpperCase (Js.trim input))
  | NCSTCS.L16 => Some (NCSTCS.GhanaCardNumber, Js.toUpperCase (Js.trim input))
  | _ => None
  end.

Definition ncstcs_capture (c : NCSTCS.Case) : bool :=
  match c with
  | NCSTCS.L10 | NCSTCS.L11 | NCSTCS.L12 | NCSTCS.L13 | NCSTCS.L15
  | NCSTCS.L16 => true
  | _ => false
  end.

Definition keeps {DB Call A : Type} (P : DB → Prop)
    (c : M (World DB Call) A) : Prop :=
  ∀ w, P (db w) → P (db (c w).2).

(** Every unique field of the NCSTCS schema holds each value at most once. *)
Definition ncstcs_unique_db (users : list NCSTCS.User) : Prop :=
  ∀ f, NoDup (omap (fun u => NCSTCS.field f (NCSTCS.doc u)) users).

(** The validator each capture step of the sign-up applies to its input. *)
Definition pcrs_valid (c : PCRS.Case) (input : string) : bool :=
  match c with
  | PCRS.L10 =>
      let name := Js.trim input in
      negb (String.eqb name "" || (String.length name <? 3)%nat
            || Validators.has_digit name)
  | PCRS.L11 => Regex.test_full Validators.username_re (Js.trim input)
  | PCRS.L12 => Validators.isValidPhone (Js.trim input)
  | PCRS.L13 => Validators.isValidEmail (Js.trim input)
  | PCRS.L14 => negb (String.length (Js.trim input) <? 6)%nat
  | PCRS.L16 => Validators.isValidDVLA (Js.toUpperCase (Js.trim input))
  | PCRS.L17 => Validators.isValidGhanaCard (Js.toUpperCase (Js.trim input))
  | _ => true
  end.

(** The unique field a capture step looks up, and the value it looks up. *)
Definition pcrs_unique (c : PCRS.Case) (input : string)
  : option (PCRS.Field * string) :=
  match c with
  | PCRS.L11 => Some (PCRS.Username, Js.trim input)
  | PCRS.L12 => Some (PCRS.Phone, Validators.normalizePhone (Js.trim input))
  | PCRS.L13 => Some (PCRS.Email, Js.trim input)
  | PCRS.L16 => Some (PCRS.DvlaNumber, Js.toUpperCase (Js.trim input))
  | PCRS.L17 => Some (PCRS.GhanaCardNumber, Js.toUpperCase (Js.trim input))
  | _ => None
  end.

Definition pcrs_capture (c : PCRS.Case) : bool :=
  match c with
  | PCRS.L10 | PCRS.L11 | PCRS.L12 | PCRS.L13 | PCRS.L14 | PCRS.L16
  | PCRS.L17 => true
  | _ => false
  end.

(** The world after a repository lookup that was issued and came back. *)
Definition looked_up {DB Call : Type} (c : Call) (w : World DB Call)
  : World DB Call :=
  mkWorld (clock w) (cache w) (tail (faults w)) (calls w ++ [c]) (db w).

(** The subscriber record [findById] returns. *)
Definition pcrs_by_id (id : option ObjectId) (users : list PCRS.User)
  : option PCRS.User :=
  match id with
  | Some i => find (fun u => Nat.eqb (PCRS._id u) i) users
  | None => None
  end.

(** The home entry the Home key rebuilds from the stack [us]. *)
Definition pcrs_home_entry (us : JsArray.t) (w : PCRS.W) : State.t :=
  if PCRS.first_loggedIn us then
    State.set_userRef (PCRS.first_userRef us)
      (State.set_loggedIn true
         (State.obj (Some 0)
            (PCRS.member_menu
               (if next_fault (faults w) then "Courier"
                else PCRS.displayName
                       (pcrs_by_id (PCRS.first_userRef us) (db w))))))
  else State.set_loggedIn false (State.obj (Some 0) PCRS.guest_menu).

(** Every unique field of the PCRS schema holds each value at most once. *)
Definition pcrs_unique_db (users : list PCRS.User) : Prop :=
  ∀ f, NoDup (omap (fun u => PCRS.field f (PCRS.doc u)) users).

(** The world after [logActivity] appended its entry. *)
Definition logged (m action : string) (details : GatePlus.Details)
    (w : GatePlus.W) : GatePlus.W :=
  mkWorld (clock w) (cache w) (tail (faults w))
    (calls w ++ [GatePlus.LogCreate m action details])
    (GatePlus.mkDb (GatePlus.users (db w)) (GatePlus.loans (db w))
       (GatePlus.logs (db w)
        ++ [GatePlus.ActivityLog.mk m action details (clock w)])).



(** The menu entry logged before the existing-user switch. *)
Definition menu_logged (req : Request) (cur : State.t) (w : GatePlus.W)
  : GatePlus.W :=
  logged (msisdn req) "menu"
    (GatePlus.Menu (State.level cur) (userData req))
    (looked_up (GatePlus.UserFindOne (msisdn req)) w).

(** [chain below l]: in the stack [l], read from the top, every entry sits
    on the entry its level is pushed on, down to one entry at level 0. *)
Fixpoint chain (below : Z → option Z) (l : list State.t) : Prop :=
  match l with
  | [] => False
  | c :: l' =>
      match l' with
      | [] => State.level c = Some 0
      | p :: _ =>
          (∃ n m, State.level c = Some n ∧ State.level p = Some m
                  ∧ below n = Some m)
          ∧ chain below l'
      end
  end.

Definition well_stacked (below : Z → option Z) (us : JsArray.t) : Prop :=
  chain below (rev (JsArray.items us)).

(** Every live session holds a well-built stack. *)
Definition sessions_well_stacked {DB Call : Type} (below : Z → option Z)
    (w : World DB Call) : Prop :=
  ∀ sid us, cache_get sid w = Some us → well_stacked below us.

(** The level an NCSTCS entry is pushed on. *)
Definition ncstcs_below (l : Z) : option Z :=
  match l with
  | 10 | 30 => Some 0
  | 11 => Some 10
  | 12 => Some 11
  | 13 => Some 12
  | 14 => Some 13
  | 15 => Some 14
  | 16 => Some 15
  | _ => None
  end.

(** The level a PCRS entry is pushed on. *)
Definition pcrs_below (l : Z) : option Z :=
  match l with
  | 5 | 30 => Some 0
  | 10 => Some 5
  | 11 => Some 10
  | 12 => Some 11
  | 13 => Some 12
  | 14 => Some 13
  | 15 => Some 14
  | 16 => Some 15
  | 17 => Some 16
  | _ => None
  end.

(** A computation moves well when every stack the store holds afterwards
    was there before or is well built. *)
Definition moves_well {DB Call A : Type} (below : Z → option Z)
    (c : M (World DB Call) A) : Prop :=
  ∀ w sid us,
    cache_get sid (c w).2 = Some us →
    cache_get sid w = Some us ∨ well_stacked below us.

(** Time passes: the clock advances by [d] milliseconds. *)
Definition elapse {DB Call : Type} (d : Z) (w : World DB Call) : World DB Call :=
  mkWorld (clock w + d) (cache w) (faults w) (calls w) (db w).

(** The handler runs on the request, and once more after each delay. *)
Fixpoint resend {DB Call : Type} (handler : M (World DB Call) Response)
    (delays : list Z) (w : World DB Call)
  : list (Res Response) * World DB Call :=
  let (r, w1) := handler w in
  match delays with
  | [] => ([r], w1)
  | d :: ds =>
      let (rs, w2) := resend handler ds (elapse d w1) in
      (r :: rs, w2)
  end.

(** The identity-card number the final step reads from the input. *)
Definition card_of (req : Request) : string :=
  Js.toUpperCase (Js.trim (userData req)).

(** The document the final step of NCSTCS creates from the top entry. *)
Definition ncstcs_new_user (hash : string → string) (cur : State.t)
    (p card : string) : NCSTCS.Fields :=
  NCSTCS.mkFields (State.username cur) (Some (hash p)) "courier"
    (State.name cur) (State.email cur) (State.dvlaNumber cur) (Some card).

Definition pcrs_new_user (hash : string → string) (cur : State.t)
    (p card : string) : PCRS.Fields :=
  PCRS.mkFields (State.username cur) (Some (hash p)) "courier"
    (State.name cur) (State.phone cur) (State.email cur)
    (State.dvlaNumber cur) (Some card).

(** The world after the handler has taken the requests in turn. *)
Fixpoint run_all {W : Type} (handler : Request → M W Response)
    (reqs : list Request) (w : W) : W :=
  match reqs with
  | [] => w
  | r :: rs => run_all handler rs (handler r w).2
  end.

(** The same world under another fault plan. *)
Definition plan {DB Call : Type} (fs : list bool) (w : World DB Call)
  : World DB Call :=
  mkWorld (clock w) (cache w) fs (calls w) (db w).

(** The request that opens session [sid] for subscriber [m], and a request
    carrying [input] within it. *)
Definition first_contact (sid m : string) : Request :=
  mkRequest sid "u1" true m "".

Definition keyed (sid m input : string) : Request :=
  mkRequest sid "u1" false m input.

(** ** Concrete runs

    The worlds the engines are run on below are reached from an empty
    store and repository by running the engines themselves, except where a
    level no case handles has to be planted. *)

(** An instance of [bcrypt.hash] to run the engines on concrete inputs. *)
Definition sample_hash (p : string) : string := "$2a$10$" +:+ p.

(** Instances of the number and date formatting of GatePlus. *)
Definition sample_number_to_string (x : float) : string := "<amount>".

Definition sample_date_to_string (t : Z) : string := "<date>".

Definition gateplus_run : Request → M GatePlus.W Response :=
  GatePlus.ussd GatePlus.parseFloat_digits sample_number_to_string
    sample_date_to_string.

Definition kofi : string := "0201234567".

Definition kwame : string := "0241234567".

Definition ncstcs_empty : NCSTCS.W := mkWorld 0 ∅ [] [] [].

Definition pcrs_empty : PCRS.W := mkWorld 0 ∅ [] [] [].

Definition gateplus_empty : GatePlus.W :=
  mkWorld 0 ∅ [] [] (GatePlus.mkDb [] [] []).

(** Kofi signs up with NCSTCS in session s1, up to the identity-card
    prompt. *)
Definition ncstcs_signup_kofi : list Request :=
  [first_contact "s1" kofi; keyed "s1" kofi "1"; keyed "s1" kofi "Kofi Boateng";
   keyed "s1" kofi "kofi"; keyed "s1" kofi "kofi@example.com";
   keyed "s1" kofi "secret1"; keyed "s1" kofi "secret1";
   keyed "s1" kofi "DV-55555"].

(** The entries that sign-up stacks up, bottom first. *)
Definition ncstcs_password_entry : State.t :=
  State.set_email (Some "kofi@example.com")
    (State.set_username (Some "kofi")
       (State.set_name (Some "Kofi Boateng")
          (State.obj (Some 13) "Create Password:"))).

Definition ncstcs_confirm_entry : State.t :=
  State.set_message "Confirm Password:"
    (State.set_password "secret1" (State.set_level 14 ncstcs_password_entry)).

Definition ncstcs_card_entry : State.t :=
  State.set_message "Enter Ghana Card (e.g., GHA-123456789-01):"
    (State.set_dvlaNumber "DV-55555"
       (State.set_level 16
          (State.set_message "Enter DVLA License Number:"
             (State.set_level 15 ncstcs_confirm_entry)))).

Definition ncstcs_kofi_entries : list State.t :=
  [State.obj (Some 0) NCSTCS.home_menu;
   State.obj (Some 10) "Enter Full Name:";
   State.set_name (Some "Kofi Boateng")
     (State.obj (Some 11) "Choose a Username:");
   State.set_username (Some "kofi")
     (State.set_name (Some "Kofi Boateng") (State.obj (Some 12) "Enter Email:"));
   ncstcs_password_entry;
   ncstcs_confirm_entry;
   State.set_message "Enter DVLA License Number:"
     (State.set_level 15 ncstcs_confirm_entry);
   ncstcs_card_entry].

(** Another subscriber signs up in session s2 and takes the username kofi;
    the sign-up is run to its end. *)
Definition ncstcs_signup_rival : list Request :=
  [first_contact "s2" kwame; keyed "s2" kwame "1"; keyed "s2" kwame "Kofi Annan";
   keyed "s2" kwame "kofi"; keyed "s2" kwame "annan@example.com";
   keyed "s2" kwame "other12"; keyed "s2" kwame "other12";
   keyed "s2" kwame "DV-11111"; keyed "s2" kwame "GHA-111111111-01"].

Definition ncstcs_rival : NCSTCS.User :=
  NCSTCS.mkUser 0%nat
    (NCSTCS.mkFields (Some "kofi") (Some "$2a$10$other12") "courier"
       (Some "Kofi Annan") (Some "annan@example.com") (Some "DV-11111")
       (Some "GHA-111111111-01")).

(** The NCSTCS session that has just started. *)
Definition ncstcs_fresh : NCSTCS.W :=
  run_all (NCSTCS.ussd sample_hash) (firstn 1 ncstcs_signup_kofi) ncstcs_empty.

(** ... at the full-name step. *)
Definition ncstcs_at_name : NCSTCS.W :=
  run_all (NCSTCS.ussd sample_hash) (firstn 2 ncstcs_signup_kofi) ncstcs_empty.

(** ... three levels deep, at the username step. *)
Definition ncstcs_deep : NCSTCS.W :=
  run_all (NCSTCS.ussd sample_hash) (firstn 3 ncstcs_signup_kofi) ncstcs_empty.


(** ... at the identity-card step, the rival's sign-up having completed in
    the meantime. *)
Definition ncstcs_at_card : NCSTCS.W :=
  run_all (NCSTCS.ussd sample_hash) (ncstcs_signup_kofi ++ ncstcs_signup_rival)
    ncstcs_empty.

(** Kwame signs up with PCRS in session s0, to the end. *)
Definition pcrs_signup_kwame : list Request :=
  [first_contact "s0" kwame; keyed "s0" kwame "1"; keyed "s0" kwame "1";
   keyed "s0" kwame "Kwame Mensah"; keyed "s0" kwame "kwame";
   keyed "s0" kwame "0241234567"; keyed "s0" kwame "kwame@example.com";
   keyed "s0" kwame "secret1"; keyed "s0" kwame "secret1";
   keyed "s0" kwame "DV-12345"; keyed "s0" kwame "GHA-123456789-01"].

(** Kwame, now known by his number, opens session s1 and enters the lookup
    flow. *)
Definition pcrs_member : PCRS.W :=
  run_all (PCRS.ussd sample_hash)
    (pcrs_signup_kwame ++ [first_contact "s1" kwame; keyed "s1" kwame "2"])
    pcrs_empty.

Definition pcrs_member_stack : JsArray.t :=
  JsArray.lit
    [State.set_userRef (Some 0%nat)
       (State.set_loggedIn true
          (State.obj (Some 0) (PCRS.member_menu "Kwame Mensah")));
     State.obj (Some 30) "Enter DVLA or Ghana Card Number:"].

(** Kofi signs up with PCRS in session s1, up to the identity-card prompt. *)
Definition pcrs_signup_kofi : list Request :=
  [first_contact "s1" kofi; keyed "s1" kofi "1"; keyed "s1" kofi "1";
   keyed "s1" kofi "Kofi Boateng"; keyed "s1" kofi "kofi";
   keyed "s1" kofi "0201234567"; keyed "s1" kofi "kofi@example.com";
   keyed "s1" kofi "secret1"; keyed "s1" kofi "secret1";
   keyed "s1" kofi "DV-55555"].

Definition pcrs_username_stack : JsArray.t :=
  JsArray.lit
    [State.set_loggedIn false (State.obj (Some 0) PCRS.guest_menu);
     State.obj (Some 5) PCRS.signup_info;
     State.obj (Some 10) "Enter Full Name:";
     State.set_name (Some "Kofi Boateng")
       (State.obj (Some 11) "Choose a Username:")].

(** The PCRS sign-up at the username step, the repository being down. *)
Definition pcrs_down : PCRS.W :=
  plan [true]
    (run_all (PCRS.ussd sample_hash) (firstn 4 pcrs_signup_kofi) pcrs_empty).

(** The PCRS sign-up at the identity-card step; the next lookup comes back,
    the round trip after it does not. *)
Definition pcrs_at_card_failing : PCRS.W :=
  plan [false; true]
    (run_all (PCRS.ussd sample_hash) pcrs_signup_kofi pcrs_empty).

(** Kwame's PCRS session in the lookup flow, the repository being down. *)
Definition pcrs_member_down : PCRS.W := plan [true] pcrs_member.

(** Kwame registers with GatePlus in session s0. *)
Definition gateplus_registered : GatePlus.W :=
  run_all gateplus_run
    [first_contact "s0" kwame; keyed "s0" kwame "Kwame Mensah";
     keyed "s0" kwame "GHA-123456789-01"]
    gateplus_empty.

(** The administrator approves him. *)
Definition gateplus_approved : GatePlus.W :=
  (GatePlus.approve kwame gateplus_registered).2.

(** His record.  The card step reads the name from the first entry at
    level 10, and the name step stores it on the entry it pushes, at level
    11: the record is created under the fallback name. *)
Definition gateplus_member : GatePlus.User.t :=
  GatePlus.User.mk 0%nat "Unknown" "GHA-123456789-01" kwame "verified"
    (Some 0) 0.

(** He opens session s1 and asks for a loan: the loan-amount step. *)
Definition gateplus_at_amount : GatePlus.W :=
  run_all gateplus_run [first_contact "s1" kwame; keyed "s1" kwame "1"]
    gateplus_approved.

(** His session at the main menu. *)
Definition gateplus_at_menu : GatePlus.W :=
  run_all gateplus_run [first_contact "s1" kwame] gateplus_approved.

(** A level no case handles is planted on top of a started session. *)
Definition plant {DB Call : Type} (sid : string) (s : State.t)
    (w : World DB Call) : World DB Call :=
  match cache_get sid w with
  | Some us => (saveSession sid (JsArray.push s us) w).2
  | None => w
  end.

Definition ncstcs_odd : NCSTCS.W :=
  plant "s1" (State.obj (Some 7) "?") ncstcs_fresh.

Definition gateplus_odd : GatePlus.W :=
  plant "s1" (State.obj (Some 3) "?") gateplus_at_menu.

(** ** Vocabulary of the further properties *)

(** [trim] on the list of characters of a string: leading white space is
    dropped, and trailing white space likewise. *)
Fixpoint drop_spaces (l : list ascii) : list ascii :=
  match l with
  | c :: l' => if Js.is_space c then drop_spaces l' else l
  | [] => []
  end.

Definition trimmed (l : list ascii) : list ascii :=
  rev (drop_spaces (rev (drop_spaces l))).

(** [n] decimal digits. *)
Definition digits (n : nat) (ds : list ascii) : Prop :=
  length ds = n ∧ Forall (fun c => Js.is_digit c = true) ds.

(** The three spellings of the subscriber number [ds] the phone validator
    knows: national with a leading 0, international with and without +. *)
Definition spelled (s ds : list ascii) : Prop :=
  (s = "0" :: ds ∨ s = "2" :: "3" :: "3" :: ds
   ∨ s = "+" :: "2" :: "3" :: "3" :: ds)%char.

(** [+233XXXXXXXXX] *)
Definition e164 (ds : list ascii) : string :=
  string_of_list_ascii ("+" :: "2" :: "3" :: "3" :: ds)%char.

(** One of the three parts of an address: not empty, and free of white
    space and of @. *)
Definition email_part (a : list ascii) : Prop :=
  a ≠ [] ∧ Forall (fun c => Js.is_space c = false ∧ c ≠ "@"%char) a.

Definition email_shape (s : list ascii) : Prop :=
  ∃ a b c, s = a ++ "@"%char :: b ++ "."%char :: c
           ∧ email_part a ∧ email_part b ∧ email_part c.

(** The characters of a license number and of a username. *)
Definition dvla_char (c : ascii) : bool :=
  Js.is_letter c || Js.is_digit c || Ascii.eqb c "-".

Definition username_char (c : ascii) : bool :=
  Js.is_letter c || Js.is_digit c || Ascii.eqb c "_" || Ascii.eqb c "."
  || Ascii.eqb c "-".

(** Every character class of [r] gives the same answer on a character and
    on its image under [f]. *)
Fixpoint classes_stable (f : ascii → ascii) (r : Regex.re) : Prop :=
  match r with
  | Regex.Cls p => ∀ c, p (f c) = p c
  | Regex.Cat r1 r2 | Regex.Alt r1 r2 =>
      classes_stable f r1 ∧ classes_stable f r2
  | Regex.Star r1 => classes_stable f r1
  | Regex.Void | Regex.Eps => True
  end.

(** The key under which a card number is looked up and stored. *)
Definition card_key (ds1 ds2 : list ascii) : string :=
  string_of_list_ascii
    ("G" :: "H" :: "A" :: "-" :: ds1 ++ "-" :: ds2)%char.

(** The computation returns, whatever the world. *)
Definition answers {W A : Type} (c : M W A) : Prop := ∀ w, ∃ a, (c w).1 = Ok a.

(** The computation takes every world to one related to it by [R]. *)
Definition leads {W A : Type} (R : relation W) (c : M W A) : Prop :=
  ∀ w, R w (c w).2.

(** Outside the session [sid] the store reads as before: the clock has not
    moved and the entries of the other sessions are the same. *)
Definition apart {DB Call : Type} (sid : string) (w w' : World DB Call) : Prop :=
  clock w' = clock w ∧ ∀ sid', sid' ≠ sid → cache w' !! sid' = cache w !! sid'.

(** The repositories of two worlds are related by [Q]. *)
Definition on_db {DB Call : Type} (Q : relation DB) (w w' : World DB Call)
  : Prop := Q (db w) (db w').

(** GatePlus: each collection has kept its documents, in place. *)
Definition gateplus_grown (d d' : GatePlus.Db) : Prop :=
  GatePlus.users d `prefix_of` GatePlus.users d'
  ∧ GatePlus.loans d `prefix_of` GatePlus.loans d'
  ∧ GatePlus.logs d `prefix_of` GatePlus.logs d'.

(** The entry a capture step of NCSTCS pushes when it accepts the input:
    the next prompt, with the fields captured so far. *)
Definition ncstcs_next (c : NCSTCS.Case) (cur : State.t) (input : string)
  : option State.t :=
  match c with
  | NCSTCS.L10 =>
      Some (State.set_name (Some (Js.trim input))
              (State.obj (Some 11) "Choose a Username:"))
  | NCSTCS.L11 =>
      Some (State.set_username (Some (Js.trim input))
              (State.set_name (State.name cur)
                 (State.obj (Some 12) "Enter Email:")))
  | NCSTCS.L12 =>
      Some (State.set_email (Some (Js.trim input))
              (State.set_username (State.username cur)
                 (State.set_name (State.name cur)
                    (State.obj (Some 13) "Create Password:"))))
  | NCSTCS.L13 =>
      Some (State.set_message "Confirm Password:"
              (State.set_password (Js.trim input) (State.set_level 14 cur)))
  | NCSTCS.L15 =>
      Some (State.set_message "Enter Ghana Card (e.g., GHA-123456789-01):"
              (State.set_dvlaNumber (Js.toUpperCase (Js.trim input))
                 (State.set_level 16 cur)))
  | _ => None
  end.

(** The world after the lookup a capture step issues, if it issues one. *)
Definition ncstcs_asked (c : NCSTCS.Case) (input : string) (w : NCSTCS.W)
  : NCSTCS.W :=
  match ncstcs_unique c input with
  | Some (f, v) => looked_up (NCSTCS.FindOne f v) w
  | None => w
  end.

(** The value the step looks up is held by no record. *)
Definition ncstcs_free (c : NCSTCS.Case) (input : string) (w : NCSTCS.W)
  : Prop :=
  match ncstcs_unique c input with
  | Some (f, v) =>
      next_fault (faults w) = false ∧ find (NCSTCS.has f v) (db w) = None
  | None => True
  end.

(** The responses to the requests taken in turn, and the world they leave. *)
Fixpoint converse {W : Type} (handler : Request → M W Response)
    (reqs : list Request) (w : W) : list (Res Response) * W :=
  match reqs with
  | [] => ([], w)
  | r :: rs =>
      let (a, w1) := handler r w in
      let (rest, w2) := converse handler rs w1 in
      (a :: rest, w2)
  end.

(** The world after [User.create(d)] stored the document. *)
Definition ncstcs_created (d : NCSTCS.Fields) (w : NCSTCS.W) : NCSTCS.W :=
  mkWorld (clock w) (cache w) (tail (faults w)) (calls w ++ [NCSTCS.Create d])
    (db w ++ [NCSTCS.mkUser (length (db w)) d]).

(** A whole sign-up dialogue with NCSTCS. *)
Definition ncstcs_sign_up (sid m name username email password dvla card : string)
  : list Request :=
  [first_contact sid m; keyed sid m "1"; keyed sid m name;
   keyed sid m username; keyed sid m email; keyed sid m password;
   keyed sid m password; keyed sid m dvla; keyed sid m card].

(** The record such a dialogue is to store. *)
Definition ncstcs_courier (hash : string → string)
    (name username email password dvla card : string) : NCSTCS.Fields :=
  NCSTCS.mkFields (Some (Js.trim username)) (Some (hash (Js.trim password)))
    "courier" (Some (Js.trim name)) (Some (Js.trim email))
    (Some (Js.toUpperCase (Js.trim dvla)))
    (Some (Js.toUpperCase (Js.trim card))).

(** The responses that carry the messages [ms] of session [sid]. *)
Definition transcript (sid m : string) (ms : list (string * bool))
  : list (Res Response) :=
  map (fun mc => Ok (mkResponse sid "u1" (fst mc) (snd mc) m)) ms.

(** The entry a capture step of PCRS pushes when it accepts the input. *)
Definition pcrs_next (c : PCRS.Case) (cur : State.t) (input : string)
  : option State.t :=
  match c with
  | PCRS.L10 =>
      Some (State.set_name (Some (Js.trim input))
              (State.obj (Some 11) "Choose a Username:"))
  | PCRS.L11 =>
      Some (State.set_username (Some (Js.trim input))
              (State.set_name (State.name cur)
                 (State.obj (Some 12)
                    "Enter Phone Number (e.g., 024XXXXXXX):")))
  | PCRS.L12 =>
      Some (State.set_phone
              (Some (Validators.normalizePhone (Js.trim input)))
              (State.set_username (State.username cur)
                 (State.set_name (State.name cur)
                    (State.obj (Some 13) "Enter Email:"))))
  | PCRS.L13 =>
      Some (State.set_email (Some (Js.trim input))
              (State.set_phone (State.phone cur)
                 (State.set_username (State.username cur)
                    (State.set_name (State.name cur)
                       (State.obj (Some 14) "Create Password:")))))
  | PCRS.L14 =>
      Some (State.set_message "Confirm Password:"
              (State.set_password (Js.trim input) (State.set_level 15 cur)))
  | PCRS.L16 =>
      Some (State.set_message "Enter Ghana Card (e.g., GHA-123456789-01):"
              (State.set_dvlaNumber (Js.toUpperCase (Js.trim input))
                 (State.set_level 17 cur)))
  | _ => None
  end.

Definition pcrs_asked (c : PCRS.Case) (input : string) (w : PCRS.W) : PCRS.W :=
  match pcrs_unique c input with
  | Some (f, v) => looked_up (PCRS.FindOne f v) w
  | None => w
  end.

Definition pcrs_free (c : PCRS.Case) (input : string) (w : PCRS.W) : Prop :=
  match pcrs_unique c input with
  | Some (f, v) =>
      next_fault (faults w) = false ∧ find (PCRS.has f v) (db w) = None
  | None => True
  end.

Definition pcrs_created (d : PCRS.Fields) (w : PCRS.W) : PCRS.W :=
  mkWorld (clock w) (cache w) (tail (faults w)) (calls w ++ [PCRS.Create d])
    (db w ++ [PCRS.mkUser (length (db w)) d]).

(** The bottom entry of a guest's and of a subscriber's session. *)
Definition pcrs_guest_entry : State.t :=
  State.set_loggedIn false (State.obj (Some 0) PCRS.guest_menu).

Definition pcrs_member_entry (u : PCRS.User) : State.t :=
  State.set_userRef (Some (PCRS._id u))
    (State.set_loggedIn true
       (State.obj (Some 0) (PCRS.member_menu (PCRS.displayName (Some u))))).

(** A whole sign-up dialogue with PCRS; [ack] is whatever the caller keys
    at the information screen. *)
Definition pcrs_sign_up
    (sid m ack name username phone email password dvla card : string)
  : list Request :=
  [first_contact sid m; keyed sid m "1"; keyed sid m ack; keyed sid m name;
   keyed sid m username; keyed sid m phone; keyed sid m email;
   keyed sid m password; keyed sid m password; keyed sid m dvla;
   keyed sid m card].

Definition pcrs_courier (hash : string → string)
    (name username phone email password dvla card : string) : PCRS.Fields :=
  PCRS.mkFields (Some (Js.trim username)) (Some (hash (Js.trim password)))
    "courier" (Some (Js.trim name))
    (Some (Validators.normalizePhone (Js.trim phone)))
    (Some (Js.trim email))
    (Some (Js.toUpperCase (Js.trim dvla)))
    (Some (Js.toUpperCase (Js.trim card))).

(** The path a lookup key is searched under: the card number when the key
    has the shape of one, the license number otherwise. *)
Definition ncstcs_lookup_field (key : string) : NCSTCS.Field :=
  if Validators.isValidGhanaCard key then NCSTCS.GhanaCardNumber
  else NCSTCS.DvlaNumber.

Definition pcrs_lookup_field (key : string) : PCRS.Field :=
  if Validators.isValidGhanaCard key then PCRS.GhanaCardNumber
  else PCRS.DvlaNumber.

(** The JSON of a courier. *)
Definition ncstcs_json (u : NCSTCS.User) : NCSTCS.Body :=
  NCSTCS.Courier (NCSTCS.username (NCSTCS.doc u)) (NCSTCS.name (NCSTCS.doc u))
    (NCSTCS.email (NCSTCS.doc u)) (NCSTCS.dvlaNumber (NCSTCS.doc u))
    (NCSTCS.ghanaCardNumber (NCSTCS.doc u)) (NCSTCS.role (NCSTCS.doc u)).

Definition pcrs_json (u : PCRS.User) : PCRS.Body :=
  PCRS.Courier (PCRS.username (PCRS.doc u)) (PCRS.name (PCRS.doc u))
    (PCRS.phone (PCRS.doc u)) (PCRS.email (PCRS.doc u))
    (PCRS.dvlaNumber (PCRS.doc u)) (PCRS.ghanaCardNumber (PCRS.doc u))
    (PCRS.role (PCRS.doc u)).

(** The key [/courier/lookup] searches for. *)
Definition lookup_key (id : option string) : string :=
  Js.toUpperCase (Js.trim (Js.or_else id "")).

(** The number of entries under an entry of level [n] in a well-built
    stack, the entry included. *)
Fixpoint depth_below (below : Z → option Z) (fuel : nat) (n : Z) : option nat :=
  match fuel with
  | O => None
  | S fuel' =>
      if n =? 0 then Some 1%nat
      else match below n with
           | Some m => S <$> depth_below below fuel' m
           | None => None
           end
  end.

(** The message the final step ends the session with, by the outcome of the
    create. *)
Definition signup_ending {A : Type} (r : Res A) : string :=
  match r with
  | Ok _ => "Registration successful!"
  | Throw _ => "Registration failed. Try again later."
  end.

(** The subscriber record of [m], if the repository holds one. *)
Definition gateplus_user (m : string) (w : GatePlus.W) : option GatePlus.User.t :=
  find (fun u => String.eqb (GatePlus.User.msisdn u) m) (GatePlus.users (db w)).

(** The entry a first contact stores, for a known and for a new caller. *)
Definition gateplus_first_entry (req : Request) (known : bool) : State.t :=
  State.set_msisdn (msisdn req)
    (State.set_sessionID (sessionID req)
       (State.obj (Some (if known then 1 else 10))
          (if known then GatePlus.main_menu else GatePlus.welcome))).

(** The record [newUser.save()] stores, and the world after it did. *)
Definition gateplus_new_user (fullName ghanaCard m : string) (w : GatePlus.W)
  : GatePlus.User.t :=
  GatePlus.User.mk (length (GatePlus.users (db w))) fullName ghanaCard m
    "pending_verification" None (clock w).

Definition gateplus_stored (fullName ghanaCard m : string) (w : GatePlus.W)
  : GatePlus.W :=
  mkWorld (clock w) (cache w) (tail (faults w))
    (calls w ++ [GatePlus.UserSave fullName ghanaCard m])
    (GatePlus.mkDb
       (GatePlus.users (db w) ++ [gateplus_new_user fullName ghanaCard m w])
       (GatePlus.loans (db w)) (GatePlus.logs (db w))).

(** The name the card step reads back from the stack. *)
Definition gateplus_name_read (us : JsArray.t) : string :=
  Js.or_else
    (match JsArray.find (fun s => bool_decide (State.level s = Some 10)) us with
     | Some s => State.fullName s
     | None => None
     end) "Unknown".

(** The record of [u] once the administrator has approved it at [t]. *)
Definition gateplus_verified (u : GatePlus.User.t) (t : Z) : GatePlus.User.t :=
  GatePlus.User.mk (GatePlus.User._id u) (GatePlus.User.fullName u)
    (GatePlus.User.ghanaCard u) (GatePlus.User.msisdn u) "verified" (Some t)
    (GatePlus.User.createdAt u).

(** The world after [user.save()] replaced the record. *)
Definition gateplus_updated (u : GatePlus.User.t) (w : GatePlus.W) : GatePlus.W :=
  mkWorld (clock w) (cache w) (tail (faults w))
    (calls w ++ [GatePlus.UserUpdate u])
    (GatePlus.mkDb
       (map (fun v =>
               if Nat.eqb (GatePlus.User._id v) (GatePlus.User._id u)
               then u else v) (GatePlus.users (db w)))
       (GatePlus.loans (db w)) (GatePlus.logs (db w))).

(** The latest loan of [m]. *)
Definition gateplus_latest (m : string) (w : GatePlus.W) : option GatePlus.Loan.t :=
  fold_left GatePlus.later
    (List.filter (fun l => String.eqb (GatePlus.Loan.msisdn l) m)
       (GatePlus.loans (db w))) None.

(** A name the name steps take: [n] characters or more, none of them a
    digit. *)
Definition name_ok (n : nat) (name : list ascii) : bool :=
  (n <=? length name)%nat && forallb (fun c => negb (Js.is_digit c)) name.

(** The loans of [m], in the order they were stored. *)
Definition gateplus_loans_of (m : string) (w : GatePlus.W) : list GatePlus.Loan.t :=
  List.filter (fun l => String.eqb (GatePlus.Loan.msisdn l) m)
    (GatePlus.loans (db w)).

(** The report of a loan's status. *)
Definition gateplus_report (number_to_string : float → string)
    (toLocaleDateString : Z → string) (l : GatePlus.Loan.t) : string :=
  "Status: " +:+ Js.toUpperCase (GatePlus.Loan.status l) +:+ "
Amount: GHS " +:+ number_to_string (GatePlus.Loan.amount l) +:+ "
Applied: " +:+ toLocaleDateString (GatePlus.Loan.requestedAt l).

(** A subscriber record as the schema wants it. *)
Definition gateplus_user_ok (u : GatePlus.User.t) : Prop :=
  GatePlus.User.fullName u ≠ "" ∧ GatePlus.User.msisdn u ≠ ""
  ∧ Regex.test_full Validators.ghana_card_re (GatePlus.User.ghanaCard u) = true.

(** A loan as the schema wants it, owned by a subscriber of [users]. *)
Definition gateplus_loan_ok (users : list GatePlus.User.t) (l : GatePlus.Loan.t)
  : Prop :=
  GatePlus.out_of_range (GatePlus.Loan.amount l) = false
  ∧ GatePlus.Loan.status l = "loan_pending"
  ∧ ∃ u, In u users ∧ GatePlus.User._id u = GatePlus.Loan.userId l
         ∧ GatePlus.User.msisdn u = GatePlus.Loan.msisdn l.

(** The repository of GatePlus is sound: identifiers number the records in
    order, no two subscribers share a number, and every record and loan is
    as its schema wants it. *)
Definition gateplus_sound (d : GatePlus.Db) : Prop :=
  map GatePlus.User._id (GatePlus.users d) = seq 0 (length (GatePlus.users d))
  ∧ NoDup (map GatePlus.User.msisdn (GatePlus.users d))
  ∧ Forall gateplus_user_ok (GatePlus.users d)
  ∧ Forall (gateplus_loan_ok (GatePlus.users d)) (GatePlus.loans d).

(** The repository is sound and holds the subscriber [u]. *)
Definition gateplus_sound_with (u : GatePlus.User.t) (d : GatePlus.Db) : Prop :=
  gateplus_sound d ∧ In u (GatePlus.users d).

(** ** Further runs *)

(** A first request of session s2 reaches PCRS without the session having
    been opened, the repository being down. *)
Definition pcrs_guest_down : PCRS.W := plan [true] pcrs_empty.

(** Kofi's whole sign-up with NCSTCS, and the record it is to store. *)
Definition ncstcs_kofi : NCSTCS.Fields :=
  ncstcs_courier sample_hash "Kofi Boateng" "kofi" "kofi@example.com" "secret1"
    "DV-55555" "gha-987654321-02".

(** Ama signs up with NCSTCS under a license number that has the shape of
    a card number. *)
Definition ncstcs_with_ama : NCSTCS.W :=
  (converse (NCSTCS.ussd sample_hash)
     (ncstcs_sign_up "s3" "0271234567" "Ama Owusu" "ama" "ama@example.com"
        "secret3" "GHA-123456789-01" "GHA-222222222-02") ncstcs_empty).2.

Definition ncstcs_ama : NCSTCS.User :=
  NCSTCS.mkUser 0%nat
    (NCSTCS.mkFields (Some "ama") (Some "$2a$10$secret3") "courier"
       (Some "Ama Owusu") (Some "ama@example.com") (Some "GHA-123456789-01")
       (Some "GHA-222222222-02")).

(** Kwame's whole sign-up with PCRS, and his record. *)
Definition pcrs_kwame : PCRS.Fields :=
  pcrs_courier sample_hash "Kwame Mensah" "kwame" "0241234567"
    "kwame@example.com" "secret1" "DV-12345" "GHA-123456789-01".

Definition pcrs_with_kwame : PCRS.W :=
  run_all (PCRS.ussd sample_hash) pcrs_signup_kwame pcrs_empty.

(** Kwame's GatePlus session at the main menu, before his approval. *)
Definition gateplus_pending_at_menu : GatePlus.W :=
  run_all gateplus_run [first_contact "s1" kwame] gateplus_registered.

Definition gateplus_pending_member : GatePlus.User.t :=
  GatePlus.User.mk 0%nat "Unknown" "GHA-123456789-01" kwame
    "pending_verification" None 0.

(** Kwame has asked for GHS 50 and is back at the main menu, in session
    s2. *)
Definition gateplus_after_loan : GatePlus.W :=
  run_all gateplus_run
    [keyed "s1" kwame "50"; first_contact "s2" kwame] gateplus_at_amount.

(** Kwame, known to PCRS by his number, at the home menu of session s1. *)
Definition pcrs_member_home : PCRS.W :=
  run_all (PCRS.ussd sample_hash) [first_contact "s1" kwame] pcrs_with_kwame.

(** The first GatePlus session of an unknown number, at the name step. *)
Definition gateplus_at_name : GatePlus.W :=
  run_all gateplus_run [first_contact "s0" kwame] gateplus_empty.

(** * Properties *)

(** ** The matcher decides the language of a regular expression *)

Section RegexFacts.
Import Regex.

Lemma lang_cls_inv (p : ascii → bool) (s : list ascii) :
  lang (Cls p) s ↔ ∃ c, s = [c] ∧ p c = true.
Proof.
  split.
  - intros H. inversion H; subst. eauto.
  - intros (c & -> & H). by constructor.
Qed.

Lemma lang_cat_inv (r1 r2 : re) (s : list ascii) :
  lang (Cat r1 r2) s ↔ ∃ s1 s2, s = s1 ++ s2 ∧ lang r1 s1 ∧ lang r2 s2.
Proof.
  split.
  - intros H. inversion H; subst. eauto.
  - intros (s1 & s2 & -> & H1 & H2). by constructor.
Qed.

Lemma lang_alt_inv (r1 r2 : re) (s : list ascii) :
  lang (Alt r1 r2) s ↔ lang r1 s ∨ lang r2 s.
Proof.
  split.
  - intros H. inversion H; subst; eauto.
  - intros [H|H]; [by apply lang_alt_l | by apply lang_alt_r].
Qed.

Lemma nullable_lang (r : re) : nullable r = true ↔ lang r [].
Proof.
  induction r as [| |p|r1 IH1 r2 IH2|r1 IH1 r2 IH2|r IH]; simpl.
  - split; [done | intros H; inversion H].
  - split; [constructor | done].
  - split; [done | intros H; inversion H].
  - rewrite andb_true_iff, lang_cat_inv, IH1, IH2. split.
    + intros [H1 H2]. by exists [], [].
    + intros (s1 & s2 & Heq & H1 & H2). symmetry in Heq.
      apply app_eq_nil in Heq as [-> ->]. done.
  - by rewrite orb_true_iff, lang_alt_inv, IH1, IH2.
  - split; [constructor | done].
Qed.

Lemma lang_star_cons_inv (r : re) (c : ascii) (s : list ascii) :
  lang (Star r) (c :: s) →
  ∃ s1 s2, s = s1 ++ s2 ∧ lang r (c :: s1) ∧ lang (Star r) s2.
Proof.
  intros H. remember (Star r) as r' eqn:Hr. remember (c :: s) as t eqn:Ht.
  revert s Ht.
  induction H as [| | | | | |r0 s1 s2 H1 _ H2 IH2]; intros t' Ht;
    try discriminate.
  injection Hr as ->.
  destruct s1 as [|c' s1]; simpl in Ht.
  - by apply IH2.
  - injection Ht as -> <-. by exists s1, s2.
Qed.

Lemma deriv_lang (c : ascii) (r : re) (s : list ascii) :
  lang (deriv c r) s ↔ lang r (c :: s).
Proof.
  revert s.
  induction r as [| |p|r1 IH1 r2 IH2|r1 IH1 r2 IH2|r IH]; intros s; simpl.
  - split; intros H; inversion H.
  - split; intros H; inversion H.
  - rewrite lang_cls_inv. destruct (p c) eqn:Hp; split.
    + intros H. inversion H. by exists c.
    + intros (c' & Heq & _). injection Heq as _ ->. constructor.
    + intros H. inversion H.
    + intros (c' & Heq & Hc). injection Heq as -> _. congruence.
  - assert (Hcat : ∀ t, lang (Cat (deriv c r1) r2) t ↔
                        ∃ s1 s2, t = s1 ++ s2 ∧ lang r1 (c :: s1) ∧ lang r2 s2).
    { intros t. rewrite lang_cat_inv. by setoid_rewrite IH1. }
    rewrite (lang_cat_inv r1 r2). split.
    + intros H.
      assert (Hor : lang (Cat (deriv c r1) r2) s
                    ∨ (nullable r1 = true ∧ lang (deriv c r2) s)).
      { destruct (nullable r1); [|by left].
        apply lang_alt_inv in H as [H|H]; [by left | by right]. }
      destruct Hor as [H'|[Hn H']].
      * apply Hcat in H' as (s1 & s2 & -> & H1 & H2).
        by exists (c :: s1), s2.
      * exists [], (c :: s). split; [done|].
        split; [by apply nullable_lang | by apply IH2].
    + intros (s1 & s2 & Heq & H1 & H2).
      destruct s1 as [|c' s1]; simpl in Heq.
      * subst s2. apply nullable_lang in H1. rewrite H1.
        apply lang_alt_r. by apply IH2.
      * injection Heq as <- ->.
        assert (lang (Cat (deriv c r1) r2) (s1 ++ s2))
          by (apply Hcat; by exists s1, s2).
        destruct (nullable r1); [by apply lang_alt_l | done].
  - by rewrite !lang_alt_inv, IH1, IH2.
  - rewrite lang_cat_inv. split.
    + intros (s1 & s2 & -> & H1 & H2).
      change (lang (Star r) ((c :: s1) ++ s2)).
      constructor; [by apply IH | done].
    + intros H. apply lang_star_cons_inv in H as (s1 & s2 & -> & H1 & H2).
      exists s1, s2. split; [done|]. split; [by apply IH | done].
Qed.

Lemma matches_lang (r : re) (s : list ascii) :
  matches r s = true ↔ lang r s.
Proof.
  revert r. induction s as [|c s IH]; intros r; simpl.
  - apply nullable_lang.
  - rewrite IH. apply deriv_lang.
Qed.

(** [c{n}] for a character class: [n] characters of the class. *)
Lemma lang_rep_cls (p : ascii → bool) (n : nat) (s : list ascii) :
  lang (rep n (Cls p)) s ↔ length s = n ∧ Forall (fun c => p c = true) s.
Proof.
  revert s. induction n as [|n IH]; intros s; simpl.
  - split.
    + intros H. inversion H. by split.
    + intros [Hl _]. destruct s; [constructor | done].
  - rewrite lang_cat_inv. split.
    + intros (s1 & s2 & -> & H1 & H2).
      apply lang_cls_inv in H1 as (c & -> & Hc).
      apply IH in H2 as [Hl Hall]. simpl. split; [by rewrite Hl|].
      by constructor.
    + intros [Hl Hall]. destruct s as [|c s]; [done|].
      inversion Hall; subst. exists [c], s. split; [done|]. split.
      * by constructor.
      * apply IH. split; [by injection Hl | done].
Qed.

End RegexFacts.

(** ** The identity-card validator *)

Lemma chr_i_G (x : ascii) :
  Ascii.eqb (Js.upper_char x) (Js.upper_char "G") = true ↔ (x = "G" ∨ x = "g")%char.
Proof.
  destruct x as [[] [] [] [] [] [] [] []]; vm_compute;
    (split; [intros H; first [discriminate H | by left | by right]
            | intros [H|H]; first [discriminate H | reflexivity]]).
Qed.

Lemma chr_i_H (x : ascii) :
  Ascii.eqb (Js.upper_char x) (Js.upper_char "H") = true ↔ (x = "H" ∨ x = "h")%char.
Proof.
  destruct x as [[] [] [] [] [] [] [] []]; vm_compute;
    (split; [intros H; first [discriminate H | by left | by right]
            | intros [H|H]; first [discriminate H | reflexivity]]).
Qed.

Lemma chr_i_A (x : ascii) :
  Ascii.eqb (Js.upper_char x) (Js.upper_char "A") = true ↔ (x = "A" ∨ x = "a")%char.
Proof.
  destruct x as [[] [] [] [] [] [] [] []]; vm_compute;
    (split; [intros H; first [discriminate H | by left | by right]
            | intros [H|H]; first [discriminate H | reflexivity]]).
Qed.

Lemma lang_chr_inv (c : ascii) (s : list ascii) :
  Regex.lang (Regex.chr c) s ↔ s = [c].
Proof.
  unfold Regex.chr. rewrite lang_cls_inv. split.
  - intros (x & -> & Hx). apply Ascii.eqb_eq in Hx. by subst.
  - intros ->. exists c. split; [done | apply Ascii.eqb_refl].
Qed.

Lemma ghana_card_re_lang (s : list ascii) :
  Regex.lang Validators.ghana_card_re s ↔ ghana_card_shape s.
Proof.
  unfold Validators.ghana_card_re, ghana_card_shape, Regex.chr_i, Regex.digit.
  split.
  - intros H.
    apply lang_cat_inv in H as (? & ? & -> & Hg & H).
    apply lang_cls_inv in Hg as (g & -> & Hg). apply chr_i_G in Hg.
    apply lang_cat_inv in H as (? & ? & -> & Hh & H).
    apply lang_cls_inv in Hh as (h & -> & Hh). apply chr_i_H in Hh.
    apply lang_cat_inv in H as (? & ? & -> & Ha & H).
    apply lang_cls_inv in Ha as (a & -> & Ha). apply chr_i_A in Ha.
    apply lang_cat_inv in H as (? & ? & -> & Hd & H).
    apply lang_chr_inv in Hd as ->.
    apply lang_cat_inv in H as (ds1 & ? & -> & H1 & H).
    apply lang_rep_cls in H1 as [Hl1 Hd1].
    apply lang_cat_inv in H as (? & ds2 & -> & Hd & H2).
    apply lang_chr_inv in Hd as ->.
    apply lang_rep_cls in H2 as [Hl2 Hd2].
    by exists g, h, a, ds1, ds2.
  - intros (g & h & a & ds1 & ds2 & -> & Hg & Hh & Ha & Hl1 & Hd1 & Hl2 & Hd2).
    apply lang_cat_inv. exists [g], (h :: a :: "-"%char :: ds1 ++ "-"%char :: ds2).
    split; [done|]. split; [apply lang_cls_inv; exists g; by rewrite chr_i_G|].
    apply lang_cat_inv. exists [h], (a :: "-"%char :: ds1 ++ "-"%char :: ds2).
    split; [done|]. split; [apply lang_cls_inv; exists h; by rewrite chr_i_H|].
    apply lang_cat_inv. exists [a], ("-"%char :: ds1 ++ "-"%char :: ds2).
    split; [done|]. split; [apply lang_cls_inv; exists a; by rewrite chr_i_A|].
    apply lang_cat_inv. exists ["-"%char], (ds1 ++ "-"%char :: ds2).
    split; [done|]. split; [by apply lang_chr_inv|].
    apply lang_cat_inv. exists ds1, ("-"%char :: ds2).
    split; [done|]. split; [by apply lang_rep_cls|].
    apply lang_cat_inv. exists ["-"%char], ds2.
    split; [done|]. split; [by apply lang_chr_inv | by apply lang_rep_cls].
Qed.

(** C8 (as amended): on a string of ASCII characters [isValidGhanaCard]
    returns true exactly when the string, once trimmed, is the letters G, H,
    A in either case, a dash, nine digits, a dash and two digits; on every
    other ASCII string it returns false. *)
Theorem isValidGhanaCard_accepts_gha_shape (card : string) :
  Js.is_ascii card = true →
  Validators.isValidGhanaCard card = true
  ↔ ghana_card_shape (list_ascii_of_string (Js.trim card)).
Proof.
  intros _. unfold Validators.isValidGhanaCard, Regex.test_full.
  rewrite matches_lang. apply ghana_card_re_lang.
Qed.

Lemma isValidGhanaCard_accepts_gha_shape_witness :
  Validators.isValidGhanaCard " Gha-123456789-01 " = true
  ∧ Validators.isValidGhanaCard "GHA-12345678-01" = false.
Proof.
  split.
  - apply (isValidGhanaCard_accepts_gha_shape " Gha-123456789-01 ");
      [reflexivity|].
    exists "G"%char, "h"%char, "a"%char,
      ["1"; "2"; "3"; "4"; "5"; "6"; "7"; "8"; "9"]%char, ["0"; "1"]%char.
    split; [vm_compute; reflexivity|].
    split; [by left|]. split; [by right|]. split; [by right|].
    split; [reflexivity|]. split; [by repeat constructor|].
    split; [reflexivity | by repeat constructor].
  - apply not_true_is_false. intros H.
    apply (isValidGhanaCard_accepts_gha_shape "GHA-12345678-01") in H;
      [|reflexivity].
    destruct H as (g & h & a & ds1 & ds2 & Hs & _ & _ & _ & Hl1 & _ & Hl2 & _).
    apply (f_equal (@length ascii)) in Hs. revert Hs.
    cbn [length]. rewrite length_app. cbn [length]. rewrite Hl1, Hl2.
    vm_compute. discriminate.
Defined.

(** C8 (as stated) fails: a card of the specified shape with three letters
    other than GHA is rejected. *)
Lemma isValidGhanaCard_rejects_other_letters :
  spec_isValidCard "ABC-123456789-01" = true
  ∧ Validators.isValidGhanaCard "ABC-123456789-01" = false.
Proof. split; vm_compute; reflexivity. Qed.

(** ** The store and the repository round trip *)

Lemma no_fault_next (fs : list bool) : no_fault fs → next_fault fs = false.
Proof. intros H. destruct H as [|b fs Hb _]; [done | by subst b]. Qed.

Lemma no_fault_tail (fs : list bool) : no_fault fs → no_fault (tail fs).
Proof. intros H. destruct H; [constructor | done]. Qed.

Ltac js :=
  unfold reply, respond;
  unfold bind, ret, throw, try_catch, getSession, saveSession, cache_del,
    issue, read_db, write_db, now;
  cbn [clock cache faults calls db fst snd].

Section StoreFacts.
Context {DB Call : Type}.
Implicit Types (w : World DB Call) (c : gmap string CacheEntry).

Lemma round_trip_eq w :
  round_trip w
  = (if next_fault (faults w) then Throw MongoError else Ok tt,
     mkWorld (clock w) (cache w) (tail (faults w)) (calls w) (db w)).
Proof. destruct w as [? ? [|[] ?] ? ?]; reflexivity. Qed.

Lemma cache_get_put sid data clk c fs (cs : list Call) (d : DB) :
  cache_get sid (mkWorld clk (<[sid := mkEntry data (clk + 1000 * 60 * 15)]> c) fs cs d)
  = Some data.
Proof.
  unfold cache_get. cbn [cache clock]. rewrite lookup_insert_eq. cbn [expire value].
  destruct (Z.leb_spec clk (clk + 1000 * 60 * 15)); [done | lia].
Qed.

Lemma cache_get_put_ne sid sid' e clk c fs fs' (cs cs' : list Call) (d d' : DB) :
  sid ≠ sid' →
  cache_get sid' (mkWorld clk (<[sid := e]> c) fs cs d)
  = cache_get sid' (mkWorld clk c fs' cs' d').
Proof. intros H. unfold cache_get. cbn [cache clock]. by rewrite lookup_insert_ne. Qed.

Lemma cache_get_del sid clk c fs (cs : list Call) (d : DB) :
  cache_get sid (mkWorld clk (delete sid c) fs cs d) = None.
Proof. unfold cache_get. cbn [cache]. by rewrite lookup_delete_eq. Qed.

Lemma cache_get_frame sid w fs (cs : list Call) (d : DB) :
  cache_get sid (mkWorld (clock w) (cache w) fs cs d) = cache_get sid w.
Proof. reflexivity. Qed.

End StoreFacts.

(** ** The session stack *)

Lemma top_snoc (rest : list State.t) (cur : State.t) (m1 : option State.t) :
  JsArray.top (JsArray.mk (rest ++ [cur]) m1) = Some cur.
Proof.
  unfold JsArray.top. cbn [JsArray.items].
  destruct (rest ++ [cur]) eqn:E; [by destruct rest|].
  rewrite <- E. apply last_snoc.
Qed.

Lemma set_top_snoc (rest : list State.t) (cur s : State.t) (m1 : option State.t) :
  JsArray.set_top s (JsArray.mk (rest ++ [cur]) m1) = JsArray.mk (rest ++ [s]) m1.
Proof.
  unfold JsArray.set_top. cbn [JsArray.items JsArray.minus1].
  destruct (rest ++ [cur]) eqn:E; [by destruct rest|].
  rewrite <- E. by rewrite removelast_last.
Qed.

Lemma pop_snoc (rest : list State.t) (cur : State.t) (m1 : option State.t) :
  JsArray.pop (JsArray.mk (rest ++ [cur]) m1) = JsArray.mk rest m1.
Proof. unfold JsArray.pop. cbn [JsArray.items JsArray.minus1]. by rewrite removelast_last. Qed.

Lemma length_snoc (rest : list State.t) (cur : State.t) (m1 : option State.t) :
  JsArray.length (JsArray.mk (rest ++ [cur]) m1) = S (length rest).
Proof. unfold JsArray.length. cbn [JsArray.items]. rewrite length_app. simpl. lia. Qed.

Lemma array_eta (a : JsArray.t) : JsArray.mk (JsArray.items a) (JsArray.minus1 a) = a.
Proof. by destruct a. Qed.

(** ** Outcomes of a transition *)

Lemma retried_through_catch {DB Call : Type} (req : Request)
    (rest : list State.t) (cur : State.t) (m1 : option State.t)
    (w w0 : World DB Call) (c : M (World DB Call) Response)
    (h : Exn → M (World DB Call) Response) :
  retried_in_place req rest cur m1 w (c w0) →
  retried_in_place req rest cur m1 w (try_catch c h w0).
Proof.
  intros (message & Hr & Hrest). unfold try_catch.
  destruct (c w0) as [[r|e] w'] eqn:E; [by exists message | discriminate Hr].
Qed.

(** ** NCSTCS *)

Section NcstcsFacts.
Variable hash : string → string.
Implicit Types (w : NCSTCS.W) (req : Request) (us : JsArray.t).

Lemma ncstcs_findOne_eq f v w :
  NCSTCS.findOne f v w
  = (if next_fault (faults w) then Throw MongoError
     else Ok (find (NCSTCS.has f v) (db w)),
     mkWorld (clock w) (cache w) (tail (faults w))
       (calls w ++ [NCSTCS.FindOne f v]) (db w)).
Proof.
  unfold NCSTCS.findOne. js. rewrite round_trip_eq. cbn [clock cache faults calls db].
  by destruct (next_fault (faults w)).
Qed.

Lemma ncstcs_step req w us :
  newSession req = false →
  cache_get (sessionID req) w = Some us →
  userData req ≠ "0" → userData req ≠ "9" →
  NCSTCS.ussd hash req w
  = try_catch (NCSTCS.level_step hash req us (JsArray.top us))
      (fun _ => NCSTCS.finish req NCSTCS.generic_failure) w.
Proof.
  intros Hn Hg H0 H9. apply String.eqb_neq in H0, H9.
  unfold NCSTCS.ussd. unfold bind at 1, getSession. by rewrite Hn, Hg, H0, H9.
Qed.

Lemma ncstcs_retry_in_place req rest cur m1 message w w1 :
  db w1 = db w →
  retried_in_place req rest cur m1 w
    (NCSTCS.retry req (JsArray.mk (rest ++ [cur]) m1) cur message w1).
Proof.
  intros Hdb. exists message. unfold NCSTCS.retry. js. rewrite set_top_snoc.
  split; [done|]. split; [apply cache_get_put | done].
Qed.

Lemma ncstcs_capture_retries req w rest cur m1 c :
  newSession req = false →
  cache_get (sessionID req) w = Some (JsArray.mk (rest ++ [cur]) m1) →
  userData req ≠ "0" → userData req ≠ "9" →
  NCSTCS.case_of (State.level cur) = Some c →
  ncstcs_capture c = true →
  (ncstcs_valid c (userData req) = false
   ∨ ∃ f v u, ncstcs_unique c (userData req) = Some (f, v)
              ∧ next_fault (faults w) = false
              ∧ find (NCSTCS.has f v) (db w) = Some u) →
  retried_in_place req rest cur m1 w (NCSTCS.ussd hash req w).
Proof.
  intros Hn Hg H0 H9 Hc Hcap Hbad.
  rewrite (ncstcs_step _ _ _ Hn Hg H0 H9). apply retried_through_catch.
  unfold NCSTCS.level_step. rewrite top_snoc, Hc.
  destruct c; try discriminate Hcap; cbn [ncstcs_valid ncstcs_unique] in Hbad;
    unfold NCSTCS.case_10, NCSTCS.case_11, NCSTCS.case_12, NCSTCS.case_13,
      NCSTCS.case_15, NCSTCS.case_16;
    destruct Hbad as [Hv|(f & v & u & Hu & Hf & Hfind)];
    try discriminate Hu;
    try (first [apply negb_false_iff in Hv | idtac]; rewrite Hv;
         by apply ncstcs_retry_in_place);
    injection Hu as <- <-;
    (match goal with |- context [negb ?b] => destruct b; cbn [negb] end;
     [unfold bind; rewrite ncstcs_findOne_eq, Hf, Hfind|];
     by apply ncstcs_retry_in_place).
Qed.

Lemma ncstcs_restart req w :
  newSession req = true ∨ cache_get (sessionID req) w = None →
  NCSTCS.ussd hash req w
  = (Ok (answer req NCSTCS.home_menu true),
     saved (sessionID req) (JsArray.lit [State.obj (Some 0) NCSTCS.home_menu]) w).
Proof.
  intros H. unfold NCSTCS.ussd. unfold bind at 1, getSession.
  destruct H as [-> | ->]; [|by destruct (newSession req)].
  reflexivity.
Qed.

Lemma ncstcs_home req w us :
  newSession req = false →
  cache_get (sessionID req) w = Some us →
  userData req = "0" →
  NCSTCS.ussd hash req w
  = (Ok (answer req NCSTCS.home_menu true),
     saved (sessionID req) (JsArray.lit [State.obj (Some 0) NCSTCS.home_menu]) w).
Proof.
  intros Hn Hg H0. unfold NCSTCS.ussd. unfold bind at 1, getSession.
  by rewrite Hn, Hg, H0.
Qed.

Lemma ncstcs_back_pops req w rest parent cur m1 :
  newSession req = false →
  cache_get (sessionID req) w = Some (JsArray.mk (rest ++ [parent; cur]) m1) →
  userData req = "9" →
  NCSTCS.ussd hash req w
  = (Ok (answer req (State.message parent) true),
     saved (sessionID req) (JsArray.mk (rest ++ [parent]) m1) w).
Proof.
  intros Hn Hg H9. unfold NCSTCS.ussd. unfold bind at 1, getSession.
  rewrite Hn, Hg, H9. cbn [String.eqb Ascii.eqb Bool.eqb].
  replace (rest ++ [parent; cur]) with ((rest ++ [parent]) ++ [cur])
    by (by rewrite <- app_assoc).
  rewrite length_snoc, length_app. cbn [length].
  replace (1 <? S (length rest + 1))%nat with true
    by (symmetry; apply Nat.ltb_lt; lia).
  cbv beta iota zeta. by rewrite pop_snoc, top_snoc.
Qed.

Lemma ncstcs_back_at_bottom req w s m1 :
  newSession req = false →
  cache_get (sessionID req) w = Some (JsArray.mk [s] m1) →
  userData req = "9" →
  NCSTCS.ussd hash req w
  = (Ok (answer req (State.message s) true),
     saved (sessionID req) (JsArray.mk [s] m1) w).
Proof.
  intros Hn Hg H9. unfold NCSTCS.ussd. unfold bind at 1, getSession.
  by rewrite Hn, Hg, H9.
Qed.


Lemma ncstcs_default req w us cur :
  newSession req = false →
  cache_get (sessionID req) w = Some us →
  userData req ≠ "0" → userData req ≠ "9" →
  JsArray.top us = Some cur →
  NCSTCS.case_of (State.level cur) = None →
  NCSTCS.ussd hash req w
  = (Ok (answer req NCSTCS.home_menu true),
     saved (sessionID req) (JsArray.lit [State.obj (Some 0) NCSTCS.home_menu]) w).
Proof.
  intros Hn Hg H0 H9 Ht Hc.
  rewrite (ncstcs_step _ _ _ Hn Hg H0 H9). unfold try_catch, NCSTCS.level_step.
  by rewrite Ht, Hc.
Qed.

Lemma ncstcs_catch req w us e w1 :
  newSession req = false →
  cache_get (sessionID req) w = Some us →
  userData req ≠ "0" → userData req ≠ "9" →
  NCSTCS.level_step hash req us (JsArray.top us) w = (Throw e, w1) →
  NCSTCS.ussd hash req w
  = (Ok (answer req NCSTCS.generic_failure false), dropped (sessionID req) w1).
Proof.
  intros Hn Hg H0 H9 Ht.
  rewrite (ncstcs_step _ _ _ Hn Hg H0 H9). unfold try_catch. by rewrite Ht.
Qed.

End NcstcsFacts.

(** ** What a computation keeps true of the repository *)

Section Keeps.
Context {DB Call : Type} (P : DB → Prop).
Local Abbreviation W := (World DB Call).

Lemma keeps_ret {A} (a : A) : keeps P (ret a : M W A).
Proof. by intros w H. Qed.

Lemma keeps_throw {A} (e : Exn) : keeps P (throw e : M W A).
Proof. by intros w H. Qed.

Lemma keeps_bind {A B} (c : M W A) (k : A → M W B) :
  keeps P c → (∀ a, keeps P (k a)) → keeps P (bind c k).
Proof.
  intros Hc Hk w H. unfold bind. specialize (Hc w H).
  destruct (c w) as [[a|e] w1]; [by apply Hk | done].
Qed.

Lemma keeps_try_catch {A} (c : M W A) (h : Exn → M W A) :
  keeps P c → (∀ e, keeps P (h e)) → keeps P (try_catch c h).
Proof.
  intros Hc Hh w H. unfold try_catch. specialize (Hc w H).
  destruct (c w) as [[a|e] w1]; [done | by apply Hh].
Qed.

Lemma keeps_getSession sid : keeps P (getSession sid : M W _).
Proof. by intros w H. Qed.

Lemma keeps_saveSession sid data : keeps P (saveSession sid data : M W _).
Proof. by intros w H. Qed.

Lemma keeps_cache_del sid : keeps P (cache_del sid : M W _).
Proof. by intros w H. Qed.

Lemma keeps_issue (c : Call) : keeps P (issue c : M W _).
Proof. by intros w H. Qed.

Lemma keeps_round_trip : keeps P (round_trip : M W _).
Proof. intros w H. rewrite round_trip_eq. done. Qed.

Lemma keeps_read_db : keeps P (read_db : M W _).
Proof. by intros w H. Qed.

Lemma keeps_now : keeps P (now : M W _).
Proof. by intros w H. Qed.

Lemma keeps_respond req message continueSession :
  keeps P (respond req message continueSession : M W _).
Proof. by intros w H. Qed.

Lemma keeps_reply req us message continueSession :
  keeps P (reply req us message continueSession : M W _).
Proof. by intros w H. Qed.

End Keeps.

Ltac keeps_step :=
  lazymatch goal with
  | |- keeps _ (bind _ _) => apply keeps_bind; [|intros ?]
  | |- keeps _ (try_catch _ _) => apply keeps_try_catch; [|intros ?]
  | |- keeps _ (ret _) => apply keeps_ret
  | |- keeps _ (throw _) => apply keeps_throw
  | |- keeps _ (getSession _) => apply keeps_getSession
  | |- keeps _ (saveSession _ _) => apply keeps_saveSession
  | |- keeps _ (cache_del _) => apply keeps_cache_del
  | |- keeps _ (issue _) => apply keeps_issue
  | |- keeps _ round_trip => apply keeps_round_trip
  | |- keeps _ read_db => apply keeps_read_db
  | |- keeps _ now => apply keeps_now
  | |- keeps _ (respond _ _ _) => apply keeps_respond
  | |- keeps _ (reply _ _ _ _) => apply keeps_reply
  | |- keeps _ (if ?b then _ else _) => destruct b
  | |- keeps _ (match ?x with _ => _ end) => destruct x
  | |- keeps _ (let _ := _ in _) => cbv zeta
  end.

Lemma ncstcs_no_clash f v users :
  existsb (NCSTCS.has f v) users = false →
  v ∉ omap (fun u => NCSTCS.field f (NCSTCS.doc u)) users.
Proof.
  induction users as [|u users IH]; simpl.
  - intros _. apply not_elem_of_nil.
  - intros H. apply orb_false_iff in H as [Hu Hrest]. unfold NCSTCS.has in Hu.
    destruct (NCSTCS.field f (NCSTCS.doc u)) as [x|]; [|by apply IH].
    apply not_elem_of_cons. split; [|by apply IH].
    apply String.eqb_neq in Hu. congruence.
Qed.

Lemma ncstcs_create_keeps_unique d :
  keeps ncstcs_unique_db (NCSTCS.create d).
Proof.
  intros w H. unfold NCSTCS.create. js.
  destruct (negb _); [done|]. rewrite round_trip_eq.
  destruct (next_fault _); [done|]. cbn [clock cache faults calls db].
  destruct (_ || _) eqn:Hcl; [done|]. cbn [snd db].
  repeat (apply orb_false_iff in Hcl as [Hcl ?]).
  intros f. rewrite omap_app. simpl.
  assert (Hf : NCSTCS.clashes d (db w) f = false) by (by destruct f).
  unfold NCSTCS.clashes in Hf.
  destruct (NCSTCS.field f d) as [v|] eqn:E.
  - apply NoDup_app. split; [apply H|]. split; [|apply NoDup_singleton].
    intros x Hx Hx'. apply list_elem_of_singleton in Hx' as ->.
    by apply (ncstcs_no_clash f v (db w)).
  - rewrite app_nil_r. apply H.
Qed.

Lemma ncstcs_ussd_keeps_unique hash req :
  keeps ncstcs_unique_db (NCSTCS.ussd hash req).
Proof.
  unfold NCSTCS.ussd, NCSTCS.level_step, NCSTCS.case_0, NCSTCS.case_10,
    NCSTCS.case_11, NCSTCS.case_12, NCSTCS.case_13, NCSTCS.case_14,
    NCSTCS.case_15, NCSTCS.case_16, NCSTCS.case_30, NCSTCS.retry,
    NCSTCS.advance, NCSTCS.finish, NCSTCS.findOne, NCSTCS.hash.
  repeat first [apply ncstcs_create_keeps_unique | keeps_step].
Qed.

(** ** PCRS *)

Section PcrsFacts.
Variable hash : string → string.
Implicit Types (w : PCRS.W) (req : Request) (us : JsArray.t).

Lemma pcrs_findOne_eq f v w :
  PCRS.findOne f v w
  = (if next_fault (faults w) then Throw MongoError
     else Ok (find (PCRS.has f v) (db w)),
     looked_up (PCRS.FindOne f v) w).
Proof.
  unfold PCRS.findOne. js. rewrite round_trip_eq. cbn [clock cache faults calls db].
  by destruct (next_fault (faults w)).
Qed.

Lemma pcrs_findById_eq id w :
  PCRS.findById id w
  = (if next_fault (faults w) then Throw MongoError
     else Ok (pcrs_by_id id (db w)),
     looked_up (PCRS.FindById id) w).
Proof.
  unfold PCRS.findById. js. rewrite round_trip_eq. cbn [clock cache faults calls db].
  by destruct (next_fault (faults w)).
Qed.

Lemma pcrs_step req w us :
  newSession req = false →
  cache_get (sessionID req) w = Some us →
  userData req ≠ "0" → userData req ≠ "9" →
  PCRS.ussd hash req w
  = try_catch (PCRS.level_step hash req us (JsArray.top us))
      (fun _ => PCRS.finish req PCRS.generic_failure) w.
Proof.
  intros Hn Hg H0 H9. apply String.eqb_neq in H0, H9.
  unfold PCRS.ussd. unfold bind at 1, getSession. by rewrite Hn, Hg, H0, H9.
Qed.

Lemma pcrs_retry_in_place req rest cur m1 message w w1 :
  db w1 = db w →
  retried_in_place req rest cur m1 w
    (PCRS.retry req (JsArray.mk (rest ++ [cur]) m1) cur message w1).
Proof.
  intros Hdb. exists message. unfold PCRS.retry. js. rewrite set_top_snoc.
  split; [done|]. split; [apply cache_get_put | done].
Qed.

Lemma pcrs_capture_retries req w rest cur m1 c :
  newSession req = false →
  cache_get (sessionID req) w = Some (JsArray.mk (rest ++ [cur]) m1) →
  userData req ≠ "0" → userData req ≠ "9" →
  PCRS.case_of (State.level cur) = Some c →
  pcrs_capture c = true →
  (pcrs_valid c (userData req) = false
   ∨ ∃ f v u, pcrs_unique c (userData req) = Some (f, v)
              ∧ next_fault (faults w) = false
              ∧ find (PCRS.has f v) (db w) = Some u) →
  retried_in_place req rest cur m1 w (PCRS.ussd hash req w).
Proof.
  intros Hn Hg H0 H9 Hc Hcap Hbad.
  rewrite (pcrs_step _ _ _ Hn Hg H0 H9). apply retried_through_catch.
  unfold PCRS.level_step. rewrite top_snoc, Hc.
  destruct c; try discriminate Hcap; cbn [pcrs_valid pcrs_unique] in Hbad;
    unfold PCRS.case_10, PCRS.case_11, PCRS.case_12, PCRS.case_13,
      PCRS.case_14, PCRS.case_16, PCRS.case_17;
    destruct Hbad as [Hv|(f & v & u & Hu & Hf & Hfind)];
    try discriminate Hu;
    try (first [apply negb_false_iff in Hv | idtac]; rewrite Hv;
         by apply pcrs_retry_in_place);
    injection Hu as <- <-;
    (match goal with |- context [negb ?b] => destruct b; cbn [negb] end;
     [unfold bind; rewrite pcrs_findOne_eq, Hf, Hfind|];
     by apply pcrs_retry_in_place).
Qed.

Lemma pcrs_home req w us :
  newSession req = false →
  cache_get (sessionID req) w = Some us →
  userData req = "0" →
  PCRS.ussd hash req w
  = (Ok (answer req (State.message (pcrs_home_entry us w)) true),
     saved (sessionID req) (JsArray.lit [pcrs_home_entry us w])
       (if PCRS.first_loggedIn us
        then looked_up (PCRS.FindById (PCRS.first_userRef us)) w
        else w)).
Proof.
  intros Hn Hg H0. unfold PCRS.ussd. unfold bind at 1, getSession.
  rewrite Hn, Hg, H0. cbn [String.eqb Ascii.eqb Bool.eqb].
  unfold PCRS.go_home, pcrs_home_entry.
  destruct (PCRS.first_loggedIn us); [|reflexivity].
  unfold bind, try_catch. rewrite pcrs_findById_eq.
  by destruct (next_fault (faults w)).
Qed.

Lemma pcrs_back_pops req w rest parent cur m1 :
  newSession req = false →
  cache_get (sessionID req) w = Some (JsArray.mk (rest ++ [parent; cur]) m1) →
  userData req = "9" →
  PCRS.ussd hash req w
  = (Ok (answer req (State.message parent) true),
     saved (sessionID req) (JsArray.mk (rest ++ [parent]) m1) w).
Proof.
  intros Hn Hg H9. unfold PCRS.ussd. unfold bind at 1, getSession.
  rewrite Hn, Hg, H9. cbn [String.eqb Ascii.eqb Bool.eqb].
  replace (rest ++ [parent; cur]) with ((rest ++ [parent]) ++ [cur])
    by (by rewrite <- app_assoc).
  rewrite length_snoc, length_app. cbn [length].
  replace (1 <? S (length rest + 1))%nat with true
    by (symmetry; apply Nat.ltb_lt; lia).
  cbv beta iota zeta. by rewrite pop_snoc, top_snoc.
Qed.

Lemma pcrs_back_at_bottom req w s m1 :
  newSession req = false →
  cache_get (sessionID req) w = Some (JsArray.mk [s] m1) →
  userData req = "9" →
  PCRS.ussd hash req w
  = (Ok (answer req (State.message s) true),
     saved (sessionID req) (JsArray.mk [s] m1) w).
Proof.
  intros Hn Hg H9. unfold PCRS.ussd. unfold bind at 1, getSession.
  by rewrite Hn, Hg, H9.
Qed.


Lemma pcrs_default req w us cur :
  newSession req = false →
  cache_get (sessionID req) w = Some us →
  userData req ≠ "0" → userData req ≠ "9" →
  JsArray.top us = Some cur →
  PCRS.case_of (State.level cur) = None →
  PCRS.ussd hash req w
  = (Ok (answer req PCRS.guest_menu true),
     saved (sessionID req) (JsArray.lit [State.obj (Some 0) PCRS.guest_menu]) w).
Proof.
  intros Hn Hg H0 H9 Ht Hc.
  rewrite (pcrs_step _ _ _ Hn Hg H0 H9). unfold try_catch, PCRS.level_step.
  by rewrite Ht, Hc.
Qed.

Lemma pcrs_catch req w us e w1 :
  newSession req = false →
  cache_get (sessionID req) w = Some us →
  userData req ≠ "0" → userData req ≠ "9" →
  PCRS.level_step hash req us (JsArray.top us) w = (Throw e, w1) →
  PCRS.ussd hash req w
  = (Ok (answer req PCRS.generic_failure false), dropped (sessionID req) w1).
Proof.
  intros Hn Hg H0 H9 Ht.
  rewrite (pcrs_step _ _ _ Hn Hg H0 H9). unfold try_catch. by rewrite Ht.
Qed.

(** A started session holds one entry at level 0; the subscriber lookup, if
    any, is the only repository call. *)
Lemma pcrs_start_eq req w :
  ∃ home w1,
    PCRS.start req w
    = (Ok (answer req (State.message home) true),
       saved (sessionID req) (JsArray.lit [home]) w1)
    ∧ State.level home = Some 0
    ∧ (w1 = w ∨ ∃ c, w1 = looked_up c w).
Proof.
  unfold PCRS.start. unfold bind at 1, try_catch.
  destruct (String.eqb (Validators.normalizePhone (msisdn req)) "").
  - exists (State.set_loggedIn false (State.obj (Some 0) PCRS.guest_menu)), w.
    split; [done|]. split; [done | by left].
  - unfold bind at 1. rewrite pcrs_findOne_eq.
    destruct (next_fault (faults w)).
    { exists (State.set_loggedIn false (State.obj (Some 0) PCRS.guest_menu)),
        (looked_up (PCRS.FindOne PCRS.Phone
                      (Validators.normalizePhone (msisdn req))) w).
      split; [done|]. split; [done | right; by eexists]. }
    destruct (find _ (db w)) as [u|].
    + exists
        (State.set_userRef (Some (PCRS._id u))
           (State.set_loggedIn true
              (State.obj (Some 0) (PCRS.member_menu (PCRS.displayName (Some u)))))),
        (looked_up (PCRS.FindOne PCRS.Phone
                      (Validators.normalizePhone (msisdn req))) w).
      split; [done|]. split; [done | right; by eexists].
    + exists (State.set_loggedIn false (State.obj (Some 0) PCRS.guest_menu)),
        (looked_up (PCRS.FindOne PCRS.Phone
                      (Validators.normalizePhone (msisdn req))) w).
      split; [done|]. split; [done | right; by eexists].
Qed.

(** A session that is new or absent is started. *)
Lemma pcrs_restart req w :
  newSession req = true ∨ cache_get (sessionID req) w = None →
  PCRS.ussd hash req w = PCRS.start req w.
Proof.
  intros H. unfold PCRS.ussd. unfold bind at 1, getSession.
  destruct H as [-> | ->]; [done | by destruct (newSession req)].
Qed.

End PcrsFacts.

Lemma pcrs_no_clash f v users :
  existsb (PCRS.has f v) users = false →
  v ∉ omap (fun u => PCRS.field f (PCRS.doc u)) users.
Proof.
  induction users as [|u users IH]; simpl.
  - intros _. apply not_elem_of_nil.
  - intros H. apply orb_false_iff in H as [Hu Hrest]. unfold PCRS.has in Hu.
    destruct (PCRS.field f (PCRS.doc u)) as [x|]; [|by apply IH].
    apply not_elem_of_cons. split; [|by apply IH].
    apply String.eqb_neq in Hu. congruence.
Qed.

Lemma pcrs_create_keeps_unique d : keeps pcrs_unique_db (PCRS.create d).
Proof.
  intros w H. unfold PCRS.create. js.
  destruct (negb _); [done|]. rewrite round_trip_eq.
  destruct (next_fault _); [done|]. cbn [clock cache faults calls db].
  destruct (_ || _) eqn:Hcl; [done|]. cbn [snd db].
  repeat (apply orb_false_iff in Hcl as [Hcl ?]).
  intros f. rewrite omap_app. simpl.
  assert (Hf : PCRS.clashes d (db w) f = false) by (by destruct f).
  unfold PCRS.clashes in Hf.
  destruct (PCRS.field f d) as [v|] eqn:E.
  - apply NoDup_app. split; [apply H|]. split; [|apply NoDup_singleton].
    intros x Hx Hx'. apply list_elem_of_singleton in Hx' as ->.
    by apply (pcrs_no_clash f v (db w)).
  - rewrite app_nil_r. apply H.
Qed.

Lemma pcrs_ussd_keeps_unique hash req :
  keeps pcrs_unique_db (PCRS.ussd hash req).
Proof.
  unfold PCRS.ussd, PCRS.start, PCRS.go_home, PCRS.level_step, PCRS.case_0,
    PCRS.case_5, PCRS.case_10,
    PCRS.case_11, PCRS.case_12, PCRS.case_13, PCRS.case_14,
    PCRS.case_15, PCRS.case_16, PCRS.case_17, PCRS.case_30, PCRS.retry,
    PCRS.advance, PCRS.finish, PCRS.findOne, PCRS.findById, PCRS.hash.
  repeat first [apply pcrs_create_keeps_unique | keeps_step].
Qed.

(** ** GatePlus *)

Section GatePlusFacts.
Variable parseFloat : string → float.
Variable number_to_string : float → string.
Variable toLocaleDateString : Z → string.
Implicit Types (w : GatePlus.W) (req : Request) (us : JsArray.t).

Local Abbreviation ussd :=
  (GatePlus.ussd parseFloat number_to_string toLocaleDateString).
Local Abbreviation level_step :=
  (GatePlus.level_step parseFloat number_to_string toLocaleDateString).

Lemma gateplus_findUser_eq m w :
  GatePlus.findUser m w
  = (if next_fault (faults w) then Throw MongoError
     else Ok (find (fun u => String.eqb (GatePlus.User.msisdn u) m)
                (GatePlus.users (db w))),
     looked_up (GatePlus.UserFindOne m) w).
Proof.
  unfold GatePlus.findUser. js. rewrite round_trip_eq.
  cbn [clock cache faults calls db]. by destruct (next_fault (faults w)).
Qed.

Lemma gateplus_logActivity_eq m action details w :
  m ≠ "" → action ≠ "" → next_fault (faults w) = false →
  GatePlus.logActivity m action details w = (Ok tt, logged m action details w).
Proof.
  intros Hm Ha Hf. apply String.eqb_neq in Hm, Ha.
  unfold GatePlus.logActivity. js. rewrite Hm, Ha. cbn [orb].
  rewrite round_trip_eq. cbn [clock cache faults calls db]. by rewrite Hf.
Qed.



Lemma gateplus_step req w rest cur m1 :
  newSession req = false →
  cache_get (sessionID req) w = Some (JsArray.mk (rest ++ [cur]) m1) →
  ussd req w
  = try_catch (level_step req (JsArray.mk (rest ++ [cur]) m1) (Some cur))
      (fun _ =>
         bind (cache_del (sessionID req))
           (fun _ => respond req GatePlus.generic_failure false)) w.
Proof.
  intros Hn Hg. unfold GatePlus.ussd. unfold bind at 1, getSession.
  rewrite Hn, Hg, length_snoc, top_snoc. reflexivity.
Qed.

Lemma gateplus_catch req w rest cur m1 e w1 :
  newSession req = false →
  cache_get (sessionID req) w = Some (JsArray.mk (rest ++ [cur]) m1) →
  level_step req (JsArray.mk (rest ++ [cur]) m1) (Some cur) w = (Throw e, w1) →
  ussd req w
  = (Ok (answer req GatePlus.generic_failure false), dropped (sessionID req) w1).
Proof.
  intros Hn Hg Ht. rewrite (gateplus_step _ _ _ _ _ Hn Hg).
  unfold try_catch. by rewrite Ht.
Qed.

Lemma gateplus_existing_user req w us cur user :
  no_fault (faults w) → msisdn req ≠ "" →
  find (fun u => String.eqb (GatePlus.User.msisdn u) (msisdn req))
    (GatePlus.users (db w)) = Some user →
  GatePlus.existing_user parseFloat number_to_string toLocaleDateString
    req us cur w
  = (if bool_decide (State.level cur = Some 1)
     then GatePlus.case_1 number_to_string toLocaleDateString req us user
     else if bool_decide (State.level cur = Some 2)
     then GatePlus.case_2 parseFloat number_to_string req us cur user
     else respond req "An error occurred." false) (menu_logged req cur w).
Proof.
  intros Hf Hm Hu. unfold GatePlus.existing_user. unfold bind at 1.
  rewrite gateplus_findUser_eq, (no_fault_next _ Hf), Hu. unfold bind at 1.
  rewrite gateplus_logActivity_eq; [done | done | done |].
  apply no_fault_next, no_fault_tail, Hf.
Qed.


End GatePlusFacts.

(** ** The shape of the stacks the engines build *)

Section Stacks.
Variable below : Z → option Z.
Hypothesis below_0 : below 0 = None.

Lemma well_stacked_top (us : JsArray.t) :
  well_stacked below us →
  ∃ rest cur, us = JsArray.mk (rest ++ [cur]) (JsArray.minus1 us).
Proof.
  destruct us as [items m1]. unfold well_stacked. cbn [JsArray.items JsArray.minus1].
  destruct items as [|s items _] using rev_ind; [done|].
  intros _. by exists items, s.
Qed.

Lemma well_stacked_lit (s : State.t) :
  State.level s = Some 0 → well_stacked below (JsArray.lit [s]).
Proof. done. Qed.

Lemma well_stacked_push rest cur m1 s n m :
  well_stacked below (JsArray.mk (rest ++ [cur]) m1) →
  State.level cur = Some m → State.level s = Some n → below n = Some m →
  well_stacked below (JsArray.push s (JsArray.mk (rest ++ [cur]) m1)).
Proof.
  unfold well_stacked, JsArray.push. cbn [JsArray.items].
  rewrite !rev_app_distr. cbn [rev app]. intros H Hc Hs Hb.
  split; [by exists n, m | done].
Qed.

Lemma well_stacked_set_top rest cur m1 s :
  well_stacked below (JsArray.mk (rest ++ [cur]) m1) →
  State.level s = State.level cur →
  well_stacked below (JsArray.set_top s (JsArray.mk (rest ++ [cur]) m1)).
Proof.
  rewrite set_top_snoc. unfold well_stacked. cbn [JsArray.items].
  rewrite !rev_app_distr. cbn [rev app chain]. intros H ->.
  by destruct (rev rest).
Qed.

Lemma well_stacked_pop rest p c m1 :
  well_stacked below (JsArray.mk (rest ++ [p; c]) m1) →
  well_stacked below (JsArray.mk (rest ++ [p]) m1).
Proof.
  unfold well_stacked. cbn [JsArray.items].
  rewrite !rev_app_distr. cbn [rev app chain]. by intros [_ H].
Qed.

Lemma well_stacked_parent rest cur m1 n m :
  well_stacked below (JsArray.mk (rest ++ [cur]) m1) →
  State.level cur = Some n → below n = Some m →
  ∃ rest' parent, rest = rest' ++ [parent] ∧ State.level parent = Some m.
Proof.
  unfold well_stacked. cbn [JsArray.items]. rewrite rev_app_distr. cbn [rev app].
  destruct rest as [|parent rest' _] using rev_ind; cbn [rev chain].
  - intros H Hc Hb. rewrite Hc in H. injection H as ->. congruence.
  - rewrite rev_app_distr. cbn [rev app]. intros [(n' & m' & Hc' & Hp & Hb') _] Hc Hb.
    exists rest', parent. split; [done|]. congruence.
Qed.

End Stacks.

Section Moves.
Context {DB Call : Type} (below : Z → option Z).
Local Abbreviation W := (World DB Call).

Lemma moves_well_sessions {A} (c : M W A) (w : W) :
  moves_well below c →
  sessions_well_stacked below w →
  sessions_well_stacked below (c w).2.
Proof.
  intros Hc Hw sid us Hg. destruct (Hc w sid us Hg) as [H|H]; [|done].
  by apply (Hw sid).
Qed.

Lemma moves_ret {A} (a : A) : moves_well below (ret a : M W A).
Proof. intros w sid us H. by left. Qed.

Lemma moves_throw {A} (e : Exn) : moves_well below (throw e : M W A).
Proof. intros w sid us H. by left. Qed.

Lemma moves_bind {A B} (c : M W A) (k : A → M W B) :
  moves_well below c → (∀ a, moves_well below (k a)) →
  moves_well below (bind c k).
Proof.
  intros Hc Hk w sid us. unfold bind. specialize (Hc w sid us).
  destruct (c w) as [[a|e] w1]; [|done].
  intros H. destruct (Hk a w1 sid us H) as [H'|H']; [by apply Hc | by right].
Qed.

Lemma moves_try_catch {A} (c : M W A) (h : Exn → M W A) :
  moves_well below c → (∀ e, moves_well below (h e)) →
  moves_well below (try_catch c h).
Proof.
  intros Hc Hh w sid us. unfold try_catch. specialize (Hc w sid us).
  destruct (c w) as [[a|e] w1]; [done|].
  intros H. destruct (Hh e w1 sid us H) as [H'|H']; [by apply Hc | by right].
Qed.

Lemma moves_getSession sid : moves_well below (getSession sid : M W _).
Proof. intros w sid' us H. by left. Qed.

Lemma moves_saveSession sid data :
  well_stacked below data → moves_well below (saveSession sid data : M W _).
Proof.
  intros Hd w sid' us. unfold saveSession, cache_get. cbn [snd cache clock].
  destruct (decide (sid = sid')) as [<-|Hne].
  - rewrite lookup_insert_eq. cbn [expire value].
    destruct (_ <=? _); [|done]. intros [= <-]. by right.
  - rewrite lookup_insert_ne by done. by left.
Qed.

Lemma moves_cache_del sid : moves_well below (cache_del sid : M W _).
Proof.
  intros w sid' us. unfold cache_del, cache_get. cbn [snd cache clock].
  destruct (decide (sid = sid')) as [<-|Hne].
  - by rewrite lookup_delete_eq.
  - rewrite lookup_delete_ne by done. by left.
Qed.

Lemma moves_issue (c : Call) : moves_well below (issue c : M W _).
Proof. intros w sid us H. by left. Qed.

Lemma moves_round_trip : moves_well below (round_trip : M W _).
Proof. intros w sid us. rewrite round_trip_eq. by left. Qed.

Lemma moves_read_db : moves_well below (read_db : M W _).
Proof. intros w sid us H. by left. Qed.

Lemma moves_write_db (d : DB) : moves_well below (write_db d : M W _).
Proof. intros w sid us H. by left. Qed.

Lemma moves_now : moves_well below (now : M W _).
Proof. intros w sid us H. by left. Qed.

Lemma moves_respond req message continueSession :
  moves_well below (respond req message continueSession : M W _).
Proof. intros w sid us H. by left. Qed.

Lemma moves_reply req data message continueSession :
  well_stacked below data →
  moves_well below (reply req data message continueSession : M W _).
Proof.
  intros Hd. unfold reply. apply moves_bind; [by apply moves_saveSession|].
  intros _. apply moves_respond.
Qed.

End Moves.

Ltac moves_step :=
  lazymatch goal with
  | |- moves_well _ (bind _ _) => apply moves_bind; [|intros ?]
  | |- moves_well _ (try_catch _ _) => apply moves_try_catch; [|intros ?]
  | |- moves_well _ (ret _) => apply moves_ret
  | |- moves_well _ (throw _) => apply moves_throw
  | |- moves_well _ (getSession _) => apply moves_getSession
  | |- moves_well _ (saveSession _ _) => apply moves_saveSession
  | |- moves_well _ (cache_del _) => apply moves_cache_del
  | |- moves_well _ (issue _) => apply moves_issue
  | |- moves_well _ round_trip => apply moves_round_trip
  | |- moves_well _ read_db => apply moves_read_db
  | |- moves_well _ (write_db _) => apply moves_write_db
  | |- moves_well _ now => apply moves_now
  | |- moves_well _ (respond _ _ _) => apply moves_respond
  | |- moves_well _ (reply _ _ _ _) => apply moves_reply
  | |- moves_well _ (if ?b then _ else _) => destruct b
  | |- moves_well _ (match ?x with _ => _ end) => destruct x
  | |- moves_well _ (let _ := _ in _) => cbv zeta
  end.

Lemma ncstcs_case_of_level (l : option Z) (c : NCSTCS.Case) :
  NCSTCS.case_of l = Some c →
  l = Some (match c with
            | NCSTCS.L0 => 0 | NCSTCS.L10 => 10 | NCSTCS.L11 => 11
            | NCSTCS.L12 => 12 | NCSTCS.L13 => 13 | NCSTCS.L14 => 14
            | NCSTCS.L15 => 15 | NCSTCS.L16 => 16 | NCSTCS.L30 => 30
            end).
Proof.
  destruct l as [z|]; [|done]. unfold NCSTCS.case_of.
  destruct z as [|p|p]; [by intros [= <-] | | done].
  do 5 (try destruct p as [p|p|]); try done; by intros [= <-].
Qed.

Lemma pcrs_case_of_level (l : option Z) (c : PCRS.Case) :
  PCRS.case_of l = Some c →
  l = Some (match c with
            | PCRS.L0 => 0 | PCRS.L5 => 5 | PCRS.L10 => 10 | PCRS.L11 => 11
            | PCRS.L12 => 12 | PCRS.L13 => 13 | PCRS.L14 => 14
            | PCRS.L15 => 15 | PCRS.L16 => 16 | PCRS.L17 => 17
            | PCRS.L30 => 30
            end).
Proof.
  destruct l as [z|]; [|done]. unfold PCRS.case_of.
  destruct z as [|p|p]; [by intros [= <-] | | done].
  do 5 (try destruct p as [p|p|]); try done; by intros [= <-].
Qed.

Ltac stack_shape :=
  first
    [ by apply well_stacked_lit
    | by apply well_stacked_set_top
    | by (eapply well_stacked_push; eauto) ].

Lemma ncstcs_level_step_moves_well hash req rest cur m1 :
  well_stacked ncstcs_below (JsArray.mk (rest ++ [cur]) m1) →
  moves_well ncstcs_below
    (NCSTCS.level_step hash req (JsArray.mk (rest ++ [cur]) m1) (Some cur)).
Proof.
  intros Hws. unfold NCSTCS.level_step.
  destruct (NCSTCS.case_of (State.level cur)) as [c|] eqn:Hc.
  2:{ apply moves_reply. by apply well_stacked_lit. }
  apply ncstcs_case_of_level in Hc.
  destruct c;
    unfold NCSTCS.case_0, NCSTCS.case_10, NCSTCS.case_11, NCSTCS.case_12,
      NCSTCS.case_13, NCSTCS.case_14, NCSTCS.case_15, NCSTCS.case_16,
      NCSTCS.case_30, NCSTCS.retry, NCSTCS.advance, NCSTCS.finish,
      NCSTCS.findOne, NCSTCS.create, NCSTCS.hash;
    repeat moves_step; try stack_shape.
  (* the confirm step goes back to the entry below *)
  destruct (well_stacked_parent ncstcs_below eq_refl rest cur m1 14 13 Hws Hc eq_refl)
    as (rest' & parent & -> & Hp).
  rewrite pop_snoc, top_snoc. apply well_stacked_set_top; [|done].
  apply (well_stacked_pop _ rest' parent cur). by rewrite <- app_assoc in Hws.
Qed.

Lemma pcrs_level_step_moves_well hash req rest cur m1 :
  well_stacked pcrs_below (JsArray.mk (rest ++ [cur]) m1) →
  moves_well pcrs_below
    (PCRS.level_step hash req (JsArray.mk (rest ++ [cur]) m1) (Some cur)).
Proof.
  intros Hws. unfold PCRS.level_step.
  destruct (PCRS.case_of (State.level cur)) as [c|] eqn:Hc.
  2:{ apply moves_reply. by apply well_stacked_lit. }
  apply pcrs_case_of_level in Hc.
  destruct c;
    unfold PCRS.case_0, PCRS.case_5, PCRS.case_10, PCRS.case_11, PCRS.case_12,
      PCRS.case_13, PCRS.case_14, PCRS.case_15, PCRS.case_16, PCRS.case_17,
      PCRS.case_30, PCRS.retry, PCRS.advance, PCRS.finish,
      PCRS.findOne, PCRS.findById, PCRS.create, PCRS.hash;
    repeat moves_step; try stack_shape.
  destruct (well_stacked_parent pcrs_below eq_refl rest cur m1 15 14 Hws Hc eq_refl)
    as (rest' & parent & -> & Hp).
  rewrite pop_snoc, top_snoc. apply well_stacked_set_top; [|done].
  apply (well_stacked_pop _ rest' parent cur). by rewrite <- app_assoc in Hws.
Qed.

(** The Back key on a well-built stack leaves a well-built stack. *)
Lemma back_moves_well {DB Call : Type} (below : Z → option Z) req rest cur m1 :
  well_stacked below (JsArray.mk (rest ++ [cur]) m1) →
  moves_well below
    (let userSession :=
       if (1 <? JsArray.length (JsArray.mk (rest ++ [cur]) m1))%nat
       then JsArray.pop (JsArray.mk (rest ++ [cur]) m1)
       else JsArray.mk (rest ++ [cur]) m1 in
     match JsArray.top userSession with
     | Some prev => reply req userSession (State.message prev) true
     | None => throw TypeError
     end : M (World DB Call) Response).
Proof.
  intros Hws. cbv zeta. rewrite length_snoc, pop_snoc.
  destruct rest as [|p rest' _] using rev_ind.
  - cbn [length Nat.ltb Nat.leb]. rewrite top_snoc. by apply moves_reply.
  - rewrite length_app. cbn [length].
    replace (1 <? S (length rest' + 1))%nat with true
      by (symmetry; apply Nat.ltb_lt; lia).
    rewrite top_snoc. apply moves_reply.
    apply (well_stacked_pop _ rest' p cur). by rewrite <- app_assoc in Hws.
Qed.

(** Every transition of NCSTCS keeps the stacks of all live sessions well
    built; a store without sessions is trivially so. *)
Lemma ncstcs_keeps_stacks_well_built hash req (w : NCSTCS.W) :
  sessions_well_stacked ncstcs_below w →
  sessions_well_stacked ncstcs_below (NCSTCS.ussd hash req w).2.
Proof.
  intros Hw. unfold NCSTCS.ussd. unfold bind at 1, getSession.
  assert (Hstart : moves_well ncstcs_below
            (bind (saveSession (sessionID req)
                     (JsArray.lit [State.obj (Some 0) NCSTCS.home_menu]))
                  (fun _ => respond req NCSTCS.home_menu true) : M NCSTCS.W _)).
  { repeat moves_step. by apply well_stacked_lit. }
  destruct (newSession req); [by apply moves_well_sessions|].
  destruct (cache_get (sessionID req) w) as [us|] eqn:Hg;
    [|by apply moves_well_sessions].
  pose proof (Hw _ _ Hg) as Hws.
  destruct (well_stacked_top _ us Hws) as (rest & cur & Hus).
  rewrite Hus in Hws |- *. clear Hus Hg. 
  apply moves_well_sessions; [|done].
  destruct (String.eqb (userData req) "0").
  { apply moves_reply. by apply well_stacked_lit. }
  destruct (String.eqb (userData req) "9").
  { by apply back_moves_well. }
  rewrite top_snoc. apply moves_try_catch.
  - by apply ncstcs_level_step_moves_well.
  - intros e. unfold NCSTCS.finish. repeat moves_step.
Qed.

Lemma pcrs_keeps_stacks_well_built hash req (w : PCRS.W) :
  sessions_well_stacked pcrs_below w →
  sessions_well_stacked pcrs_below (PCRS.ussd hash req w).2.
Proof.
  intros Hw. unfold PCRS.ussd. unfold bind at 1, getSession.
  assert (Hstart : moves_well pcrs_below (PCRS.start req)).
  { intros w0 sid us. destruct (pcrs_start_eq req w0) as (home & w1 & -> & Hl & Hw1).
    intros Hg.
    destruct (moves_saveSession pcrs_below (sessionID req) (JsArray.lit [home])
                (well_stacked_lit pcrs_below home Hl) w1 sid us Hg) as [H|H];
      [left | by right].
    by destruct Hw1 as [-> | [c ->]]. }
  destruct (newSession req); [by apply moves_well_sessions|].
  destruct (cache_get (sessionID req) w) as [us|] eqn:Hg;
    [|by apply moves_well_sessions].
  pose proof (Hw _ _ Hg) as Hws.
  destruct (well_stacked_top _ us Hws) as (rest & cur & Hus).
  rewrite Hus in Hws |- *. clear Hus Hg.
  apply moves_well_sessions; [|done].
  destruct (String.eqb (userData req) "0").
  { unfold PCRS.go_home, PCRS.findById. repeat moves_step; by apply well_stacked_lit. }
  destruct (String.eqb (userData req) "9").
  { by apply back_moves_well. }
  rewrite top_snoc. apply moves_try_catch.
  - by apply pcrs_level_step_moves_well.
  - intros e. unfold PCRS.finish. repeat moves_step.
Qed.

(** ** Sending a request again *)

Lemma cache_get_saved {DB Call : Type} sid data (w : World DB Call) :
  cache_get sid (saved sid data w) = Some data.
Proof. apply cache_get_put. Qed.

Lemma cache_get_dropped {DB Call : Type} sid (w : World DB Call) :
  cache_get sid (dropped sid w) = None.
Proof. apply cache_get_del. Qed.

Lemma cache_get_saved_later {DB Call : Type} sid data d (w : World DB Call) :
  d ≤ 1000 * 60 * 15 →
  cache_get sid (elapse d (saved sid data w)) = Some data.
Proof.
  intros Hd. unfold cache_get, elapse, saved. cbn [cache clock].
  rewrite lookup_insert_eq. cbn [expire value].
  destruct (Z.leb_spec (clock w + d) (clock w + 1000 * 60 * 15)); [done | lia].
Qed.

(** A handler that answers [r] and saves the stack it found does so however
    often the request is sent while the session lives. *)
Lemma resend_fixed {DB Call : Type} (handler : M (World DB Call) Response)
    (sid : string) (us : JsArray.t) (r : Response) :
  (∀ w, cache_get sid w = Some us → handler w = (Ok r, saved sid us w)) →
  ∀ delays w,
    Forall (fun d => d ≤ 1000 * 60 * 15) delays →
    cache_get sid w = Some us →
    Forall (fun x => x = Ok r) (resend handler delays w).1
    ∧ length (resend handler delays w).1 = S (length delays)
    ∧ cache_get sid (resend handler delays w).2 = Some us.
Proof.
  intros Hh delays. induction delays as [|d ds IH]; intros w Hd Hg; cbn [resend].
  - rewrite (Hh w Hg). cbn. split; [by repeat constructor|].
    split; [done | apply cache_get_saved].
  - rewrite (Hh w Hg). inversion Hd as [|? ? Hd1 Hds]; subst.
    specialize (IH (elapse d (saved sid us w)) Hds (cache_get_saved_later _ _ _ _ Hd1)).
    destruct (resend handler ds (elapse d (saved sid us w))) as [rs w2].
    cbn in *. destruct IH as (H1 & H2 & H3).
    split; [by constructor|]. split; [by rewrite H2 | done].
Qed.

(** ** Steps that end a session *)

Lemma valid_card_not_navigation (req : Request) :
  Validators.isValidGhanaCard (card_of req) = true →
  userData req ≠ "0" ∧ userData req ≠ "9".
Proof.
  unfold card_of. intros Hv.
  split; intros E; rewrite E in Hv; vm_compute in Hv; discriminate Hv.
Qed.

Lemma ncstcs_create_calls (d : NCSTCS.Fields) (w : NCSTCS.W) :
  calls (NCSTCS.create d w).2 = calls w ++ [NCSTCS.Create d].
Proof.
  unfold NCSTCS.create. js. destruct (negb _); [done|].
  rewrite round_trip_eq. destruct (next_fault _); [done|].
  cbn [clock cache faults calls db]. by destruct (_ || _).
Qed.

Lemma pcrs_create_calls (d : PCRS.Fields) (w : PCRS.W) :
  calls (PCRS.create d w).2 = calls w ++ [PCRS.Create d].
Proof.
  unfold PCRS.create. js. destruct (negb _); [done|].
  rewrite round_trip_eq. destruct (next_fault _); [done|].
  cbn [clock cache faults calls db]. by destruct (_ || _).
Qed.

Lemma ncstcs_final_step_calls hash req (w : NCSTCS.W) rest cur m1 :
  newSession req = false →
  cache_get (sessionID req) w = Some (JsArray.mk (rest ++ [cur]) m1) →
  State.level cur = Some 16 →
  Validators.isValidGhanaCard (card_of req) = true →
  calls (NCSTCS.ussd hash req w).2
  = calls w ++ [NCSTCS.FindOne NCSTCS.GhanaCardNumber (card_of req)]
  ∨ (find (NCSTCS.has NCSTCS.GhanaCardNumber (card_of req)) (db w) = None
     ∧ ∃ p, State.password cur = Some p
            ∧ calls (NCSTCS.ussd hash req w).2
              = calls w
                ++ [NCSTCS.FindOne NCSTCS.GhanaCardNumber (card_of req);
                    NCSTCS.Create (ncstcs_new_user hash cur p (card_of req))]).
Proof.
  intros Hn Hg Hl Hv. destruct (valid_card_not_navigation req Hv) as [H0 H9].
  remember (NCSTCS.ussd hash req w) as out eqn:E.
  rewrite (ncstcs_step _ _ _ _ Hn Hg H0 H9) in E.
  unfold try_catch, NCSTCS.level_step in E.
  rewrite top_snoc, Hl in E. cbn [NCSTCS.case_of] in E.
  unfold NCSTCS.case_16 in E. fold (card_of req) in E.
  rewrite Hv in E. cbn [negb] in E. unfold bind at 1 in E.
  rewrite ncstcs_findOne_eq in E.
  destruct (next_fault (faults w)); [left; by subst out|].
  destruct (find _ (db w)) as [u|] eqn:Hfind; [left; by subst out|].
  unfold bind at 1, NCSTCS.hash in E.
  destruct (State.password cur) as [p|] eqn:Hp; [|left; by subst out].
  right. split; [done|]. exists p. split; [done|].
  unfold ret at 1 in E. unfold bind at 1, try_catch, bind at 1 in E.
  fold (ncstcs_new_user hash cur p (card_of req)) in E.
  pose proof (ncstcs_create_calls (ncstcs_new_user hash cur p (card_of req))
    (mkWorld (clock w) (cache w) (tail (faults w))
       (calls w ++ [NCSTCS.FindOne NCSTCS.GhanaCardNumber (card_of req)]) (db w)))
    as Hc.
  destruct (NCSTCS.create _ _) as [[u|e] w1]; subst out; cbn in Hc |- *;
    by rewrite Hc, <- app_assoc.
Qed.

Lemma pcrs_final_step_calls hash req (w : PCRS.W) rest cur m1 :
  newSession req = false →
  cache_get (sessionID req) w = Some (JsArray.mk (rest ++ [cur]) m1) →
  State.level cur = Some 17 →
  Validators.isValidGhanaCard (card_of req) = true →
  calls (PCRS.ussd hash req w).2
  = calls w ++ [PCRS.FindOne PCRS.GhanaCardNumber (card_of req)]
  ∨ (find (PCRS.has PCRS.GhanaCardNumber (card_of req)) (db w) = None
     ∧ ∃ p, State.password cur = Some p
            ∧ calls (PCRS.ussd hash req w).2
              = calls w
                ++ [PCRS.FindOne PCRS.GhanaCardNumber (card_of req);
                    PCRS.Create (pcrs_new_user hash cur p (card_of req))]).
Proof.
  intros Hn Hg Hl Hv. destruct (valid_card_not_navigation req Hv) as [H0 H9].
  remember (PCRS.ussd hash req w) as out eqn:E.
  rewrite (pcrs_step _ _ _ _ Hn Hg H0 H9) in E.
  unfold try_catch, PCRS.level_step in E.
  rewrite top_snoc, Hl in E. cbn [PCRS.case_of] in E.
  unfold PCRS.case_17 in E. fold (card_of req) in E.
  rewrite Hv in E. cbn [negb] in E. unfold bind at 1 in E.
  rewrite pcrs_findOne_eq in E.
  destruct (next_fault (faults w)); [left; by subst out|].
  destruct (find _ (db w)) as [u|] eqn:Hfind; [left; by subst out|].
  unfold bind at 1, PCRS.hash in E.
  destruct (State.password cur) as [p|] eqn:Hp; [|left; by subst out].
  right. split; [done|]. exists p. split; [done|].
  unfold ret at 1 in E. unfold bind at 1, try_catch, bind at 1 in E.
  fold (pcrs_new_user hash cur p (card_of req)) in E.
  pose proof (pcrs_create_calls (pcrs_new_user hash cur p (card_of req))
    (looked_up (PCRS.FindOne PCRS.GhanaCardNumber (card_of req)) w)) as Hc.
  destruct (PCRS.create _ _) as [[u|e] w1]; subst out; cbn in Hc |- *;
    by rewrite Hc, <- app_assoc.
Qed.

Lemma gateplus_default pf ns ds req (w : GatePlus.W) rest cur m1 user :
  newSession req = false →
  cache_get (sessionID req) w = Some (JsArray.mk (rest ++ [cur]) m1) →
  GatePlus.in_registration (State.level cur) = false →
  State.level cur ≠ Some 1 → State.level cur ≠ Some 2 →
  no_fault (faults w) → msisdn req ≠ "" →
  find (fun u => String.eqb (GatePlus.User.msisdn u) (msisdn req))
    (GatePlus.users (db w)) = Some user →
  GatePlus.ussd pf ns ds req w
  = (Ok (answer req "An error occurred." false), menu_logged req cur w).
Proof.
  intros Hn Hg Hr H1 H2 Hf Hm Hu.
  rewrite (gateplus_step _ _ _ _ _ _ _ _ Hn Hg). unfold try_catch, GatePlus.level_step.
  rewrite Hr, (gateplus_existing_user _ _ _ _ _ _ _ _ Hf Hm Hu).
  by rewrite !bool_decide_eq_false_2.
Qed.

Lemma gateplus_unknown_registration_level pf ns ds req (w : GatePlus.W)
    rest cur m1 :
  newSession req = false →
  cache_get (sessionID req) w = Some (JsArray.mk (rest ++ [cur]) m1) →
  GatePlus.in_registration (State.level cur) = true →
  State.level cur ≠ Some 10 → State.level cur ≠ Some 11 →
  GatePlus.ussd pf ns ds req w = (Ok (answer req "" true), w).
Proof.
  intros Hn Hg Hr H1 H2.
  rewrite (gateplus_step _ _ _ _ _ _ _ _ Hn Hg). unfold try_catch, GatePlus.level_step.
  rewrite Hr. unfold GatePlus.registration. by rewrite !bool_decide_eq_false_2.
Qed.

Lemma pcrs_create_failure hash req (w : PCRS.W) rest cur m1 p e w1 :
  newSession req = false →
  cache_get (sessionID req) w = Some (JsArray.mk (rest ++ [cur]) m1) →
  State.level cur = Some 17 →
  Validators.isValidGhanaCard (card_of req) = true →
  next_fault (faults w) = false →
  find (PCRS.has PCRS.GhanaCardNumber (card_of req)) (db w) = None →
  State.password cur = Some p →
  PCRS.create (pcrs_new_user hash cur p (card_of req))
    (looked_up (PCRS.FindOne PCRS.GhanaCardNumber (card_of req)) w)
  = (Throw e, w1) →
  PCRS.ussd hash req w
  = (Ok (answer req "Registration failed. Try again later." false),
     dropped (sessionID req) w1).
Proof.
  intros Hn Hg Hl Hv Hf Hfind Hp Hc.
  destruct (valid_card_not_navigation req Hv) as [H0 H9].
  rewrite (pcrs_step _ _ _ _ Hn Hg H0 H9). unfold try_catch, PCRS.level_step.
  rewrite top_snoc, Hl. cbn [PCRS.case_of]. unfold PCRS.case_17.
  fold (card_of req). rewrite Hv. cbn [negb]. unfold bind at 1.
  rewrite pcrs_findOne_eq, Hf, Hfind. unfold bind at 1, PCRS.hash.
  rewrite Hp. unfold ret at 1. unfold bind at 1, try_catch, bind at 1.
  fold (pcrs_new_user hash cur p (card_of req)). by rewrite Hc.
Qed.

(** A lookup that fails or times out at a capture step escapes the step. *)
Lemma pcrs_failed_lookup hash req (w : PCRS.W) rest cur m1 c f v :
  newSession req = false →
  cache_get (sessionID req) w = Some (JsArray.mk (rest ++ [cur]) m1) →
  userData req ≠ "0" → userData req ≠ "9" →
  PCRS.case_of (State.level cur) = Some c →
  pcrs_valid c (userData req) = true →
  pcrs_unique c (userData req) = Some (f, v) →
  next_fault (faults w) = true →
  PCRS.ussd hash req w
  = (Ok (answer req PCRS.generic_failure false),
     dropped (sessionID req) (looked_up (PCRS.FindOne f v) w)).
Proof.
  intros Hn Hg H0 H9 Hc Hv Hu Hf.
  rewrite (pcrs_step _ _ _ _ Hn Hg H0 H9). unfold try_catch, PCRS.level_step.
  rewrite top_snoc, Hc.
  destruct c; try discriminate Hu; cbn [pcrs_valid pcrs_unique] in Hv, Hu;
    injection Hu as <- <-;
    unfold PCRS.case_11, PCRS.case_12, PCRS.case_13, PCRS.case_16, PCRS.case_17;
    rewrite Hv; cbn [negb]; unfold bind; by rewrite pcrs_findOne_eq, Hf.
Qed.

Lemma ncstcs_failed_lookup hash req (w : NCSTCS.W) rest cur m1 c f v :
  newSession req = false →
  cache_get (sessionID req) w = Some (JsArray.mk (rest ++ [cur]) m1) →
  userData req ≠ "0" → userData req ≠ "9" →
  NCSTCS.case_of (State.level cur) = Some c →
  ncstcs_valid c (userData req) = true →
  ncstcs_unique c (userData req) = Some (f, v) →
  next_fault (faults w) = true →
  NCSTCS.ussd hash req w
  = (Ok (answer req NCSTCS.generic_failure false),
     dropped (sessionID req)
       (mkWorld (clock w) (cache w) (tail (faults w))
          (calls w ++ [NCSTCS.FindOne f v]) (db w))).
Proof.
  intros Hn Hg H0 H9 Hc Hv Hu Hf.
  rewrite (ncstcs_step _ _ _ _ Hn Hg H0 H9). unfold try_catch, NCSTCS.level_step.
  rewrite top_snoc, Hc.
  destruct c; try discriminate Hu; cbn [ncstcs_valid ncstcs_unique] in Hv, Hu;
    injection Hu as <- <-;
    unfold NCSTCS.case_11, NCSTCS.case_12, NCSTCS.case_15, NCSTCS.case_16;
    rewrite Hv; cbn [negb]; unfold bind; by rewrite ncstcs_findOne_eq, Hf.
Qed.

(** In the existing-user flow of GatePlus the subscriber lookup comes
    first; when it fails the session ends. *)
Lemma gateplus_failed_lookup pf ns ds req (w : GatePlus.W) rest cur m1 :
  newSession req = false →
  cache_get (sessionID req) w = Some (JsArray.mk (rest ++ [cur]) m1) →
  GatePlus.in_registration (State.level cur) = false →
  next_fault (faults w) = true →
  GatePlus.ussd pf ns ds req w
  = (Ok (answer req GatePlus.generic_failure false),
     dropped (sessionID req) (looked_up (GatePlus.UserFindOne (msisdn req)) w)).
Proof.
  intros Hn Hg Hr Hf.
  rewrite (gateplus_step _ _ _ _ _ _ _ _ Hn Hg). unfold try_catch, GatePlus.level_step.
  rewrite Hr. unfold GatePlus.existing_user. unfold bind at 1.
  by rewrite gateplus_findUser_eq, Hf.
Qed.

(** The Home key of PCRS absorbs a failure of its lookup. *)
Lemma pcrs_home_absorbs_failure hash req (w : PCRS.W) us :
  newSession req = false →
  cache_get (sessionID req) w = Some us →
  userData req = "0" →
  PCRS.first_loggedIn us = true →
  next_fault (faults w) = true →
  PCRS.ussd hash req w
  = (Ok (answer req (PCRS.member_menu "Courier") true),
     saved (sessionID req)
       (JsArray.lit
          [State.set_userRef (PCRS.first_userRef us)
             (State.set_loggedIn true
                (State.obj (Some 0) (PCRS.member_menu "Courier")))])
       (looked_up (PCRS.FindById (PCRS.first_userRef us)) w)).
Proof.
  intros Hn Hg H0 Hl Hf. rewrite (pcrs_home hash _ _ _ Hn Hg H0).
  unfold pcrs_home_entry. by rewrite Hl, Hf.
Qed.

(** * Further lemmas *)

(** ** Trimming and character classes *)

Lemma rev_app_list (s1 s2 : string) :
  list_ascii_of_string (String.rev_app s1 s2)
  = rev (list_ascii_of_string s1) ++ list_ascii_of_string s2.
Proof.
  revert s2. induction s1 as [|c s1 IH]; intros s2; [done|].
  cbn [String.rev_app list_ascii_of_string rev]. rewrite IH.
  cbn [list_ascii_of_string]. by rewrite <- app_assoc.
Qed.

Lemma rev_list (s : string) :
  list_ascii_of_string (String.rev s) = rev (list_ascii_of_string s).
Proof. unfold String.rev. rewrite rev_app_list. apply app_nil_r. Qed.

Lemma trim_start_list (s : string) :
  list_ascii_of_string (Js.trim_start s) = drop_spaces (list_ascii_of_string s).
Proof.
  induction s as [|c s IH]; [done|].
  cbn [Js.trim_start list_ascii_of_string drop_spaces].
  by destruct (Js.is_space c).
Qed.

Lemma trim_list (s : string) :
  list_ascii_of_string (Js.trim s) = trimmed (list_ascii_of_string s).
Proof.
  unfold Js.trim, Js.trim_end, trimmed.
  by rewrite rev_list, trim_start_list, rev_list, trim_start_list.
Qed.

Lemma drop_spaces_fixed (l : list ascii) :
  match l with c :: _ => Js.is_space c = false | [] => True end →
  drop_spaces l = l.
Proof. destruct l as [|c l]; [done|]. cbn. by intros ->. Qed.

Lemma drop_spaces_head (l : list ascii) :
  match drop_spaces l with c :: _ => Js.is_space c = false | [] => True end.
Proof.
  induction l as [|c l IH]; [done|]. cbn.
  destruct (Js.is_space c) eqn:E; [done|]. done.
Qed.

Lemma drop_spaces_snoc (l : list ascii) (c : ascii) :
  Js.is_space c = false → drop_spaces (l ++ [c]) = drop_spaces l ++ [c].
Proof.
  intros Hc. induction l as [|d l IH]; cbn; [by rewrite Hc|].
  by destruct (Js.is_space d).
Qed.

(** A string that neither starts nor ends with white space is its own
    trim. *)
Lemma trimmed_fixed (l : list ascii) :
  match l with c :: _ => Js.is_space c = false | [] => True end →
  match rev l with c :: _ => Js.is_space c = false | [] => True end →
  trimmed l = l.
Proof.
  intros H1 H2. unfold trimmed.
  rewrite (drop_spaces_fixed l H1), (drop_spaces_fixed _ H2).
  apply rev_involutive.
Qed.

Lemma trimmed_edges (l : list ascii) :
  match trimmed l with c :: _ => Js.is_space c = false | [] => True end
  ∧ match rev (trimmed l) with c :: _ => Js.is_space c = false | [] => True end.
Proof.
  unfold trimmed. rewrite rev_involutive. split; [|apply drop_spaces_head].
  pose proof (drop_spaces_head l) as H.
  destruct (drop_spaces l) as [|c t]; [done|].
  cbn [rev]. rewrite (drop_spaces_snoc _ _ H), rev_app_distr. done.
Qed.

Lemma trimmed_idempotent (l : list ascii) : trimmed (trimmed l) = trimmed l.
Proof. destruct (trimmed_edges l). by apply trimmed_fixed. Qed.

Lemma list_ascii_inj (s t : string) :
  list_ascii_of_string s = list_ascii_of_string t → s = t.
Proof.
  intros H. rewrite <- (string_of_list_ascii_of_string s),
    <- (string_of_list_ascii_of_string t). by rewrite H.
Qed.

Lemma trim_idempotent (s : string) : Js.trim (Js.trim s) = Js.trim s.
Proof.
  apply list_ascii_inj. rewrite !trim_list. apply trimmed_idempotent.
Qed.

Section ClassFacts.

Import Regex.

Variable p : ascii → bool.

Lemma lang_star_cls (s : list ascii) :
  lang (Star (Cls p)) s ↔ Forall (fun c => p c = true) s.
Proof.
  split.
  - induction s as [|c s IH]; intros H; [constructor|].
    apply lang_star_cons_inv in H as (s1 & s2 & -> & H1 & H2).
    apply lang_cls_inv in H1 as (c' & Heq & Hc). injection Heq as -> ->.
    constructor; [done | by apply IH].
  - induction 1 as [|c s Hc _ IH]; [constructor|].
    change (lang (Star (Cls p)) ([c] ++ s)). constructor; [by constructor | done].
Qed.

Lemma lang_plus_cls (s : list ascii) :
  lang (plus (Cls p)) s ↔ s ≠ [] ∧ Forall (fun c => p c = true) s.
Proof.
  unfold plus. rewrite lang_cat_inv. split.
  - intros (s1 & s2 & -> & H1 & H2).
    apply lang_cls_inv in H1 as (c & -> & Hc). apply lang_star_cls in H2.
    split; [done | by constructor].
  - intros [Hne Hall]. destruct Hall as [|c s Hc Hall]; [done|].
    exists [c], s. split; [done|]. split; [by constructor | by apply lang_star_cls].
Qed.

Lemma lang_rep_upto_cls (n : nat) (s : list ascii) :
  lang (rep_upto n (Cls p)) s
  ↔ (length s ≤ n)%nat ∧ Forall (fun c => p c = true) s.
Proof.
  revert s. induction n as [|n IH]; intros s; simpl.
  - split.
    + intros H. inversion H. split; [done | constructor].
    + intros [Hl _]. destruct s; [constructor | simpl in Hl; lia].
  - rewrite lang_alt_inv, lang_cat_inv. split.
    + intros [H|(s1 & s2 & -> & H1 & H2)].
      * inversion H. split; [simpl; lia | constructor].
      * apply lang_cls_inv in H1 as (c & -> & Hc). apply IH in H2 as [Hl Hall].
        split; [simpl; lia | by constructor].
    + intros [Hl Hall]. destruct Hall as [|c s Hc Hall]; [left; constructor|].
      right. exists [c], s. split; [done|]. split; [by constructor|].
      apply IH. split; [simpl in Hl; lia | done].
Qed.

Lemma lang_rep_min_cls (n : nat) (s : list ascii) :
  lang (rep_min n (Cls p)) s
  ↔ (n ≤ length s)%nat ∧ Forall (fun c => p c = true) s.
Proof.
  unfold rep_min. rewrite lang_cat_inv. split.
  - intros (s1 & s2 & -> & H1 & H2).
    apply lang_rep_cls in H1 as [Hl H1]. apply lang_star_cls in H2.
    split; [rewrite length_app; lia | by apply Forall_app].
  - intros [Hl Hall]. exists (firstn n s), (skipn n s).
    split; [by rewrite firstn_skipn|].
    rewrite <- (firstn_skipn n s) in Hall. apply Forall_app in Hall as [H1 H2].
    split; [apply lang_rep_cls | by apply lang_star_cls].
    split; [rewrite length_firstn; lia | done].
Qed.

Lemma lang_rep_range_cls (lo hi : nat) (s : list ascii) :
  (lo ≤ hi)%nat →
  lang (rep_range lo hi (Cls p)) s
  ↔ (lo ≤ length s ≤ hi)%nat ∧ Forall (fun c => p c = true) s.
Proof.
  intros Hlh. unfold rep_range. rewrite lang_cat_inv. split.
  - intros (s1 & s2 & -> & H1 & H2).
    apply lang_rep_cls in H1 as [Hl1 H1]. apply lang_rep_upto_cls in H2 as [Hl2 H2].
    split; [rewrite length_app; lia | by apply Forall_app].
  - intros [Hl Hall]. exists (firstn lo s), (skipn lo s).
    split; [by rewrite firstn_skipn|].
    rewrite <- (firstn_skipn lo s) in Hall. apply Forall_app in Hall as [H1 H2].
    split; [apply lang_rep_cls | apply lang_rep_upto_cls].
    + split; [rewrite length_firstn; lia | done].
    + split; [rewrite length_skipn; lia | done].
Qed.

End ClassFacts.

(** An unanchored search for one character of the class. *)
Lemma lang_star_any (s : list ascii) : Regex.lang (Regex.Star Regex.any) s.
Proof. apply lang_star_cls. by apply Forall_forall. Qed.

Lemma search_cls (p : ascii → bool) (s : string) :
  Regex.test_search (Regex.Cls p) s = true
  ↔ Exists (fun c => p c = true) (list_ascii_of_string s).
Proof.
  unfold Regex.test_search. rewrite matches_lang, lang_cat_inv. split.
  - intros (s1 & s2 & -> & _ & H).
    apply lang_cat_inv in H as (s3 & s4 & -> & H & _).
    apply lang_cls_inv in H as (c & -> & Hc).
    apply Exists_app. right. by constructor.
  - intros H. apply Exists_exists in H as (c & Hin & Hc).
    apply list_elem_of_split in Hin as (s1 & s2 & ->).
    exists s1, (c :: s2). split; [done|].
    split; [apply lang_star_any|].
    apply lang_cat_inv. exists [c], s2. split; [done|].
    split; [by constructor | apply lang_star_any].
Qed.

Lemma length_list_ascii (s : string) :
  length (list_ascii_of_string s) = String.length s.
Proof. induction s as [|c s IH]; [done|]. cbn. by rewrite IH. Qed.

(** ** Phone numbers *)

Lemma lang_lit233 (s : list ascii) :
  Regex.lang Validators.lit233 s ↔ s = ["2"; "3"; "3"]%char.
Proof.
  unfold Validators.lit233. rewrite lang_cat_inv. split.
  - intros (s1 & s2 & -> & H1 & H2). apply lang_chr_inv in H1 as ->.
    apply lang_cat_inv in H2 as (s3 & s4 & -> & H3 & H4).
    apply lang_chr_inv in H3 as ->. by apply lang_chr_inv in H4 as ->.
  - intros ->. exists ["2"%char], ["3"; "3"]%char. split; [done|].
    split; [by apply lang_chr_inv|]. apply lang_cat_inv.
    exists ["3"%char], ["3"%char]. by rewrite !lang_chr_inv.
Qed.

Lemma lang_national (s : list ascii) :
  Regex.lang (Regex.Cat (Regex.chr "0") (Regex.rep 9 Regex.digit)) s
  ↔ ∃ ds, digits 9 ds ∧ s = ("0" :: ds)%char.
Proof.
  rewrite lang_cat_inv. split.
  - intros (s1 & ds & -> & H1 & H2). apply lang_chr_inv in H1 as ->.
    apply lang_rep_cls in H2. by exists ds.
  - intros (ds & Hd & ->). exists ["0"%char], ds. split; [done|].
    split; [by apply lang_chr_inv | by apply lang_rep_cls].
Qed.

Lemma lang_international (s : list ascii) :
  Regex.lang (Regex.Cat Validators.lit233 (Regex.rep 9 Regex.digit)) s
  ↔ ∃ ds, digits 9 ds ∧ s = ("2" :: "3" :: "3" :: ds)%char.
Proof.
  rewrite lang_cat_inv. split.
  - intros (s1 & ds & -> & H1 & H2). apply lang_lit233 in H1 as ->.
    apply lang_rep_cls in H2. by exists ds.
  - intros (ds & Hd & ->). exists ["2"; "3"; "3"]%char, ds. split; [done|].
    split; [by apply lang_lit233 | by apply lang_rep_cls].
Qed.

Lemma lang_plus_international (s : list ascii) :
  Regex.lang
    (Regex.Cat (Regex.chr "+")
       (Regex.Cat Validators.lit233 (Regex.rep 9 Regex.digit))) s
  ↔ ∃ ds, digits 9 ds ∧ s = ("+" :: "2" :: "3" :: "3" :: ds)%char.
Proof.
  rewrite lang_cat_inv. split.
  - intros (s1 & s2 & -> & H1 & H2). apply lang_chr_inv in H1 as ->.
    apply lang_international in H2 as (ds & Hd & ->). by exists ds.
  - intros (ds & Hd & ->). exists ["+"%char], ("2" :: "3" :: "3" :: ds)%char.
    split; [done|]. split; [by apply lang_chr_inv|].
    apply lang_international. by exists ds.
Qed.

Lemma phone_re_lang (s : list ascii) :
  Regex.lang Validators.phone_re s ↔ ∃ ds, digits 9 ds ∧ spelled s ds.
Proof.
  unfold Validators.phone_re, Regex.opt, spelled. rewrite lang_cat_inv. split.
  - intros (s1 & ds & -> & H1 & H2). apply lang_rep_cls in H2.
    exists ds. split; [done|].
    apply lang_alt_inv in H1 as [H1|H1].
    + apply lang_chr_inv in H1 as ->. by left.
    + apply lang_cat_inv in H1 as (s3 & s4 & -> & H3 & H4).
      apply lang_lit233 in H4 as ->.
      apply lang_alt_inv in H3 as [H3|H3].
      * inversion H3. right. by left.
      * apply lang_chr_inv in H3 as ->. right. by right.
  - intros (ds & Hd & [->| [->| ->]]).
    + exists ["0"%char], ds. split; [done|].
      split; [|by apply lang_rep_cls].
      apply lang_alt_inv. left. by apply lang_chr_inv.
    + exists ["2"; "3"; "3"]%char, ds. split; [done|].
      split; [|by apply lang_rep_cls].
      apply lang_alt_inv. right. apply lang_cat_inv.
      exists [], ["2"; "3"; "3"]%char. split; [done|].
      split; [apply lang_alt_inv; left; constructor | by apply lang_lit233].
    + exists ["+"; "2"; "3"; "3"]%char, ds. split; [done|].
      split; [|by apply lang_rep_cls].
      apply lang_alt_inv. right. apply lang_cat_inv.
      exists ["+"%char], ["2"; "3"; "3"]%char. split; [done|].
      split; [apply lang_alt_inv; right; by apply lang_chr_inv
             | by apply lang_lit233].
Qed.

Lemma test_false (r : Regex.re) (s : string) :
  ¬ Regex.lang r (list_ascii_of_string s) → Regex.test_full r s = false.
Proof.
  intros H. unfold Regex.test_full.
  destruct (Regex.matches r _) eqn:E; [|done]. by apply matches_lang in E.
Qed.

Lemma test_true (r : Regex.re) (s : string) :
  Regex.lang r (list_ascii_of_string s) → Regex.test_full r s = true.
Proof. intros H. by apply matches_lang. Qed.

Lemma list_ascii_append (s t : string) :
  list_ascii_of_string (s +:+ t)
  = list_ascii_of_string s ++ list_ascii_of_string t.
Proof. induction s as [|c s IH]; [done|]. cbn. by rewrite <- IH. Qed.

Lemma normalizePhone_spelled (phone : string) (ds : list ascii) :
  digits 9 ds →
  spelled (list_ascii_of_string (Js.trim phone)) ds →
  Validators.normalizePhone phone = e164 ds.
Proof.
  intros Hd Hs. unfold Validators.normalizePhone. cbv zeta.
  apply list_ascii_inj. unfold e164. rewrite list_ascii_of_string_of_list_ascii.
  destruct Hs as [Hs|[Hs|Hs]].
  - rewrite test_true by (apply lang_national; by exists ds).
    rewrite list_ascii_append.
    destruct (Js.trim phone) as [|c t]; [done|]. injection Hs as -> <-. done.
  - rewrite test_false.
    2:{ rewrite lang_national, Hs. by intros (? & _ & [=]). }
    rewrite test_true by (apply lang_international; by exists ds).
    rewrite list_ascii_append, Hs. done.
  - rewrite test_false.
    2:{ rewrite lang_national, Hs. by intros (? & _ & [=]). }
    rewrite test_false.
    2:{ rewrite lang_international, Hs. by intros (? & _ & [=]). }
    by destruct (Regex.test_full _ _).
Qed.

Lemma normalizePhone_other (phone : string) :
  Validators.isValidPhone phone = false →
  Validators.normalizePhone phone = Js.trim phone.
Proof.
  intros Hv. unfold Validators.normalizePhone. cbv zeta.
  assert (Hno : ∀ ds, digits 9 ds →
                  ¬ spelled (list_ascii_of_string (Js.trim phone)) ds).
  { intros ds Hd Hs. unfold Validators.isValidPhone in Hv.
    rewrite test_true in Hv; [done|]. apply phone_re_lang. by exists ds. }
  rewrite test_false.
  2:{ rewrite lang_national. intros (ds & Hd & Hs). apply (Hno ds Hd). by left. }
  rewrite test_false.
  2:{ rewrite lang_international. intros (ds & Hd & Hs).
      apply (Hno ds Hd). right. by left. }
  by destruct (Regex.test_full _ _).
Qed.

Lemma no_space_trimmed (l : list ascii) :
  Forall (fun c => Js.is_space c = false) l → trimmed l = l.
Proof.
  intros H. apply trimmed_fixed.
  - by destruct H.
  - apply Forall_rev in H. by destruct H.
Qed.

Lemma digit_no_space (c : ascii) : Js.is_digit c = true → Js.is_space c = false.
Proof. destruct c as [[] [] [] [] [] [] [] []]; vm_compute; congruence. Qed.

Lemma e164_trimmed (ds : list ascii) :
  Forall (fun c => Js.is_digit c = true) ds → Js.trim (e164 ds) = e164 ds.
Proof.
  intros Hd. apply list_ascii_inj. rewrite trim_list. unfold e164.
  rewrite list_ascii_of_string_of_list_ascii. apply no_space_trimmed.
  repeat (constructor; [done|]).
  eapply Forall_impl; [exact Hd|]. apply digit_no_space.
Qed.

(** ** Addresses, license numbers and usernames *)

Lemma lang_email_part (a : list ascii) :
  Regex.lang (Regex.plus Validators.not_space_at) a ↔ email_part a.
Proof.
  unfold Validators.not_space_at, email_part. rewrite lang_plus_cls.
  split; intros [Hne Hall]; (split; [done|]);
    (eapply Forall_impl; [exact Hall|]); cbv beta; intros c.
  - rewrite negb_true_iff, orb_false_iff. intros [Hs He]. split; [done|].
    intros ->. done.
  - intros [Hs He]. rewrite negb_true_iff, orb_false_iff. split; [done|].
    by apply Ascii.eqb_neq.
Qed.

Lemma email_re_lang (s : list ascii) :
  Regex.lang Validators.email_re s ↔ email_shape s.
Proof.
  unfold Validators.email_re, email_shape. rewrite lang_cat_inv. split.
  - intros (a & s1 & -> & Ha & H). apply lang_email_part in Ha.
    apply lang_cat_inv in H as (x & s2 & -> & Hx & H).
    apply lang_chr_inv in Hx as ->.
    apply lang_cat_inv in H as (b & s3 & -> & Hb & H). apply lang_email_part in Hb.
    apply lang_cat_inv in H as (y & c & -> & Hy & Hc).
    apply lang_chr_inv in Hy as ->. apply lang_email_part in Hc.
    by exists a, b, c.
  - intros (a & b & c & -> & Ha & Hb & Hc).
    exists a, ("@"%char :: b ++ "."%char :: c). split; [done|].
    split; [by apply lang_email_part|].
    apply lang_cat_inv. exists ["@"%char], (b ++ "."%char :: c). split; [done|].
    split; [by apply lang_chr_inv|].
    apply lang_cat_inv. exists b, ("."%char :: c). split; [done|].
    split; [by apply lang_email_part|].
    apply lang_cat_inv. exists ["."%char], c. split; [done|].
    split; [by apply lang_chr_inv | by apply lang_email_part].
Qed.

Lemma has_digit_iff (s : string) :
  Validators.has_digit s = true
  ↔ Exists (fun c => Js.is_digit c = true) (list_ascii_of_string s).
Proof. apply search_cls. Qed.

(** ** Card numbers and letter case *)

Lemma deriv_stable (f : ascii → ascii) (c : ascii) (r : Regex.re) :
  classes_stable f r →
  Regex.deriv (f c) r = Regex.deriv c r ∧ classes_stable f (Regex.deriv c r).
Proof.
  induction r as [| |p|r1 IH1 r2 IH2|r1 IH1 r2 IH2|r IH]; cbn; intros H.
  - done.
  - done.
  - rewrite H. by destruct (p c).
  - destruct H as [H1 H2]. destruct (IH1 H1) as [-> ?], (IH2 H2) as [-> ?].
    by destruct (Regex.nullable r1).
  - destruct H as [H1 H2]. by destruct (IH1 H1) as [-> ?], (IH2 H2) as [-> ?].
  - by destruct (IH H) as [-> ?].
Qed.

Lemma matches_map_stable (f : ascii → ascii) (r : Regex.re) (l : list ascii) :
  classes_stable f r → Regex.matches r (map f l) = Regex.matches r l.
Proof.
  revert r. induction l as [|c l IH]; intros r H; [done|]. cbn.
  destruct (deriv_stable f c r H) as [-> H']. by apply IH.
Qed.

Lemma toUpperCase_list (s : string) :
  list_ascii_of_string (Js.toUpperCase s)
  = map Js.upper_char (list_ascii_of_string s).
Proof. induction s as [|c s IH]; [done|]. cbn. by rewrite <- IH. Qed.

Lemma upper_space (c : ascii) : Js.is_space (Js.upper_char c) = Js.is_space c.
Proof. by destruct c as [[] [] [] [] [] [] [] []]. Qed.

Lemma drop_spaces_upper (l : list ascii) :
  drop_spaces (map Js.upper_char l) = map Js.upper_char (drop_spaces l).
Proof.
  induction l as [|c l IH]; [done|]. cbn. rewrite upper_space.
  by destruct (Js.is_space c).
Qed.

Lemma trim_toUpperCase (s : string) :
  Js.trim (Js.toUpperCase s) = Js.toUpperCase (Js.trim s).
Proof.
  apply list_ascii_inj. rewrite trim_list, !toUpperCase_list, trim_list.
  unfold trimmed.
  by rewrite drop_spaces_upper, <- map_rev, drop_spaces_upper, <- map_rev.
Qed.

Lemma ghana_card_re_stable :
  classes_stable Js.upper_char Validators.ghana_card_re.
Proof.
  cbn. repeat split; intros c;
    by destruct c as [[] [] [] [] [] [] [] []].
Qed.

Lemma upper_digit (c : ascii) : Js.is_digit c = true → Js.upper_char c = c.
Proof. destruct c as [[] [] [] [] [] [] [] []]; vm_compute; congruence. Qed.

Lemma upper_digits (ds : list ascii) :
  Forall (fun c => Js.is_digit c = true) ds → map Js.upper_char ds = ds.
Proof.
  induction 1 as [|c ds Hc _ IH]; [done|]. cbn. by rewrite IH, upper_digit.
Qed.

(** ** Requests are answered *)

Section Answers.

Context {W : Type}.

Lemma answers_ret {A} (a : A) : answers (ret a : M W A).
Proof. intros w. by exists a. Qed.

Lemma answers_bind {A B} (c : M W A) (k : A → M W B) :
  answers c → (∀ a, answers (k a)) → answers (bind c k).
Proof.
  intros Hc Hk w. unfold bind. destruct (Hc w) as [a Ha].
  destruct (c w) as [[a'|e] w']; [|done]. apply Hk.
Qed.

Lemma answers_try_catch {A} (c : M W A) (h : Exn → M W A) :
  (∀ e, answers (h e)) → answers (try_catch c h).
Proof.
  intros Hh w. unfold try_catch. destruct (c w) as [[a|e] w']; [by exists a|].
  apply Hh.
Qed.

End Answers.

Section AnswersStore.

Context {DB Call : Type}.

Local Abbreviation W := (World DB Call).

Lemma answers_getSession sid : answers (getSession sid : M W _).
Proof. intros w. by eexists. Qed.

Lemma answers_saveSession sid data : answers (saveSession sid data : M W _).
Proof. intros w. by eexists. Qed.

Lemma answers_cache_del sid : answers (cache_del sid : M W _).
Proof. intros w. by eexists. Qed.

Lemma answers_respond req message continueSession :
  answers (respond req message continueSession : M W _).
Proof. intros w. by eexists. Qed.

Lemma answers_reply req us message continueSession :
  answers (reply req us message continueSession : M W _).
Proof. intros w. by eexists. Qed.

End AnswersStore.

Ltac answers_step :=
  lazymatch goal with
  | |- answers (bind _ _) => apply answers_bind; [|intros ?]
  | |- answers (try_catch _ _) => apply answers_try_catch; intros ?
  | |- answers (ret _) => apply answers_ret
  | |- answers (getSession _) => apply answers_getSession
  | |- answers (saveSession _ _) => apply answers_saveSession
  | |- answers (cache_del _) => apply answers_cache_del
  | |- answers (respond _ _ _) => apply answers_respond
  | |- answers (reply _ _ _ _) => apply answers_reply
  | |- answers (if ?b then _ else _) => destruct b
  | |- answers (let _ := _ in _) => cbv zeta
  end.

Lemma back_answers {DB Call : Type} (below : Z → option Z) req us :
  well_stacked below us →
  answers
    (let userSession :=
       if (1 <? JsArray.length us)%nat then JsArray.pop us else us in
     match JsArray.top userSession with
     | Some prev => reply req userSession (State.message prev) true
     | None => throw TypeError
     end : M (World DB Call) Response).
Proof.
  intros Hws. destruct (well_stacked_top _ us Hws) as (rest & cur & ->).
  cbv zeta. rewrite length_snoc, pop_snoc.
  destruct rest as [|p rest' _] using rev_ind.
  - cbn [length Nat.ltb Nat.leb]. rewrite top_snoc. apply answers_reply.
  - rewrite length_app. cbn [length].
    replace (1 <? S (length rest' + 1))%nat with true
      by (symmetry; apply Nat.ltb_lt; lia).
    rewrite top_snoc. apply answers_reply.
Qed.

Lemma ncstcs_answers hash req (w : NCSTCS.W) :
  sessions_well_stacked ncstcs_below w →
  ∃ r, (NCSTCS.ussd hash req w).1 = Ok r.
Proof.
  intros Hw. unfold NCSTCS.ussd. unfold bind at 1, getSession.
  destruct (newSession req); [by eexists|].
  destruct (cache_get (sessionID req) w) as [us|] eqn:Hg; [|by eexists].
  destruct (String.eqb (userData req) "0"); [by eexists|].
  destruct (String.eqb (userData req) "9").
  { apply (back_answers ncstcs_below req us (Hw _ _ Hg)). }
  apply answers_try_catch. intros e. unfold NCSTCS.finish. repeat answers_step.
Qed.

Lemma pcrs_answers hash req (w : PCRS.W) :
  sessions_well_stacked pcrs_below w →
  ∃ r, (PCRS.ussd hash req w).1 = Ok r.
Proof.
  intros Hw. unfold PCRS.ussd. unfold bind at 1, getSession.
  assert (Hstart : answers (PCRS.start req)).
  { unfold PCRS.start. repeat answers_step. }
  destruct (newSession req); [apply Hstart|].
  destruct (cache_get (sessionID req) w) as [us|] eqn:Hg; [|apply Hstart].
  destruct (String.eqb (userData req) "0").
  { assert (Hhome : answers (PCRS.go_home req us))
      by (unfold PCRS.go_home; repeat answers_step).
    apply Hhome. }
  destruct (String.eqb (userData req) "9").
  { apply (back_answers pcrs_below req us (Hw _ _ Hg)). }
  apply answers_try_catch. intros e. unfold PCRS.finish. repeat answers_step.
Qed.

Lemma gateplus_answers pf ns ds req (w : GatePlus.W) :
  newSession req = false →
  ∃ r, (GatePlus.ussd pf ns ds req w).1 = Ok r.
Proof.
  intros Hn. unfold GatePlus.ussd. unfold bind at 1, getSession. rewrite Hn.
  destruct (cache_get (sessionID req) w) as [us|]; [|by eexists].
  destruct (_ =? _)%nat; [by eexists|].
  apply answers_try_catch. intros e. repeat answers_step.
Qed.

Lemma sessions_well_stacked_empty {DB Call : Type} below (w : World DB Call) :
  cache w = ∅ → sessions_well_stacked below w.
Proof.
  intros He sid us. unfold cache_get. by rewrite He, lookup_empty.
Qed.

Lemma sessions_well_stacked_elapse {DB Call : Type} below d (w : World DB Call) :
  0 ≤ d → sessions_well_stacked below w → sessions_well_stacked below (elapse d w).
Proof.
  intros Hd Hw sid us. unfold cache_get, elapse. cbn [cache clock].
  intros Hg. apply (Hw sid). unfold cache_get.
  destruct (cache w !! sid) as [e|]; [|done].
  destruct (Z.leb_spec (clock w + d) (expire e)); [|done].
  destruct (Z.leb_spec (clock w) (expire e)); [done | lia].
Qed.

(** ** A request touches its own session only *)

Section Leads.

Context {W : Type} (R : relation W) `{!PreOrder R}.

Lemma leads_ret {A} (a : A) : leads R (ret a : M W A).
Proof. intros w. reflexivity. Qed.

Lemma leads_throw {A} (e : Exn) : leads R (throw e : M W A).
Proof. intros w. reflexivity. Qed.

Lemma leads_bind {A B} (c : M W A) (k : A → M W B) :
  leads R c → (∀ a, leads R (k a)) → leads R (bind c k).
Proof.
  intros Hc Hk w. unfold bind. specialize (Hc w).
  destruct (c w) as [[a|e] w']; [|done]. etrans; [exact Hc | apply Hk].
Qed.

Lemma leads_try_catch {A} (c : M W A) (h : Exn → M W A) :
  leads R c → (∀ e, leads R (h e)) → leads R (try_catch c h).
Proof.
  intros Hc Hh w. unfold try_catch. specialize (Hc w).
  destruct (c w) as [[a|e] w']; [done|]. etrans; [exact Hc | apply Hh].
Qed.

End Leads.

Section LeadsStore.

Context {DB Call : Type} (R : relation (World DB Call)) `{!PreOrder R}.

Local Abbreviation W := (World DB Call).

Lemma leads_getSession sid : leads R (getSession sid : M W _).
Proof. intros w. reflexivity. Qed.

Lemma leads_read_db : leads R (read_db : M W _).
Proof. intros w. reflexivity. Qed.

Lemma leads_now : leads R (now : M W _).
Proof. intros w. reflexivity. Qed.

Lemma leads_respond req message continueSession :
  leads R (respond req message continueSession : M W _).
Proof. intros w. reflexivity. Qed.

End LeadsStore.

Ltac leads_step :=
  lazymatch goal with
  | |- leads _ (bind _ _) =>
      apply leads_bind; [typeclasses eauto | | intros ?]
  | |- leads _ (try_catch _ _) =>
      apply leads_try_catch; [typeclasses eauto | | intros ?]
  | |- leads _ (ret _) => apply leads_ret; typeclasses eauto
  | |- leads _ (throw _) => apply leads_throw; typeclasses eauto
  | |- leads _ (getSession _) => apply leads_getSession; typeclasses eauto
  | |- leads _ read_db => apply leads_read_db; typeclasses eauto
  | |- leads _ now => apply leads_now; typeclasses eauto
  | |- leads _ (respond _ _ _) => apply leads_respond; typeclasses eauto
  | |- leads _ (reply _ _ _ _) => unfold reply
  | |- leads _ (if ?b then _ else _) => destruct b
  | |- leads _ (match ?x with _ => _ end) => destruct x
  | |- leads _ (let _ := _ in _) => cbv zeta
  end.

Section Apart.

Context {DB Call : Type} (sid : string).

Local Abbreviation W := (World DB Call).

#[export] Instance apart_preorder : PreOrder (apart sid : relation W).
Proof.
  split.
  - by intros w.
  - intros w1 w2 w3 [Hc1 H1] [Hc2 H2]. split; [congruence|].
    intros sid' Hne. by rewrite H2, H1.
Qed.

Lemma apart_saveSession data : leads (apart sid) (saveSession sid data : M W _).
Proof. intros w. split; [done|]. intros sid' Hne. cbn. by rewrite lookup_insert_ne. Qed.

Lemma apart_cache_del : leads (apart sid) (cache_del sid : M W _).
Proof. intros w. split; [done|]. intros sid' Hne. cbn. by rewrite lookup_delete_ne. Qed.

Lemma apart_issue (c : Call) : leads (apart sid) (issue c : M W _).
Proof. by intros w. Qed.

Lemma apart_round_trip : leads (apart sid) (round_trip : M W _).
Proof. intros w. unfold round_trip. by destruct (faults w) as [|[] ?]. Qed.

Lemma apart_write_db (d : DB) : leads (apart sid) (write_db d : M W _).
Proof. by intros w. Qed.

Lemma apart_cache_get (w w' : W) (sid' : string) :
  apart sid w w' → sid' ≠ sid → cache_get sid' w' = cache_get sid' w.
Proof. intros [Hc H] Hne. unfold cache_get. by rewrite Hc, H. Qed.

End Apart.

Ltac apart_step :=
  first
    [ leads_step
    | apply apart_saveSession | apply apart_cache_del | apply apart_issue
    | apply apart_round_trip | apply apart_write_db ].

Lemma ncstcs_apart hash req :
  leads (apart (sessionID req)) (NCSTCS.ussd hash req).
Proof.
  unfold NCSTCS.ussd, NCSTCS.level_step, NCSTCS.case_0, NCSTCS.case_10,
    NCSTCS.case_11, NCSTCS.case_12, NCSTCS.case_13, NCSTCS.case_14,
    NCSTCS.case_15, NCSTCS.case_16, NCSTCS.case_30, NCSTCS.retry,
    NCSTCS.advance, NCSTCS.finish, NCSTCS.findOne, NCSTCS.create, NCSTCS.hash.
  repeat apart_step.
Qed.

Lemma pcrs_apart hash req :
  leads (apart (sessionID req)) (PCRS.ussd hash req).
Proof.
  unfold PCRS.ussd, PCRS.start, PCRS.go_home, PCRS.level_step, PCRS.case_0,
    PCRS.case_5, PCRS.case_10,
    PCRS.case_11, PCRS.case_12, PCRS.case_13, PCRS.case_14,
    PCRS.case_15, PCRS.case_16, PCRS.case_17, PCRS.case_30, PCRS.retry,
    PCRS.advance, PCRS.finish, PCRS.findOne, PCRS.findById, PCRS.create,
    PCRS.hash.
  repeat apart_step.
Qed.

Lemma gateplus_apart pf ns ds req :
  leads (apart (sessionID req)) (GatePlus.ussd pf ns ds req).
Proof.
  unfold GatePlus.ussd, GatePlus.start, GatePlus.level_step,
    GatePlus.registration, GatePlus.existing_user, GatePlus.case_1,
    GatePlus.case_2, GatePlus.findUser, GatePlus.saveUser,
    GatePlus.findLatestLoan, GatePlus.saveLoan, GatePlus.logActivity.
  repeat apart_step.
Qed.

(** ** Stored documents stay *)

Section OnDb.

Context {DB Call : Type} (Q : relation DB) `{!PreOrder Q}.

Local Abbreviation W := (World DB Call).

#[export] Instance on_db_preorder : PreOrder (on_db Q : relation W).
Proof.
  split.
  - intros w. unfold on_db. reflexivity.
  - intros w1 w2 w3. unfold on_db. apply transitivity.
Qed.

Lemma on_db_saveSession sid data : leads (on_db Q) (saveSession sid data : M W _).
Proof. intros w. unfold on_db. reflexivity. Qed.

Lemma on_db_cache_del sid : leads (on_db Q) (cache_del sid : M W _).
Proof. intros w. unfold on_db. reflexivity. Qed.

Lemma on_db_issue (c : Call) : leads (on_db Q) (issue c : M W _).
Proof. intros w. unfold on_db. reflexivity. Qed.

Lemma on_db_round_trip : leads (on_db Q) (round_trip : M W _).
Proof.
  intros w. unfold on_db, round_trip. destruct (faults w) as [|[] ?]; reflexivity.
Qed.

End OnDb.

Ltac on_db_step :=
  first
    [ leads_step
    | apply on_db_saveSession; typeclasses eauto
    | apply on_db_cache_del; typeclasses eauto
    | apply on_db_issue; typeclasses eauto
    | apply on_db_round_trip; typeclasses eauto ].

#[export] Instance gateplus_grown_preorder : PreOrder gateplus_grown.
Proof.
  split.
  - by intros d.
  - intros d1 d2 d3 (? & ? & ?) (? & ? & ?). repeat split; by etrans.
Qed.

Lemma ncstcs_create_grows d :
  leads (on_db prefix) (NCSTCS.create d : M NCSTCS.W _).
Proof.
  intros w. unfold on_db, NCSTCS.create. js.
  destruct (negb _); [done|]. rewrite round_trip_eq.
  destruct (next_fault _); [done|]. cbn [clock cache faults calls db].
  destruct (_ || _); [done|]. cbn [snd db]. by apply prefix_app_r.
Qed.

Lemma pcrs_create_grows d :
  leads (on_db prefix) (PCRS.create d : M PCRS.W _).
Proof.
  intros w. unfold on_db, PCRS.create. js.
  destruct (negb _); [done|]. rewrite round_trip_eq.
  destruct (next_fault _); [done|]. cbn [clock cache faults calls db].
  destruct (_ || _); [done|]. cbn [snd db]. by apply prefix_app_r.
Qed.

Lemma ncstcs_grows hash req :
  leads (on_db prefix) (NCSTCS.ussd hash req).
Proof.
  unfold NCSTCS.ussd, NCSTCS.level_step, NCSTCS.case_0, NCSTCS.case_10,
    NCSTCS.case_11, NCSTCS.case_12, NCSTCS.case_13, NCSTCS.case_14,
    NCSTCS.case_15, NCSTCS.case_16, NCSTCS.case_30, NCSTCS.retry,
    NCSTCS.advance, NCSTCS.finish, NCSTCS.findOne, NCSTCS.hash.
  repeat first [apply ncstcs_create_grows | on_db_step].
Qed.

Lemma pcrs_grows hash req :
  leads (on_db prefix) (PCRS.ussd hash req).
Proof.
  unfold PCRS.ussd, PCRS.start, PCRS.go_home, PCRS.level_step, PCRS.case_0,
    PCRS.case_5, PCRS.case_10,
    PCRS.case_11, PCRS.case_12, PCRS.case_13, PCRS.case_14,
    PCRS.case_15, PCRS.case_16, PCRS.case_17, PCRS.case_30, PCRS.retry,
    PCRS.advance, PCRS.finish, PCRS.findOne, PCRS.findById, PCRS.hash.
  repeat first [apply pcrs_create_grows | on_db_step].
Qed.

Lemma gateplus_saveUser_grows fullName ghanaCard m :
  leads (on_db gateplus_grown) (GatePlus.saveUser fullName ghanaCard m).
Proof.
  intros w. unfold on_db, GatePlus.saveUser. js.
  destruct (_ || _); [done|]. rewrite round_trip_eq.
  destruct (next_fault _); [done|]. cbn [clock cache faults calls db].
  destruct (existsb _ _); [done|]. cbn [snd db].
  split; [by apply prefix_app_r | done].
Qed.

Lemma gateplus_saveLoan_grows userId m amount :
  leads (on_db gateplus_grown) (GatePlus.saveLoan userId m amount).
Proof.
  intros w. unfold on_db, GatePlus.saveLoan. js.
  destruct (_ || _); [done|]. rewrite round_trip_eq.
  destruct (next_fault _); [done|]. cbn [clock cache faults calls db snd].
  split; [done|]. split; [by apply prefix_app_r | done].
Qed.

Lemma gateplus_logActivity_grows m action details :
  leads (on_db gateplus_grown) (GatePlus.logActivity m action details).
Proof.
  intros w. unfold on_db, GatePlus.logActivity. js.
  destruct (_ || _); [done|]. rewrite round_trip_eq.
  destruct (next_fault _); [done|]. cbn [clock cache faults calls db snd].
  split; [done|]. split; [done | by apply prefix_app_r].
Qed.

Lemma gateplus_grows pf ns ds req :
  leads (on_db gateplus_grown) (GatePlus.ussd pf ns ds req).
Proof.
  unfold GatePlus.ussd, GatePlus.start, GatePlus.level_step,
    GatePlus.registration, GatePlus.existing_user, GatePlus.case_1,
    GatePlus.case_2, GatePlus.findUser, GatePlus.findLatestLoan.
  repeat first
    [ apply gateplus_saveUser_grows | apply gateplus_saveLoan_grows
    | apply gateplus_logActivity_grows | on_db_step ].
Qed.

(** ** NCSTCS: the steps of the sign-up *)

Section NcstcsSteps.

Variable hash : string → string.
Implicit Types (w : NCSTCS.W) (req : Request) (us : JsArray.t).

Lemma ncstcs_advance_eq req rest cur m1 s w :
  NCSTCS.advance req (JsArray.mk (rest ++ [cur]) m1) s w
  = (Ok (answer req (State.message s) true),
     saved (sessionID req) (JsArray.mk (rest ++ [cur; s]) m1) w).
Proof.
  unfold NCSTCS.advance, JsArray.push. js. cbn [JsArray.items JsArray.minus1].
  by rewrite <- app_assoc.
Qed.

Lemma ncstcs_capture_advances req w rest cur m1 c next :
  newSession req = false →
  cache_get (sessionID req) w = Some (JsArray.mk (rest ++ [cur]) m1) →
  userData req ≠ "0" → userData req ≠ "9" →
  NCSTCS.case_of (State.level cur) = Some c →
  ncstcs_next c cur (userData req) = Some next →
  ncstcs_valid c (userData req) = true →
  ncstcs_free c (userData req) w →
  NCSTCS.ussd hash req w
  = (Ok (answer req (State.message next) true),
     saved (sessionID req) (JsArray.mk (rest ++ [cur; next]) m1)
       (ncstcs_asked c (userData req) w)).
Proof.
  intros Hn Hg H0 H9 Hc Hnext Hv Hfree.
  rewrite (ncstcs_step _ _ _ _ Hn Hg H0 H9). unfold try_catch, NCSTCS.level_step.
  rewrite top_snoc, Hc.
  unfold ncstcs_free, ncstcs_asked in *.
  destruct c; try discriminate Hnext;
    cbn [ncstcs_next ncstcs_valid ncstcs_unique] in Hnext, Hv, Hfree |- *;
    injection Hnext as <-;
    unfold NCSTCS.case_10, NCSTCS.case_11, NCSTCS.case_12, NCSTCS.case_13,
      NCSTCS.case_15;
    try (apply negb_true_iff in Hv);
    rewrite ?Hv; cbn [negb];
    try (destruct Hfree as [Hf Hfind]; unfold bind;
         rewrite ncstcs_findOne_eq, Hf, Hfind);
    by rewrite ncstcs_advance_eq.
Qed.

Lemma ncstcs_confirm_match req w rest cur m1 :
  newSession req = false →
  cache_get (sessionID req) w = Some (JsArray.mk (rest ++ [cur]) m1) →
  userData req ≠ "0" → userData req ≠ "9" →
  State.level cur = Some 14 →
  State.password cur = Some (Js.trim (userData req)) →
  NCSTCS.ussd hash req w
  = (Ok (answer req "Enter DVLA License Number:" true),
     saved (sessionID req)
       (JsArray.mk
          (rest ++ [cur; State.set_message "Enter DVLA License Number:"
                           (State.set_level 15 cur)]) m1) w).
Proof.
  intros Hn Hg H0 H9 Hl Hp.
  rewrite (ncstcs_step _ _ _ _ Hn Hg H0 H9). unfold try_catch, NCSTCS.level_step.
  rewrite top_snoc, Hl. cbn [NCSTCS.case_of]. unfold NCSTCS.case_14.
  rewrite bool_decide_eq_true_2 by done. cbn [negb].
  by rewrite ncstcs_advance_eq.
Qed.

Lemma ncstcs_menu req w rest cur m1 :
  newSession req = false →
  cache_get (sessionID req) w = Some (JsArray.mk (rest ++ [cur]) m1) →
  userData req ≠ "0" → userData req ≠ "9" →
  State.level cur = Some 0 →
  NCSTCS.ussd hash req w
  = if String.eqb (userData req) "1" then
      (Ok (answer req "Enter Full Name:" true),
       saved (sessionID req)
         (JsArray.mk (rest ++ [cur; State.obj (Some 10) "Enter Full Name:"]) m1)
         w)
    else if String.eqb (userData req) "2" then
      (Ok (answer req "Enter DVLA or Ghana Card Number:" true),
       saved (sessionID req)
         (JsArray.mk
            (rest ++ [cur; State.obj (Some 30)
                             "Enter DVLA or Ghana Card Number:"]) m1) w)
    else (Ok (answer req "Session ended." false), dropped (sessionID req) w).
Proof.
  intros Hn Hg H0 H9 Hl.
  rewrite (ncstcs_step _ _ _ _ Hn Hg H0 H9). unfold try_catch, NCSTCS.level_step.
  rewrite top_snoc, Hl. cbn [NCSTCS.case_of]. unfold NCSTCS.case_0.
  destruct (String.eqb (userData req) "1"); [by rewrite ncstcs_advance_eq|].
  destruct (String.eqb (userData req) "2"); [by rewrite ncstcs_advance_eq|].
  reflexivity.
Qed.

End NcstcsSteps.

(** ** NCSTCS: a whole sign-up *)

Lemma find_none_existsb {A} (p : A → bool) (l : list A) :
  find p l = None → existsb p l = false.
Proof.
  induction l as [|x l IH]; [done|]. cbn. destruct (p x); [done|]. exact IH.
Qed.

Lemma ncstcs_create_eq (d : NCSTCS.Fields) (w : NCSTCS.W) :
  Js.truthy (NCSTCS.username d) = true →
  Js.truthy (NCSTCS.password d) = true →
  next_fault (faults w) = false →
  (∀ f, NCSTCS.clashes d (db w) f = false) →
  NCSTCS.create d w = (Ok (NCSTCS.mkUser (length (db w)) d), ncstcs_created d w).
Proof.
  intros Hu Hp Hf Hc. unfold NCSTCS.create. js. rewrite Hu, Hp. cbn [andb negb].
  rewrite round_trip_eq. cbn [clock cache faults calls db]. rewrite Hf.
  by rewrite !Hc.
Qed.

Lemma ncstcs_final_step_creates hash req (w : NCSTCS.W) rest cur m1 p :
  newSession req = false →
  cache_get (sessionID req) w = Some (JsArray.mk (rest ++ [cur]) m1) →
  State.level cur = Some 16 →
  Validators.isValidGhanaCard (card_of req) = true →
  no_fault (faults w) →
  find (NCSTCS.has NCSTCS.GhanaCardNumber (card_of req)) (db w) = None →
  State.password cur = Some p →
  Js.truthy (State.username cur) = true →
  hash p ≠ "" →
  (∀ f, NCSTCS.clashes (ncstcs_new_user hash cur p (card_of req)) (db w) f
        = false) →
  NCSTCS.ussd hash req w
  = (Ok (answer req "Registration successful!" false),
     dropped (sessionID req)
       (ncstcs_created (ncstcs_new_user hash cur p (card_of req))
          (looked_up (NCSTCS.FindOne NCSTCS.GhanaCardNumber (card_of req)) w))).
Proof.
  intros Hn Hg Hl Hv Hnf Hfind Hp Hu Hh Hc.
  destruct (valid_card_not_navigation req Hv) as [H0 H9].
  rewrite (ncstcs_step _ _ _ _ Hn Hg H0 H9). unfold try_catch, NCSTCS.level_step.
  rewrite top_snoc, Hl. cbn [NCSTCS.case_of]. unfold NCSTCS.case_16.
  fold (card_of req). rewrite Hv. cbn [negb]. unfold bind at 1.
  rewrite ncstcs_findOne_eq, (no_fault_next _ Hnf), Hfind.
  unfold bind at 1, NCSTCS.hash. rewrite Hp. unfold ret at 1.
  unfold bind at 1, try_catch, bind at 1.
  fold (ncstcs_new_user hash cur p (card_of req)).
  rewrite ncstcs_create_eq; [done|done|..|done].
  - cbn. by apply negb_true_iff, String.eqb_neq.
  - cbn [faults]. by apply no_fault_next, no_fault_tail.
Qed.

Lemma existsb_false_find {A} (p : A → bool) (l : list A) :
  existsb p l = false → find p l = None.
Proof.
  induction l as [|x l IH]; [done|]. cbn. destruct (p x); [done|]. exact IH.
Qed.

Lemma ncstcs_asked_db c input (w : NCSTCS.W) : db (ncstcs_asked c input w) = db w.
Proof. unfold ncstcs_asked. by destruct (ncstcs_unique c input) as [[f v]|]. Qed.

Lemma ncstcs_asked_no_fault c input (w : NCSTCS.W) :
  no_fault (faults w) → no_fault (faults (ncstcs_asked c input w)).
Proof.
  intros H. unfold ncstcs_asked. destruct (ncstcs_unique c input) as [[f v]|];
    [by apply no_fault_tail | done].
Qed.

Lemma ncstcs_free_intro c input (w : NCSTCS.W) :
  no_fault (faults w) →
  (∀ f v, ncstcs_unique c input = Some (f, v) →
          existsb (NCSTCS.has f v) (db w) = false) →
  ncstcs_free c input w.
Proof.
  intros Hnf H. unfold ncstcs_free.
  destruct (ncstcs_unique c input) as [[f v]|]; [|done].
  split; [by apply no_fault_next | by apply existsb_false_find, H].
Qed.

(** ** PCRS: the steps of the sign-up *)

Section PcrsSteps.

Variable hash : string → string.
Implicit Types (w : PCRS.W) (req : Request) (us : JsArray.t).

Lemma pcrs_advance_eq req rest cur m1 s w :
  PCRS.advance req (JsArray.mk (rest ++ [cur]) m1) s w
  = (Ok (answer req (State.message s) true),
     saved (sessionID req) (JsArray.mk (rest ++ [cur; s]) m1) w).
Proof.
  unfold PCRS.advance, JsArray.push. js. cbn [JsArray.items JsArray.minus1].
  by rewrite <- app_assoc.
Qed.

Lemma pcrs_capture_advances req w rest cur m1 c next :
  newSession req = false →
  cache_get (sessionID req) w = Some (JsArray.mk (rest ++ [cur]) m1) →
  userData req ≠ "0" → userData req ≠ "9" →
  PCRS.case_of (State.level cur) = Some c →
  pcrs_next c cur (userData req) = Some next →
  pcrs_valid c (userData req) = true →
  pcrs_free c (userData req) w →
  PCRS.ussd hash req w
  = (Ok (answer req (State.message next) true),
     saved (sessionID req) (JsArray.mk (rest ++ [cur; next]) m1)
       (pcrs_asked c (userData req) w)).
Proof.
  intros Hn Hg H0 H9 Hc Hnext Hv Hfree.
  rewrite (pcrs_step _ _ _ _ Hn Hg H0 H9). unfold try_catch, PCRS.level_step.
  rewrite top_snoc, Hc.
  unfold pcrs_free, pcrs_asked in *.
  destruct c; try discriminate Hnext;
    cbn [pcrs_next pcrs_valid pcrs_unique] in Hnext, Hv, Hfree |- *;
    injection Hnext as <-;
    unfold PCRS.case_10, PCRS.case_11, PCRS.case_12, PCRS.case_13,
      PCRS.case_14, PCRS.case_16;
    try (apply negb_true_iff in Hv);
    rewrite ?Hv; cbn [negb];
    try (destruct Hfree as [Hf Hfind]; unfold bind;
         rewrite pcrs_findOne_eq, Hf, Hfind);
    by rewrite pcrs_advance_eq.
Qed.

Lemma pcrs_confirm_match req w rest cur m1 :
  newSession req = false →
  cache_get (sessionID req) w = Some (JsArray.mk (rest ++ [cur]) m1) →
  userData req ≠ "0" → userData req ≠ "9" →
  State.level cur = Some 15 →
  State.password cur = Some (Js.trim (userData req)) →
  PCRS.ussd hash req w
  = (Ok (answer req "Enter DVLA License Number:" true),
     saved (sessionID req)
       (JsArray.mk
          (rest ++ [cur; State.set_message "Enter DVLA License Number:"
                           (State.set_level 16 cur)]) m1) w).
Proof.
  intros Hn Hg H0 H9 Hl Hp.
  rewrite (pcrs_step _ _ _ _ Hn Hg H0 H9). unfold try_catch, PCRS.level_step.
  rewrite top_snoc, Hl. cbn [PCRS.case_of]. unfold PCRS.case_15.
  rewrite bool_decide_eq_true_2 by done. cbn [negb].
  by rewrite pcrs_advance_eq.
Qed.

Lemma pcrs_guest_menu req w rest cur m1 :
  newSession req = false →
  cache_get (sessionID req) w = Some (JsArray.mk (rest ++ [cur]) m1) →
  userData req ≠ "0" → userData req ≠ "9" →
  State.level cur = Some 0 →
  State.loggedIn cur ≠ Some true →
  PCRS.ussd hash req w
  = if String.eqb (userData req) "1" then
      (Ok (answer req PCRS.signup_info true),
       saved (sessionID req)
         (JsArray.mk (rest ++ [cur; State.obj (Some 5) PCRS.signup_info]) m1) w)
    else if String.eqb (userData req) "2" then
      (Ok (answer req "Enter DVLA or Ghana Card Number:" true),
       saved (sessionID req)
         (JsArray.mk
            (rest ++ [cur; State.obj (Some 30)
                             "Enter DVLA or Ghana Card Number:"]) m1) w)
    else (Ok (answer req "Session ended." false), dropped (sessionID req) w).
Proof.
  intros Hn Hg H0 H9 Hl Hlog.
  rewrite (pcrs_step _ _ _ _ Hn Hg H0 H9). unfold try_catch, PCRS.level_step.
  rewrite top_snoc, Hl. cbn [PCRS.case_of]. unfold PCRS.case_0.
  destruct (State.loggedIn cur) as [[]|]; [done|..];
    (destruct (String.eqb (userData req) "1"); [by rewrite pcrs_advance_eq|];
     destruct (String.eqb (userData req) "2"); [by rewrite pcrs_advance_eq|];
     reflexivity).
Qed.

Lemma pcrs_info_screen req w rest cur m1 :
  newSession req = false →
  cache_get (sessionID req) w = Some (JsArray.mk (rest ++ [cur]) m1) →
  userData req ≠ "0" → userData req ≠ "9" →
  State.level cur = Some 5 →
  PCRS.ussd hash req w
  = (Ok (answer req "Enter Full Name:" true),
     saved (sessionID req)
       (JsArray.mk (rest ++ [cur; State.obj (Some 10) "Enter Full Name:"]) m1)
       w).
Proof.
  intros Hn Hg H0 H9 Hl.
  rewrite (pcrs_step _ _ _ _ Hn Hg H0 H9). unfold try_catch, PCRS.level_step.
  rewrite top_snoc, Hl. cbn [PCRS.case_of]. unfold PCRS.case_5.
  by rewrite pcrs_advance_eq.
Qed.

(** The first contact of a session, by what the lookup of the caller's
    number gives. *)
Lemma pcrs_start_cases req w :
  let phone := Validators.normalizePhone (msisdn req) in
  PCRS.start req w
  = if String.eqb phone "" then
      (Ok (answer req PCRS.guest_menu true),
       saved (sessionID req) (JsArray.lit [pcrs_guest_entry]) w)
    else
      let w1 := looked_up (PCRS.FindOne PCRS.Phone phone) w in
      if next_fault (faults w) then
        (Ok (answer req PCRS.guest_menu true),
         saved (sessionID req) (JsArray.lit [pcrs_guest_entry]) w1)
      else
        match find (PCRS.has PCRS.Phone phone) (db w) with
        | Some u =>
            (Ok (answer req (PCRS.member_menu (PCRS.displayName (Some u))) true),
             saved (sessionID req) (JsArray.lit [pcrs_member_entry u]) w1)
        | None =>
            (Ok (answer req PCRS.guest_menu true),
             saved (sessionID req) (JsArray.lit [pcrs_guest_entry]) w1)
        end.
Proof.
  cbv zeta. unfold PCRS.start. unfold bind at 1, try_catch, bind at 1.
  destruct (String.eqb _ ""); [reflexivity|].
  rewrite pcrs_findOne_eq.
  destruct (next_fault (faults w)); [reflexivity|].
  by destruct (find _ (db w)).
Qed.

Lemma pcrs_create_eq (d : PCRS.Fields) (w : PCRS.W) :
  Js.truthy (PCRS.username d) = true →
  Js.truthy (PCRS.password d) = true →
  next_fault (faults w) = false →
  (∀ f, PCRS.clashes d (db w) f = false) →
  PCRS.create d w = (Ok (PCRS.mkUser (length (db w)) d), pcrs_created d w).
Proof.
  intros Hu Hp Hf Hc. unfold PCRS.create. js. rewrite Hu, Hp. cbn [andb negb].
  rewrite round_trip_eq. cbn [clock cache faults calls db]. rewrite Hf.
  by rewrite !Hc.
Qed.

Lemma pcrs_final_step_creates req (w : PCRS.W) rest cur m1 p :
  newSession req = false →
  cache_get (sessionID req) w = Some (JsArray.mk (rest ++ [cur]) m1) →
  State.level cur = Some 17 →
  Validators.isValidGhanaCard (card_of req) = true →
  no_fault (faults w) →
  find (PCRS.has PCRS.GhanaCardNumber (card_of req)) (db w) = None →
  State.password cur = Some p →
  Js.truthy (State.username cur) = true →
  hash p ≠ "" →
  (∀ f, PCRS.clashes (pcrs_new_user hash cur p (card_of req)) (db w) f
        = false) →
  PCRS.ussd hash req w
  = (Ok (answer req PCRS.signup_done false),
     dropped (sessionID req)
       (pcrs_created (pcrs_new_user hash cur p (card_of req))
          (looked_up (PCRS.FindOne PCRS.GhanaCardNumber (card_of req)) w))).
Proof.
  intros Hn Hg Hl Hv Hnf Hfind Hp Hu Hh Hc.
  destruct (valid_card_not_navigation req Hv) as [H0 H9].
  rewrite (pcrs_step _ _ _ _ Hn Hg H0 H9). unfold try_catch, PCRS.level_step.
  rewrite top_snoc, Hl. cbn [PCRS.case_of]. unfold PCRS.case_17.
  fold (card_of req). rewrite Hv. cbn [negb]. unfold bind at 1.
  rewrite pcrs_findOne_eq, (no_fault_next _ Hnf), Hfind.
  unfold bind at 1, PCRS.hash. rewrite Hp. unfold ret at 1.
  unfold bind at 1, try_catch, bind at 1.
  fold (pcrs_new_user hash cur p (card_of req)).
  rewrite pcrs_create_eq; [done|done|..|done].
  - cbn. by apply negb_true_iff, String.eqb_neq.
  - cbn [faults looked_up]. by apply no_fault_next, no_fault_tail.
Qed.

End PcrsSteps.

(** ** PCRS: a whole sign-up *)

Lemma pcrs_free_intro c input (w : PCRS.W) :
  no_fault (faults w) →
  (∀ f v, pcrs_unique c input = Some (f, v) →
          existsb (PCRS.has f v) (db w) = false) →
  pcrs_free c input w.
Proof.
  intros Hnf H. unfold pcrs_free.
  destruct (pcrs_unique c input) as [[f v]|]; [|done].
  split; [by apply no_fault_next | by apply existsb_false_find, H].
Qed.

(** ** The lookup flow and the lookup route *)

Lemma ncstcs_lookup_eq hash req (w : NCSTCS.W) rest cur m1 :
  newSession req = false →
  cache_get (sessionID req) w = Some (JsArray.mk (rest ++ [cur]) m1) →
  userData req ≠ "0" → userData req ≠ "9" →
  State.level cur = Some 30 →
  next_fault (faults w) = false →
  let f := ncstcs_lookup_field (card_of req) in
  NCSTCS.ussd hash req w
  = match find (NCSTCS.has f (card_of req)) (db w) with
    | Some u =>
        (Ok (answer req (NCSTCS.summary u) false),
         dropped (sessionID req) (looked_up (NCSTCS.FindOne f (card_of req)) w))
    | None =>
        (Ok (answer req "Courier not found. 9.Back 0.Home" true),
         saved (sessionID req)
           (JsArray.mk
              (rest ++ [State.set_message "Courier not found. 9.Back 0.Home" cur])
              m1)
           (looked_up (NCSTCS.FindOne f (card_of req)) w))
    end.
Proof.
  intros Hn Hg H0 H9 Hl Hf. cbv zeta.
  rewrite (ncstcs_step _ _ _ _ Hn Hg H0 H9). unfold try_catch, NCSTCS.level_step.
  rewrite top_snoc, Hl. cbn [NCSTCS.case_of]. unfold NCSTCS.case_30.
  fold (card_of req). unfold ncstcs_lookup_field, bind.
  destruct (Validators.isValidGhanaCard (card_of req));
    rewrite ncstcs_findOne_eq, Hf;
    (destruct (find _ (db w)); [reflexivity|]);
    unfold NCSTCS.retry; js; by rewrite set_top_snoc.
Qed.

Lemma pcrs_lookup_eq hash req (w : PCRS.W) rest cur m1 :
  newSession req = false →
  cache_get (sessionID req) w = Some (JsArray.mk (rest ++ [cur]) m1) →
  userData req ≠ "0" → userData req ≠ "9" →
  State.level cur = Some 30 →
  next_fault (faults w) = false →
  let f := pcrs_lookup_field (card_of req) in
  PCRS.ussd hash req w
  = match find (PCRS.has f (card_of req)) (db w) with
    | Some u =>
        (Ok (answer req (PCRS.summary u) false),
         dropped (sessionID req) (looked_up (PCRS.FindOne f (card_of req)) w))
    | None =>
        (Ok (answer req "Courier not found. 9.Back 0.Home" true),
         saved (sessionID req)
           (JsArray.mk
              (rest ++ [State.set_message "Courier not found. 9.Back 0.Home" cur])
              m1)
           (looked_up (PCRS.FindOne f (card_of req)) w))
    end.
Proof.
  intros Hn Hg H0 H9 Hl Hf. cbv zeta.
  rewrite (pcrs_step _ _ _ _ Hn Hg H0 H9). unfold try_catch, PCRS.level_step.
  rewrite top_snoc, Hl. cbn [PCRS.case_of]. unfold PCRS.case_30.
  fold (card_of req). unfold pcrs_lookup_field, bind.
  destruct (Validators.isValidGhanaCard (card_of req));
    rewrite pcrs_findOne_eq, Hf;
    (destruct (find _ (db w)); [reflexivity|]);
    unfold PCRS.retry; js; by rewrite set_top_snoc.
Qed.

(** ** The HTTP lookup *)
Lemma ncstcs_courier_lookup_eq (id : option string) (w : NCSTCS.W) :
  no_fault (faults w) →
  let key := Js.toUpperCase (Js.trim (Js.or_else id "")) in
  let w1 := looked_up (NCSTCS.FindOne NCSTCS.GhanaCardNumber key) w in
  let by_license (w0 : NCSTCS.W) :=
    (Ok match find (NCSTCS.has NCSTCS.DvlaNumber key) (db w) with
        | Some u => NCSTCS.mkReply 200 (ncstcs_json u)
        | None => NCSTCS.mkReply 404 (NCSTCS.Error "Not found")
        end,
     looked_up (NCSTCS.FindOne NCSTCS.DvlaNumber key) w0) in
  NCSTCS.courier_lookup id w
  = if String.eqb key "" then
      (Ok (NCSTCS.mkReply 400 (NCSTCS.Error "Missing id")), w)
    else if Validators.isValidGhanaCard key then
      match find (NCSTCS.has NCSTCS.GhanaCardNumber key) (db w) with
      | Some u => (Ok (NCSTCS.mkReply 200 (ncstcs_json u)), w1)
      | None => by_license w1
      end
    else by_license w.
Proof.
  intros Hnf. cbv zeta. unfold NCSTCS.courier_lookup. cbv zeta.
  destruct (String.eqb _ ""); [reflexivity|].
  destruct (Validators.isValidGhanaCard _).
  - unfold bind at 1. rewrite ncstcs_findOne_eq, (no_fault_next _ Hnf).
    destruct (find (NCSTCS.has NCSTCS.GhanaCardNumber _) (db w)) as [u|];
      [reflexivity|].
    unfold bind. rewrite ncstcs_findOne_eq. cbn [faults db].
    rewrite (no_fault_next _ (no_fault_tail _ Hnf)).
    by destruct (find _ (db w)).
  - unfold bind at 1, ret at 1. unfold bind.
    rewrite ncstcs_findOne_eq, (no_fault_next _ Hnf).
    by destruct (find _ (db w)).
Qed.

Lemma pcrs_courier_lookup_eq (id : option string) (w : PCRS.W) :
  no_fault (faults w) →
  let key := Js.toUpperCase (Js.trim (Js.or_else id "")) in
  let w1 := looked_up (PCRS.FindOne PCRS.GhanaCardNumber key) w in
  let by_license (w0 : PCRS.W) :=
    (Ok match find (PCRS.has PCRS.DvlaNumber key) (db w) with
        | Some u => PCRS.mkReply 200 (pcrs_json u)
        | None => PCRS.mkReply 404 (PCRS.Error "Not found")
        end,
     looked_up (PCRS.FindOne PCRS.DvlaNumber key) w0) in
  PCRS.courier_lookup id w
  = if String.eqb key "" then
      (Ok (PCRS.mkReply 400 (PCRS.Error "Missing id")), w)
    else if Validators.isValidGhanaCard key then
      match find (PCRS.has PCRS.GhanaCardNumber key) (db w) with
      | Some u => (Ok (PCRS.mkReply 200 (pcrs_json u)), w1)
      | None => by_license w1
      end
    else by_license w.
Proof.
  intros Hnf. cbv zeta. unfold PCRS.courier_lookup. cbv zeta.
  destruct (String.eqb _ ""); [reflexivity|].
  destruct (Validators.isValidGhanaCard _).
  - unfold bind at 1. rewrite pcrs_findOne_eq, (no_fault_next _ Hnf).
    destruct (find (PCRS.has PCRS.GhanaCardNumber _) (db w)) as [u|];
      [reflexivity|].
    unfold bind. rewrite pcrs_findOne_eq. cbn [faults db looked_up].
    rewrite (no_fault_next _ (no_fault_tail _ Hnf)).
    by destruct (find _ (db w)).
  - unfold bind at 1, ret at 1. unfold bind.
    rewrite pcrs_findOne_eq, (no_fault_next _ Hnf).
    by destruct (find _ (db w)).
Qed.

Lemma pcrs_view_details_eq hash req (w : PCRS.W) rest cur m1 :
  newSession req = false →
  cache_get (sessionID req) w = Some (JsArray.mk (rest ++ [cur]) m1) →
  userData req = "1" →
  State.level cur = Some 0 →
  State.loggedIn cur = Some true →
  let id := PCRS.first_userRef (JsArray.mk (rest ++ [cur]) m1) in
  PCRS.ussd hash req w
  = (Ok (answer req
           (if next_fault (faults w)
            then "Unable to fetch details at the moment."
            else match pcrs_by_id id (db w) with
                 | Some u => PCRS.summary u
                 | None => "Account not found."
                 end) false),
     dropped (sessionID req) (looked_up (PCRS.FindById id) w)).
Proof.
  intros Hn Hg H1 Hl Hlog. cbv zeta.
  rewrite (pcrs_step hash req w _ Hn Hg) by (rewrite H1; done).
  unfold try_catch at 1, PCRS.level_step.
  rewrite top_snoc, Hl. cbn [PCRS.case_of]. unfold PCRS.case_0.
  rewrite Hlog, H1. cbn [String.eqb Ascii.eqb Bool.eqb].
  unfold bind at 1, try_catch, bind at 1. rewrite pcrs_findById_eq.
  destruct (next_fault (faults w)); [reflexivity|].
  by destruct (pcrs_by_id _ (db w)).
Qed.

(** ** Rejected input and the depth of a stack *)

Lemma ncstcs_invalid_eq hash req (w : NCSTCS.W) rest cur m1 c :
  newSession req = false →
  cache_get (sessionID req) w = Some (JsArray.mk (rest ++ [cur]) m1) →
  userData req ≠ "0" → userData req ≠ "9" →
  NCSTCS.case_of (State.level cur) = Some c →
  ncstcs_capture c = true →
  ncstcs_valid c (userData req) = false →
  ∃ message,
    NCSTCS.ussd hash req w
    = (Ok (answer req message true),
       saved (sessionID req)
         (JsArray.mk (rest ++ [State.set_message message cur]) m1) w).
Proof.
  intros Hn Hg H0 H9 Hc Hcap Hv.
  rewrite (ncstcs_step _ _ _ _ Hn Hg H0 H9). unfold try_catch, NCSTCS.level_step.
  rewrite top_snoc, Hc.
  destruct c; try discriminate Hcap; cbn [ncstcs_valid] in Hv;
    unfold NCSTCS.case_10, NCSTCS.case_11, NCSTCS.case_12, NCSTCS.case_13,
      NCSTCS.case_15, NCSTCS.case_16;
    first [apply negb_false_iff in Hv | idtac]; rewrite Hv; cbn [negb];
    unfold NCSTCS.retry; js; rewrite set_top_snoc; by eexists.
Qed.

Lemma pcrs_invalid_eq hash req (w : PCRS.W) rest cur m1 c :
  newSession req = false →
  cache_get (sessionID req) w = Some (JsArray.mk (rest ++ [cur]) m1) →
  userData req ≠ "0" → userData req ≠ "9" →
  PCRS.case_of (State.level cur) = Some c →
  pcrs_capture c = true →
  pcrs_valid c (userData req) = false →
  ∃ message,
    PCRS.ussd hash req w
    = (Ok (answer req message true),
       saved (sessionID req)
         (JsArray.mk (rest ++ [State.set_message message cur]) m1) w).
Proof.
  intros Hn Hg H0 H9 Hc Hcap Hv.
  rewrite (pcrs_step _ _ _ _ Hn Hg H0 H9). unfold try_catch, PCRS.level_step.
  rewrite top_snoc, Hc.
  destruct c; try discriminate Hcap; cbn [pcrs_valid] in Hv;
    unfold PCRS.case_10, PCRS.case_11, PCRS.case_12, PCRS.case_13,
      PCRS.case_14, PCRS.case_16, PCRS.case_17;
    first [apply negb_false_iff in Hv | idtac]; rewrite Hv; cbn [negb];
    unfold PCRS.retry; js; rewrite set_top_snoc; by eexists.
Qed.

Lemma chain_depth (below : Z → option Z) (fuel : nat) (l : list State.t)
    (c : State.t) (n : Z) (k : nat) :
  below 0 = None →
  chain below (c :: l) →
  State.level c = Some n →
  depth_below below fuel n = Some k →
  length (c :: l) = k.
Proof.
  intros Hb0. revert l c n k.
  induction fuel as [|fuel IH]; intros l c n k Hch Hl Hd; [done|].
  cbn [depth_below] in Hd. cbn [chain] in Hch.
  destruct l as [|p l].
  - rewrite Hl in Hch. injection Hch as ->. cbn in Hd. by injection Hd as <-.
  - destruct Hch as [(n' & m & Hn' & Hm & Hb) Hch].
    rewrite Hl in Hn'. injection Hn' as <-.
    destruct (Z.eqb_spec n 0) as [->|Hne]; [congruence|].
    rewrite Hb in Hd. destruct (depth_below below fuel m) as [k'|] eqn:Hk;
      [|done].
    injection Hd as <-. cbn [length]. f_equal. by apply (IH l p m).
Qed.

Lemma well_stacked_depth (below : Z → option Z) (fuel : nat)
    (rest : list State.t) (cur : State.t) (m1 : option State.t) (n : Z)
    (k : nat) :
  below 0 = None →
  well_stacked below (JsArray.mk (rest ++ [cur]) m1) →
  State.level cur = Some n →
  depth_below below fuel n = Some k →
  JsArray.length (JsArray.mk (rest ++ [cur]) m1) = k.
Proof.
  intros Hb0 Hws Hl Hd. unfold well_stacked in Hws. cbn [JsArray.items] in Hws.
  rewrite rev_app_distr in Hws. cbn [rev app] in Hws.
  unfold JsArray.length. cbn [JsArray.items].
  rewrite <- length_rev, rev_app_distr. cbn [rev app].
  by apply (chain_depth below fuel _ cur n).
Qed.

Lemma chain_level (below : Z → option Z) (l : list State.t) (c : State.t) :
  below 0 = None →
  chain below (c :: l) →
  ∃ n, State.level c = Some n ∧ (n = 0 ∨ is_Some (below n)).
Proof.
  intros Hb0 Hch. cbn [chain] in Hch. destruct l as [|p l].
  - exists 0. split; [done | by left].
  - destruct Hch as [(n & m & Hn & Hm & Hb) _]. exists n.
    split; [done|]. right. by exists m.
Qed.

(** ** The final step of a sign-up *)

(** A create that repeats a stored value of a unique field fails and
    stores nothing. *)
Lemma ncstcs_create_clash (d : NCSTCS.Fields) (w : NCSTCS.W) :
  (∃ f, NCSTCS.clashes d (db w) f = true) →
  ∃ e, (NCSTCS.create d w).1 = Throw e ∧ db (NCSTCS.create d w).2 = db w.
Proof.
  intros [f Hf]. unfold NCSTCS.create. js.
  destruct (negb _); [by eexists|].
  rewrite round_trip_eq. cbn [clock cache faults calls db].
  destruct (next_fault _); [by eexists|].
  cbn [clock cache faults calls db].
  replace (_ || _) with true; [by eexists|].
  symmetry. destruct f; rewrite Hf; by rewrite ?orb_true_r.
Qed.

Lemma pcrs_create_clash (d : PCRS.Fields) (w : PCRS.W) :
  (∃ f, PCRS.clashes d (db w) f = true) →
  ∃ e, (PCRS.create d w).1 = Throw e ∧ db (PCRS.create d w).2 = db w.
Proof.
  intros [f Hf]. unfold PCRS.create. js.
  destruct (negb _); [by eexists|].
  rewrite round_trip_eq. cbn [clock cache faults calls db].
  destruct (next_fault _); [by eexists|].
  cbn [clock cache faults calls db].
  replace (_ || _) with true; [by eexists|].
  symmetry. destruct f; rewrite Hf; by rewrite ?orb_true_r.
Qed.

(** The final step, the lookup of the card number answering. *)
Lemma ncstcs_final_step_eq hash req (w : NCSTCS.W) rest cur m1 p :
  newSession req = false →
  cache_get (sessionID req) w = Some (JsArray.mk (rest ++ [cur]) m1) →
  State.level cur = Some 16 →
  Validators.isValidGhanaCard (card_of req) = true →
  next_fault (faults w) = false →
  State.password cur = Some p →
  let w1 := looked_up (NCSTCS.FindOne NCSTCS.GhanaCardNumber (card_of req)) w in
  let taken := "Ghana Card already registered. Enter a different Ghana Card:" in
  NCSTCS.ussd hash req w
  = match find (NCSTCS.has NCSTCS.GhanaCardNumber (card_of req)) (db w) with
    | Some _ =>
        (Ok (answer req taken true),
         saved (sessionID req)
           (JsArray.mk (rest ++ [State.set_message taken cur]) m1) w1)
    | None =>
        let r := NCSTCS.create (ncstcs_new_user hash cur p (card_of req)) w1 in
        (Ok (answer req (signup_ending r.1) false), dropped (sessionID req) r.2)
    end.
Proof.
  intros Hn Hg Hl Hv Hf Hp w1 taken.
  destruct (valid_card_not_navigation req Hv) as [H0 H9].
  rewrite (ncstcs_step _ _ _ _ Hn Hg H0 H9). unfold try_catch, NCSTCS.level_step.
  rewrite top_snoc, Hl. cbn [NCSTCS.case_of]. unfold NCSTCS.case_16.
  fold (card_of req). rewrite Hv. cbn [negb]. unfold bind at 1.
  rewrite ncstcs_findOne_eq, Hf.
  destruct (find _ (db w)) as [u|].
  - unfold NCSTCS.retry. js. by rewrite set_top_snoc.
  - unfold bind at 1, NCSTCS.hash. rewrite Hp. unfold ret at 1.
    unfold bind at 1, try_catch, bind at 1.
    fold (ncstcs_new_user hash cur p (card_of req)).
    subst w1. unfold looked_up. cbv zeta.
    by destruct (NCSTCS.create _ _) as [[u|e] w2].
Qed.

Lemma pcrs_final_step_eq hash req (w : PCRS.W) rest cur m1 p :
  newSession req = false →
  cache_get (sessionID req) w = Some (JsArray.mk (rest ++ [cur]) m1) →
  State.level cur = Some 17 →
  Validators.isValidGhanaCard (card_of req) = true →
  next_fault (faults w) = false →
  State.password cur = Some p →
  let w1 := looked_up (PCRS.FindOne PCRS.GhanaCardNumber (card_of req)) w in
  let taken := "Ghana Card already registered. Enter a different Ghana Card:" in
  PCRS.ussd hash req w
  = match find (PCRS.has PCRS.GhanaCardNumber (card_of req)) (db w) with
    | Some _ =>
        (Ok (answer req taken true),
         saved (sessionID req)
           (JsArray.mk (rest ++ [State.set_message taken cur]) m1) w1)
    | None =>
        let r := PCRS.create (pcrs_new_user hash cur p (card_of req)) w1 in
        (Ok (answer req
               (match r.1 with
                | Ok _ => PCRS.signup_done
                | Throw _ => "Registration failed. Try again later."
                end) false),
         dropped (sessionID req) r.2)
    end.
Proof.
  intros Hn Hg Hl Hv Hf Hp w1 taken.
  destruct (valid_card_not_navigation req Hv) as [H0 H9].
  rewrite (pcrs_step _ _ _ _ Hn Hg H0 H9). unfold try_catch, PCRS.level_step.
  rewrite top_snoc, Hl. cbn [PCRS.case_of]. unfold PCRS.case_17.
  fold (card_of req). rewrite Hv. cbn [negb]. unfold bind at 1.
  rewrite pcrs_findOne_eq, Hf.
  destruct (find _ (db w)) as [u|].
  - unfold PCRS.retry. js. by rewrite set_top_snoc.
  - unfold bind at 1, PCRS.hash. rewrite Hp. unfold ret at 1.
    unfold bind at 1, try_catch, bind at 1.
    fold (pcrs_new_user hash cur p (card_of req)).
    subst w1. unfold looked_up. cbv zeta.
    by destruct (PCRS.create _ _) as [[u|e] w2].
Qed.

(** A create that fails in the final step of NCSTCS is caught on its own. *)
Lemma ncstcs_create_failure hash req (w : NCSTCS.W) rest cur m1 p e w1 :
  newSession req = false →
  cache_get (sessionID req) w = Some (JsArray.mk (rest ++ [cur]) m1) →
  State.level cur = Some 16 →
  Validators.isValidGhanaCard (card_of req) = true →
  next_fault (faults w) = false →
  find (NCSTCS.has NCSTCS.GhanaCardNumber (card_of req)) (db w) = None →
  State.password cur = Some p →
  NCSTCS.create (ncstcs_new_user hash cur p (card_of req))
    (looked_up (NCSTCS.FindOne NCSTCS.GhanaCardNumber (card_of req)) w)
  = (Throw e, w1) →
  NCSTCS.ussd hash req w
  = (Ok (answer req "Registration failed. Try again later." false),
     dropped (sessionID req) w1).
Proof.
  intros Hn Hg Hl Hv Hf Hfind Hp Hc.
  rewrite (ncstcs_final_step_eq hash req w rest cur m1 p Hn Hg Hl Hv Hf Hp).
  cbv zeta. by rewrite Hfind, Hc.
Qed.

(** The outcome of the final step when no record holds the card number:
    the create is issued and the session is deleted; the create is stored
    unless the repository rejects it. *)
Lemma ncstcs_final_step_free hash req (w : NCSTCS.W) rest cur m1 p :
  newSession req = false →
  cache_get (sessionID req) w = Some (JsArray.mk (rest ++ [cur]) m1) →
  State.level cur = Some 16 →
  Validators.isValidGhanaCard (card_of req) = true →
  next_fault (faults w) = false →
  State.password cur = Some p →
  find (NCSTCS.has NCSTCS.GhanaCardNumber (card_of req)) (db w) = None →
  let d := ncstcs_new_user hash cur p (card_of req) in
  let out := NCSTCS.ussd hash req w in
  calls out.2
  = calls w ++ [NCSTCS.FindOne NCSTCS.GhanaCardNumber (card_of req);
                NCSTCS.Create d]
  ∧ cache_get (sessionID req) out.2 = None
  ∧ ((∃ f, NCSTCS.clashes d (db w) f = true) →
     out.1 = Ok (answer req "Registration failed. Try again later." false)
     ∧ db out.2 = db w)
  ∧ (Js.truthy (State.username cur) = true → hash p ≠ "" →
     no_fault (faults w) → (∀ f, NCSTCS.clashes d (db w) f = false) →
     out.1 = Ok (answer req "Registration successful!" false)
     ∧ db out.2 = db w ++ [NCSTCS.mkUser (length (db w)) d]).
Proof.
  intros Hn Hg Hl Hv Hf Hp Hfind d out. subst out.
  rewrite (ncstcs_final_step_eq hash req w rest cur m1 p Hn Hg Hl Hv Hf Hp).
  rewrite Hfind. cbv zeta. fold d.
  set (w1 := looked_up _ w). cbn [fst snd].
  split; [|split; [apply cache_get_dropped|split]].
  - cbn [calls dropped]. rewrite ncstcs_create_calls.
    unfold w1. cbn [calls looked_up]. by rewrite <- app_assoc.
  - intros Hc. destruct (ncstcs_create_clash d w1 Hc) as (e & He & Hdb).
    rewrite He. cbn [signup_ending db dropped]. by rewrite Hdb.
  - intros Hu Hh Hnf Hc. rewrite ncstcs_create_eq; [done|done|..|done].
    + cbn. by apply negb_true_iff, String.eqb_neq.
    + cbn [faults w1 looked_up]. by apply no_fault_next, no_fault_tail.
Qed.

Lemma pcrs_final_step_free hash req (w : PCRS.W) rest cur m1 p :
  newSession req = false →
  cache_get (sessionID req) w = Some (JsArray.mk (rest ++ [cur]) m1) →
  State.level cur = Some 17 →
  Validators.isValidGhanaCard (card_of req) = true →
  next_fault (faults w) = false →
  State.password cur = Some p →
  find (PCRS.has PCRS.GhanaCardNumber (card_of req)) (db w) = None →
  let d := pcrs_new_user hash cur p (card_of req) in
  let out := PCRS.ussd hash req w in
  calls out.2
  = calls w ++ [PCRS.FindOne PCRS.GhanaCardNumber (card_of req); PCRS.Create d]
  ∧ cache_get (sessionID req) out.2 = None
  ∧ ((∃ f, PCRS.clashes d (db w) f = true) →
     out.1 = Ok (answer req "Registration failed. Try again later." false)
     ∧ db out.2 = db w)
  ∧ (Js.truthy (State.username cur) = true → hash p ≠ "" →
     no_fault (faults w) → (∀ f, PCRS.clashes d (db w) f = false) →
     out.1 = Ok (answer req PCRS.signup_done false)
     ∧ db out.2 = db w ++ [PCRS.mkUser (length (db w)) d]).
Proof.
  intros Hn Hg Hl Hv Hf Hp Hfind d out. subst out.
  rewrite (pcrs_final_step_eq hash req w rest cur m1 p Hn Hg Hl Hv Hf Hp).
  rewrite Hfind. cbv zeta. fold d.
  set (w1 := looked_up _ w). cbn [fst snd].
  split; [|split; [apply cache_get_dropped|split]].
  - cbn [calls dropped]. rewrite pcrs_create_calls.
    unfold w1. cbn [calls looked_up]. by rewrite <- app_assoc.
  - intros Hc. destruct (pcrs_create_clash d w1 Hc) as (e & He & Hdb).
    rewrite He. cbn [db dropped]. by rewrite Hdb.
  - intros Hu Hh Hnf Hc. rewrite pcrs_create_eq; [done|done|..|done].
    + cbn. by apply negb_true_iff, String.eqb_neq.
    + cbn [faults w1 looked_up]. by apply no_fault_next, no_fault_tail.
Qed.

(** The outcome of the final step when a record holds the card number: a
    retry in place, and no create. *)
Lemma ncstcs_final_step_taken hash req (w : NCSTCS.W) rest cur m1 p u :
  newSession req = false →
  cache_get (sessionID req) w = Some (JsArray.mk (rest ++ [cur]) m1) →
  State.level cur = Some 16 →
  Validators.isValidGhanaCard (card_of req) = true →
  next_fault (faults w) = false →
  State.password cur = Some p →
  find (NCSTCS.has NCSTCS.GhanaCardNumber (card_of req)) (db w) = Some u →
  let taken := "Ghana Card already registered. Enter a different Ghana Card:" in
  let out := NCSTCS.ussd hash req w in
  calls out.2
  = calls w ++ [NCSTCS.FindOne NCSTCS.GhanaCardNumber (card_of req)]
  ∧ out.1 = Ok (answer req taken true)
  ∧ cache_get (sessionID req) out.2
    = Some (JsArray.mk (rest ++ [State.set_message taken cur]) m1)
  ∧ db out.2 = db w.
Proof.
  intros Hn Hg Hl Hv Hf Hp Hfind taken out. subst out.
  rewrite (ncstcs_final_step_eq hash req w rest cur m1 p Hn Hg Hl Hv Hf Hp).
  rewrite Hfind. cbv zeta.
  split; [done|]. split; [done|]. split; [apply cache_get_saved | done].
Qed.

Lemma pcrs_final_step_taken hash req (w : PCRS.W) rest cur m1 p u :
  newSession req = false →
  cache_get (sessionID req) w = Some (JsArray.mk (rest ++ [cur]) m1) →
  State.level cur = Some 17 →
  Validators.isValidGhanaCard (card_of req) = true →
  next_fault (faults w) = false →
  State.password cur = Some p →
  find (PCRS.has PCRS.GhanaCardNumber (card_of req)) (db w) = Some u →
  let taken := "Ghana Card already registered. Enter a different Ghana Card:" in
  let out := PCRS.ussd hash req w in
  calls out.2 = calls w ++ [PCRS.FindOne PCRS.GhanaCardNumber (card_of req)]
  ∧ out.1 = Ok (answer req taken true)
  ∧ cache_get (sessionID req) out.2
    = Some (JsArray.mk (rest ++ [State.set_message taken cur]) m1)
  ∧ db out.2 = db w.
Proof.
  intros Hn Hg Hl Hv Hf Hp Hfind taken out. subst out.
  rewrite (pcrs_final_step_eq hash req w rest cur m1 p Hn Hg Hl Hv Hf Hp).
  rewrite Hfind. cbv zeta.
  split; [done|]. split; [done|]. split; [apply cache_get_saved | done].
Qed.

(** ** GatePlus: registration *)

Section GatePlusSteps.

Variable parseFloat : string → float.

Variable number_to_string : float → string.

Variable toLocaleDateString : Z → string.
Implicit Types (w : GatePlus.W) (req : Request) (us : JsArray.t).

Local Abbreviation ussd :=
  (GatePlus.ussd parseFloat number_to_string toLocaleDateString).

Lemma gateplus_saveUser_eq fullName ghanaCard m w :
  fullName ≠ "" → m ≠ "" →
  Regex.test_full Validators.ghana_card_re ghanaCard = true →
  next_fault (faults w) = false →
  gateplus_user m w = None →
  GatePlus.saveUser fullName ghanaCard m w
  = (Ok (gateplus_new_user fullName ghanaCard m w),
     gateplus_stored fullName ghanaCard m w).
Proof.
  intros Hn Hm Hc Hf Hu. apply String.eqb_neq in Hn, Hm.
  unfold GatePlus.saveUser. js. rewrite Hn, Hm, Hc. cbn [orb negb].
  rewrite round_trip_eq. cbn [clock cache faults calls db]. rewrite Hf.
  by rewrite (find_none_existsb _ _ Hu).
Qed.

Lemma gateplus_start_eq req w :
  newSession req = true →
  no_fault (faults w) → msisdn req ≠ "" →
  let known := bool_decide (is_Some (gateplus_user (msisdn req) w)) in
  ussd req w
  = (Ok (answer req
           (if known then GatePlus.main_menu else GatePlus.welcome) true),
     logged (msisdn req) "session_start" (GatePlus.SessionStart (negb known))
       (saved (sessionID req) (JsArray.lit [gateplus_first_entry req known])
          (looked_up (GatePlus.UserFindOne (msisdn req)) w))).
Proof.
  intros Hn Hf Hm. cbv zeta. unfold GatePlus.ussd.
  unfold bind at 1, getSession. rewrite Hn. unfold GatePlus.start.
  unfold bind at 1. rewrite gateplus_findUser_eq, (no_fault_next _ Hf).
  fold (gateplus_user (msisdn req) w).
  unfold bind at 1, saveSession at 1. unfold bind at 1.
  rewrite gateplus_logActivity_eq; [|done|done|].
  2:{ cbn [faults looked_up]. by apply no_fault_next, no_fault_tail. }
  by destruct (gateplus_user (msisdn req) w).
Qed.

Lemma gateplus_start_fails req w :
  newSession req = true →
  next_fault (faults w) = true →
  ussd req w
  = (Throw MongoError, looked_up (GatePlus.UserFindOne (msisdn req)) w).
Proof.
  intros Hn Hf. unfold GatePlus.ussd.
  unfold bind at 1, getSession. rewrite Hn. unfold GatePlus.start.
  unfold bind at 1. by rewrite gateplus_findUser_eq, Hf.
Qed.

Lemma gateplus_name_eq req w rest cur m1 :
  newSession req = false →
  cache_get (sessionID req) w = Some (JsArray.mk (rest ++ [cur]) m1) →
  State.level cur = Some 10 →
  ussd req w
  = if (String.length (Js.trim (userData req)) <? 2)%nat
       || Validators.has_digit (Js.trim (userData req))
    then (Ok (answer req "Please enter a valid name (no numbers)." true), w)
    else
      (Ok (answer req "Enter Ghana Card (e.g., GHA-123456789-01):" true),
       saved (sessionID req)
         (JsArray.mk
            (rest ++ [cur; State.set_fullName (Js.trim (userData req))
                             (State.obj (Some 11)
                                "Enter Ghana Card (e.g., GHA-123456789-01):")])
            m1) w).
Proof.
  intros Hn Hg Hl. rewrite (gateplus_step _ _ _ _ _ _ _ _ Hn Hg).
  unfold try_catch, GatePlus.level_step. rewrite Hl.
  cbn [GatePlus.in_registration Z.leb Z.ltb Z.compare Pos.compare
    Pos.compare_cont andb].
  unfold GatePlus.registration. rewrite Hl.
  rewrite bool_decide_eq_true_2 by done.
  destruct (_ || _); [reflexivity|].
  unfold JsArray.push. js. cbn [JsArray.items JsArray.minus1].
  by rewrite <- app_assoc.
Qed.

Lemma gateplus_card_eq req w rest cur m1 :
  newSession req = false →
  cache_get (sessionID req) w = Some (JsArray.mk (rest ++ [cur]) m1) →
  State.level cur = Some 11 →
  Validators.isValidGhanaCard (card_of req) = true →
  no_fault (faults w) → msisdn req ≠ "" →
  gateplus_user (msisdn req) w = None →
  let fullName := gateplus_name_read (JsArray.mk (rest ++ [cur]) m1) in
  ussd req w
  = (Ok (answer req ("Thank you, " +:+ fullName +:+ "!
Verification pending. You'll be notified.") false),
     dropped (sessionID req)
       (logged (msisdn req) "register"
          (GatePlus.Register fullName (card_of req))
          (gateplus_stored fullName (card_of req) (msisdn req)
             (looked_up (GatePlus.UserFindOne (msisdn req)) w)))).
Proof.
  intros Hn Hg Hl Hv Hf Hm Hu. cbv zeta.
  rewrite (gateplus_step _ _ _ _ _ _ _ _ Hn Hg).
  unfold try_catch, GatePlus.level_step. rewrite Hl.
  cbn [GatePlus.in_registration Z.leb Z.ltb Z.compare Pos.compare
    Pos.compare_cont andb].
  unfold GatePlus.registration. rewrite Hl.
  rewrite bool_decide_eq_false_2 by done.
  rewrite bool_decide_eq_true_2 by done.
  fold (card_of req). rewrite Hv. cbn [negb]. cbv zeta.
  fold (gateplus_name_read (JsArray.mk (rest ++ [cur]) m1)).
  set (fullName := gateplus_name_read _).
  unfold bind at 1. rewrite gateplus_findUser_eq, (no_fault_next _ Hf).
  fold (gateplus_user (msisdn req) w). rewrite Hu.
  unfold bind at 1. rewrite gateplus_saveUser_eq; [|..|done].
  - unfold bind at 1. rewrite gateplus_logActivity_eq; [done|done|done|].
    cbn [faults gateplus_stored looked_up].
    by apply no_fault_next, no_fault_tail, no_fault_tail.
  - unfold fullName, gateplus_name_read, Js.or_else.
    destruct (match JsArray.find _ _ with Some s => _ | None => None end)
      as [s|]; [|done].
    destruct (String.eqb_spec s ""); done.
  - done.
  - unfold Validators.isValidGhanaCard in Hv. unfold card_of in *.
    by rewrite trim_toUpperCase, trim_idempotent in Hv.
  - cbn [faults looked_up]. by apply no_fault_next, no_fault_tail.
Qed.

End GatePlusSteps.

(** ** GatePlus: approval and the main menu *)

Lemma cache_get_logged sid m action details (w : GatePlus.W) :
  cache_get sid (logged m action details w) = cache_get sid w.
Proof. apply cache_get_frame. Qed.

Lemma gateplus_approve_eq m (w : GatePlus.W) u :
  no_fault (faults w) → m ≠ "" →
  gateplus_user m w = Some u →
  GatePlus.approve m w
  = (Ok ("success", "User " +:+ m +:+ " verified!"),
     logged m "admin_action" (GatePlus.AdminAction "approved")
       (gateplus_updated (gateplus_verified u (clock w))
          (looked_up (GatePlus.UserFindOne m) w))).
Proof.
  intros Hf Hm Hu. unfold GatePlus.approve. unfold bind at 1.
  rewrite gateplus_findUser_eq, (no_fault_next _ Hf).
  fold (gateplus_user m w). rewrite Hu.
  unfold bind at 1, now at 1. unfold bind at 1.
  unfold GatePlus.updateUser. unfold bind at 1, issue at 1. unfold bind at 1.
  rewrite round_trip_eq. cbn [clock cache faults calls db looked_up].
  rewrite (no_fault_next _ (no_fault_tail _ Hf)).
  unfold bind at 1, read_db at 1. unfold write_db at 1.
  cbn [clock cache faults calls db].
  unfold bind at 1. rewrite gateplus_logActivity_eq; [done|done|done|].
  cbn [faults]. by apply no_fault_next, no_fault_tail, no_fault_tail.
Qed.

Lemma gateplus_approve_unknown m (w : GatePlus.W) :
  next_fault (faults w) = false →
  gateplus_user m w = None →
  GatePlus.approve m w
  = (Ok ("error", "User not found"), looked_up (GatePlus.UserFindOne m) w).
Proof.
  intros Hf Hu. unfold GatePlus.approve. unfold bind at 1.
  rewrite gateplus_findUser_eq, Hf. fold (gateplus_user m w). by rewrite Hu.
Qed.

Lemma find_replaced {A} (p : A → bool) (f : A → A) (l : list A) (u u' : A) :
  find p l = Some u →
  p u' = true →
  f u = u' →
  (∀ v, f v = v ∨ f v = u') →
  find p (map f l) = Some u'.
Proof.
  intros Hfind Hp Hu Hf. induction l as [|v l IH]; [done|].
  cbn [find map] in *. destruct (p v) eqn:Hv.
  - injection Hfind as ->. by rewrite Hu, Hp.
  - destruct (Hf v) as [-> | ->]; [rewrite Hv; by apply IH | by rewrite Hp].
Qed.

Lemma gateplus_user_approved m (w : GatePlus.W) u :
  no_fault (faults w) → m ≠ "" →
  gateplus_user m w = Some u →
  gateplus_user m (GatePlus.approve m w).2
  = Some (gateplus_verified u (clock w)).
Proof.
  intros Hf Hm Hu. rewrite (gateplus_approve_eq m w u Hf Hm Hu).
  unfold gateplus_user in *.
  cbn [snd db logged gateplus_updated looked_up GatePlus.users].
  apply (find_replaced _ _ _ u); [done|..].
  - cbn [GatePlus.User.msisdn gateplus_verified].
    by apply find_some in Hu as [_ Hu].
  - cbn [GatePlus.User._id gateplus_verified]. by rewrite Nat.eqb_refl.
  - intros v. destruct (Nat.eqb _ _); [by right | by left].
Qed.

Section GatePlusMenu.

Variable parseFloat : string → float.

Variable number_to_string : float → string.

Variable toLocaleDateString : Z → string.
Implicit Types (w : GatePlus.W) (req : Request) (us : JsArray.t).

Local Abbreviation ussd :=
  (GatePlus.ussd parseFloat number_to_string toLocaleDateString).

Lemma gateplus_menu_step req w rest cur m1 user :
  newSession req = false →
  cache_get (sessionID req) w = Some (JsArray.mk (rest ++ [cur]) m1) →
  State.level cur = Some 1 →
  no_fault (faults w) → msisdn req ≠ "" →
  gateplus_user (msisdn req) w = Some user →
  ussd req w
  = try_catch
      (GatePlus.case_1 number_to_string toLocaleDateString req
         (JsArray.mk (rest ++ [cur]) m1) user)
      (fun _ =>
         bind (cache_del (sessionID req))
           (fun _ => respond req GatePlus.generic_failure false))
      (menu_logged req cur w).
Proof.
  intros Hn Hg Hl Hf Hm Hu.
  rewrite (gateplus_step _ _ _ _ _ _ _ _ Hn Hg).
  unfold try_catch, GatePlus.level_step. rewrite Hl.
  cbn [GatePlus.in_registration Z.leb Z.ltb Z.compare Pos.compare
    Pos.compare_cont andb].
  rewrite (gateplus_existing_user _ _ _ _ _ _ _ _ Hf Hm Hu).
  rewrite Hl. by rewrite bool_decide_eq_true_2 by done.
Qed.

Lemma gateplus_apply_eq req w rest cur m1 user :
  newSession req = false →
  cache_get (sessionID req) w = Some (JsArray.mk (rest ++ [cur]) m1) →
  State.level cur = Some 1 →
  userData req = "1" →
  no_fault (faults w) → msisdn req ≠ "" →
  gateplus_user (msisdn req) w = Some user →
  ussd req w
  = if String.eqb (GatePlus.User.status user) "verified" then
      (Ok (answer req "Enter loan amount (GHS 10 - 1000):" true),
       saved (sessionID req)
         (JsArray.mk
            (rest ++ [cur; State.obj (Some 2)
                             "Enter loan amount (GHS 10 - 1000):"]) m1)
         (menu_logged req cur w))
    else
      (Ok (answer req "Account under review. Please wait for approval." false),
       menu_logged req cur w).
Proof.
  intros Hn Hg Hl H1 Hf Hm Hu.
  rewrite (gateplus_menu_step req w rest cur m1 user Hn Hg Hl Hf Hm Hu).
  unfold try_catch, GatePlus.case_1. rewrite H1.
  cbn [String.eqb Ascii.eqb Bool.eqb].
  destruct (String.eqb _ "verified"); cbn [negb]; [|reflexivity].
  unfold JsArray.push. js. cbn [JsArray.items JsArray.minus1].
  by rewrite <- app_assoc.
Qed.

Lemma gateplus_status_eq req w rest cur m1 user :
  newSession req = false →
  cache_get (sessionID req) w = Some (JsArray.mk (rest ++ [cur]) m1) →
  State.level cur = Some 1 →
  userData req = "2" →
  no_fault (faults w) → msisdn req ≠ "" →
  gateplus_user (msisdn req) w = Some user →
  ussd req w
  = (Ok (answer req
           match gateplus_latest (msisdn req) w with
           | None => "No loan history."
           | Some l =>
               "Status: " +:+ Js.toUpperCase (GatePlus.Loan.status l) +:+ "
Amount: GHS " +:+ number_to_string (GatePlus.Loan.amount l) +:+ "
Applied: " +:+ toLocaleDateString (GatePlus.Loan.requestedAt l)
           end false),
     looked_up (GatePlus.LoanFindLatest (msisdn req)) (menu_logged req cur w)).
Proof.
  intros Hn Hg Hl H2 Hf Hm Hu.
  rewrite (gateplus_menu_step req w rest cur m1 user Hn Hg Hl Hf Hm Hu).
  unfold try_catch, GatePlus.case_1. rewrite H2.
  cbn [String.eqb Ascii.eqb Bool.eqb].
  unfold bind at 1, GatePlus.findLatestLoan. js. rewrite round_trip_eq.
  cbn [clock cache faults calls db menu_logged logged looked_up].
  rewrite (no_fault_next _ (no_fault_tail _ (no_fault_tail _ Hf))).
  unfold gateplus_latest. cbn [db GatePlus.loans].
  by destruct (fold_left _ _ _).
Qed.

End GatePlusMenu.

(** ** The name step *)

Lemma existsb_Exists {A : Type} (p : A → bool) (l : list A) :
  existsb p l = true ↔ Exists (fun x => p x = true) l.
Proof.
  induction l as [|x l IH]; cbn [existsb].
  - split; [discriminate | by intros H%Exists_nil].
  - rewrite orb_true_iff, Exists_cons, IH. reflexivity.
Qed.

Lemma forallb_negb {A : Type} (p : A → bool) (l : list A) :
  forallb (fun x => negb (p x)) l = negb (existsb p l).
Proof.
  induction l as [|x l IH]; [reflexivity|].
  cbn [forallb existsb]. rewrite IH. by destruct (p x).
Qed.

Lemma has_digit_existsb (s : string) :
  Validators.has_digit s = existsb Js.is_digit (list_ascii_of_string s).
Proof.
  apply eq_true_iff_eq. rewrite has_digit_iff, existsb_Exists. reflexivity.
Qed.

(** The test of the name steps, on the characters of the name. *)
Lemma name_test (n : nat) (s : string) :
  (String.length s <? n)%nat || Validators.has_digit s
  = negb (name_ok n (list_ascii_of_string s)).
Proof.
  unfold name_ok. rewrite forallb_negb, length_list_ascii, has_digit_existsb.
  rewrite negb_andb, negb_involutive. f_equal.
  destruct (Nat.ltb_spec (String.length s) n);
    destruct (Nat.leb_spec n (String.length s)); reflexivity || lia.
Qed.

Lemma name_test_blank (s : string) :
  String.eqb s "" || (String.length s <? 3)%nat || Validators.has_digit s
  = negb (name_ok 3 (list_ascii_of_string s)).
Proof.
  rewrite <- name_test. by destruct s.
Qed.

Lemma fold_later_spec (l : list GatePlus.Loan.t) (acc : option GatePlus.Loan.t) :
  match fold_left GatePlus.later l acc with
  | None => acc = None ∧ l = []
  | Some b =>
      (acc = Some b ∨ In b l)
      ∧ (∀ a, acc = Some a →
              GatePlus.Loan.requestedAt a ≤ GatePlus.Loan.requestedAt b)
      ∧ Forall (fun x => GatePlus.Loan.requestedAt x
                         ≤ GatePlus.Loan.requestedAt b) l
  end.
Proof.
  revert acc. induction l as [|x l IH]; intros acc; cbn [fold_left].
  - destruct acc as [a|]; [|done]. split; [by left|].
    split; [|constructor]. intros ? [= <-]. lia.
  - specialize (IH (GatePlus.later acc x)).
    destruct (fold_left GatePlus.later l (GatePlus.later acc x)) as [b|].
    + destruct IH as (Hin & Hacc & Hall).
      unfold GatePlus.later in Hin, Hacc.
      destruct acc as [a|].
      * destruct (Z.ltb_spec (GatePlus.Loan.requestedAt a)
                    (GatePlus.Loan.requestedAt x)) as [Hlt|Hge].
        -- specialize (Hacc x eq_refl). split.
           { right. destruct Hin as [[= ->]|Hin]; [by left | by right]. }
           split; [intros ? [= <-]; lia | by constructor].
        -- specialize (Hacc a eq_refl). split.
           { destruct Hin as [Hin|Hin]; [by left | right; by right]. }
           split; [by intros ? [= <-] | constructor; [lia | done]].
      * specialize (Hacc x eq_refl). split.
        { right. destruct Hin as [[= ->]|Hin]; [by left | by right]. }
        split; [done | by constructor].
    + destruct IH as [Hl _]. unfold GatePlus.later in Hl.
      destruct acc as [a|]; [by destruct (_ <? _)|done].
Qed.

(** ** GatePlus: the repository stays sound *)

Lemma gateplus_loan_ok_grow users u l :
  gateplus_loan_ok users l → gateplus_loan_ok (users ++ [u]) l.
Proof.
  intros (Hr & Hs & v & Hin & Hid & Hm). repeat split; [done..|].
  exists v. split; [apply in_or_app; by left | done].
Qed.

Lemma existsb_false_not_in (m : string) (users : list GatePlus.User.t) :
  existsb (fun u => String.eqb (GatePlus.User.msisdn u) m) users = false →
  ¬ In m (map GatePlus.User.msisdn users).
Proof.
  intros He Hin. apply in_map_iff in Hin as (u & Hu & Hin).
  assert (existsb (fun u => String.eqb (GatePlus.User.msisdn u) m) users = true)
    by (apply existsb_exists; exists u; split; [done | by apply String.eqb_eq]).
  congruence.
Qed.

Lemma gateplus_saveUser_sound fullName ghanaCard m :
  keeps gateplus_sound (GatePlus.saveUser fullName ghanaCard m).
Proof.
  intros w (Hid & Hnd & Hu & Hl). unfold GatePlus.saveUser. js.
  destruct (_ || _) eqn:Hv; [done|]. rewrite round_trip_eq.
  destruct (next_fault _); [done|]. cbn [clock cache faults calls db].
  destruct (existsb _ _) eqn:He; [done|]. cbn [snd db].
  apply orb_false_iff in Hv as [Hv Hc]. apply orb_false_iff in Hv as [Hn Hm].
  apply negb_false_iff in Hc. apply String.eqb_neq in Hn, Hm.
  unfold gateplus_sound. cbn [GatePlus.users GatePlus.loans].
  split; [|split; [|split]].
  - rewrite map_app, length_app, Hid. cbn [map length GatePlus.User._id].
    by rewrite Nat.add_1_r, seq_S.
  - rewrite map_app. cbn [map GatePlus.User.msisdn].
    apply NoDup_app. split; [done|]. split; [|apply NoDup_singleton].
    intros x Hx Hx'. apply list_elem_of_singleton in Hx' as ->.
    apply list_elem_of_In in Hx. by apply (existsb_false_not_in m _ He).
  - apply Forall_app. split; [done|]. constructor; [|done]. done.
  - eapply Forall_impl; [exact Hl|]. intros l. apply gateplus_loan_ok_grow.
Qed.

Lemma gateplus_logActivity_keeps (P : GatePlus.Db → Prop) m action details :
  (∀ d entry,
     P d →
     P (GatePlus.mkDb (GatePlus.users d) (GatePlus.loans d)
          (GatePlus.logs d ++ [entry]))) →
  keeps P (GatePlus.logActivity m action details).
Proof.
  intros HP w H. unfold GatePlus.logActivity. js.
  destruct (_ || _); [done|]. rewrite round_trip_eq.
  destruct (next_fault _); [done|]. cbn [clock cache faults calls db snd].
  by apply HP.
Qed.

Lemma gateplus_sound_logs d entry :
  gateplus_sound d →
  gateplus_sound
    (GatePlus.mkDb (GatePlus.users d) (GatePlus.loans d)
       (GatePlus.logs d ++ [entry])).
Proof. done. Qed.

Lemma gateplus_saveLoan_sound (u : GatePlus.User.t) m amount :
  GatePlus.User.msisdn u = m →
  keeps (gateplus_sound_with u) (GatePlus.saveLoan (GatePlus.User._id u) m amount).
Proof.
  intros Hm w [(Hid & Hnd & Hu & Hl) Hin]. unfold GatePlus.saveLoan. js.
  destruct (_ || _) eqn:Hv; [done|]. rewrite round_trip_eq.
  destruct (next_fault _); [done|]. cbn [clock cache faults calls db snd].
  apply orb_false_iff in Hv as [_ Hr].
  split; [|done]. unfold gateplus_sound. cbn [GatePlus.users GatePlus.loans].
  repeat (split; [done|]).
  apply Forall_app. split; [done|]. constructor; [|done].
  split; [done|]. split; [done|]. by exists u.
Qed.

Lemma gateplus_existing_user_sound pf ns ds req us cur :
  keeps gateplus_sound (GatePlus.existing_user pf ns ds req us cur).
Proof.
  intros w Hs. unfold GatePlus.existing_user. unfold bind at 1.
  rewrite gateplus_findUser_eq.
  destruct (next_fault (faults w)); [done|].
  destruct (find _ _) as [u|] eqn:Hfind; [|done].
  apply find_some in Hfind as [Hin Hm]. apply String.eqb_eq in Hm.
  assert (Hk : keeps (gateplus_sound_with u)
            (bind (GatePlus.logActivity (msisdn req) "menu"
                     (GatePlus.Menu (State.level cur) (userData req)))
               (fun _ =>
                  if bool_decide (State.level cur = Some 1)
                  then GatePlus.case_1 ns ds req us u
                  else if bool_decide (State.level cur = Some 2)
                  then GatePlus.case_2 pf ns req us cur u
                  else respond req "An error occurred." false))).
  { unfold GatePlus.case_1, GatePlus.case_2, GatePlus.findLatestLoan.
    repeat first
      [ apply gateplus_logActivity_keeps; intros d entry [? ?]; by split
      | by apply gateplus_saveLoan_sound
      | keeps_step ]. }
  by apply (Hk (looked_up (GatePlus.UserFindOne (msisdn req)) w)).
Qed.

Lemma gateplus_ussd_sound pf ns ds req :
  keeps gateplus_sound (GatePlus.ussd pf ns ds req).
Proof.
  unfold GatePlus.ussd, GatePlus.start, GatePlus.level_step,
    GatePlus.registration, GatePlus.findUser.
  repeat first
    [ apply gateplus_existing_user_sound
    | apply gateplus_saveUser_sound
    | apply gateplus_logActivity_keeps; intros d entry ?;
      by apply gateplus_sound_logs
    | keeps_step ].
Qed.

Lemma map_replace_same {A B} (g : A → B) (f : A → A) (l : list A) :
  (∀ v, In v l → g (f v) = g v) → map g (map f l) = map g l.
Proof.
  intros H. rewrite map_map. apply map_ext_in. exact H.
Qed.

Lemma seq_ids_inj (users : list GatePlus.User.t) (u v : GatePlus.User.t) :
  map GatePlus.User._id users = seq 0 (length users) →
  In u users → In v users →
  GatePlus.User._id u = GatePlus.User._id v → u = v.
Proof.
  intros Hid Hu Hv He.
  assert (Hnd : List.NoDup (map GatePlus.User._id users))
    by (rewrite Hid; apply List.seq_NoDup).
  apply In_nth_error in Hu as [i Hi]. apply In_nth_error in Hv as [j Hj].
  assert (i = j).
  { apply (proj1 (List.NoDup_nth_error _) Hnd).
    - rewrite length_map. apply nth_error_Some. by rewrite Hi.
    - rewrite !nth_error_map, Hi, Hj. cbn. by rewrite He. }
  subst j. congruence.
Qed.

Lemma gateplus_updated_sound (u : GatePlus.User.t) (t : Z) (d : GatePlus.Db) :
  gateplus_sound d → In u (GatePlus.users d) →
  gateplus_sound
    (GatePlus.mkDb
       (map (fun v =>
               if Nat.eqb (GatePlus.User._id v)
                    (GatePlus.User._id (gateplus_verified u t))
               then gateplus_verified u t else v) (GatePlus.users d))
       (GatePlus.loans d) (GatePlus.logs d)).
Proof.
  intros (Hid & Hnd & Hu & Hl) Hin.
  set (f := fun v => if Nat.eqb _ _ then _ else v).
  assert (Hsame : ∀ v, In v (GatePlus.users d) → f v = v ∨ (v = u ∧ f v = gateplus_verified u t)).
  { intros v Hv. unfold f. cbn [GatePlus.User._id gateplus_verified].
    destruct (Nat.eqb_spec (GatePlus.User._id v) (GatePlus.User._id u)) as [He|];
      [|by left].
    right. split; [|done]. by apply (seq_ids_inj (GatePlus.users d)). }
  assert (Hidf : ∀ v, In v (GatePlus.users d) →
                      GatePlus.User._id (f v) = GatePlus.User._id v).
  { intros v Hv. by destruct (Hsame v Hv) as [-> | [-> ->]]. }
  assert (Hmf : ∀ v, In v (GatePlus.users d) →
                     GatePlus.User.msisdn (f v) = GatePlus.User.msisdn v).
  { intros v Hv. by destruct (Hsame v Hv) as [-> | [-> ->]]. }
  unfold gateplus_sound. cbn [GatePlus.users GatePlus.loans].
  split; [|split; [|split]].
  - by rewrite (map_replace_same _ f _ Hidf), length_map.
  - by rewrite (map_replace_same _ f _ Hmf).
  - apply Forall_forall. intros x Hx. apply list_elem_of_In, in_map_iff in Hx
      as (v & <- & Hv).
    rewrite Forall_forall in Hu. specialize (Hu v (proj2 (list_elem_of_In _ _) Hv)).
    destruct (Hsame v Hv) as [-> | [-> ->]]; [done|]. exact Hu.
  - eapply Forall_impl; [exact Hl|]. intros l (Hr & Hs & v & Hv & Hvid & Hvm).
    split; [done|]. split; [done|]. exists (f v).
    split; [by apply in_map|]. by rewrite Hidf, Hmf.
Qed.

Lemma gateplus_approve_sound m : keeps gateplus_sound (GatePlus.approve m).
Proof.
  intros w Hs. unfold GatePlus.approve. unfold bind at 1.
  rewrite gateplus_findUser_eq.
  destruct (next_fault (faults w)); [done|].
  destruct (find _ _) as [u|] eqn:Hfind; [|done].
  apply find_some in Hfind as [Hin _].
  unfold bind at 1, now at 1. unfold bind at 1.
  unfold GatePlus.updateUser. unfold bind at 1, issue at 1. unfold bind at 1.
  rewrite round_trip_eq. cbn [clock cache faults calls db looked_up].
  destruct (next_fault _); [done|].
  unfold bind at 1, read_db at 1. unfold write_db at 1.
  cbn [clock cache faults calls db].
  assert (Hk : keeps gateplus_sound
            (bind (GatePlus.logActivity m "admin_action"
                     (GatePlus.AdminAction "approved"))
               (fun _ => ret ("success", "User " +:+ m +:+ " verified!"))
             : M GatePlus.W _)).
  { repeat first
      [ apply gateplus_logActivity_keeps; intros d entry ?;
        by apply gateplus_sound_logs
      | keeps_step ]. }
  apply Hk. cbn [db]. by apply (gateplus_updated_sound u (clock w)).
Qed.

(** * Behaviour of the engines *)

(** ** Home and Back *)


(** C3: on an existing session, whatever its state, the Home key replaces
    the stack by a single entry at level 0 and the session continues; in
    PCRS the entry is rebuilt from the login status of the old stack, the
    subscriber's record being looked up again when it was logged in. *)
Theorem home_key_rebuilds_single_entry_stack
    (hash : string → string) (req : Request) :
  newSession req = false →
  userData req = "0" →
  (∀ (w : NCSTCS.W) us,
     cache_get (sessionID req) w = Some us →
     ∃ home,
       (NCSTCS.ussd hash req w).1 = Ok (answer req (State.message home) true)
       ∧ cache_get (sessionID req) (NCSTCS.ussd hash req w).2
         = Some (JsArray.lit [home])
       ∧ State.level home = Some 0
       ∧ home = State.obj (Some 0) NCSTCS.home_menu)
  ∧ (∀ (w : PCRS.W) us,
       cache_get (sessionID req) w = Some us →
       ∃ home,
         (PCRS.ussd hash req w).1 = Ok (answer req (State.message home) true)
         ∧ cache_get (sessionID req) (PCRS.ussd hash req w).2
           = Some (JsArray.lit [home])
         ∧ State.level home = Some 0
         ∧ home = pcrs_home_entry us w
         ∧ (PCRS.first_loggedIn us = true →
            calls (PCRS.ussd hash req w).2
            = calls w ++ [PCRS.FindById (PCRS.first_userRef us)])).
Proof.
  intros Hn H0. split.
  - intros w us Hg. rewrite (ncstcs_home hash _ _ _ Hn Hg H0).
    exists (State.obj (Some 0) NCSTCS.home_menu).
    split; [done|]. split; [apply cache_get_saved | done].
  - intros w us Hg. rewrite (pcrs_home hash _ _ _ Hn Hg H0).
    exists (pcrs_home_entry us w). split; [done|].
    split; [apply cache_get_saved|]. split.
    + unfold pcrs_home_entry. by destruct (PCRS.first_loggedIn us).
    + split; [done|]. by intros ->.
Qed.

Lemma home_key_rebuilds_single_entry_stack_witness :
  (NCSTCS.ussd sample_hash (keyed "s1" kofi "0") ncstcs_deep).1
  = Ok (answer (keyed "s1" kofi "0") NCSTCS.home_menu true)
  ∧ cache_get "s1" (NCSTCS.ussd sample_hash (keyed "s1" kofi "0") ncstcs_deep).2
    = Some (JsArray.lit [State.obj (Some 0) NCSTCS.home_menu])
  ∧ (PCRS.ussd sample_hash (keyed "s1" kwame "0") pcrs_member).1
    = Ok (answer (keyed "s1" kwame "0") (PCRS.member_menu "Kwame Mensah") true)
  ∧ calls (PCRS.ussd sample_hash (keyed "s1" kwame "0") pcrs_member).2
    = calls pcrs_member ++ [PCRS.FindById (Some 0%nat)].
Proof.
  destruct (home_key_rebuilds_single_entry_stack sample_hash
              (keyed "s1" kofi "0") eq_refl eq_refl) as [HN _].
  destruct (home_key_rebuilds_single_entry_stack sample_hash
              (keyed "s1" kwame "0") eq_refl eq_refl) as [_ HP].
  destruct (HN ncstcs_deep (JsArray.lit (firstn 3 ncstcs_kofi_entries)))
    as (home & H1 & H2 & _ & ->); [vm_compute; reflexivity|].
  destruct (HP pcrs_member pcrs_member_stack)
    as (home' & H3 & _ & _ & -> & H4); [vm_compute; reflexivity|].
  split; [exact H1|]. split; [exact H2|]. split; [exact H3|].
  apply H4. vm_compute. reflexivity.
Defined.

(** C4: on a stack deeper than one entry the Back key pops exactly the top
    entry and answers with the stored message of the entry below, the
    session continuing; on a stack of one entry it answers with that
    entry's message and leaves the stack as it is, however often it is sent
    while the session lives. *)
Theorem back_key_pops_one_entry_or_stays
    (hash : string → string) (req : Request) :
  newSession req = false →
  userData req = "9" →
  (∀ (w : NCSTCS.W) rest parent cur m1,
     cache_get (sessionID req) w = Some (JsArray.mk (rest ++ [parent; cur]) m1) →
     (NCSTCS.ussd hash req w).1 = Ok (answer req (State.message parent) true)
     ∧ cache_get (sessionID req) (NCSTCS.ussd hash req w).2
       = Some (JsArray.mk (rest ++ [parent]) m1))
  ∧ (∀ (w : NCSTCS.W) s m1 delays,
       cache_get (sessionID req) w = Some (JsArray.mk [s] m1) →
       Forall (fun d => d ≤ 1000 * 60 * 15) delays →
       Forall (fun x => x = Ok (answer req (State.message s) true))
         (resend (NCSTCS.ussd hash req) delays w).1
       ∧ length (resend (NCSTCS.ussd hash req) delays w).1 = S (length delays)
       ∧ cache_get (sessionID req) (resend (NCSTCS.ussd hash req) delays w).2
         = Some (JsArray.mk [s] m1))
  ∧ (∀ (w : PCRS.W) rest parent cur m1,
       cache_get (sessionID req) w = Some (JsArray.mk (rest ++ [parent; cur]) m1) →
       (PCRS.ussd hash req w).1 = Ok (answer req (State.message parent) true)
       ∧ cache_get (sessionID req) (PCRS.ussd hash req w).2
         = Some (JsArray.mk (rest ++ [parent]) m1))
  ∧ (∀ (w : PCRS.W) s m1 delays,
       cache_get (sessionID req) w = Some (JsArray.mk [s] m1) →
       Forall (fun d => d ≤ 1000 * 60 * 15) delays →
       Forall (fun x => x = Ok (answer req (State.message s) true))
         (resend (PCRS.ussd hash req) delays w).1
       ∧ length (resend (PCRS.ussd hash req) delays w).1 = S (length delays)
       ∧ cache_get (sessionID req) (resend (PCRS.ussd hash req) delays w).2
         = Some (JsArray.mk [s] m1)).
Proof.
  intros Hn H9. repeat split.
  - by rewrite (ncstcs_back_pops hash _ _ _ _ _ _ Hn H H9).
  - rewrite (ncstcs_back_pops hash _ _ _ _ _ _ Hn H H9). apply cache_get_saved.
  - eapply resend_fixed; [|done..].
    intros w' Hg. by apply ncstcs_back_at_bottom.
  - eapply resend_fixed; [|done..].
    intros w' Hg. by apply ncstcs_back_at_bottom.
  - eapply resend_fixed; [|done..].
    intros w' Hg. by apply ncstcs_back_at_bottom.
  - by rewrite (pcrs_back_pops hash _ _ _ _ _ _ Hn H H9).
  - rewrite (pcrs_back_pops hash _ _ _ _ _ _ Hn H H9). apply cache_get_saved.
  - eapply resend_fixed; [|done..].
    intros w' Hg. by apply pcrs_back_at_bottom.
  - eapply resend_fixed; [|done..].
    intros w' Hg. by apply pcrs_back_at_bottom.
  - eapply resend_fixed; [|done..].
    intros w' Hg. by apply pcrs_back_at_bottom.
Qed.

Lemma back_key_pops_one_entry_or_stays_witness :
  cache_get "s1" (NCSTCS.ussd sample_hash (keyed "s1" kofi "9") ncstcs_deep).2
  = Some (JsArray.lit (firstn 2 ncstcs_kofi_entries))
  ∧ (resend (NCSTCS.ussd sample_hash (keyed "s1" kofi "9")) [60000; 900000]
       ncstcs_fresh).1
    = [Ok (answer (keyed "s1" kofi "9") NCSTCS.home_menu true);
       Ok (answer (keyed "s1" kofi "9") NCSTCS.home_menu true);
       Ok (answer (keyed "s1" kofi "9") NCSTCS.home_menu true)]
  ∧ cache_get "s1"
      (resend (NCSTCS.ussd sample_hash (keyed "s1" kofi "9")) [60000; 900000]
         ncstcs_fresh).2
    = Some (JsArray.lit [State.obj (Some 0) NCSTCS.home_menu]).
Proof.
  destruct (back_key_pops_one_entry_or_stays sample_hash (keyed "s1" kofi "9")
              eq_refl eq_refl) as (Hpop & Hstay & _ & _).
  split.
  - apply (Hpop ncstcs_deep [State.obj (Some 0) NCSTCS.home_menu]
             (State.obj (Some 10) "Enter Full Name:")
             (State.set_name (Some "Kofi Boateng")
                (State.obj (Some 11) "Choose a Username:")) None).
    vm_compute. reflexivity.
  - destruct (Hstay ncstcs_fresh (State.obj (Some 0) NCSTCS.home_menu) None
                [60000; 900000]) as (Hall & Hlen & Hget).
    + vm_compute. reflexivity.
    + repeat constructor; lia.
    + split; [|exact Hget].
      destruct (resend _ _ _).1 as [|r1 [|r2 [|r3 [|? ?]]]]; try discriminate Hlen.
      inversion Hall as [|? ? -> Hall2]. inversion Hall2 as [|? ? -> Hall3].
      inversion Hall3 as [|? ? -> _]. reflexivity.
Defined.

(** ** Capture steps *)


(** C5: at every capture step of the sign-up, an input of ASCII characters
    that fails the step's validator, or that passes it and is found taken
    in the repository, is answered by a retry in place: the session
    continues, the stack keeps its depth and differs in the message of its
    top entry only, and the repository is left as it was. *)
Theorem rejected_capture_retries_in_place
    (hash : string → string) (req : Request) :
  Js.is_ascii (userData req) = true →
  newSession req = false →
  userData req ≠ "0" → userData req ≠ "9" →
  (∀ (w : NCSTCS.W) rest cur m1 c,
     cache_get (sessionID req) w = Some (JsArray.mk (rest ++ [cur]) m1) →
     NCSTCS.case_of (State.level cur) = Some c →
     ncstcs_capture c = true →
     (ncstcs_valid c (userData req) = false
      ∨ ∃ f v u, ncstcs_unique c (userData req) = Some (f, v)
                 ∧ next_fault (faults w) = false
                 ∧ find (NCSTCS.has f v) (db w) = Some u) →
     retried_in_place req rest cur m1 w (NCSTCS.ussd hash req w))
  ∧ (∀ (w : PCRS.W) rest cur m1 c,
       cache_get (sessionID req) w = Some (JsArray.mk (rest ++ [cur]) m1) →
       PCRS.case_of (State.level cur) = Some c →
       pcrs_capture c = true →
       (pcrs_valid c (userData req) = false
        ∨ ∃ f v u, pcrs_unique c (userData req) = Some (f, v)
                   ∧ next_fault (faults w) = false
                   ∧ find (PCRS.has f v) (db w) = Some u) →
       retried_in_place req rest cur m1 w (PCRS.ussd hash req w)).
Proof.
  intros _ Hn H0 H9. split.
  - intros w rest cur m1 c Hg. by apply ncstcs_capture_retries.
  - intros w rest cur m1 c Hg. by apply pcrs_capture_retries.
Qed.

Lemma rejected_capture_retries_in_place_witness :
  retried_in_place (keyed "s1" kofi "K2") [State.obj (Some 0) NCSTCS.home_menu]
    (State.obj (Some 10) "Enter Full Name:") None ncstcs_at_name
    (NCSTCS.ussd sample_hash (keyed "s1" kofi "K2") ncstcs_at_name).
Proof.
  destruct (rejected_capture_retries_in_place sample_hash (keyed "s1" kofi "K2"))
    as [HN _]; [reflexivity | reflexivity | discriminate | discriminate |].
  apply (HN ncstcs_at_name [State.obj (Some 0) NCSTCS.home_menu]
           (State.obj (Some 10) "Enter Full Name:") None NCSTCS.L10).
  - vm_compute. reflexivity.
  - reflexivity.
  - reflexivity.
  - left. vm_compute. reflexivity.
Defined.



(** ** The final step of a sign-up *)


(** C1 (as amended): the final step of a sign-up, once the card number it
    has read is well formed and its lookup answers, looks up that card
    number and nothing else.  If a record holds the number the step retries
    in place and issues no create.  If no record holds it the step issues
    the create, with the fields captured earlier as they stand on the top
    entry and without looking any of them up again, and deletes the
    session: a create that repeats a stored value of a unique field is
    rejected, nothing is stored and the answer is "Registration failed. Try
    again later."; a create the repository accepts stores exactly one
    record and is answered with the success message.  Across any request
    every unique field of the repository stays free of duplicates. *)
Theorem final_step_rechecks_card_number_only
    (hash : string → string) (req : Request) :
  newSession req = false →
  Validators.isValidGhanaCard (card_of req) = true →
  (∀ (w : NCSTCS.W) rest cur m1 p,
     cache_get (sessionID req) w = Some (JsArray.mk (rest ++ [cur]) m1) →
     State.level cur = Some 16 →
     State.password cur = Some p →
     next_fault (faults w) = false →
     let lookup := NCSTCS.FindOne NCSTCS.GhanaCardNumber (card_of req) in
     let taken :=
       "Ghana Card already registered. Enter a different Ghana Card:" in
     let d := ncstcs_new_user hash cur p (card_of req) in
     let out := NCSTCS.ussd hash req w in
     (∀ u,
        find (NCSTCS.has NCSTCS.GhanaCardNumber (card_of req)) (db w) = Some u →
        calls out.2 = calls w ++ [lookup]
        ∧ out.1 = Ok (answer req taken true)
        ∧ cache_get (sessionID req) out.2
          = Some (JsArray.mk (rest ++ [State.set_message taken cur]) m1)
        ∧ db out.2 = db w)
     ∧ (find (NCSTCS.has NCSTCS.GhanaCardNumber (card_of req)) (db w) = None →
        calls out.2 = calls w ++ [lookup; NCSTCS.Create d]
        ∧ cache_get (sessionID req) out.2 = None
        ∧ ((∃ f, NCSTCS.clashes d (db w) f = true) →
           out.1 = Ok (answer req "Registration failed. Try again later." false)
           ∧ db out.2 = db w)
        ∧ (Js.truthy (State.username cur) = true → hash p ≠ "" →
           no_fault (faults w) → (∀ f, NCSTCS.clashes d (db w) f = false) →
           out.1 = Ok (answer req "Registration successful!" false)
           ∧ db out.2 = db w ++ [NCSTCS.mkUser (length (db w)) d])))
  ∧ (∀ (w : PCRS.W) rest cur m1 p,
       cache_get (sessionID req) w = Some (JsArray.mk (rest ++ [cur]) m1) →
       State.level cur = Some 17 →
       State.password cur = Some p →
       next_fault (faults w) = false →
       let lookup := PCRS.FindOne PCRS.GhanaCardNumber (card_of req) in
       let taken :=
         "Ghana Card already registered. Enter a different Ghana Card:" in
       let d := pcrs_new_user hash cur p (card_of req) in
       let out := PCRS.ussd hash req w in
       (∀ u,
          find (PCRS.has PCRS.GhanaCardNumber (card_of req)) (db w) = Some u →
          calls out.2 = calls w ++ [lookup]
          ∧ out.1 = Ok (answer req taken true)
          ∧ cache_get (sessionID req) out.2
            = Some (JsArray.mk (rest ++ [State.set_message taken cur]) m1)
          ∧ db out.2 = db w)
       ∧ (find (PCRS.has PCRS.GhanaCardNumber (card_of req)) (db w) = None →
          calls out.2 = calls w ++ [lookup; PCRS.Create d]
          ∧ cache_get (sessionID req) out.2 = None
          ∧ ((∃ f, PCRS.clashes d (db w) f = true) →
             out.1
             = Ok (answer req "Registration failed. Try again later." false)
             ∧ db out.2 = db w)
          ∧ (Js.truthy (State.username cur) = true → hash p ≠ "" →
             no_fault (faults w) → (∀ f, PCRS.clashes d (db w) f = false) →
             out.1 = Ok (answer req PCRS.signup_done false)
             ∧ db out.2 = db w ++ [PCRS.mkUser (length (db w)) d])))
  ∧ (∀ (any : Request) (w : NCSTCS.W),
       ncstcs_unique_db (db w) → ncstcs_unique_db (db (NCSTCS.ussd hash any w).2))
  ∧ (∀ (any : Request) (w : PCRS.W),
       pcrs_unique_db (db w) → pcrs_unique_db (db (PCRS.ussd hash any w).2)).
Proof.
  intros Hn Hv. split; [|split; [|split]].
  - intros w rest cur m1 p Hg Hl Hp Hf lookup taken d out. split.
    + intros u Hfind.
      apply (ncstcs_final_step_taken hash req w rest cur m1 p u
               Hn Hg Hl Hv Hf Hp Hfind).
    + intros Hfind.
      apply (ncstcs_final_step_free hash req w rest cur m1 p
               Hn Hg Hl Hv Hf Hp Hfind).
  - intros w rest cur m1 p Hg Hl Hp Hf lookup taken d out. split.
    + intros u Hfind.
      apply (pcrs_final_step_taken hash req w rest cur m1 p u
               Hn Hg Hl Hv Hf Hp Hfind).
    + intros Hfind.
      apply (pcrs_final_step_free hash req w rest cur m1 p
               Hn Hg Hl Hv Hf Hp Hfind).
  - intros any w. apply ncstcs_ussd_keeps_unique.
  - intros any w. apply pcrs_ussd_keeps_unique.
Qed.

Lemma final_step_rechecks_card_number_only_witness :
  find (NCSTCS.has NCSTCS.GhanaCardNumber "GHA-987654321-02")
    (db ncstcs_at_card) = None
  ∧ NCSTCS.clashes
      (ncstcs_new_user sample_hash ncstcs_card_entry "secret1"
         "GHA-987654321-02") (db ncstcs_at_card) NCSTCS.Username = true
  ∧ calls (NCSTCS.ussd sample_hash (keyed "s1" kofi "gha-987654321-02")
             ncstcs_at_card).2
    = calls ncstcs_at_card
      ++ [NCSTCS.FindOne NCSTCS.GhanaCardNumber "GHA-987654321-02";
          NCSTCS.Create
            (ncstcs_new_user sample_hash ncstcs_card_entry "secret1"
               "GHA-987654321-02")]
  ∧ (NCSTCS.ussd sample_hash (keyed "s1" kofi "gha-987654321-02")
       ncstcs_at_card).1
    = Ok (answer (keyed "s1" kofi "gha-987654321-02")
            "Registration failed. Try again later." false)
  ∧ db (NCSTCS.ussd sample_hash (keyed "s1" kofi "gha-987654321-02")
          ncstcs_at_card).2
    = db ncstcs_at_card.
Proof.
  assert (Hfind :
    find (NCSTCS.has NCSTCS.GhanaCardNumber
            (card_of (keyed "s1" kofi "gha-987654321-02"))) (db ncstcs_at_card)
    = None) by (vm_compute; reflexivity).
  assert (Hclash :
    NCSTCS.clashes
      (ncstcs_new_user sample_hash ncstcs_card_entry "secret1"
         (card_of (keyed "s1" kofi "gha-987654321-02")))
      (db ncstcs_at_card) NCSTCS.Username = true) by (vm_compute; reflexivity).
  destruct (final_step_rechecks_card_number_only sample_hash
              (keyed "s1" kofi "gha-987654321-02"))
    as (HN & _); [reflexivity | vm_compute; reflexivity |].
  destruct (HN ncstcs_at_card (firstn 7 ncstcs_kofi_entries) ncstcs_card_entry
              None "secret1") as [_ Hfree];
    [vm_compute; reflexivity | reflexivity | reflexivity
    | vm_compute; reflexivity |].
  destruct (Hfree Hfind) as (Hcalls & _ & Hfail & _).
  destruct Hfail as [Hans Hdb]; [by exists NCSTCS.Username|].
  split; [exact Hfind|]. split; [exact Hclash|].
  split; [exact Hcalls|]. split; [exact Hans | exact Hdb].
Defined.

(** C1 (as stated) fails.  Kofi's sign-up captured the username kofi while
    it was free; a second sign-up captured it too and completed first.  At
    Kofi's final step the engine looks up the card number only and issues
    the create, which the repository's unique index rejects. *)
Lemma final_step_creates_without_rechecking_username :
  cache_get "s1" ncstcs_at_card = Some (JsArray.lit ncstcs_kofi_entries)
  ∧ State.username ncstcs_card_entry = Some "kofi"
  ∧ db ncstcs_at_card = [ncstcs_rival]
  ∧ find (NCSTCS.has NCSTCS.Username "kofi") (db ncstcs_at_card)
    = Some ncstcs_rival
  ∧ calls (NCSTCS.ussd sample_hash (keyed "s1" kofi "gha-987654321-02")
             ncstcs_at_card).2
    = calls ncstcs_at_card
      ++ [NCSTCS.FindOne NCSTCS.GhanaCardNumber "GHA-987654321-02";
          NCSTCS.Create
            (NCSTCS.mkFields (Some "kofi") (Some "$2a$10$secret1") "courier"
               (Some "Kofi Boateng") (Some "kofi@example.com") (Some "DV-55555")
               (Some "GHA-987654321-02"))]
  ∧ (NCSTCS.ussd sample_hash (keyed "s1" kofi "gha-987654321-02")
       ncstcs_at_card).1
    = Ok (answer (keyed "s1" kofi "gha-987654321-02")
            "Registration failed. Try again later." false)
  ∧ db (NCSTCS.ussd sample_hash (keyed "s1" kofi "gha-987654321-02")
          ncstcs_at_card).2
    = [ncstcs_rival].
Proof. repeat apply conj; vm_compute; reflexivity. Qed.

(** ** Sessions the store does not hold *)





(** ** The default of the level switch *)


(** C6 (as amended): when the level of the top entry matches no case,
    NCSTCS and PCRS store a stack of one entry at level 0 and answer with
    the home menu, the session continuing.  GatePlus does not reset: outside
    the registration range it answers "An error occurred." and ends the
    session, inside it it answers with an empty message and continues; in
    both cases the stored stack stays as it was. *)
Theorem unknown_level_resets_or_reports (req : Request) :
  newSession req = false →
  (∀ hash (w : NCSTCS.W) us cur,
     cache_get (sessionID req) w = Some us →
     userData req ≠ "0" → userData req ≠ "9" →
     JsArray.top us = Some cur →
     NCSTCS.case_of (State.level cur) = None →
     (NCSTCS.ussd hash req w).1 = Ok (answer req NCSTCS.home_menu true)
     ∧ cache_get (sessionID req) (NCSTCS.ussd hash req w).2
       = Some (JsArray.lit [State.obj (Some 0) NCSTCS.home_menu]))
  ∧ (∀ hash (w : PCRS.W) us cur,
       cache_get (sessionID req) w = Some us →
       userData req ≠ "0" → userData req ≠ "9" →
       JsArray.top us = Some cur →
       PCRS.case_of (State.level cur) = None →
       (PCRS.ussd hash req w).1 = Ok (answer req PCRS.guest_menu true)
       ∧ cache_get (sessionID req) (PCRS.ussd hash req w).2
         = Some (JsArray.lit [State.obj (Some 0) PCRS.guest_menu]))
  ∧ (∀ parseFloat number_to_string toLocaleDateString (w : GatePlus.W)
       rest cur m1 user,
       cache_get (sessionID req) w = Some (JsArray.mk (rest ++ [cur]) m1) →
       GatePlus.in_registration (State.level cur) = false →
       State.level cur ≠ Some 1 → State.level cur ≠ Some 2 →
       no_fault (faults w) → msisdn req ≠ "" →
       find (fun u => String.eqb (GatePlus.User.msisdn u) (msisdn req))
         (GatePlus.users (db w)) = Some user →
       (GatePlus.ussd parseFloat number_to_string toLocaleDateString req w).1
       = Ok (answer req "An error occurred." false)
       ∧ cache_get (sessionID req)
           (GatePlus.ussd parseFloat number_to_string toLocaleDateString req w).2
         = Some (JsArray.mk (rest ++ [cur]) m1))
  ∧ (∀ parseFloat number_to_string toLocaleDateString (w : GatePlus.W)
       rest cur m1,
       cache_get (sessionID req) w = Some (JsArray.mk (rest ++ [cur]) m1) →
       GatePlus.in_registration (State.level cur) = true →
       State.level cur ≠ Some 10 → State.level cur ≠ Some 11 →
       GatePlus.ussd parseFloat number_to_string toLocaleDateString req w
       = (Ok (answer req "" true), w)).
Proof.
  intros Hn. split; [|split; [|split]].
  - intros hash w us cur Hg H0 H9 Ht Hc.
    rewrite (ncstcs_default hash _ _ _ _ Hn Hg H0 H9 Ht Hc).
    split; [done | apply cache_get_saved].
  - intros hash w us cur Hg H0 H9 Ht Hc.
    rewrite (pcrs_default hash _ _ _ _ Hn Hg H0 H9 Ht Hc).
    split; [done | apply cache_get_saved].
  - intros pf ns ds w rest cur m1 user Hg Hr H1 H2 Hf Hm Hu.
    rewrite (gateplus_default pf ns ds _ _ _ _ _ _ Hn Hg Hr H1 H2 Hf Hm Hu).
    by split.
  - intros pf ns ds w rest cur m1 Hg Hr H1 H2.
    by apply (gateplus_unknown_registration_level pf ns ds _ _ rest cur m1).
Qed.

Lemma unknown_level_resets_or_reports_witness :
  (NCSTCS.ussd sample_hash (keyed "s1" kofi "1") ncstcs_odd).1
  = Ok (answer (keyed "s1" kofi "1") NCSTCS.home_menu true)
  ∧ cache_get "s1" (NCSTCS.ussd sample_hash (keyed "s1" kofi "1") ncstcs_odd).2
    = Some (JsArray.lit [State.obj (Some 0) NCSTCS.home_menu]).
Proof.
  destruct (unknown_level_resets_or_reports (keyed "s1" kofi "1") eq_refl)
    as (HN & _).
  apply (HN sample_hash ncstcs_odd
           (JsArray.lit [State.obj (Some 0) NCSTCS.home_menu;
                         State.obj (Some 7) "?"])
           (State.obj (Some 7) "?")).
  - vm_compute. reflexivity.
  - discriminate.
  - discriminate.
  - reflexivity.
  - reflexivity.
Defined.

(** C6 (as stated) fails: on a level no case handles GatePlus ends the
    session with an error message and leaves the stored stack as it was. *)
Lemma unknown_level_ends_session_in_gateplus :
  cache_get "s1" gateplus_odd
  = Some (JsArray.lit
            [State.set_msisdn kwame
               (State.set_sessionID "s1" (State.obj (Some 1) GatePlus.main_menu));
             State.obj (Some 3) "?"])
  ∧ (gateplus_run (keyed "s1" kwame "1") gateplus_odd).1
    = Ok (answer (keyed "s1" kwame "1") "An error occurred." false)
  ∧ cache_get "s1" (gateplus_run (keyed "s1" kwame "1") gateplus_odd).2
    = cache_get "s1" gateplus_odd.
Proof. repeat apply conj; vm_compute; reflexivity. Qed.

(** ** Errors *)

(** C7 (as amended): when an error escapes the level step of an existing
    session, the engine deletes the session and answers with the generic
    temporarily-unavailable message, ending the session; nothing is sent
    again.  The subscriber lookup of GatePlus's existing-user flow, and a
    lookup that fails or times out at a capture step of NCSTCS or PCRS on a
    valid input of ASCII characters, are such errors.  Other failures are
    handled before they reach that handler.  A create that fails in the
    final step of NCSTCS or PCRS is caught on its own: the session is
    deleted and ended as well, the message being "Registration failed. Try
    again later.".  A lookup that fails at View My Details of PCRS deletes
    and ends the session with "Unable to fetch details at the moment.".  A
    lookup that fails while PCRS resolves the home menu, at the Home key or
    at the start of a session, is absorbed: the menu is the one of a
    "Courier", respectively of a guest, and the session continues. *)
Theorem escaped_error_ends_session (req : Request) :
  newSession req = false →
  (∀ parseFloat number_to_string toLocaleDateString (w : GatePlus.W)
     rest cur m1 e w1,
     cache_get (sessionID req) w = Some (JsArray.mk (rest ++ [cur]) m1) →
     GatePlus.level_step parseFloat number_to_string toLocaleDateString req
       (JsArray.mk (rest ++ [cur]) m1) (Some cur) w = (Throw e, w1) →
     GatePlus.ussd parseFloat number_to_string toLocaleDateString req w
     = (Ok (answer req "Service temporarily unavailable. Try later." false),
        dropped (sessionID req) w1)
     ∧ cache_get (sessionID req) (dropped (sessionID req) w1) = None)
  ∧ (∀ parseFloat number_to_string toLocaleDateString (w : GatePlus.W)
       rest cur m1,
       cache_get (sessionID req) w = Some (JsArray.mk (rest ++ [cur]) m1) →
       GatePlus.in_registration (State.level cur) = false →
       next_fault (faults w) = true →
       GatePlus.ussd parseFloat number_to_string toLocaleDateString req w
       = (Ok (answer req "Service temporarily unavailable. Try later." false),
          dropped (sessionID req)
            (looked_up (GatePlus.UserFindOne (msisdn req)) w)))
  ∧ (∀ hash (w : NCSTCS.W) us e w1,
       cache_get (sessionID req) w = Some us →
       userData req ≠ "0" → userData req ≠ "9" →
       NCSTCS.level_step hash req us (JsArray.top us) w = (Throw e, w1) →
       NCSTCS.ussd hash req w
       = (Ok (answer req "Service temporarily unavailable. Try later." false),
          dropped (sessionID req) w1)
       ∧ cache_get (sessionID req) (dropped (sessionID req) w1) = None)
  ∧ (∀ hash (w : PCRS.W) us e w1,
       cache_get (sessionID req) w = Some us →
       userData req ≠ "0" → userData req ≠ "9" →
       PCRS.level_step hash req us (JsArray.top us) w = (Throw e, w1) →
       PCRS.ussd hash req w
       = (Ok (answer req "Service temporarily unavailable. Try later." false),
          dropped (sessionID req) w1)
       ∧ cache_get (sessionID req) (dropped (sessionID req) w1) = None)
  ∧ (∀ hash (w : NCSTCS.W) rest cur m1 c f v,
       Js.is_ascii (userData req) = true →
       cache_get (sessionID req) w = Some (JsArray.mk (rest ++ [cur]) m1) →
       userData req ≠ "0" → userData req ≠ "9" →
       NCSTCS.case_of (State.level cur) = Some c →
       ncstcs_valid c (userData req) = true →
       ncstcs_unique c (userData req) = Some (f, v) →
       next_fault (faults w) = true →
       NCSTCS.ussd hash req w
       = (Ok (answer req "Service temporarily unavailable. Try later." false),
          dropped (sessionID req) (looked_up (NCSTCS.FindOne f v) w)))
  ∧ (∀ hash (w : PCRS.W) rest cur m1 c f v,
       Js.is_ascii (userData req) = true →
       cache_get (sessionID req) w = Some (JsArray.mk (rest ++ [cur]) m1) →
       userData req ≠ "0" → userData req ≠ "9" →
       PCRS.case_of (State.level cur) = Some c →
       pcrs_valid c (userData req) = true →
       pcrs_unique c (userData req) = Some (f, v) →
       next_fault (faults w) = true →
       PCRS.ussd hash req w
       = (Ok (answer req "Service temporarily unavailable. Try later." false),
          dropped (sessionID req) (looked_up (PCRS.FindOne f v) w)))
  ∧ (∀ hash (w : NCSTCS.W) rest cur m1 p e w1,
       cache_get (sessionID req) w = Some (JsArray.mk (rest ++ [cur]) m1) →
       State.level cur = Some 16 →
       Validators.isValidGhanaCard (card_of req) = true →
       next_fault (faults w) = false →
       find (NCSTCS.has NCSTCS.GhanaCardNumber (card_of req)) (db w) = None →
       State.password cur = Some p →
       NCSTCS.create (ncstcs_new_user hash cur p (card_of req))
         (looked_up (NCSTCS.FindOne NCSTCS.GhanaCardNumber (card_of req)) w)
       = (Throw e, w1) →
       NCSTCS.ussd hash req w
       = (Ok (answer req "Registration failed. Try again later." false),
          dropped (sessionID req) w1)
       ∧ cache_get (sessionID req) (dropped (sessionID req) w1) = None)
  ∧ (∀ hash (w : PCRS.W) rest cur m1 p e w1,
       cache_get (sessionID req) w = Some (JsArray.mk (rest ++ [cur]) m1) →
       State.level cur = Some 17 →
       Validators.isValidGhanaCard (card_of req) = true →
       next_fault (faults w) = false →
       find (PCRS.has PCRS.GhanaCardNumber (card_of req)) (db w) = None →
       State.password cur = Some p →
       PCRS.create (pcrs_new_user hash cur p (card_of req))
         (looked_up (PCRS.FindOne PCRS.GhanaCardNumber (card_of req)) w)
       = (Throw e, w1) →
       PCRS.ussd hash req w
       = (Ok (answer req "Registration failed. Try again later." false),
          dropped (sessionID req) w1)
       ∧ cache_get (sessionID req) (dropped (sessionID req) w1) = None)
  ∧ (∀ hash (w : PCRS.W) rest cur m1,
       cache_get (sessionID req) w = Some (JsArray.mk (rest ++ [cur]) m1) →
       userData req = "1" →
       State.level cur = Some 0 →
       State.loggedIn cur = Some true →
       next_fault (faults w) = true →
       (PCRS.ussd hash req w).1
       = Ok (answer req "Unable to fetch details at the moment." false)
       ∧ cache_get (sessionID req) (PCRS.ussd hash req w).2 = None)
  ∧ (∀ hash (w : PCRS.W) us,
       cache_get (sessionID req) w = Some us →
       userData req = "0" →
       PCRS.first_loggedIn us = true →
       next_fault (faults w) = true →
       (PCRS.ussd hash req w).1
       = Ok (answer req (PCRS.member_menu "Courier") true)
       ∧ cache_get (sessionID req) (PCRS.ussd hash req w).2
         = Some (JsArray.lit
                   [State.set_userRef (PCRS.first_userRef us)
                      (State.set_loggedIn true
                         (State.obj (Some 0) (PCRS.member_menu "Courier")))]))
  ∧ (∀ hash (w : PCRS.W),
       Js.is_ascii (msisdn req) = true →
       cache_get (sessionID req) w = None →
       Validators.normalizePhone (msisdn req) ≠ "" →
       next_fault (faults w) = true →
       (PCRS.ussd hash req w).1 = Ok (answer req PCRS.guest_menu true)
       ∧ cache_get (sessionID req) (PCRS.ussd hash req w).2
         = Some (JsArray.lit [pcrs_guest_entry])).
Proof.
  intros Hn. repeat apply conj.
  - intros pf ns ds w rest cur m1 e w1 Hg Ht.
    split; [by apply (gateplus_catch pf ns ds _ _ rest cur m1 e)
           | apply cache_get_dropped].
  - intros pf ns ds w rest cur m1 Hg Hr Hf.
    by apply (gateplus_failed_lookup pf ns ds _ _ rest cur m1).
  - intros hash w us e w1 Hg H0 H9 Ht.
    split; [by apply (ncstcs_catch hash _ _ us e) | apply cache_get_dropped].
  - intros hash w us e w1 Hg H0 H9 Ht.
    split; [by apply (pcrs_catch hash _ _ us e) | apply cache_get_dropped].
  - intros hash w rest cur m1 c f v _ Hg H0 H9 Hc Hv Hu Hf.
    by apply (ncstcs_failed_lookup hash _ _ rest cur m1 c).
  - intros hash w rest cur m1 c f v _ Hg H0 H9 Hc Hv Hu Hf.
    by apply (pcrs_failed_lookup hash _ _ rest cur m1 c).
  - intros hash w rest cur m1 p e w1 Hg Hl Hv Hf Hfind Hp Hc.
    split; [by apply (ncstcs_create_failure hash _ _ rest cur m1 p e)
           | apply cache_get_dropped].
  - intros hash w rest cur m1 p e w1 Hg Hl Hv Hf Hfind Hp Hc.
    split; [by apply (pcrs_create_failure hash _ _ rest cur m1 p e)
           | apply cache_get_dropped].
  - intros hash w rest cur m1 Hg H1 Hl Hlog Hf.
    rewrite (pcrs_view_details_eq hash req w rest cur m1 Hn Hg H1 Hl Hlog).
    cbv zeta. rewrite Hf. split; [done | apply cache_get_dropped].
  - intros hash w us Hg H0 Hl Hf.
    rewrite (pcrs_home_absorbs_failure hash _ _ _ Hn Hg H0 Hl Hf).
    split; [done | apply cache_get_saved].
  - intros hash w _ Hg Hp Hf.
    rewrite (pcrs_restart hash req w (or_intror Hg)), pcrs_start_cases.
    cbv zeta. apply String.eqb_neq in Hp. rewrite Hp, Hf.
    split; [done | apply cache_get_saved].
Qed.

Lemma escaped_error_ends_session_witness :
  cache_get "s1" pcrs_down = Some pcrs_username_stack
  ∧ PCRS.ussd sample_hash (keyed "s1" kofi "kofi") pcrs_down
    = (Ok (answer (keyed "s1" kofi "kofi")
             "Service temporarily unavailable. Try later." false),
       dropped "s1" (looked_up (PCRS.FindOne PCRS.Username "kofi") pcrs_down))
  ∧ cache_get "s1"
      (dropped "s1" (looked_up (PCRS.FindOne PCRS.Username "kofi") pcrs_down))
    = None
  ∧ (PCRS.ussd sample_hash (keyed "s2" kwame "1") pcrs_guest_down).1
    = Ok (answer (keyed "s2" kwame "1") PCRS.guest_menu true).
Proof.
  destruct (escaped_error_ends_session (keyed "s1" kofi "kofi") eq_refl)
    as (_ & _ & _ & HP & _).
  destruct (escaped_error_ends_session (keyed "s2" kwame "1") eq_refl)
    as (_ & _ & _ & _ & _ & _ & _ & _ & _ & _ & HS).
  split; [vm_compute; reflexivity|].
  destruct (HP sample_hash pcrs_down pcrs_username_stack MongoError
              (looked_up (PCRS.FindOne PCRS.Username "kofi") pcrs_down))
    as [H1 H2];
    [vm_compute; reflexivity | discriminate | discriminate
    | vm_compute; reflexivity |].
  split; [exact H1|]. split; [exact H2|].
  apply (HS sample_hash pcrs_guest_down);
    [reflexivity | vm_compute; reflexivity | vm_compute; discriminate
    | vm_compute; reflexivity].
Defined.

(** C7 (as stated) fails twice in PCRS.  The repository fails at the create
    of Kofi's final step: the answer is not the generic message.  The
    repository fails while Kwame's home menu is rebuilt: the session is
    neither deleted nor ended. *)
Lemma repository_failure_without_generic_ending :
  (PCRS.ussd sample_hash (keyed "s1" kofi "GHA-987654321-02")
     pcrs_at_card_failing).1
  = Ok (answer (keyed "s1" kofi "GHA-987654321-02")
          "Registration failed. Try again later." false)
  ∧ String.eqb "Registration failed. Try again later." PCRS.generic_failure
    = false
  ∧ faults (PCRS.ussd sample_hash (keyed "s1" kofi "GHA-987654321-02")
              pcrs_at_card_failing).2 = []
  ∧ cache_get "s1" pcrs_member_down = Some pcrs_member_stack
  ∧ (PCRS.ussd sample_hash (keyed "s1" kwame "0") pcrs_member_down).1
    = Ok (answer (keyed "s1" kwame "0") (PCRS.member_menu "Courier") true)
  ∧ faults (PCRS.ussd sample_hash (keyed "s1" kwame "0") pcrs_member_down).2 = []
  ∧ cache_get "s1" (PCRS.ussd sample_hash (keyed "s1" kwame "0") pcrs_member_down).2
    = Some (JsArray.lit
              [State.set_userRef (Some 0%nat)
                 (State.set_loggedIn true
                    (State.obj (Some 0) (PCRS.member_menu "Courier")))]).
Proof. repeat apply conj; vm_compute; reflexivity. Qed.

(** ** The loan amount *)




Example loan_of_fifty_is_stored :
  (gateplus_run (keyed "s1" kwame "50") gateplus_at_amount).1
  = Ok (answer (keyed "s1" kwame "50")
          "Loan request for GHS <amount> received!
Processing... Funds will be sent shortly." false)
  ∧ cache_get "s1" (gateplus_run (keyed "s1" kwame "50") gateplus_at_amount).2
    = None
  ∧ GatePlus.loans (db (gateplus_run (keyed "s1" kwame "50") gateplus_at_amount).2)
    = [GatePlus.Loan.mk 0%nat 0%nat kwame 50%float "loan_pending" 0].
Proof. repeat apply conj; vm_compute; reflexivity. Qed.
(** * Further properties of the code *)

(** ** Validators *)

(** X1: [isValidPhone] of PCRS accepts an input of ASCII characters exactly
    when, once trimmed, it is nine decimal digits behind a leading 0, behind
    233 or behind +233. *)
Theorem isValidPhone_accepts_three_spellings (phone : string) :
  Js.is_ascii phone = true →
  Validators.isValidPhone phone = true
  ↔ ∃ ds, digits 9 ds ∧ spelled (list_ascii_of_string (Js.trim phone)) ds.
Proof.
  intros _. unfold Validators.isValidPhone, Regex.test_full.
  rewrite matches_lang. apply phone_re_lang.
Qed.

Lemma isValidPhone_accepts_three_spellings_witness :
  Validators.isValidPhone " +233241234567 " = true.
Proof.
  apply (isValidPhone_accepts_three_spellings " +233241234567 ");
    [reflexivity|].
  exists ["2"; "4"; "1"; "2"; "3"; "4"; "5"; "6"; "7"]%char.
  split; [split; [reflexivity | by repeat constructor]|].
  right. right. vm_compute. reflexivity.
Defined.

(** X2: on input of ASCII characters, [normalizePhone] maps each of the three
    accepted spellings of a subscriber number to one key, +233 followed by its nine digits, which is
    itself a valid phone number; an input [isValidPhone] rejects comes back
    trimmed and otherwise as it was. *)
Theorem normalizePhone_gives_one_key (phone : string) :
  Js.is_ascii phone = true →
  (∀ ds, digits 9 ds →
     spelled (list_ascii_of_string (Js.trim phone)) ds →
     Validators.normalizePhone phone = e164 ds
     ∧ Validators.isValidPhone (e164 ds) = true)
  ∧ (Validators.isValidPhone phone = false →
     Validators.normalizePhone phone = Js.trim phone).
Proof.
  intros _. split; [|apply normalizePhone_other].
  intros ds Hd Hs. split; [by apply normalizePhone_spelled|].
  unfold Validators.isValidPhone. apply test_true, phone_re_lang.
  exists ds. split; [done|]. rewrite (e164_trimmed ds) by apply Hd.
  unfold e164. rewrite list_ascii_of_string_of_list_ascii. right. by right.
Qed.

Lemma normalizePhone_gives_one_key_witness :
  Validators.normalizePhone " 0241234567 " = "+233241234567"
  ∧ Validators.isValidPhone "+233241234567" = true.
Proof.
  destruct (normalizePhone_gives_one_key " 0241234567 " eq_refl) as [H _].
  apply (H ["2"; "4"; "1"; "2"; "3"; "4"; "5"; "6"; "7"]%char).
  - split; [reflexivity | by repeat constructor].
  - left. vm_compute. reflexivity.
Defined.

(** X3: [normalizePhone] is idempotent, on every input: a number that was
    normalised is returned as it is. *)
Theorem normalizePhone_idempotent (phone : string) :
  Validators.normalizePhone (Validators.normalizePhone phone)
  = Validators.normalizePhone phone.
Proof.
  destruct (Validators.isValidPhone phone) eqn:Hv.
  - unfold Validators.isValidPhone in Hv.
    apply matches_lang, phone_re_lang in Hv as (ds & Hd & Hs).
    rewrite (normalizePhone_spelled phone ds Hd Hs).
    apply normalizePhone_spelled; [done|].
    rewrite (e164_trimmed ds) by apply Hd.
    unfold e164. rewrite list_ascii_of_string_of_list_ascii. right. by right.
  - rewrite (normalizePhone_other phone Hv).
    rewrite normalizePhone_other; [apply trim_idempotent|].
    unfold Validators.isValidPhone in *. by rewrite trim_idempotent.
Qed.

(** X4: [isValidEmail] accepts an input of ASCII characters exactly when, once
    trimmed, it can be cut as local@domain.tld with each of the three parts non-empty and free
    of white space and of @. *)
Theorem isValidEmail_accepts_local_at_domain_dot_tld (email : string) :
  Js.is_ascii email = true →
  Validators.isValidEmail email = true
  ↔ email_shape (list_ascii_of_string (Js.trim email)).
Proof.
  intros _. unfold Validators.isValidEmail, Regex.test_full.
  rewrite matches_lang. apply email_re_lang.
Qed.

Lemma isValidEmail_accepts_local_at_domain_dot_tld_witness :
  Validators.isValidEmail " kofi@example.com" = true.
Proof.
  apply (isValidEmail_accepts_local_at_domain_dot_tld " kofi@example.com");
    [reflexivity|].
  exists ["k"; "o"; "f"; "i"]%char, ["e"; "x"; "a"; "m"; "p"; "l"; "e"]%char,
    ["c"; "o"; "m"]%char.
  split; [vm_compute; reflexivity|].
  repeat split; try discriminate;
    repeat (constructor; [split; [reflexivity | discriminate]|]); constructor.
Defined.

(** X5: [isValidDVLA] accepts an input of ASCII characters exactly when, once
    trimmed, it has five characters or more, each a letter, a digit or a hyphen. *)
Theorem isValidDVLA_accepts_five_or_more (dvla : string) :
  Js.is_ascii dvla = true →
  Validators.isValidDVLA dvla = true
  ↔ (5 ≤ String.length (Js.trim dvla))%nat
    ∧ Forall (fun c => dvla_char c = true) (list_ascii_of_string (Js.trim dvla)).
Proof.
  intros _. unfold Validators.isValidDVLA, Regex.test_full, Validators.dvla_re.
  rewrite matches_lang, lang_rep_min_cls, length_list_ascii. done.
Qed.

Lemma isValidDVLA_accepts_five_or_more_witness :
  Validators.isValidDVLA "DV-12345 " = true.
Proof.
  apply (isValidDVLA_accepts_five_or_more "DV-12345 "); [reflexivity|].
  split; [vm_compute; lia|].
  vm_compute list_ascii_of_string. by repeat constructor.
Defined.

(** X6: the pattern of the username step accepts exactly the strings of 3 to
    20 characters, each a letter, a digit, an underscore, a dot or a hyphen. *)
Theorem username_pattern_accepts_3_to_20 (username : string) :
  Regex.test_full Validators.username_re username = true
  ↔ (3 ≤ String.length username ≤ 20)%nat
    ∧ Forall (fun c => username_char c = true) (list_ascii_of_string username).
Proof.
  unfold Regex.test_full, Validators.username_re.
  rewrite matches_lang, lang_rep_range_cls, length_list_ascii by lia.
  done.
Qed.

(** X7: trimming and upper-casing an input, as the card step and the lookups
    do before they search, does not change whether [isValidGhanaCard]
    accepts it; and an accepted input is keyed as GHA-, nine digits, a
    hyphen and two digits, whatever the case it was typed in. *)
Theorem card_number_is_keyed_in_upper_case (input : string) :
  Validators.isValidGhanaCard (Js.toUpperCase (Js.trim input))
  = Validators.isValidGhanaCard input
  ∧ (Validators.isValidGhanaCard input = true →
     ∃ ds1 ds2,
       digits 9 ds1 ∧ digits 2 ds2
       ∧ Js.toUpperCase (Js.trim input) = card_key ds1 ds2).
Proof.
  split.
  - unfold Validators.isValidGhanaCard, Regex.test_full.
    rewrite trim_toUpperCase, trim_idempotent, toUpperCase_list.
    apply matches_map_stable, ghana_card_re_stable.
  - intros H. unfold Validators.isValidGhanaCard, Regex.test_full in H.
    apply matches_lang, ghana_card_re_lang in H
      as (g & h & a & ds1 & ds2 & Hs & Hg & Hh & Ha & Hl1 & Hd1 & Hl2 & Hd2).
    exists ds1, ds2. split; [done|]. split; [done|].
    apply list_ascii_inj. unfold card_key.
    rewrite toUpperCase_list, Hs, list_ascii_of_string_of_list_ascii.
    cbn [map]. rewrite map_app. cbn [map].
    rewrite (upper_digits ds1 Hd1), (upper_digits ds2 Hd2).
    by destruct Hg as [-> | ->], Hh as [-> | ->], Ha as [-> | ->].
Qed.

Lemma card_number_is_keyed_in_upper_case_witness :
  ∃ ds1 ds2,
    digits 9 ds1 ∧ digits 2 ds2
    ∧ Js.toUpperCase (Js.trim " gha-123456789-01 ") = card_key ds1 ds2.
Proof.
  destruct (card_number_is_keyed_in_upper_case " gha-123456789-01 ") as [_ H].
  apply H. vm_compute. reflexivity.
Defined.

(** ** Sign-up from first contact to the stored record *)

(** X8: a whole sign-up with NCSTCS, from first contact to the card number.
    When the inputs are ASCII, the repository answers every call, each input
    passes its validator and no stored record holds one of the unique
    values, the nine requests
    are answered with the home menu, the seven prompts in order and the
    success message that ends the session; the repository gains exactly one
    record, made of the trimmed inputs, the hashed password, the license and
    card numbers in upper case and the role courier; and the session is
    deleted. *)
Theorem ncstcs_sign_up_stores_the_captured_fields (hash : string → string)
    (sid m name username email password dvla card : string) (w : NCSTCS.W) :
  Forall (fun s => Js.is_ascii s = true)
    [name; username; email; password; dvla; card] →
  no_fault (faults w) →
  ncstcs_valid NCSTCS.L10 name = true →
  ncstcs_valid NCSTCS.L11 username = true →
  ncstcs_valid NCSTCS.L12 email = true →
  ncstcs_valid NCSTCS.L13 password = true →
  ncstcs_valid NCSTCS.L15 dvla = true →
  ncstcs_valid NCSTCS.L16 card = true →
  hash (Js.trim password) ≠ "" →
  let d := ncstcs_courier hash name username email password dvla card in
  (∀ f, NCSTCS.clashes d (db w) f = false) →
  let out :=
    converse (NCSTCS.ussd hash)
      (ncstcs_sign_up sid m name username email password dvla card) w in
  out.1
  = transcript sid m
      [(NCSTCS.home_menu, true); ("Enter Full Name:", true);
       ("Choose a Username:", true); ("Enter Email:", true);
       ("Create Password:", true); ("Confirm Password:", true);
       ("Enter DVLA License Number:", true);
       ("Enter Ghana Card (e.g., GHA-123456789-01):", true);
       ("Registration successful!", false)]
  ∧ db out.2 = db w ++ [NCSTCS.mkUser (length (db w)) d]
  ∧ cache_get sid out.2 = None.
Proof.
  intros _ Hnf Hname Huser Hemail Hpass Hdvla Hcard Hhash d Hfree out.
  assert (Hn0 : ∀ c s, ncstcs_valid c s = true → ncstcs_capture c = true →
                       s ≠ "0" ∧ s ≠ "9").
  { intros c s Hv Hc. split; intros ->; destruct c; try discriminate Hc;
      vm_compute in Hv; discriminate Hv. }
  destruct (Hn0 _ _ Hname eq_refl) as [Hname0 Hname9].
  destruct (Hn0 _ _ Huser eq_refl) as [Huser0 Huser9].
  destruct (Hn0 _ _ Hemail eq_refl) as [Hemail0 Hemail9].
  destruct (Hn0 _ _ Hpass eq_refl) as [Hpass0 Hpass9].
  destruct (Hn0 _ _ Hdvla eq_refl) as [Hdvla0 Hdvla9].
  clear Hn0.
  assert (Hun : ∀ f, existsb (NCSTCS.has f (match f with
                  | NCSTCS.Username => Js.trim username
                  | NCSTCS.Email => Js.trim email
                  | NCSTCS.DvlaNumber => Js.toUpperCase (Js.trim dvla)
                  | NCSTCS.GhanaCardNumber => Js.toUpperCase (Js.trim card)
                  end)) (db w) = false).
  { intros f. specialize (Hfree f). by destruct f. }
  subst out. unfold ncstcs_sign_up. cbn [converse].
  (* first contact *)
  rewrite (ncstcs_restart hash (first_contact sid m) w) by (by left).
  set (e0 := State.obj (Some 0) NCSTCS.home_menu).
  set (w1 := saved _ _ w).
  assert (Hg1 : cache_get sid w1 = Some (JsArray.mk ([] ++ [e0]) None))
    by apply cache_get_saved.
  assert (Hdb1 : db w1 = db w) by done.
  assert (Hnf1 : no_fault (faults w1)) by done.
  clearbody w1.
  (* the menu *)
  rewrite (ncstcs_menu hash (keyed sid m "1") w1 [] e0 None eq_refl Hg1)
    by done.
  cbn [userData keyed String.eqb Ascii.eqb Bool.eqb].
  set (e10 := State.obj (Some 10) "Enter Full Name:").
  set (w2 := saved _ _ w1).
  assert (Hg2 : cache_get sid w2 = Some (JsArray.mk ([e0] ++ [e10]) None))
    by apply cache_get_saved.
  assert (Hdb2 : db w2 = db w) by done.
  assert (Hnf2 : no_fault (faults w2)) by done.
  clearbody w2. clear w1 Hg1 Hdb1 Hnf1.
  (* the name *)
  rewrite (ncstcs_capture_advances hash (keyed sid m name) w2 [e0] e10 None
             NCSTCS.L10 _ eq_refl Hg2 Hname0 Hname9 eq_refl eq_refl Hname I).
  set (e11 := State.set_name _ _).
  set (w3 := saved _ _ _).
  assert (Hg3 : cache_get sid w3 = Some (JsArray.mk ([e0; e10] ++ [e11]) None))
    by apply cache_get_saved.
  assert (Hdb3 : db w3 = db w) by done.
  assert (Hnf3 : no_fault (faults w3)) by done.
  clearbody w3. clear w2 Hg2 Hdb2 Hnf2.
  (* the username *)
  rewrite (ncstcs_capture_advances hash (keyed sid m username) w3 [e0; e10] e11
             None NCSTCS.L11 _ eq_refl Hg3 Huser0 Huser9 eq_refl eq_refl Huser).
  2:{ apply ncstcs_free_intro; [done|]. intros f v [= <- <-].
      rewrite Hdb3. apply (Hun NCSTCS.Username). }
  set (e12 := State.set_username _ _).
  set (w4 := saved _ _ _).
  assert (Hg4 : cache_get sid w4
                = Some (JsArray.mk ([e0; e10; e11] ++ [e12]) None))
    by apply cache_get_saved.
  assert (Hdb4 : db w4 = db w) by done.
  assert (Hnf4 : no_fault (faults w4)) by (by apply no_fault_tail).
  clearbody w4. clear w3 Hg3 Hdb3 Hnf3.
  (* the email *)
  rewrite (ncstcs_capture_advances hash (keyed sid m email) w4 [e0; e10; e11]
             e12 None NCSTCS.L12 _ eq_refl Hg4 Hemail0 Hemail9 eq_refl eq_refl
             Hemail).
  2:{ apply ncstcs_free_intro; [done|]. intros f v [= <- <-].
      rewrite Hdb4. apply (Hun NCSTCS.Email). }
  set (e13 := State.set_email _ _).
  set (w5 := saved _ _ _).
  assert (Hg5 : cache_get sid w5
                = Some (JsArray.mk ([e0; e10; e11; e12] ++ [e13]) None))
    by apply cache_get_saved.
  assert (Hdb5 : db w5 = db w) by done.
  assert (Hnf5 : no_fault (faults w5)) by (by apply no_fault_tail).
  clearbody w5. clear w4 Hg4 Hdb4 Hnf4.
  (* the password *)
  rewrite (ncstcs_capture_advances hash (keyed sid m password) w5
             [e0; e10; e11; e12] e13 None NCSTCS.L13 _ eq_refl Hg5 Hpass0
             Hpass9 eq_refl eq_refl Hpass I).
  set (e14 := State.set_message "Confirm Password:" _).
  set (w6 := saved _ _ _).
  assert (Hg6 : cache_get sid w6
                = Some (JsArray.mk ([e0; e10; e11; e12; e13] ++ [e14]) None))
    by apply cache_get_saved.
  assert (Hdb6 : db w6 = db w) by done.
  assert (Hnf6 : no_fault (faults w6)) by done.
  clearbody w6. clear w5 Hg5 Hdb5 Hnf5.
  (* the password again *)
  rewrite (ncstcs_confirm_match hash (keyed sid m password) w6
             [e0; e10; e11; e12; e13] e14 None eq_refl Hg6 Hpass0 Hpass9
             eq_refl eq_refl).
  set (e15 := State.set_message "Enter DVLA License Number:" _).
  set (w7 := saved _ _ _).
  assert (Hg7 : cache_get sid w7
                = Some (JsArray.mk ([e0; e10; e11; e12; e13; e14] ++ [e15]) None))
    by apply cache_get_saved.
  assert (Hdb7 : db w7 = db w) by done.
  assert (Hnf7 : no_fault (faults w7)) by done.
  clearbody w7. clear w6 Hg6 Hdb6 Hnf6.
  (* the license number *)
  rewrite (ncstcs_capture_advances hash (keyed sid m dvla) w7
             [e0; e10; e11; e12; e13; e14] e15 None NCSTCS.L15 _ eq_refl Hg7
             Hdvla0 Hdvla9 eq_refl eq_refl Hdvla).
  2:{ apply ncstcs_free_intro; [done|]. intros f v [= <- <-].
      rewrite Hdb7. apply (Hun NCSTCS.DvlaNumber). }
  set (e16 := State.set_message "Enter Ghana Card (e.g., GHA-123456789-01):" _).
  set (w8 := saved _ _ _).
  assert (Hg8 : cache_get sid w8
                = Some (JsArray.mk ([e0; e10; e11; e12; e13; e14; e15] ++ [e16])
                          None))
    by apply cache_get_saved.
  assert (Hdb8 : db w8 = db w) by done.
  assert (Hnf8 : no_fault (faults w8)) by (by apply no_fault_tail).
  clearbody w8. clear w7 Hg7 Hdb7 Hnf7.
  (* the card number *)
  rewrite (ncstcs_final_step_creates hash (keyed sid m card) w8
             [e0; e10; e11; e12; e13; e14; e15] e16 None (Js.trim password)
             eq_refl Hg8 eq_refl Hcard Hnf8).
  - cbn [fst snd transcript map]. split; [done|].
    split; [|apply cache_get_dropped].
    cbn [db dropped ncstcs_created looked_up]. by rewrite Hdb8.
  - rewrite Hdb8. apply existsb_false_find, (Hun NCSTCS.GhanaCardNumber).
  - done.
  - change (Js.truthy (Some (Js.trim username)) = true).
    apply negb_true_iff, String.eqb_neq. intros He.
    cbn [ncstcs_valid] in Huser. rewrite He in Huser. discriminate Huser.
  - done.
  - rewrite Hdb8. exact Hfree.
Qed.

Lemma ncstcs_sign_up_stores_the_captured_fields_witness :
  (converse (NCSTCS.ussd sample_hash)
     (ncstcs_sign_up "s1" kofi "Kofi Boateng" "kofi" "kofi@example.com"
        "secret1" "DV-55555" "gha-987654321-02") ncstcs_empty).1
  = transcript "s1" kofi
      [(NCSTCS.home_menu, true); ("Enter Full Name:", true);
       ("Choose a Username:", true); ("Enter Email:", true);
       ("Create Password:", true); ("Confirm Password:", true);
       ("Enter DVLA License Number:", true);
       ("Enter Ghana Card (e.g., GHA-123456789-01):", true);
       ("Registration successful!", false)]
  ∧ db (converse (NCSTCS.ussd sample_hash)
          (ncstcs_sign_up "s1" kofi "Kofi Boateng" "kofi" "kofi@example.com"
             "secret1" "DV-55555" "gha-987654321-02") ncstcs_empty).2
    = db ncstcs_empty ++ [NCSTCS.mkUser (length (db ncstcs_empty)) ncstcs_kofi]
  ∧ cache_get "s1"
      (converse (NCSTCS.ussd sample_hash)
         (ncstcs_sign_up "s1" kofi "Kofi Boateng" "kofi" "kofi@example.com"
            "secret1" "DV-55555" "gha-987654321-02") ncstcs_empty).2
    = None.
Proof.
  apply (ncstcs_sign_up_stores_the_captured_fields sample_hash "s1" kofi
           "Kofi Boateng" "kofi" "kofi@example.com" "secret1" "DV-55555"
           "gha-987654321-02" ncstcs_empty).
  - by repeat constructor.
  - constructor.
  - vm_compute. reflexivity.
  - vm_compute. reflexivity.
  - vm_compute. reflexivity.
  - vm_compute. reflexivity.
  - vm_compute. reflexivity.
  - vm_compute. reflexivity.
  - discriminate.
  - intros f. by destruct f.
Defined.

(** X9: a whole sign-up with PCRS by a caller whose number is not yet
    registered.  When the caller's number and the inputs are ASCII, the
    repository answers every call, each input passes its validator and no
    stored record holds one of the unique values, the eleven requests are answered with the guest menu, the information
    screen, the eight prompts in order and the closing message that ends the
    session; the repository gains exactly one record, made of the trimmed
    inputs, the normalised phone number, the hashed password, the license
    and card numbers in upper case and the role courier; and the session is
    deleted. *)
Theorem pcrs_sign_up_stores_the_captured_fields (hash : string → string)
    (sid m ack name username phone email password dvla card : string)
    (w : PCRS.W) :
  Forall (fun s => Js.is_ascii s = true)
    [m; name; username; phone; email; password; dvla; card] →
  no_fault (faults w) →
  find (PCRS.has PCRS.Phone (Validators.normalizePhone m)) (db w) = None →
  ack ≠ "0" → ack ≠ "9" →
  pcrs_valid PCRS.L10 name = true →
  pcrs_valid PCRS.L11 username = true →
  pcrs_valid PCRS.L12 phone = true →
  pcrs_valid PCRS.L13 email = true →
  pcrs_valid PCRS.L14 password = true →
  pcrs_valid PCRS.L16 dvla = true →
  pcrs_valid PCRS.L17 card = true →
  hash (Js.trim password) ≠ "" →
  let d := pcrs_courier hash name username phone email password dvla card in
  (∀ f, PCRS.clashes d (db w) f = false) →
  let out :=
    converse (PCRS.ussd hash)
      (pcrs_sign_up sid m ack name username phone email password dvla card) w in
  out.1
  = transcript sid m
      [(PCRS.guest_menu, true); (PCRS.signup_info, true);
       ("Enter Full Name:", true); ("Choose a Username:", true);
       ("Enter Phone Number (e.g., 024XXXXXXX):", true);
       ("Enter Email:", true); ("Create Password:", true);
       ("Confirm Password:", true); ("Enter DVLA License Number:", true);
       ("Enter Ghana Card (e.g., GHA-123456789-01):", true);
       (PCRS.signup_done, false)]
  ∧ db out.2 = db w ++ [PCRS.mkUser (length (db w)) d]
  ∧ cache_get sid out.2 = None.
Proof.
  intros _ Hnf Hguest Hack0 Hack9 Hname Huser Hphone Hemail Hpass Hdvla Hcard
    Hhash d Hfree out.
  assert (Hn0 : ∀ c s, pcrs_valid c s = true → pcrs_capture c = true →
                       s ≠ "0" ∧ s ≠ "9").
  { intros c s Hv Hc. split; intros ->; destruct c; try discriminate Hc;
      vm_compute in Hv; discriminate Hv. }
  destruct (Hn0 _ _ Hname eq_refl) as [Hname0 Hname9].
  destruct (Hn0 _ _ Huser eq_refl) as [Huser0 Huser9].
  destruct (Hn0 _ _ Hphone eq_refl) as [Hphone0 Hphone9].
  destruct (Hn0 _ _ Hemail eq_refl) as [Hemail0 Hemail9].
  destruct (Hn0 _ _ Hpass eq_refl) as [Hpass0 Hpass9].
  destruct (Hn0 _ _ Hdvla eq_refl) as [Hdvla0 Hdvla9].
  clear Hn0.
  assert (Hun : ∀ f, existsb (PCRS.has f (match f with
                  | PCRS.Username => Js.trim username
                  | PCRS.Phone => Validators.normalizePhone (Js.trim phone)
                  | PCRS.Email => Js.trim email
                  | PCRS.DvlaNumber => Js.toUpperCase (Js.trim dvla)
                  | PCRS.GhanaCardNumber => Js.toUpperCase (Js.trim card)
                  end)) (db w) = false).
  { intros f. specialize (Hfree f). by destruct f. }
  subst out. unfold pcrs_sign_up. cbn [converse].
  (* first contact: the caller is not known *)
  rewrite (pcrs_restart hash (first_contact sid m) w) by (by left).
  rewrite pcrs_start_cases. cbv zeta.
  cbn [msisdn first_contact sessionID].
  rewrite (no_fault_next _ Hnf), Hguest.
  set (e0 := pcrs_guest_entry).
  assert (∃ w1, (if (Validators.normalizePhone m =? "")%string
                 then (Ok (answer (first_contact sid m) PCRS.guest_menu true),
                       saved sid (JsArray.lit [e0]) w)
                 else (Ok (answer (first_contact sid m) PCRS.guest_menu true),
                       saved sid (JsArray.lit [e0])
                         (looked_up
                            (PCRS.FindOne PCRS.Phone
                               (Validators.normalizePhone m)) w)))
                = (Ok (answer (first_contact sid m) PCRS.guest_menu true), w1)
                ∧ cache_get sid w1 = Some (JsArray.mk ([] ++ [e0]) None)
                ∧ db w1 = db w ∧ no_fault (faults w1))
    as (w1 & -> & Hg1 & Hdb1 & Hnf1).
  { destruct (_ =? _)%string; eexists; (split; [reflexivity|]);
      (split; [apply cache_get_saved|]); (split; [done|]);
      [done | by apply no_fault_tail]. }
  (* the menu *)
  rewrite (pcrs_guest_menu hash (keyed sid m "1") w1 [] e0 None eq_refl Hg1)
    by done.
  cbn [userData keyed String.eqb Ascii.eqb Bool.eqb].
  set (e5 := State.obj (Some 5) PCRS.signup_info).
  set (w2 := saved _ _ w1).
  assert (Hg2 : cache_get sid w2 = Some (JsArray.mk ([e0] ++ [e5]) None))
    by apply cache_get_saved.
  assert (Hdb2 : db w2 = db w) by done.
  assert (Hnf2 : no_fault (faults w2)) by done.
  clearbody w2. clear w1 Hg1 Hdb1 Hnf1.
  (* the information screen *)
  rewrite (pcrs_info_screen hash (keyed sid m ack) w2 [e0] e5 None eq_refl Hg2
             Hack0 Hack9 eq_refl).
  set (e10 := State.obj (Some 10) "Enter Full Name:").
  set (w3 := saved _ _ w2).
  assert (Hg3 : cache_get sid w3 = Some (JsArray.mk ([e0; e5] ++ [e10]) None))
    by apply cache_get_saved.
  assert (Hdb3 : db w3 = db w) by done.
  assert (Hnf3 : no_fault (faults w3)) by done.
  clearbody w3. clear w2 Hg2 Hdb2 Hnf2.
  (* the name *)
  rewrite (pcrs_capture_advances hash (keyed sid m name) w3 [e0; e5] e10 None
             PCRS.L10 _ eq_refl Hg3 Hname0 Hname9 eq_refl eq_refl Hname I).
  set (e11 := State.set_name _ _).
  set (w4 := saved _ _ _).
  assert (Hg4 : cache_get sid w4
                = Some (JsArray.mk ([e0; e5; e10] ++ [e11]) None))
    by apply cache_get_saved.
  assert (Hdb4 : db w4 = db w) by done.
  assert (Hnf4 : no_fault (faults w4)) by done.
  clearbody w4. clear w3 Hg3 Hdb3 Hnf3.
  (* the username *)
  rewrite (pcrs_capture_advances hash (keyed sid m username) w4 [e0; e5; e10]
             e11 None PCRS.L11 _ eq_refl Hg4 Huser0 Huser9 eq_refl eq_refl
             Huser).
  2:{ apply pcrs_free_intro; [done|]. intros f v [= <- <-].
      rewrite Hdb4. apply (Hun PCRS.Username). }
  set (e12 := State.set_username _ _).
  set (w5 := saved _ _ _).
  assert (Hg5 : cache_get sid w5
                = Some (JsArray.mk ([e0; e5; e10; e11] ++ [e12]) None))
    by apply cache_get_saved.
  assert (Hdb5 : db w5 = db w) by done.
  assert (Hnf5 : no_fault (faults w5)) by (by apply no_fault_tail).
  clearbody w5. clear w4 Hg4 Hdb4 Hnf4.
  (* the phone number *)
  rewrite (pcrs_capture_advances hash (keyed sid m phone) w5
             [e0; e5; e10; e11] e12 None PCRS.L12 _ eq_refl Hg5 Hphone0
             Hphone9 eq_refl eq_refl Hphone).
  2:{ apply pcrs_free_intro; [done|]. intros f v [= <- <-].
      rewrite Hdb5. apply (Hun PCRS.Phone). }
  set (e13 := State.set_phone _ _).
  set (w6 := saved _ _ _).
  assert (Hg6 : cache_get sid w6
                = Some (JsArray.mk ([e0; e5; e10; e11; e12] ++ [e13]) None))
    by apply cache_get_saved.
  assert (Hdb6 : db w6 = db w) by done.
  assert (Hnf6 : no_fault (faults w6)) by (by apply no_fault_tail).
  clearbody w6. clear w5 Hg5 Hdb5 Hnf5.
  (* the email *)
  rewrite (pcrs_capture_advances hash (keyed sid m email) w6
             [e0; e5; e10; e11; e12] e13 None PCRS.L13 _ eq_refl Hg6 Hemail0
             Hemail9 eq_refl eq_refl Hemail).
  2:{ apply pcrs_free_intro; [done|]. intros f v [= <- <-].
      rewrite Hdb6. apply (Hun PCRS.Email). }
  set (e14 := State.set_email _ _).
  set (w7 := saved _ _ _).
  assert (Hg7 : cache_get sid w7
                = Some (JsArray.mk ([e0; e5; e10; e11; e12; e13] ++ [e14]) None))
    by apply cache_get_saved.
  assert (Hdb7 : db w7 = db w) by done.
  assert (Hnf7 : no_fault (faults w7)) by (by apply no_fault_tail).
  clearbody w7. clear w6 Hg6 Hdb6 Hnf6.
  (* the password *)
  rewrite (pcrs_capture_advances hash (keyed sid m password) w7
             [e0; e5; e10; e11; e12; e13] e14 None PCRS.L14 _ eq_refl Hg7
             Hpass0 Hpass9 eq_refl eq_refl Hpass I).
  set (e15 := State.set_message "Confirm Password:" _).
  set (w8 := saved _ _ _).
  assert (Hg8 : cache_get sid w8
                = Some (JsArray.mk ([e0; e5; e10; e11; e12; e13; e14] ++ [e15])
                          None))
    by apply cache_get_saved.
  assert (Hdb8 : db w8 = db w) by done.
  assert (Hnf8 : no_fault (faults w8)) by done.
  clearbody w8. clear w7 Hg7 Hdb7 Hnf7.
  (* the password again *)
  rewrite (pcrs_confirm_match hash (keyed sid m password) w8
             [e0; e5; e10; e11; e12; e13; e14] e15 None eq_refl Hg8 Hpass0
             Hpass9 eq_refl eq_refl).
  set (e16 := State.set_message "Enter DVLA License Number:" _).
  set (w9 := saved _ _ _).
  assert (Hg9 : cache_get sid w9
                = Some (JsArray.mk
                          ([e0; e5; e10; e11; e12; e13; e14; e15] ++ [e16])
                          None))
    by apply cache_get_saved.
  assert (Hdb9 : db w9 = db w) by done.
  assert (Hnf9 : no_fault (faults w9)) by done.
  clearbody w9. clear w8 Hg8 Hdb8 Hnf8.
  (* the license number *)
  rewrite (pcrs_capture_advances hash (keyed sid m dvla) w9
             [e0; e5; e10; e11; e12; e13; e14; e15] e16 None PCRS.L16 _
             eq_refl Hg9 Hdvla0 Hdvla9 eq_refl eq_refl Hdvla).
  2:{ apply pcrs_free_intro; [done|]. intros f v [= <- <-].
      rewrite Hdb9. apply (Hun PCRS.DvlaNumber). }
  set (e17 := State.set_message "Enter Ghana Card (e.g., GHA-123456789-01):" _).
  set (w10 := saved _ _ _).
  assert (Hg10 : cache_get sid w10
                 = Some (JsArray.mk
                           ([e0; e5; e10; e11; e12; e13; e14; e15; e16] ++ [e17])
                           None))
    by apply cache_get_saved.
  assert (Hdb10 : db w10 = db w) by done.
  assert (Hnf10 : no_fault (faults w10)) by (by apply no_fault_tail).
  clearbody w10. clear w9 Hg9 Hdb9 Hnf9.
  (* the card number *)
  rewrite (pcrs_final_step_creates hash (keyed sid m card) w10
             [e0; e5; e10; e11; e12; e13; e14; e15; e16] e17 None
             (Js.trim password) eq_refl Hg10 eq_refl Hcard Hnf10).
  - cbn [fst snd transcript map]. split; [done|].
    split; [|apply cache_get_dropped].
    cbn [db dropped pcrs_created looked_up]. by rewrite Hdb10.
  - rewrite Hdb10. apply existsb_false_find, (Hun PCRS.GhanaCardNumber).
  - done.
  - change (Js.truthy (Some (Js.trim username)) = true).
    apply negb_true_iff, String.eqb_neq. intros He.
    cbn [pcrs_valid] in Huser. rewrite He in Huser. discriminate Huser.
  - done.
  - rewrite Hdb10. exact Hfree.
Qed.

Lemma pcrs_sign_up_stores_the_captured_fields_witness :
  (converse (PCRS.ussd sample_hash)
     (pcrs_sign_up "s0" kwame "1" "Kwame Mensah" "kwame" "0241234567"
        "kwame@example.com" "secret1" "DV-12345" "GHA-123456789-01")
     pcrs_empty).1
  = transcript "s0" kwame
      [(PCRS.guest_menu, true); (PCRS.signup_info, true);
       ("Enter Full Name:", true); ("Choose a Username:", true);
       ("Enter Phone Number (e.g., 024XXXXXXX):", true);
       ("Enter Email:", true); ("Create Password:", true);
       ("Confirm Password:", true); ("Enter DVLA License Number:", true);
       ("Enter Ghana Card (e.g., GHA-123456789-01):", true);
       (PCRS.signup_done, false)]
  ∧ db (converse (PCRS.ussd sample_hash)
          (pcrs_sign_up "s0" kwame "1" "Kwame Mensah" "kwame" "0241234567"
             "kwame@example.com" "secret1" "DV-12345" "GHA-123456789-01")
          pcrs_empty).2
    = db pcrs_empty ++ [PCRS.mkUser (length (db pcrs_empty)) pcrs_kwame]
  ∧ cache_get "s0"
      (converse (PCRS.ussd sample_hash)
         (pcrs_sign_up "s0" kwame "1" "Kwame Mensah" "kwame" "0241234567"
            "kwame@example.com" "secret1" "DV-12345" "GHA-123456789-01")
         pcrs_empty).2
    = None.
Proof.
  apply (pcrs_sign_up_stores_the_captured_fields sample_hash "s0" kwame "1"
           "Kwame Mensah" "kwame" "0241234567" "kwame@example.com" "secret1"
           "DV-12345" "GHA-123456789-01" pcrs_empty).
  - by repeat constructor.
  - constructor.
  - reflexivity.
  - discriminate.
  - discriminate.
  - vm_compute. reflexivity.
  - vm_compute. reflexivity.
  - vm_compute. reflexivity.
  - vm_compute. reflexivity.
  - vm_compute. reflexivity.
  - vm_compute. reflexivity.
  - vm_compute. reflexivity.
  - discriminate.
  - intros f. by destruct f.
Defined.

(** ** Lookups *)

(** X10: the lookup step of NCSTCS and of PCRS, the repository answering and
    the input being ASCII.  The input is trimmed and upper-cased and searched once: as a card number
    when it has the shape of one, as a license number otherwise, and never
    as both.  A hit is answered with the courier's summary and ends the
    session, which is deleted; a miss is retried in place; the repository is
    left as it was. *)
Theorem lookup_flow_searches_card_or_license (hash : string → string)
    (req : Request) :
  Js.is_ascii (userData req) = true →
  newSession req = false →
  userData req ≠ "0" → userData req ≠ "9" →
  (∀ (w : NCSTCS.W) rest cur m1,
     cache_get (sessionID req) w = Some (JsArray.mk (rest ++ [cur]) m1) →
     State.level cur = Some 30 →
     next_fault (faults w) = false →
     let f := ncstcs_lookup_field (card_of req) in
     let out := NCSTCS.ussd hash req w in
     calls out.2 = calls w ++ [NCSTCS.FindOne f (card_of req)]
     ∧ db out.2 = db w
     ∧ match find (NCSTCS.has f (card_of req)) (db w) with
       | Some u =>
           out.1 = Ok (answer req (NCSTCS.summary u) false)
           ∧ cache_get (sessionID req) out.2 = None
       | None => retried_in_place req rest cur m1 w out
       end)
  ∧ (∀ (w : PCRS.W) rest cur m1,
       cache_get (sessionID req) w = Some (JsArray.mk (rest ++ [cur]) m1) →
       State.level cur = Some 30 →
       next_fault (faults w) = false →
       let f := pcrs_lookup_field (card_of req) in
       let out := PCRS.ussd hash req w in
       calls out.2 = calls w ++ [PCRS.FindOne f (card_of req)]
       ∧ db out.2 = db w
       ∧ match find (PCRS.has f (card_of req)) (db w) with
         | Some u =>
             out.1 = Ok (answer req (PCRS.summary u) false)
             ∧ cache_get (sessionID req) out.2 = None
         | None => retried_in_place req rest cur m1 w out
         end).
Proof.
  intros _ Hn H0 H9. split.
  - intros w rest cur m1 Hg Hl Hf f out. subst out f.
    rewrite (ncstcs_lookup_eq hash req w rest cur m1 Hn Hg H0 H9 Hl Hf).
    cbv zeta. destruct (find _ (db w)) as [u|].
    + repeat split. apply cache_get_dropped.
    + repeat split. eexists. repeat split. apply cache_get_saved.
  - intros w rest cur m1 Hg Hl Hf f out. subst out f.
    rewrite (pcrs_lookup_eq hash req w rest cur m1 Hn Hg H0 H9 Hl Hf).
    cbv zeta. destruct (find _ (db w)) as [u|].
    + repeat split. apply cache_get_dropped.
    + repeat split. eexists. repeat split. apply cache_get_saved.
Qed.

Lemma lookup_flow_searches_card_or_license_witness :
  (PCRS.ussd sample_hash (keyed "s1" kwame " gha-123456789-01") pcrs_member).1
  = Ok (answer (keyed "s1" kwame " gha-123456789-01")
          (PCRS.summary (PCRS.mkUser 0%nat pcrs_kwame)) false)
  ∧ cache_get "s1"
      (PCRS.ussd sample_hash (keyed "s1" kwame " gha-123456789-01")
         pcrs_member).2
    = None.
Proof.
  destruct (lookup_flow_searches_card_or_license sample_hash
              (keyed "s1" kwame " gha-123456789-01")) as [_ H];
    [reflexivity | reflexivity | discriminate | discriminate |].
  destruct (H pcrs_member
              [State.set_userRef (Some 0%nat)
                 (State.set_loggedIn true
                    (State.obj (Some 0) (PCRS.member_menu "Kwame Mensah")))]
              (State.obj (Some 30) "Enter DVLA or Ghana Card Number:") None)
    as (_ & _ & K).
  - vm_compute. reflexivity.
  - reflexivity.
  - vm_compute. reflexivity.
  - assert (Hfind :
      find (PCRS.has
              (pcrs_lookup_field (card_of (keyed "s1" kwame " gha-123456789-01")))
              (card_of (keyed "s1" kwame " gha-123456789-01"))) (db pcrs_member)
      = Some (PCRS.mkUser 0%nat pcrs_kwame)) by (vm_compute; reflexivity).
    rewrite Hfind in K. exact K.
Defined.

(** X11: the route [/courier/lookup] of NCSTCS and of PCRS, for an id of ASCII
    characters.  A missing or blank id is answered 400 without a search.  Otherwise, the repository
    answering, the route leaves the repository as it was and answers 200
    with the courier found under the key; unlike the USSD flow, a key that
    has the shape of a card number and is no stored card number is searched
    again as a license number; and 404 is answered when neither search
    finds a record. *)
Theorem courier_lookup_falls_back_to_the_license (id : option string) :
  Js.is_ascii (Js.or_else id "") = true →
  (∀ w : NCSTCS.W,
     (lookup_key id = "" →
      NCSTCS.courier_lookup id w
      = (Ok (NCSTCS.mkReply 400 (NCSTCS.Error "Missing id")), w))
     ∧ (lookup_key id ≠ "" → no_fault (faults w) →
        db (NCSTCS.courier_lookup id w).2 = db w
        ∧ (∀ u, find (NCSTCS.has (ncstcs_lookup_field (lookup_key id))
                        (lookup_key id)) (db w) = Some u →
                (NCSTCS.courier_lookup id w).1
                = Ok (NCSTCS.mkReply 200 (ncstcs_json u)))
        ∧ (∀ u, Validators.isValidGhanaCard (lookup_key id) = true →
                find (NCSTCS.has NCSTCS.GhanaCardNumber (lookup_key id)) (db w)
                = None →
                find (NCSTCS.has NCSTCS.DvlaNumber (lookup_key id)) (db w)
                = Some u →
                (NCSTCS.courier_lookup id w).1
                = Ok (NCSTCS.mkReply 200 (ncstcs_json u)))
        ∧ (find (NCSTCS.has NCSTCS.GhanaCardNumber (lookup_key id)) (db w)
           = None →
           find (NCSTCS.has NCSTCS.DvlaNumber (lookup_key id)) (db w) = None →
           (NCSTCS.courier_lookup id w).1
           = Ok (NCSTCS.mkReply 404 (NCSTCS.Error "Not found")))))
  ∧ (∀ w : PCRS.W,
       (lookup_key id = "" →
        PCRS.courier_lookup id w
        = (Ok (PCRS.mkReply 400 (PCRS.Error "Missing id")), w))
       ∧ (lookup_key id ≠ "" → no_fault (faults w) →
          db (PCRS.courier_lookup id w).2 = db w
          ∧ (∀ u, find (PCRS.has (pcrs_lookup_field (lookup_key id))
                          (lookup_key id)) (db w) = Some u →
                  (PCRS.courier_lookup id w).1
                  = Ok (PCRS.mkReply 200 (pcrs_json u)))
          ∧ (∀ u, Validators.isValidGhanaCard (lookup_key id) = true →
                  find (PCRS.has PCRS.GhanaCardNumber (lookup_key id)) (db w)
                  = None →
                  find (PCRS.has PCRS.DvlaNumber (lookup_key id)) (db w)
                  = Some u →
                  (PCRS.courier_lookup id w).1
                  = Ok (PCRS.mkReply 200 (pcrs_json u)))
          ∧ (find (PCRS.has PCRS.GhanaCardNumber (lookup_key id)) (db w)
             = None →
             find (PCRS.has PCRS.DvlaNumber (lookup_key id)) (db w) = None →
             (PCRS.courier_lookup id w).1
             = Ok (PCRS.mkReply 404 (PCRS.Error "Not found"))))).
Proof.
  intros _. split; intros w; split.
  - intros He. unfold NCSTCS.courier_lookup. cbv zeta.
    fold (lookup_key id). by rewrite He.
  - intros Hne Hnf. rewrite (ncstcs_courier_lookup_eq id w Hnf). cbv zeta.
    fold (lookup_key id). apply String.eqb_neq in Hne. rewrite Hne.
    unfold ncstcs_lookup_field.
    destruct (Validators.isValidGhanaCard (lookup_key id));
      destruct (find (NCSTCS.has NCSTCS.GhanaCardNumber _) (db w)) as [c|];
      destruct (find (NCSTCS.has NCSTCS.DvlaNumber _) (db w)) as [l|];
      cbn [fst snd db looked_up];
      repeat split; try done; intros; by simplify_eq.
  - intros He. unfold PCRS.courier_lookup. cbv zeta.
    fold (lookup_key id). by rewrite He.
  - intros Hne Hnf. rewrite (pcrs_courier_lookup_eq id w Hnf). cbv zeta.
    fold (lookup_key id). apply String.eqb_neq in Hne. rewrite Hne.
    unfold pcrs_lookup_field.
    destruct (Validators.isValidGhanaCard (lookup_key id));
      destruct (find (PCRS.has PCRS.GhanaCardNumber _) (db w)) as [c|];
      destruct (find (PCRS.has PCRS.DvlaNumber _) (db w)) as [l|];
      cbn [fst snd db looked_up];
      repeat split; try done; intros; by simplify_eq.
Qed.

Lemma courier_lookup_falls_back_to_the_license_witness :
  (NCSTCS.courier_lookup (Some " gha-123456789-01 ") ncstcs_with_ama).1
  = Ok (NCSTCS.mkReply 200 (ncstcs_json ncstcs_ama)).
Proof.
  destruct (courier_lookup_falls_back_to_the_license
              (Some " gha-123456789-01 ") eq_refl) as [H _].
  destruct (H ncstcs_with_ama) as [_ K].
  destruct K as (_ & _ & K & _).
  - vm_compute. discriminate.
  - vm_compute. constructor.
  - apply K; vm_compute; reflexivity.
Defined.

(** X12: first contact with PCRS (a new session, or a request whose session is
    gone) by a caller whose number is ASCII and not blank.  The number is normalised
    and searched once, and the repository is left as it was.  A registered
    caller gets the member menu under their display name and a session
    marked as logged in that refers to their record; any other caller gets
    the guest menu; and so does every caller when the search fails, the
    failure being swallowed. *)
Theorem pcrs_first_contact_recognises_the_caller (hash : string → string)
    (req : Request) (w : PCRS.W) :
  Js.is_ascii (msisdn req) = true →
  newSession req = true ∨ cache_get (sessionID req) w = None →
  Validators.normalizePhone (msisdn req) ≠ "" →
  let phone := Validators.normalizePhone (msisdn req) in
  let out := PCRS.ussd hash req w in
  db out.2 = db w
  ∧ calls out.2 = calls w ++ [PCRS.FindOne PCRS.Phone phone]
  ∧ (next_fault (faults w) = false →
     match find (PCRS.has PCRS.Phone phone) (db w) with
     | Some u =>
         out.1 = Ok (answer req (PCRS.member_menu (PCRS.displayName (Some u)))
                       true)
         ∧ cache_get (sessionID req) out.2
           = Some (JsArray.lit [pcrs_member_entry u])
     | None =>
         out.1 = Ok (answer req PCRS.guest_menu true)
         ∧ cache_get (sessionID req) out.2
           = Some (JsArray.lit [pcrs_guest_entry])
     end)
  ∧ (next_fault (faults w) = true →
     out.1 = Ok (answer req PCRS.guest_menu true)
     ∧ cache_get (sessionID req) out.2 = Some (JsArray.lit [pcrs_guest_entry])).
Proof.
  intros _ Hs Hp phone out. subst out phone.
  rewrite (pcrs_restart hash req w Hs), pcrs_start_cases. cbv zeta.
  apply String.eqb_neq in Hp. rewrite Hp.
  split; [destruct (next_fault (faults w)); [done|]; by destruct (find _ (db w))|].
  split; [destruct (next_fault (faults w)); [done|]; by destruct (find _ (db w))|].
  destruct (next_fault (faults w)).
  - split; [done|]. intros _. split; [done | apply cache_get_saved].
  - split; [|done]. intros _.
    destruct (find _ (db w)) as [u|]; (split; [done | apply cache_get_saved]).
Qed.

Lemma pcrs_first_contact_recognises_the_caller_witness :
  (PCRS.ussd sample_hash (first_contact "s1" kwame) pcrs_with_kwame).1
  = Ok (answer (first_contact "s1" kwame) (PCRS.member_menu "Kwame Mensah") true)
  ∧ cache_get "s1"
      (PCRS.ussd sample_hash (first_contact "s1" kwame) pcrs_with_kwame).2
    = Some (JsArray.lit [pcrs_member_entry (PCRS.mkUser 0%nat pcrs_kwame)]).
Proof.
  destruct (pcrs_first_contact_recognises_the_caller sample_hash
              (first_contact "s1" kwame) pcrs_with_kwame) as (_ & _ & K & _).
  - reflexivity.
  - left. reflexivity.
  - vm_compute. discriminate.
  - assert (Hfind :
      find (PCRS.has PCRS.Phone
              (Validators.normalizePhone (msisdn (first_contact "s1" kwame))))
        (db pcrs_with_kwame)
      = Some (PCRS.mkUser 0%nat pcrs_kwame)) by (vm_compute; reflexivity).
    rewrite Hfind in K. apply K. vm_compute. reflexivity.
Defined.

(** X13: option 1 at the home menu of a logged-in PCRS caller.  The record the
    session refers to is fetched by its identifier, once; the answer is its
    summary, or 'Account not found.' when no record has the identifier, or
    'Unable to fetch details at the moment.' when the repository fails; in
    all three cases the session ends and is deleted, and the repository is
    left as it was. *)
Theorem pcrs_view_my_details_ends_the_session (hash : string → string)
    (req : Request) (w : PCRS.W) (rest : list State.t) (cur : State.t)
    (m1 : option State.t) :
  newSession req = false →
  cache_get (sessionID req) w = Some (JsArray.mk (rest ++ [cur]) m1) →
  userData req = "1" →
  State.level cur = Some 0 →
  State.loggedIn cur = Some true →
  let id := PCRS.first_userRef (JsArray.mk (rest ++ [cur]) m1) in
  let out := PCRS.ussd hash req w in
  out.1
  = Ok (answer req
          (if next_fault (faults w)
           then "Unable to fetch details at the moment."
           else match pcrs_by_id id (db w) with
                | Some u => PCRS.summary u
                | None => "Account not found."
                end) false)
  ∧ cache_get (sessionID req) out.2 = None
  ∧ db out.2 = db w
  ∧ calls out.2 = calls w ++ [PCRS.FindById id].
Proof.
  intros Hn Hg H1 Hl Hlog id out. subst out id.
  rewrite (pcrs_view_details_eq hash req w rest cur m1 Hn Hg H1 Hl Hlog).
  cbv zeta. repeat split. apply cache_get_dropped.
Qed.

Lemma pcrs_view_my_details_ends_the_session_witness :
  (PCRS.ussd sample_hash (keyed "s1" kwame "1") pcrs_member_home).1
  = Ok (answer (keyed "s1" kwame "1") (PCRS.summary (PCRS.mkUser 0%nat pcrs_kwame))
          false)
  ∧ cache_get "s1" (PCRS.ussd sample_hash (keyed "s1" kwame "1") pcrs_member_home).2
    = None.
Proof.
  destruct (pcrs_view_my_details_ends_the_session sample_hash
              (keyed "s1" kwame "1") pcrs_member_home []
              (pcrs_member_entry (PCRS.mkUser 0%nat pcrs_kwame)) None)
    as (K1 & K2 & _).
  - reflexivity.
  - vm_compute. reflexivity.
  - reflexivity.
  - reflexivity.
  - reflexivity.
  - split; [|exact K2]. rewrite K1. vm_compute. reflexivity.
Defined.

(** ** Rejected input, the depth of a stack, the name step *)

(** X14: at a capture step of the NCSTCS or PCRS sign-up, an input of ASCII
    characters that the step's validator rejects costs no repository call: the log of calls and the
    faults still to come are what they were. *)
Theorem invalid_input_reaches_no_repository (hash : string → string)
    (req : Request) :
  Js.is_ascii (userData req) = true →
  newSession req = false →
  userData req ≠ "0" → userData req ≠ "9" →
  (∀ (w : NCSTCS.W) rest cur m1 c,
     cache_get (sessionID req) w = Some (JsArray.mk (rest ++ [cur]) m1) →
     NCSTCS.case_of (State.level cur) = Some c →
     ncstcs_capture c = true →
     ncstcs_valid c (userData req) = false →
     calls (NCSTCS.ussd hash req w).2 = calls w
     ∧ faults (NCSTCS.ussd hash req w).2 = faults w)
  ∧ (∀ (w : PCRS.W) rest cur m1 c,
       cache_get (sessionID req) w = Some (JsArray.mk (rest ++ [cur]) m1) →
       PCRS.case_of (State.level cur) = Some c →
       pcrs_capture c = true →
       pcrs_valid c (userData req) = false →
       calls (PCRS.ussd hash req w).2 = calls w
       ∧ faults (PCRS.ussd hash req w).2 = faults w).
Proof.
  intros _ Hn H0 H9. split.
  - intros w rest cur m1 c Hg Hc Hcap Hv.
    destruct (ncstcs_invalid_eq hash req w rest cur m1 c Hn Hg H0 H9 Hc Hcap Hv)
      as [message ->]. done.
  - intros w rest cur m1 c Hg Hc Hcap Hv.
    destruct (pcrs_invalid_eq hash req w rest cur m1 c Hn Hg H0 H9 Hc Hcap Hv)
      as [message ->]. done.
Qed.

Lemma invalid_input_reaches_no_repository_witness :
  calls (NCSTCS.ussd sample_hash (keyed "s1" kofi "kofi!") ncstcs_deep).2
  = calls ncstcs_deep
  ∧ faults (NCSTCS.ussd sample_hash (keyed "s1" kofi "kofi!") ncstcs_deep).2
    = faults ncstcs_deep.
Proof.
  destruct (invalid_input_reaches_no_repository sample_hash
              (keyed "s1" kofi "kofi!")) as [H _];
    [reflexivity | reflexivity | discriminate | discriminate |].
  apply (H ncstcs_deep (firstn 2 ncstcs_kofi_entries)
           (State.set_name (Some "Kofi Boateng")
              (State.obj (Some 11) "Choose a Username:")) None NCSTCS.L11).
  - vm_compute. reflexivity.
  - reflexivity.
  - reflexivity.
  - vm_compute. reflexivity.
Defined.

(** X15: in NCSTCS and PCRS the depth of a session's stack is a function of the
    level of its top entry, in every session a request leaves behind in a
    store of well-built stacks; hence no stack is empty, none is deeper than
    8 entries (NCSTCS) or 10 entries (PCRS), and the stacks do not grow with
    the number of requests. *)
Theorem stack_depth_is_fixed_by_the_top_level (hash : string → string)
    (req : Request) :
  (∀ (w : NCSTCS.W) sid us,
     sessions_well_stacked ncstcs_below w →
     cache_get sid (NCSTCS.ussd hash req w).2 = Some us →
     ∃ cur n,
       JsArray.top us = Some cur ∧ State.level cur = Some n
       ∧ depth_below ncstcs_below 9 n = Some (JsArray.length us)
       ∧ (1 ≤ JsArray.length us ≤ 8)%nat)
  ∧ (∀ (w : PCRS.W) sid us,
       sessions_well_stacked pcrs_below w →
       cache_get sid (PCRS.ussd hash req w).2 = Some us →
       ∃ cur n,
         JsArray.top us = Some cur ∧ State.level cur = Some n
         ∧ depth_below pcrs_below 11 n = Some (JsArray.length us)
         ∧ (1 ≤ JsArray.length us ≤ 10)%nat).
Proof.
  split.
  - intros w sid us Hw Hg.
    pose proof (ncstcs_keeps_stacks_well_built hash req w Hw sid us Hg) as Hws.
    destruct (well_stacked_top _ us Hws) as (rest & cur & Hus).
    rewrite Hus in Hws |- *. clear Hus.
    assert (Hch := Hws). unfold well_stacked in Hch. cbn [JsArray.items] in Hch.
    rewrite rev_app_distr in Hch. cbn [rev app] in Hch.
    destruct (chain_level ncstcs_below _ cur eq_refl Hch) as (n & Hl & Hn).
    exists cur, n. rewrite top_snoc. split; [done|]. split; [done|].
    assert (∃ k, depth_below ncstcs_below 9 n = Some k ∧ (1 ≤ k ≤ 8)%nat)
      as (k & Hk & Hb).
    { destruct Hn as [->|[m Hm]]; [exists 1%nat; split; [reflexivity | lia]|].
      unfold ncstcs_below in Hm.
      repeat (match type of Hm with
              | match ?x with _ => _ end = _ => destruct x; try discriminate Hm
              end);
        vm_compute; eexists; (split; [reflexivity | lia]). }
    rewrite (well_stacked_depth ncstcs_below 9 rest cur _ n k eq_refl Hws Hl Hk).
    done.
  - intros w sid us Hw Hg.
    pose proof (pcrs_keeps_stacks_well_built hash req w Hw sid us Hg) as Hws.
    destruct (well_stacked_top _ us Hws) as (rest & cur & Hus).
    rewrite Hus in Hws |- *. clear Hus.
    assert (Hch := Hws). unfold well_stacked in Hch. cbn [JsArray.items] in Hch.
    rewrite rev_app_distr in Hch. cbn [rev app] in Hch.
    destruct (chain_level pcrs_below _ cur eq_refl Hch) as (n & Hl & Hn).
    exists cur, n. rewrite top_snoc. split; [done|]. split; [done|].
    assert (∃ k, depth_below pcrs_below 11 n = Some k ∧ (1 ≤ k ≤ 10)%nat)
      as (k & Hk & Hb).
    { destruct Hn as [->|[m Hm]]; [exists 1%nat; split; [reflexivity | lia]|].
      unfold pcrs_below in Hm.
      repeat (match type of Hm with
              | match ?x with _ => _ end = _ => destruct x; try discriminate Hm
              end);
        vm_compute; eexists; (split; [reflexivity | lia]). }
    rewrite (well_stacked_depth pcrs_below 11 rest cur _ n k eq_refl Hws Hl Hk).
    done.
Qed.

Lemma stack_depth_is_fixed_by_the_top_level_witness :
  ∃ cur n,
    JsArray.top (JsArray.lit [State.obj (Some 0) NCSTCS.home_menu]) = Some cur
    ∧ State.level cur = Some n
    ∧ depth_below ncstcs_below 9 n
      = Some (JsArray.length (JsArray.lit [State.obj (Some 0) NCSTCS.home_menu]))
    ∧ (1 ≤ JsArray.length (JsArray.lit [State.obj (Some 0%Z) NCSTCS.home_menu])
       ≤ 8)%nat.
Proof.
  destruct (stack_depth_is_fixed_by_the_top_level sample_hash
              (first_contact "s1" kofi)) as [H _].
  apply (H ncstcs_empty "s1").
  - intros sid us. vm_compute. discriminate.
  - vm_compute. reflexivity.
Defined.

(** X16: the name step of the three engines, for an input of ASCII characters.
    The input is trimmed; NCSTCS and
    PCRS go on to the username prompt exactly when it then has three
    characters or more and no decimal digit among them, and answer 'Invalid
    name. Enter Full Name:' otherwise; GatePlus goes on to the card prompt
    exactly when it has two characters or more and no digit, and answers
    'Please enter a valid name (no numbers).' otherwise.  Nothing else is
    asked of a name. *)
Theorem name_step_wants_length_and_no_digit (hash : string → string)
    (parseFloat : string → float) (number_to_string : float → string)
    (toLocaleDateString : Z → string) (req : Request) :
  Js.is_ascii (userData req) = true →
  newSession req = false →
  let name := list_ascii_of_string (Js.trim (userData req)) in
  (∀ (w : NCSTCS.W) rest cur m1,
     userData req ≠ "0" → userData req ≠ "9" →
     cache_get (sessionID req) w = Some (JsArray.mk (rest ++ [cur]) m1) →
     State.level cur = Some 10 →
     (NCSTCS.ussd hash req w).1
     = Ok (answer req
             (if name_ok 3 name then "Choose a Username:"
              else "Invalid name. Enter Full Name:") true))
  ∧ (∀ (w : PCRS.W) rest cur m1,
       userData req ≠ "0" → userData req ≠ "9" →
       cache_get (sessionID req) w = Some (JsArray.mk (rest ++ [cur]) m1) →
       State.level cur = Some 10 →
       (PCRS.ussd hash req w).1
       = Ok (answer req
               (if name_ok 3 name then "Choose a Username:"
                else "Invalid name. Enter Full Name:") true))
  ∧ (∀ (w : GatePlus.W) rest cur m1,
       cache_get (sessionID req) w = Some (JsArray.mk (rest ++ [cur]) m1) →
       State.level cur = Some 10 →
       (GatePlus.ussd parseFloat number_to_string toLocaleDateString req w).1
       = Ok (answer req
               (if name_ok 2 name
                then "Enter Ghana Card (e.g., GHA-123456789-01):"
                else "Please enter a valid name (no numbers).") true)).
Proof.
  intros _ Hn name. split; [|split].
  - intros w rest cur m1 H0 H9 Hg Hl.
    rewrite (ncstcs_step _ _ _ _ Hn Hg H0 H9).
    unfold try_catch, NCSTCS.level_step. rewrite top_snoc, Hl.
    cbn [NCSTCS.case_of]. unfold NCSTCS.case_10.
    rewrite name_test_blank. fold name.
    destruct (name_ok 3 name); cbn [negb];
      unfold NCSTCS.retry, NCSTCS.advance; js; reflexivity.
  - intros w rest cur m1 H0 H9 Hg Hl.
    rewrite (pcrs_step _ _ _ _ Hn Hg H0 H9).
    unfold try_catch, PCRS.level_step. rewrite top_snoc, Hl.
    cbn [PCRS.case_of]. unfold PCRS.case_10.
    rewrite name_test_blank. fold name.
    destruct (name_ok 3 name); cbn [negb];
      unfold PCRS.retry, PCRS.advance; js; reflexivity.
  - intros w rest cur m1 Hg Hl.
    rewrite (gateplus_name_eq _ _ _ req w rest cur m1 Hn Hg Hl).
    rewrite name_test. fold name.
    by destruct (name_ok 2 name).
Qed.

Lemma name_step_wants_length_and_no_digit_witness :
  (NCSTCS.ussd sample_hash (keyed "s1" kofi " Al ") ncstcs_at_name).1
  = Ok (answer (keyed "s1" kofi " Al ") "Invalid name. Enter Full Name:" true)
  ∧ (gateplus_run (keyed "s0" kwame " Al ") gateplus_at_name).1
    = Ok (answer (keyed "s0" kwame " Al ")
            "Enter Ghana Card (e.g., GHA-123456789-01):" true).
Proof.
  destruct (name_step_wants_length_and_no_digit sample_hash
              GatePlus.parseFloat_digits sample_number_to_string
              sample_date_to_string (keyed "s1" kofi " Al "))
    as (HN & _ & _); [reflexivity | reflexivity |].
  destruct (name_step_wants_length_and_no_digit sample_hash
              GatePlus.parseFloat_digits sample_number_to_string
              sample_date_to_string (keyed "s0" kwame " Al "))
    as (_ & _ & HG); [reflexivity | reflexivity |].
  split.
  - apply (HN ncstcs_at_name [State.obj (Some 0) NCSTCS.home_menu]
             (State.obj (Some 10) "Enter Full Name:") None);
      [discriminate | discriminate | vm_compute; reflexivity | reflexivity].
  - apply (HG gateplus_at_name []
             (gateplus_first_entry (first_contact "s0" kwame) false) None);
      [vm_compute; reflexivity | reflexivity].
Defined.

(** ** GatePlus *)

(** X17: first contact with GatePlus.  The subscriber lookup stands outside
    the handler's try block: when it fails, the failure leaves the handler
    and no response is produced.  When the repository answers, the caller
    gets the main menu if registered and the welcome prompt if not, a
    one-entry session is stored, a session_start activity is logged with the
    isNewUser flag, and the subscriber records are left as they were. *)
Theorem gateplus_first_contact_failure_escapes (parseFloat : string → float)
    (number_to_string : float → string) (toLocaleDateString : Z → string)
    (req : Request) (w : GatePlus.W) :
  newSession req = true →
  (next_fault (faults w) = true →
   GatePlus.ussd parseFloat number_to_string toLocaleDateString req w
   = (Throw MongoError, looked_up (GatePlus.UserFindOne (msisdn req)) w))
  ∧ (no_fault (faults w) → msisdn req ≠ "" →
     let known := bool_decide (is_Some (gateplus_user (msisdn req) w)) in
     let out :=
       GatePlus.ussd parseFloat number_to_string toLocaleDateString req w in
     out.1
     = Ok (answer req
             (if known then GatePlus.main_menu else GatePlus.welcome) true)
     ∧ cache_get (sessionID req) out.2
       = Some (JsArray.lit [gateplus_first_entry req known])
     ∧ GatePlus.logs (db out.2)
       = GatePlus.logs (db w)
         ++ [GatePlus.ActivityLog.mk (msisdn req) "session_start"
               (GatePlus.SessionStart (negb known)) (clock w)]
     ∧ GatePlus.users (db out.2) = GatePlus.users (db w)).
Proof.
  intros Hn. split.
  - intros Hf. by apply gateplus_start_fails.
  - intros Hf Hm known out. subst out.
    rewrite (gateplus_start_eq _ _ _ req w Hn Hf Hm). cbv zeta.
    cbn [fst snd]. split; [done|]. split; [|done].
    rewrite cache_get_logged. apply cache_get_saved.
Qed.

Lemma gateplus_first_contact_failure_escapes_witness :
  gateplus_run (first_contact "s9" kwame) (plan [true] gateplus_empty)
  = (Throw MongoError,
     looked_up (GatePlus.UserFindOne kwame) (plan [true] gateplus_empty)).
Proof.
  destruct (gateplus_first_contact_failure_escapes GatePlus.parseFloat_digits
              sample_number_to_string sample_date_to_string
              (first_contact "s9" kwame) (plan [true] gateplus_empty))
    as [H _]; [reflexivity|].
  apply H. reflexivity.
Defined.

(** X18: a whole registration with GatePlus by an unknown number, the
    repository answering and both inputs valid and ASCII.  The three requests are
    answered with the welcome prompt, the card prompt and the closing
    message; one subscriber record is appended, pending verification, under
    the trimmed card number in upper case; and the session is deleted.  The
    record's name is Unknown whatever name was entered: the name is kept on
    the entry of level 11 and read back from the entry of level 10. *)
Theorem gateplus_registers_under_the_fallback_name
    (parseFloat : string → float)
    (number_to_string : float → string) (toLocaleDateString : Z → string)
    (sid m name card : string) (w : GatePlus.W) :
  Js.is_ascii name = true → Js.is_ascii card = true →
  no_fault (faults w) → m ≠ "" →
  gateplus_user m w = None →
  (2 ≤ String.length (Js.trim name))%nat →
  Validators.has_digit (Js.trim name) = false →
  Validators.isValidGhanaCard card = true →
  let out :=
    converse (GatePlus.ussd parseFloat number_to_string toLocaleDateString)
      [first_contact sid m; keyed sid m name; keyed sid m card] w in
  out.1
  = transcript sid m
      [(GatePlus.welcome, true);
       ("Enter Ghana Card (e.g., GHA-123456789-01):", true);
       ("Thank you, Unknown!
Verification pending. You'll be notified.", false)]
  ∧ GatePlus.users (db out.2)
    = GatePlus.users (db w)
      ++ [GatePlus.User.mk (length (GatePlus.users (db w))) "Unknown"
            (Js.toUpperCase (Js.trim card)) m "pending_verification" None
            (clock w)]
  ∧ cache_get sid out.2 = None.
Proof.
  intros _ _ Hf Hm Hu Hlen Hdig Hcard out. subst out. cbn [converse].
  (* first contact *)
  rewrite (gateplus_start_eq _ _ _ (first_contact sid m) w eq_refl Hf Hm).
  cbv zeta. cbn [msisdn sessionID first_contact]. rewrite Hu.
  rewrite bool_decide_eq_false_2 by (by intros [? ?]).
  set (e10 := gateplus_first_entry (first_contact sid m) false).
  set (w1 := logged _ _ _ _).
  assert (Hg1 : cache_get sid w1 = Some (JsArray.mk ([] ++ [e10]) None)).
  { unfold w1. rewrite cache_get_logged. apply cache_get_saved. }
  assert (Hu1 : gateplus_user m w1 = None) by exact Hu.
  assert (Hdb1 : GatePlus.users (db w1) = GatePlus.users (db w)) by done.
  assert (Hc1 : clock w1 = clock w) by done.
  assert (Hf1 : no_fault (faults w1)).
  { unfold w1. cbn [faults logged saved looked_up].
    by apply no_fault_tail, no_fault_tail. }
  clearbody w1.
  (* the name *)
  rewrite (gateplus_name_eq _ _ _ (keyed sid m name) w1 [] e10 None eq_refl Hg1
             eq_refl).
  cbn [userData keyed]. rewrite Hdig.
  replace (String.length (Js.trim name) <? 2)%nat with false
    by (symmetry; apply Nat.ltb_ge; lia).
  cbn [orb].
  set (e11 := State.set_fullName _ _).
  set (w2 := saved _ _ w1).
  assert (Hg2 : cache_get sid w2 = Some (JsArray.mk ([e10] ++ [e11]) None))
    by apply cache_get_saved.
  assert (Hu2 : gateplus_user m w2 = None) by exact Hu1.
  assert (Hdb2 : GatePlus.users (db w2) = GatePlus.users (db w)) by exact Hdb1.
  assert (Hc2 : clock w2 = clock w) by exact Hc1.
  assert (Hf2 : no_fault (faults w2)) by exact Hf1.
  clearbody w2. clear w1 Hg1 Hu1 Hdb1 Hc1 Hf1.
  (* the card number *)
  assert (Hv : Validators.isValidGhanaCard (card_of (keyed sid m card)) = true).
  { unfold card_of. cbn [userData keyed].
    unfold Validators.isValidGhanaCard, Regex.test_full in *.
    rewrite trim_toUpperCase, trim_idempotent, toUpperCase_list.
    by rewrite (matches_map_stable _ _ _ ghana_card_re_stable). }
  rewrite (gateplus_card_eq _ _ _ (keyed sid m card) w2 [e10] e11 None eq_refl
             Hg2 eq_refl Hv Hf2 Hm Hu2).
  cbv zeta. cbn [fst snd transcript map].
  split; [done|]. split; [|apply cache_get_dropped].
  cbn [db dropped logged gateplus_stored looked_up GatePlus.users
    gateplus_new_user clock].
  unfold gateplus_new_user. cbn [db looked_up GatePlus.users clock].
  by rewrite Hdb2, Hc2.
Qed.

Lemma gateplus_registers_under_the_fallback_name_witness :
  (converse gateplus_run
     [first_contact "s0" kwame; keyed "s0" kwame "Kwame Mensah";
      keyed "s0" kwame "gha-123456789-01"] gateplus_empty).1
  = transcript "s0" kwame
      [(GatePlus.welcome, true);
       ("Enter Ghana Card (e.g., GHA-123456789-01):", true);
       ("Thank you, Unknown!
Verification pending. You'll be notified.", false)]
  ∧ GatePlus.users
      (db (converse gateplus_run
             [first_contact "s0" kwame; keyed "s0" kwame "Kwame Mensah";
              keyed "s0" kwame "gha-123456789-01"] gateplus_empty).2)
    = [gateplus_pending_member].
Proof.
  destruct (gateplus_registers_under_the_fallback_name
              GatePlus.parseFloat_digits sample_number_to_string
              sample_date_to_string "s0" kwame "Kwame Mensah"
              "gha-123456789-01" gateplus_empty) as (K1 & K2 & _).
  - reflexivity.
  - reflexivity.
  - constructor.
  - discriminate.
  - reflexivity.
  - vm_compute. lia.
  - vm_compute. reflexivity.
  - vm_compute. reflexivity.
  - split; [exact K1|]. 
    change gateplus_run
      with (GatePlus.ussd GatePlus.parseFloat_digits sample_number_to_string
              sample_date_to_string).
    rewrite K2. vm_compute. reflexivity.
Defined.

(** X19: at the name step of GatePlus a name of fewer than two characters
    once trimmed, or with a digit in it, is answered with the retry message
    and changes nothing: the stored session keeps its prompt, its expiry is
    not renewed, and no call reaches the repository. *)
Theorem gateplus_rejected_name_leaves_no_trace (parseFloat : string → float)
    (number_to_string : float → string) (toLocaleDateString : Z → string)
    (req : Request) (w : GatePlus.W) (rest : list State.t) (cur : State.t)
    (m1 : option State.t) :
  newSession req = false →
  cache_get (sessionID req) w = Some (JsArray.mk (rest ++ [cur]) m1) →
  State.level cur = Some 10 →
  (String.length (Js.trim (userData req)) < 2)%nat
  ∨ Validators.has_digit (Js.trim (userData req)) = true →
  GatePlus.ussd parseFloat number_to_string toLocaleDateString req w
  = (Ok (answer req "Please enter a valid name (no numbers)." true), w).
Proof.
  intros Hn Hg Hl Hbad. rewrite (gateplus_name_eq _ _ _ req w rest cur m1 Hn Hg Hl).
  destruct Hbad as [Hlen|Hd].
  - apply Nat.ltb_lt in Hlen. by rewrite Hlen.
  - rewrite Hd. by rewrite orb_true_r.
Qed.

Lemma gateplus_rejected_name_leaves_no_trace_witness :
  gateplus_run (keyed "s0" kwame "Kwame 2") gateplus_at_name
  = (Ok (answer (keyed "s0" kwame "Kwame 2")
           "Please enter a valid name (no numbers)." true), gateplus_at_name).
Proof.
  apply (gateplus_rejected_name_leaves_no_trace GatePlus.parseFloat_digits
           sample_number_to_string sample_date_to_string
           (keyed "s0" kwame "Kwame 2") gateplus_at_name []
           (gateplus_first_entry (first_contact "s0" kwame) false) None).
  - reflexivity.
  - vm_compute. reflexivity.
  - reflexivity.
  - right. vm_compute. reflexivity.
Defined.

(** X20: option 1 at the main menu of GatePlus, for a registered caller and a
    repository that answers.  While the caller's status is not verified the
    request is answered 'Account under review' and ends the session, whose
    stack is kept as it was.  The administrator's approval succeeds, sets
    the status to verified and stamps the time; after it, the same request
    is answered with the loan-amount prompt and pushes the entry of level 2. *)
Theorem gateplus_loans_open_on_approval (parseFloat : string → float)
    (number_to_string : float → string) (toLocaleDateString : Z → string)
    (req : Request) (w : GatePlus.W)
    (rest : list State.t) (cur : State.t) (m1 : option State.t)
    (user : GatePlus.User.t) :
  newSession req = false →
  cache_get (sessionID req) w = Some (JsArray.mk (rest ++ [cur]) m1) →
  State.level cur = Some 1 →
  userData req = "1" →
  no_fault (faults w) → msisdn req ≠ "" →
  gateplus_user (msisdn req) w = Some user →
  (GatePlus.User.status user ≠ "verified" →
   (GatePlus.ussd parseFloat number_to_string toLocaleDateString req w).1
   = Ok (answer req "Account under review. Please wait for approval." false)
   ∧ cache_get (sessionID req)
       (GatePlus.ussd parseFloat number_to_string toLocaleDateString req w).2
     = Some (JsArray.mk (rest ++ [cur]) m1))
  ∧ (GatePlus.approve (msisdn req) w).1
    = Ok ("success", "User " +:+ msisdn req +:+ " verified!")
  ∧ gateplus_user (msisdn req) (GatePlus.approve (msisdn req) w).2
    = Some (gateplus_verified user (clock w))
  ∧ (GatePlus.ussd parseFloat number_to_string toLocaleDateString req
       (GatePlus.approve (msisdn req) w).2).1
    = Ok (answer req "Enter loan amount (GHS 10 - 1000):" true)
  ∧ cache_get (sessionID req)
      (GatePlus.ussd parseFloat number_to_string toLocaleDateString req
         (GatePlus.approve (msisdn req) w).2).2
    = Some (JsArray.mk
              (rest ++ [cur; State.obj (Some 2)
                               "Enter loan amount (GHS 10 - 1000):"]) m1).
Proof.
  intros Hn Hg Hl H1 Hf Hm Hu. split.
  - intros Hs. apply String.eqb_neq in Hs.
    rewrite (gateplus_apply_eq _ _ _ req w rest cur m1 user Hn Hg Hl H1 Hf Hm Hu).
    rewrite Hs. cbn [fst snd]. split; [done|].
    unfold menu_logged. rewrite cache_get_logged. unfold looked_up.
    by rewrite cache_get_frame.
  - pose proof (gateplus_user_approved (msisdn req) w user Hf Hm Hu) as Hu'.
    split; [by rewrite (gateplus_approve_eq _ w user Hf Hm Hu)|].
    split; [done|].
    assert (Hg' : cache_get (sessionID req) (GatePlus.approve (msisdn req) w).2
                  = Some (JsArray.mk (rest ++ [cur]) m1)).
    { rewrite (gateplus_approve_eq _ w user Hf Hm Hu). cbn [snd].
      rewrite cache_get_logged. unfold gateplus_updated.
      rewrite (cache_get_frame _ (looked_up _ w)). unfold looked_up.
      by rewrite cache_get_frame. }
    assert (Hf' : no_fault (faults (GatePlus.approve (msisdn req) w).2)).
    { rewrite (gateplus_approve_eq _ w user Hf Hm Hu).
      cbn [snd faults logged gateplus_updated looked_up].
      by apply no_fault_tail, no_fault_tail, no_fault_tail. }
    rewrite (gateplus_apply_eq _ _ _ req _ rest cur m1 _ Hn Hg' Hl H1 Hf' Hm Hu').
    cbn [GatePlus.User.status gateplus_verified String.eqb Ascii.eqb Bool.eqb].
    split; [done | apply cache_get_saved].
Qed.

Lemma gateplus_loans_open_on_approval_witness :
  (gateplus_run (keyed "s1" kwame "1") gateplus_pending_at_menu).1
  = Ok (answer (keyed "s1" kwame "1")
          "Account under review. Please wait for approval." false)
  ∧ (gateplus_run (keyed "s1" kwame "1")
       (GatePlus.approve kwame gateplus_pending_at_menu).2).1
    = Ok (answer (keyed "s1" kwame "1") "Enter loan amount (GHS 10 - 1000):" true).
Proof.
  destruct (gateplus_loans_open_on_approval GatePlus.parseFloat_digits
              sample_number_to_string sample_date_to_string
              (keyed "s1" kwame "1") gateplus_pending_at_menu []
              (gateplus_first_entry (first_contact "s1" kwame) true) None
              gateplus_pending_member) as (K1 & _ & _ & K2 & _).
  - reflexivity.
  - vm_compute. reflexivity.
  - reflexivity.
  - reflexivity.
  - vm_compute. constructor.
  - discriminate.
  - vm_compute. reflexivity.
  - split; [|exact K2]. apply K1. discriminate.
Defined.

(** X21: option 2 at the main menu of GatePlus, for a registered caller and a
    repository that answers.  A caller without loans is told 'No loan
    history.'; otherwise the report is that of one of the caller's own
    loans, none of which was requested later.  The session ends, its stack
    and the loans are left as they were. *)
Theorem gateplus_status_reports_the_latest_loan
    (parseFloat : string → float) (number_to_string : float → string)
    (toLocaleDateString : Z → string) (req : Request) (w : GatePlus.W)
    (rest : list State.t) (cur : State.t) (m1 : option State.t)
    (user : GatePlus.User.t) :
  newSession req = false →
  cache_get (sessionID req) w = Some (JsArray.mk (rest ++ [cur]) m1) →
  State.level cur = Some 1 →
  userData req = "2" →
  no_fault (faults w) → msisdn req ≠ "" →
  gateplus_user (msisdn req) w = Some user →
  let out :=
    GatePlus.ussd parseFloat number_to_string toLocaleDateString req w in
  (gateplus_loans_of (msisdn req) w = [] →
   out.1 = Ok (answer req "No loan history." false))
  ∧ (gateplus_loans_of (msisdn req) w ≠ [] →
     ∃ l, In l (gateplus_loans_of (msisdn req) w)
          ∧ Forall (fun x => GatePlus.Loan.requestedAt x
                             ≤ GatePlus.Loan.requestedAt l)
              (gateplus_loans_of (msisdn req) w)
          ∧ out.1
            = Ok (answer req
                    (gateplus_report number_to_string toLocaleDateString l)
                    false))
  ∧ cache_get (sessionID req) out.2 = Some (JsArray.mk (rest ++ [cur]) m1)
  ∧ GatePlus.loans (db out.2) = GatePlus.loans (db w).
Proof.
  intros Hn Hg Hl H2 Hf Hm Hu out. subst out.
  rewrite (gateplus_status_eq _ _ _ req w rest cur m1 user Hn Hg Hl H2 Hf Hm Hu).
  cbn [fst snd]. unfold gateplus_latest. fold (gateplus_loans_of (msisdn req) w).
  pose proof (fold_later_spec (gateplus_loans_of (msisdn req) w) None) as Hspec.
  destruct (fold_left _ _ None) as [b|].
  - destruct Hspec as ([Hin|Hin] & _ & Hall); [done|].
    split; [intros He; by rewrite He in Hin|].
    split; [intros _; by exists b|]. split; [|done].
    unfold looked_up. rewrite cache_get_frame. unfold menu_logged.
    rewrite cache_get_logged. unfold looked_up. by rewrite cache_get_frame.
  - destruct Hspec as [_ He]. split; [done|]. split; [done|]. split; [|done].
    unfold looked_up. rewrite cache_get_frame. unfold menu_logged.
    rewrite cache_get_logged. unfold looked_up. by rewrite cache_get_frame.
Qed.

Lemma gateplus_status_reports_the_latest_loan_witness :
  ∃ l,
    gateplus_loans_of kwame gateplus_after_loan = [l]
    ∧ (gateplus_run (keyed "s2" kwame "2") gateplus_after_loan).1
      = Ok (answer (keyed "s2" kwame "2")
              (gateplus_report sample_number_to_string sample_date_to_string l)
              false).
Proof.
  destruct (gateplus_status_reports_the_latest_loan GatePlus.parseFloat_digits
              sample_number_to_string sample_date_to_string
              (keyed "s2" kwame "2") gateplus_after_loan []
              (gateplus_first_entry (first_contact "s2" kwame) true) None
              gateplus_member) as (_ & K & _).
  - reflexivity.
  - vm_compute. reflexivity.
  - reflexivity.
  - reflexivity.
  - vm_compute. constructor.
  - discriminate.
  - vm_compute. reflexivity.
  - destruct K as (l & Hin & _ & Hout); [vm_compute; discriminate|].
    exists l. split; [|exact Hout].
    assert (Hl : ∃ x, gateplus_loans_of (msisdn (keyed "s2" kwame "2"))
                        gateplus_after_loan = [x])
      by (vm_compute; eexists; reflexivity).
    destruct Hl as [x Hx]. rewrite Hx in Hin.
    change (gateplus_loans_of kwame gateplus_after_loan)
      with (gateplus_loans_of (msisdn (keyed "s2" kwame "2")) gateplus_after_loan).
    rewrite Hx. destruct Hin as [->|[]]. reflexivity.
Defined.

(** X22: the repository of GatePlus stays sound.  The empty repository is
    sound, and every USSD request and every approval keeps it so:
    identifiers number the subscriber records in order, no two records share
    a phone number, every record has a name, a number and a well-formed card
    number, and every loan is pending, within 10 and 1000, and owned by a
    stored subscriber with the loan's number. *)
Theorem gateplus_repository_stays_sound (parseFloat : string → float)
    (number_to_string : float → string) (toLocaleDateString : Z → string) :
  gateplus_sound (GatePlus.mkDb [] [] [])
  ∧ (∀ req (w : GatePlus.W),
       gateplus_sound (db w) →
       gateplus_sound
         (db (GatePlus.ussd parseFloat number_to_string toLocaleDateString
                req w).2))
  ∧ (∀ m (w : GatePlus.W),
       gateplus_sound (db w) → gateplus_sound (db (GatePlus.approve m w).2)).
Proof.
  split; [|split].
  - repeat split; constructor.
  - intros req w. apply gateplus_ussd_sound.
  - intros m w. apply gateplus_approve_sound.
Qed.

Lemma gateplus_repository_stays_sound_witness :
  gateplus_sound (db (gateplus_run (first_contact "s0" kwame) gateplus_empty).2).
Proof.
  destruct (gateplus_repository_stays_sound GatePlus.parseFloat_digits
              sample_number_to_string sample_date_to_string) as (K0 & K & _).
  apply (K (first_contact "s0" kwame) gateplus_empty). exact K0.
Defined.

(** ** The session store and the handlers as a whole *)

(** X23: a session that was saved is read back while less than fifteen
    minutes have passed and is gone once more than fifteen minutes have
    passed; saving it leaves the other sessions as they were; and a deleted
    session is gone at once. *)
Theorem saved_session_lives_fifteen_minutes {DB Call : Type}
    (sid : string) (data : JsArray.t) (w : World DB Call) :
  (∀ d, 0 ≤ d < 1000 * 60 * 15 →
     cache_get sid (elapse d (saveSession sid data w).2) = Some data)
  ∧ (∀ d, 1000 * 60 * 15 < d →
       cache_get sid (elapse d (saveSession sid data w).2) = None)
  ∧ (∀ sid', sid' ≠ sid →
       cache_get sid' (saveSession sid data w).2 = cache_get sid' w)
  ∧ cache_get sid (cache_del sid (saveSession sid data w).2).2 = None.
Proof.
  assert (Hget : ∀ d,
    cache_get sid (elapse d (saveSession sid data w).2)
    = if clock w + d <=? clock w + 1000 * 60 * 15 then Some data else None).
  { intros d. unfold cache_get, elapse, saveSession. cbn [snd cache clock].
    rewrite lookup_insert_eq. reflexivity. }
  split; [|split; [|split]].
  - intros d Hd. rewrite Hget.
    destruct (Z.leb_spec (clock w + d) (clock w + 1000 * 60 * 15)); [done | lia].
  - intros d Hd. rewrite Hget.
    destruct (Z.leb_spec (clock w + d) (clock w + 1000 * 60 * 15)); [lia | done].
  - intros sid' Hne. apply (apart_cache_get sid); [|done].
    apply apart_saveSession.
  - apply cache_get_del.
Qed.

(** X24: NCSTCS and PCRS answer every request with a response as long as the
    stored stacks are well built, which every request keeps them: whatever
    the input, the state of the session and the faults of the repository, no
    failure leaves the handler.  GatePlus does so for every request that
    continues a session. *)
Theorem every_request_is_answered (hash : string → string) (req : Request) :
  (∀ w : NCSTCS.W,
     sessions_well_stacked ncstcs_below w →
     (∃ r, (NCSTCS.ussd hash req w).1 = Ok r)
     ∧ sessions_well_stacked ncstcs_below (NCSTCS.ussd hash req w).2)
  ∧ (∀ w : PCRS.W,
       sessions_well_stacked pcrs_below w →
       (∃ r, (PCRS.ussd hash req w).1 = Ok r)
       ∧ sessions_well_stacked pcrs_below (PCRS.ussd hash req w).2)
  ∧ (∀ parseFloat number_to_string toLocaleDateString (w : GatePlus.W),
       newSession req = false →
       ∃ r, (GatePlus.ussd parseFloat number_to_string toLocaleDateString
               req w).1 = Ok r).
Proof.
  split; [|split].
  - intros w Hw. split; [by apply ncstcs_answers|].
    by apply ncstcs_keeps_stacks_well_built.
  - intros w Hw. split; [by apply pcrs_answers|].
    by apply pcrs_keeps_stacks_well_built.
  - intros pf ns ds w Hn. by apply gateplus_answers.
Qed.

Lemma every_request_is_answered_witness :
  (∃ r, (NCSTCS.ussd sample_hash (keyed "s1" kofi "9") ncstcs_empty).1 = Ok r)
  ∧ sessions_well_stacked ncstcs_below
      (NCSTCS.ussd sample_hash (keyed "s1" kofi "9") ncstcs_empty).2.
Proof.
  destruct (every_request_is_answered sample_hash (keyed "s1" kofi "9"))
    as [H _].
  apply H. intros sid us. vm_compute. discriminate.
Defined.

(** X25: a request reads and writes the session of its own id only: in the
    three engines, what the store holds under any other id is what it held
    before the request. *)
Theorem request_touches_its_own_session_only (hash : string → string)
    (req : Request) (sid : string) :
  sid ≠ sessionID req →
  (∀ w : NCSTCS.W,
     cache_get sid (NCSTCS.ussd hash req w).2 = cache_get sid w)
  ∧ (∀ w : PCRS.W, cache_get sid (PCRS.ussd hash req w).2 = cache_get sid w)
  ∧ (∀ parseFloat number_to_string toLocaleDateString (w : GatePlus.W),
       cache_get sid
         (GatePlus.ussd parseFloat number_to_string toLocaleDateString req w).2
       = cache_get sid w).
Proof.
  intros Hne. split; [|split].
  - intros w. apply (apart_cache_get (sessionID req)); [|done].
    apply ncstcs_apart.
  - intros w. apply (apart_cache_get (sessionID req)); [|done].
    apply pcrs_apart.
  - intros pf ns ds w. apply (apart_cache_get (sessionID req)); [|done].
    apply gateplus_apart.
Qed.

Lemma request_touches_its_own_session_only_witness :
  cache_get "s1" (NCSTCS.ussd sample_hash (keyed "s2" kwame "0") ncstcs_deep).2
  = cache_get "s1" ncstcs_deep.
Proof.
  destruct (request_touches_its_own_session_only sample_hash
              (keyed "s2" kwame "0") "s1") as [H _]; [discriminate|].
  apply H.
Defined.

(** X26: a USSD request never changes or removes a stored document.  In NCSTCS
    and PCRS the records after a request are the records before it, with
    new ones at the end at most; in GatePlus the same holds of the
    subscribers, of the loans and of the activity log. *)
Theorem stored_records_are_never_changed (hash : string → string)
    (req : Request) :
  (∀ w : NCSTCS.W, db w `prefix_of` db (NCSTCS.ussd hash req w).2)
  ∧ (∀ w : PCRS.W, db w `prefix_of` db (PCRS.ussd hash req w).2)
  ∧ (∀ parseFloat number_to_string toLocaleDateString (w : GatePlus.W),
       gateplus_grown (db w)
         (db (GatePlus.ussd parseFloat number_to_string toLocaleDateString
                req w).2)).
Proof.
  split; [|split].
  - intros w. apply ncstcs_grows.
  - intros w. apply pcrs_grows.
  - intros pf ns ds w. apply gateplus_grows.
Qed.

(** X27: at a capture step of the NCSTCS or PCRS sign-up before the last, an
    input of ASCII characters that passes the step's validator and, where the step asks the
    repository, is found free, is answered with the next prompt; the stack
    gains exactly one entry, which carries the fields captured so far and
    the new one, and the repository is left as it was. *)
Theorem accepted_capture_advances_by_one_entry (hash : string → string)
    (req : Request) :
  Js.is_ascii (userData req) = true →
  newSession req = false →
  userData req ≠ "0" → userData req ≠ "9" →
  (∀ (w : NCSTCS.W) rest cur m1 c next,
     cache_get (sessionID req) w = Some (JsArray.mk (rest ++ [cur]) m1) →
     NCSTCS.case_of (State.level cur) = Some c →
     ncstcs_next c cur (userData req) = Some next →
     ncstcs_valid c (userData req) = true →
     ncstcs_free c (userData req) w →
     (NCSTCS.ussd hash req w).1 = Ok (answer req (State.message next) true)
     ∧ cache_get (sessionID req) (NCSTCS.ussd hash req w).2
       = Some (JsArray.mk (rest ++ [cur; next]) m1)
     ∧ db (NCSTCS.ussd hash req w).2 = db w)
  ∧ (∀ (w : PCRS.W) rest cur m1 c next,
       cache_get (sessionID req) w = Some (JsArray.mk (rest ++ [cur]) m1) →
       PCRS.case_of (State.level cur) = Some c →
       pcrs_next c cur (userData req) = Some next →
       pcrs_valid c (userData req) = true →
       pcrs_free c (userData req) w →
       (PCRS.ussd hash req w).1 = Ok (answer req (State.message next) true)
       ∧ cache_get (sessionID req) (PCRS.ussd hash req w).2
         = Some (JsArray.mk (rest ++ [cur; next]) m1)
       ∧ db (PCRS.ussd hash req w).2 = db w).
Proof.
  intros _ Hn H0 H9. split.
  - intros w rest cur m1 c next Hg Hc Hnext Hv Hfree.
    rewrite (ncstcs_capture_advances hash req w rest cur m1 c next
               Hn Hg H0 H9 Hc Hnext Hv Hfree).
    cbn [fst snd]. split; [done|]. split; [apply cache_get_saved|].
    cbn [db saved]. apply ncstcs_asked_db.
  - intros w rest cur m1 c next Hg Hc Hnext Hv Hfree.
    rewrite (pcrs_capture_advances hash req w rest cur m1 c next
               Hn Hg H0 H9 Hc Hnext Hv Hfree).
    cbn [fst snd]. split; [done|]. split; [apply cache_get_saved|].
    cbn [db saved]. unfold pcrs_asked.
    by destruct (pcrs_unique c (userData req)) as [[f v]|].
Qed.

Lemma accepted_capture_advances_by_one_entry_witness :
  (NCSTCS.ussd sample_hash (keyed "s1" kofi "Kofi Boateng") ncstcs_at_name).1
  = Ok (answer (keyed "s1" kofi "Kofi Boateng") "Choose a Username:" true)
  ∧ cache_get "s1"
      (NCSTCS.ussd sample_hash (keyed "s1" kofi "Kofi Boateng") ncstcs_at_name).2
    = Some (JsArray.lit (firstn 3 ncstcs_kofi_entries))
  ∧ db (NCSTCS.ussd sample_hash (keyed "s1" kofi "Kofi Boateng") ncstcs_at_name).2
    = db ncstcs_at_name.
Proof.
  destruct (accepted_capture_advances_by_one_entry sample_hash
              (keyed "s1" kofi "Kofi Boateng")) as [H _];
    [reflexivity | reflexivity | discriminate | discriminate |].
  apply (H ncstcs_at_name [State.obj (Some 0) NCSTCS.home_menu]
           (State.obj (Some 10) "Enter Full Name:") None NCSTCS.L10
           (State.set_name (Some "Kofi Boateng")
              (State.obj (Some 11) "Choose a Username:"))).
  - vm_compute. reflexivity.
  - reflexivity.
  - vm_compute. reflexivity.
  - vm_compute. reflexivity.
  - exact I.
Defined.

(** X28: at the home menu of NCSTCS, and of PCRS for a caller who is not
    logged in, option 1 opens the sign-up and option 2 the lookup, each by
    pushing one entry on the stack; any other input but 0 and 9 ends the
    session with 'Session ended.' and deletes it, without a retry. *)
Theorem home_menu_opens_a_flow_or_ends_the_session (hash : string → string)
    (req : Request) :
  newSession req = false →
  userData req ≠ "0" → userData req ≠ "9" →
  (∀ (w : NCSTCS.W) rest cur m1,
     cache_get (sessionID req) w = Some (JsArray.mk (rest ++ [cur]) m1) →
     State.level cur = Some 0 →
     NCSTCS.ussd hash req w
     = if String.eqb (userData req) "1" then
         (Ok (answer req "Enter Full Name:" true),
          saved (sessionID req)
            (JsArray.mk (rest ++ [cur; State.obj (Some 10) "Enter Full Name:"])
               m1) w)
       else if String.eqb (userData req) "2" then
         (Ok (answer req "Enter DVLA or Ghana Card Number:" true),
          saved (sessionID req)
            (JsArray.mk
               (rest ++ [cur; State.obj (Some 30)
                                "Enter DVLA or Ghana Card Number:"]) m1) w)
       else (Ok (answer req "Session ended." false), dropped (sessionID req) w))
  ∧ (∀ (w : PCRS.W) rest cur m1,
       cache_get (sessionID req) w = Some (JsArray.mk (rest ++ [cur]) m1) →
       State.level cur = Some 0 →
       State.loggedIn cur ≠ Some true →
       PCRS.ussd hash req w
       = if String.eqb (userData req) "1" then
           (Ok (answer req PCRS.signup_info true),
            saved (sessionID req)
              (JsArray.mk (rest ++ [cur; State.obj (Some 5) PCRS.signup_info])
                 m1) w)
         else if String.eqb (userData req) "2" then
           (Ok (answer req "Enter DVLA or Ghana Card Number:" true),
            saved (sessionID req)
              (JsArray.mk
                 (rest ++ [cur; State.obj (Some 30)
                                  "Enter DVLA or Ghana Card Number:"]) m1) w)
         else
           (Ok (answer req "Session ended." false), dropped (sessionID req) w)).
Proof.
  intros Hn H0 H9. split.
  - intros w rest cur m1 Hg Hl. by apply ncstcs_menu.
  - intros w rest cur m1 Hg Hl Hlog. by apply pcrs_guest_menu.
Qed.

Lemma home_menu_opens_a_flow_or_ends_the_session_witness :
  NCSTCS.ussd sample_hash (keyed "s1" kofi "2") ncstcs_fresh
  = (Ok (answer (keyed "s1" kofi "2") "Enter DVLA or Ghana Card Number:" true),
     saved "s1"
       (JsArray.lit
          [State.obj (Some 0) NCSTCS.home_menu;
           State.obj (Some 30) "Enter DVLA or Ghana Card Number:"])
       ncstcs_fresh).
Proof.
  destruct (home_menu_opens_a_flow_or_ends_the_session sample_hash
              (keyed "s1" kofi "2")) as [H _];
    [reflexivity | discriminate | discriminate |].
  apply (H ncstcs_fresh [] (State.obj (Some 0) NCSTCS.home_menu) None).
  - vm_compute. reflexivity.
  - reflexivity.
Defined.

